(** * BigFlix: availability aggregation and request workflow

    A shallow embedding of [backend/src/routes/search.js] (availability
    cache, Plex / Radarr / Sonarr checkers, status aggregation,
    enrichment of TMDB results) and of [backend/src/routes/requests.js]
    (fulfillment executors, request listing, creation, approval,
    rejection, deletion and the pending count), together with the SQLite
    schema of [backend/src/database/init.js] that those handlers write
    to and [requireAdmin] of [backend/src/middleware/auth.js].

    JavaScript values are modelled as follows.
    - numbers that the handlers use (catalog ids, years, HTTP status
      codes, timestamps) are integers, [Z]; where a string is read as a
      number ([parseInt]) the integer is rounded to the nearest double,
      and where a number is printed in a string (cache keys) it is
      printed by its decimal digits, as JavaScript prints a safe
      integer;
    - strings are [string], the UTF-8 bytes of the JavaScript string;
      [String.prototype.toLowerCase] is a function
      of the environment (its Unicode case folding is not written out),
      [parseInt] is written out;
    - [null] / [undefined] are [None]; a row, an HTTP payload or a
      request body is a record;
    - the module-level [Map] [availabilityCache] is a [gmap string];
    - exceptions are an explicit outcome, the database, the cache and the
      remote services are threaded as state. *)

From Stdlib Require Import ZArith String Ascii List Bool Lia.
From Stdlib Require QArith Sorted.
From stdpp Require Import base option list gmap strings pretty.

Local Open Scope string_scope.
Local Open Scope list_scope.
Local Open Scope Z_scope.

(** ** JavaScript primitives *)

Module JS.

(** What [String.prototype.toLowerCase] does to a string of 7-bit
    characters: [A]-[Z] are folded, the rest is kept. It is the case
    folding of the example environment only; the handlers use the
    [toLowerCase] of their environment. *)
Definition lower_ascii (a : ascii) : ascii :=
  let n := nat_of_ascii a in
  if (Nat.leb 65 n && Nat.leb n 90)%bool then ascii_of_nat (n + 32) else a.

Fixpoint toLowerCase_ascii (s : string) : string :=
  match s with
  | EmptyString => EmptyString
  | String a r => String (lower_ascii a) (toLowerCase_ascii r)
  end.

(** [Number.isSafeInteger(n)]: the integers that a Number holds exactly
    and prints as their decimal digits. *)
Definition isSafeInteger (n : Z) : bool :=
  (- (2 ^ 53) <? n) && (n <? 2 ^ 53).

(** The Number nearest to an integer: the integer itself below [2^53] in
    absolute value, else its 53 leading bits rounded to nearest, ties to
    even; [None] is [Infinity] or [-Infinity] (from [2^1024 - 2^970]). *)
Definition toNumber (n : Z) : option Z :=
  let a := Z.abs n in
  if a <? 2 ^ 53 then Some n
  else
    let e := Z.log2 a - 52 in
    let q := Z.shiftr a e in
    let r := a - Z.shiftl q e in
    let half := Z.shiftl 1 (e - 1) in
    let q' := if (half <? r) || ((r =? half) && Z.odd q) then q + 1 else q in
    let v := Z.shiftl q' e in
    if v <? 2 ^ 1024 then Some (Z.sgn n * v) else None.

(** Truthiness of a string that may be [null] or [undefined]. *)
Definition truthy_str (o : option string) : bool :=
  match o with
  | Some s => negb (String.eqb s "")
  | None => false
  end.

(** Truthiness of a number that may be missing. *)
Definition truthy_num (o : option Z) : bool :=
  match o with
  | Some n => negb (n =? 0)
  | None => false
  end.

(** [x || null] for a string and for a number. *)
Definition or_null_str (o : option string) : option string :=
  if truthy_str o then o else None.

Definition or_null_num (o : option Z) : option Z :=
  if truthy_num o then o else None.

(** Interpolation of a possibly undefined string in a template literal. *)
Definition show_str (o : option string) : string :=
  match o with
  | Some s => s
  | None => "undefined"
  end.

(** [s.split('-')[0]]: the text before the first dash. *)
Fixpoint split_dash_head (s : string) : string :=
  match s with
  | EmptyString => EmptyString
  | String a r => if Ascii.eqb a "-" then EmptyString else String a (split_dash_head r)
  end.

(** White space skipped by [parseInt] (StrWhiteSpaceChar): TAB, LF, VT,
    FF, CR and SP in one byte and, by their UTF-8 bytes, U+00A0 in two
    and U+1680, U+2000 to U+200A, U+2028, U+2029, U+202F, U+205F, U+3000
    and U+FEFF in three. *)
Definition is_space (a : ascii) : bool :=
  let n := nat_of_ascii a in
  (Nat.leb 9 n && Nat.leb n 13 || Nat.eqb n 32)%bool.

Definition is_space2 (a b : ascii) : bool :=
  (Nat.eqb (nat_of_ascii a) 194 && Nat.eqb (nat_of_ascii b) 160)%bool.

Definition is_space3 (a b c : ascii) : bool :=
  let x := nat_of_ascii a in
  let y := nat_of_ascii b in
  let z := nat_of_ascii c in
  (Nat.eqb x 225 && Nat.eqb y 154 && Nat.eqb z 128
   || Nat.eqb x 226 && Nat.eqb y 128
      && (Nat.leb 128 z && Nat.leb z 138
          || Nat.eqb z 168 || Nat.eqb z 169 || Nat.eqb z 175)
   || Nat.eqb x 226 && Nat.eqb y 129 && Nat.eqb z 159
   || Nat.eqb x 227 && Nat.eqb y 128 && Nat.eqb z 128
   || Nat.eqb x 239 && Nat.eqb y 187 && Nat.eqb z 191)%bool.

Fixpoint skip_space (s : string) : string :=
  match s with
  | EmptyString => EmptyString
  | String a r =>
      if is_space a then skip_space r
      else
        match r with
        | String b r2 =>
            if is_space2 a b then skip_space r2
            else
              match r2 with
              | String c r3 => if is_space3 a b c then skip_space r3 else s
              | EmptyString => s
              end
        | EmptyString => s
        end
  end.

(** Value of a digit in the given radix, if it is one. *)
Definition digit_of (radix : Z) (a : ascii) : option Z :=
  let n := Z.of_nat (nat_of_ascii a) in
  let v := if (48 <=? n) && (n <=? 57) then Some (n - 48)
           else if (97 <=? n) && (n <=? 122) then Some (n - 87)
           else if (65 <=? n) && (n <=? 90) then Some (n - 55)
           else None in
  match v with
  | Some d => if d <? radix then Some d else None
  | None => None
  end.

(** Longest prefix of digits; [acc] is [None] until a digit is read. *)
Fixpoint read_digits (radix : Z) (s : string) (acc : option Z) : option Z :=
  match s with
  | EmptyString => acc
  | String a r =>
      match digit_of radix a with
      | Some d => read_digits radix r (Some (radix * default 0 acc + d))
      | None => acc
      end
  end.

Definition strip_hex (s : string) : option string :=
  match s with
  | String "0" (String "x" r) => Some r
  | String "0" (String "X" r) => Some r
  | _ => None
  end.

(** [parseInt(s)] without a radix argument: the digits read are rounded
    to a Number. [None] is [NaN], and also an infinite result: neither is
    ever equal to an integer, and both are serialised as [null]. *)
Definition parseInt (s : string) : option Z :=
  let s1 := skip_space s in
  let '(sign, s2) :=
    match s1 with
    | String "-" r => (-1, r)
    | String "+" r => (1, r)
    | _ => (1, s1)
    end in
  let n := match strip_hex s2 with
           | Some r => read_digits 16 r None
           | None => read_digits 10 s2 None
           end in
  match n with
  | Some v => toNumber (sign * v)
  | None => None
  end.

(** [a === b] where [a] may be [undefined] and [b] may be [NaN]. *)
Definition num_strict_eq (a b : option Z) : bool :=
  match a, b with
  | Some x, Some y => x =? y
  | _, _ => false
  end.

End JS.

(** ** Payloads exchanged with the remote services *)

(** An entry of [MediaContainer.Directory] (Plex library sections). *)
Record PlexDirectory := mkPlexDirectory {
  dir_type : string;
  dir_key : string }.

(** An entry of [MediaContainer.Metadata]; [m.year] may be missing. *)
Record PlexMetadata := mkPlexMetadata {
  md_title : string;
  md_year : option Z }.

(** A movie tracked by Radarr ([GET /api/v3/movie]). *)
Record RadarrMovie := mkRadarrMovie {
  rm_id : Z;
  rm_tmdbId : Z;
  rm_hasFile : bool;
  rm_monitored : bool;
  rm_status : string }.

(** A record of the Radarr download queue. *)
Record QueueRecord := mkQueueRecord { q_movieId : Z }.

(** A series tracked by Sonarr; [statistics.percentOfEpisodes] is only
    ever compared with 100. *)
Record SonarrSeries := mkSonarrSeries {
  ss_tvdbId : option Z;
  ss_title : string;
  ss_percentOfEpisodes : option Z }.

(** Result of [movie/lookup/tmdb] and an element of [series/lookup]. *)
Record LookupData := mkLookupData {
  lk_title : string;
  lk_extId : Z;          (* tmdbId for Radarr, tvdbId for Sonarr *)
  lk_year : Z }.

Record RootFolder := mkRootFolder { rf_path : string }.
Record QualityProfile := mkQualityProfile { qp_id : Z }.

(** Body of [POST /api/v3/movie]. *)
Record AddMovie := mkAddMovie {
  am_title : string;
  am_tmdbId : Z;
  am_year : Z;
  am_qualityProfileId : Z;
  am_rootFolderPath : string;
  am_monitored : bool;
  am_searchForMovie : bool }.

(** Body of [POST /api/v3/series]. *)
Record AddSeries := mkAddSeries {
  as_title : string;
  as_tvdbId : Z;
  as_year : Z;
  as_qualityProfileId : Z;
  as_rootFolderPath : string;
  as_monitored : bool;
  as_seasonFolder : bool;
  as_searchForMissingEpisodes : bool }.

(** One element of a validation-error body of the managers. *)
Record ValidationError := mkValidationError {
  errorCode : string;
  errorMessage : option string }.

(** What a [catch] clause sees: an axios error has [response.status] and
    [response.data] when the server answered (the data is kept when it is
    an array of validation errors), a transport error or a timeout has
    only a message. *)
Record JsError := mkJsError {
  err_status : option Z;
  err_data : option (list ValidationError);
  err_message : string }.

(** The remote calls of the two route files, indexed by the type of
    [response.data]. The API key is the result of [decrypt]. The type is
    the shape that the handler reads right after the call, inside the
    [try] block of the call: an answer of another shape makes that read
    throw a [TypeError], and counts here as a failure of the call, like
    a promise that rejects. *)
Inductive Call : Type -> Type :=
| PlexSections (url : string) (token : option string)
    : Call (list PlexDirectory)
| PlexSectionAll (url : string) (token : option string) (sectionId : string)
      (type : Z) (title : string)
    : Call (option (list PlexMetadata))
| RadarrMovies (url : string) (apiKey : option string)
    : Call (list RadarrMovie)
| RadarrQueue (url : string) (apiKey : option string)
    : Call (option (list QueueRecord))
| SonarrSeriesList (url : string) (apiKey : option string)
    : Call (list SonarrSeries)
| RadarrLookup (url : string) (apiKey : option string) (tmdbId : Z)
    : Call (option LookupData)
| SonarrLookup (url : string) (apiKey : option string) (term : string)
    : Call (option (list LookupData))
| RootFolders (url : string) (apiKey : option string)
    : Call (option (list RootFolder))
| QualityProfiles (url : string) (apiKey : option string)
    : Call (option (list QualityProfile))
| RadarrAdd (url : string) (apiKey : option string) (body : AddMovie)
    : Call Z
| SonarrAdd (url : string) (apiKey : option string) (body : AddSeries)
    : Call Z.

(** A remote call of any result type, and a log entry: the call and
    whether it failed. *)
Definition AnyCall : Type := { T : Type & Call T }.

Definition Logged : Type := (AnyCall * bool)%type.

(** Some call of the log failed. *)
Definition anyFailed (l : list Logged) : bool := existsb snd l.

(** ** Database rows (schema of [database/init.js]) *)

Record Server := mkServer {
  srv_id : string;
  srv_name : string;
  srv_url : string;
  srv_token : string;
  radarr_url : option string;
  radarr_api_key : option string;
  sonarr_url : option string;
  sonarr_api_key : option string }.

Record UserRow := mkUserRow {
  u_id : string;
  u_username : string;
  u_role : string }.

Record RequestRow := mkRequestRow {
  r_id : string;
  r_user_id : string;
  r_server_id : string;
  r_tmdb_id : Z;
  r_content_type : string;
  r_title : string;
  r_year : option Z;
  r_overview : option string;
  r_poster_path : option string;
  r_status : string;
  r_seasons : option string;
  r_requested_at : Z;
  r_processed_at : option Z;
  r_processed_by : option string;
  r_notes : option string }.

Record RssRow := mkRssRow {
  rss_id : string;
  rss_server_id : string;
  rss_content_type : string;
  rss_tmdb_id : Z;
  rss_title : string;
  rss_year : option Z;
  rss_overview : option string;
  rss_poster_path : option string;
  rss_seasons : option string;
  rss_added_by : option string;
  rss_added_at : Z }.

Record AuditRow := mkAuditRow {
  a_user_id : option string;
  a_action : string;
  a_details : string;
  a_ip : string }.

(** The tables the two route files read or write, in storage order. *)
Record DB := mkDB {
  plex_servers : list Server;
  users : list UserRow;
  content_requests : list RequestRow;
  rss_items : list RssRow;
  audit_log : list AuditRow }.

(** [req.user] as built by [authenticateToken]. *)
Record ReqUser := mkReqUser {
  user_id : string;
  user_role : string;
  canAddDirectly : bool;
  primaryServerId : option string;
  user_servers : list Server }.

(** ** Values stored in the availability cache *)

Inductive PlexKind := PMovie | PShow.

(** The data the checkers return and cache: [null], a status string, or
    the object [{ exists, movie }] / [{ exists, show }]. *)
Inductive jsdata :=
| JNull
| JStr (s : string)
| JPresence (present : bool) (found : option (PlexKind * PlexMetadata)).

(** [{ data, timestamp }]. *)
Record Entry := mkEntry {
  e_data : jsdata;
  e_timestamp : Z }.

(** ** The environment and the state threaded through the handlers *)

(** What the process does not own: the clock in milliseconds, the remote
    services (which may change state and take time at every call),
    [crypto.randomUUID], the AES [decrypt] of the database module, JSON
    (de)serialisation of a season list and the engine's
    [String.prototype.toLowerCase]. *)
Record Env (W : Type) := mkEnv {
  now : W -> Z;
  http : forall T, Call T -> W -> (JsError + T) * W;
  randomUUID : W -> string * W;
  decrypt : string -> option string;
  JSON_stringify : list Z -> string;
  JSON_parse : string -> option (list Z);
  toLowerCase : string -> string }.

Arguments now {W} _ _.
Arguments http {W} _ {T} _ _.
Arguments randomUUID {W} _ _.
Arguments decrypt {W} _ _.
Arguments JSON_stringify {W} _ _.
Arguments JSON_parse {W} _ _.
Arguments toLowerCase {W} _ _.

(** Process state: the SQLite database, [availabilityCache], the outside
    world, and the log of remote calls issued so far. *)
Record State (W : Type) := mkState {
  db : DB;
  cache : gmap string Entry;
  world : W;
  trace : list Logged }.

Arguments mkState {W} _ _ _ _.
Arguments db {W} _.
Arguments cache {W} _.
Arguments world {W} _.
Arguments trace {W} _.

(** A JavaScript computation: returns or throws, and leaves a state. *)
Inductive outcome (A : Type) :=
| Ret (a : A)
| Throw (e : JsError).

Arguments Ret {A} _.
Arguments Throw {A} _.

Definition M (W A : Type) : Type := State W -> outcome A * State W.

Definition ret {W A} (a : A) : M W A := fun s => (Ret a, s).

Definition throw {W A} (e : JsError) : M W A := fun s => (Throw e, s).

Definition bind {W A B} (m : M W A) (k : A -> M W B) : M W B :=
  fun s =>
    match m s with
    | (Ret a, s') => k a s'
    | (Throw e, s') => (Throw e, s')
    end.

(** [try { m } catch (error) { h error }]; effects of [m] are kept. *)
Definition try_catch {W A} (m : M W A) (h : JsError -> M W A) : M W A :=
  fun s =>
    match m s with
    | (Ret a, s') => (Ret a, s')
    | (Throw e, s') => h e s'
    end.

Notation "'do' x <- m ; k" := (bind m (fun x => k))
  (at level 10, x pattern, m at level 100, k at level 200).

(** A [TypeError] and a SQLite constraint error, as seen by [catch]. *)
Definition TypeError (msg : string) : JsError := mkJsError None None msg.
Definition SqliteError (msg : string) : JsError := mkJsError None None msg.

(** ** search.js *)

Section Search.

Context {W : Type} (env : Env W).

(** [const CACHE_TTL = 5 * 60 * 1000]. *)
Definition CACHE_TTL : Z := 5 * 60 * 1000.

(** [Date.now()]. *)
Definition Date_now : M W Z := fun s => (Ret (now env (world s)), s).

(** An [axios] call: the service answers, or the call fails and the
    error is thrown; the world moves on and the call is logged either
    way. *)
Definition axios {T} (c : Call T) : M W T :=
  fun s =>
    let '(r, w') := http env c (world s) in
    match r with
    | inl e =>
        (Throw e, mkState (db s) (cache s) w' (trace s ++ [(existT T c, true)]))
    | inr v =>
        (Ret v, mkState (db s) (cache s) w' (trace s ++ [(existT T c, false)]))
    end.

(** [decrypt(x)] of a nullable column: [null] for a falsy argument. *)
Definition decrypt_col (o : option string) : option string :=
  match o with
  | Some t => if JS.truthy_str o then decrypt env t else None
  | None => None
  end.

(** [availabilityCache.get(key)]. *)
Definition cacheGet (key : string) : M W (option Entry) :=
  fun s => (Ret (cache s !! key), s).

(** [availabilityCache.set(key, { data, timestamp: Date.now() })]. *)
Definition cacheSet (key : string) (d : jsdata) : M W unit :=
  fun s =>
    (Ret tt,
     mkState (db s) (<[key := mkEntry d (now env (world s))]> (cache s))
             (world s) (trace s)).

(** [if (cached && Date.now() - cached.timestamp < CACHE_TTL) return
    cached.data]: the data to return, if the branch is taken. *)
Definition cacheHit (cached : option Entry) (t : Z) : option jsdata :=
  match cached with
  | Some e => if t - e_timestamp e <? CACHE_TTL then Some (e_data e) else None
  | None => None
  end.

(** [SELECT * FROM plex_servers WHERE id = ?]. *)
Definition getServer (serverId : string) : M W (option Server) :=
  fun s => (Ret (List.find (fun x => String.eqb (srv_id x) serverId)
                           (plex_servers (db s))), s).

(** The constants in which [checkPlexMovie] and [checkPlexTv] differ. *)
Definition plexPrefix (k : PlexKind) : string :=
  match k with PMovie => "plex_movie_" | PShow => "plex_tv_" end.

Definition plexSectionType (k : PlexKind) : string :=
  match k with PMovie => "movie" | PShow => "show" end.

Definition plexTypeParam (k : PlexKind) : Z :=
  match k with PMovie => 1 | PShow => 2 end.

(** [`plex_movie_${serverId}_${title}_${year}`]. *)
Definition plexCacheKey (k : PlexKind) (serverId title : string)
    (year : option string) : string :=
  plexPrefix k +:+ serverId +:+ "_" +:+ title +:+ "_" +:+ JS.show_str year.

(** The predicate passed to [movies.find] / [shows.find]. *)
Definition plexMatch (title : string) (year : option string)
    (m : PlexMetadata) : bool :=
  let titleMatch :=
    String.eqb (toLowerCase env (md_title m)) (toLowerCase env title) in
  let yearMatch :=
    negb (JS.truthy_str year)
    || JS.num_strict_eq (md_year m) (JS.parseInt (default "" year)) in
  titleMatch && yearMatch.

(** The [for (const sectionId of movieSections)] loop; [Some result] is
    the early [return result] of a match. *)
Fixpoint scanSections (k : PlexKind) (server : Server) (token : option string)
    (title : string) (year : option string) (cacheKey : string)
    (sections : list string) : M W (option jsdata) :=
  match sections with
  | [] => ret None
  | sectionId :: rest =>
      do response <- axios (PlexSectionAll (srv_url server) token sectionId
                                           (plexTypeParam k) title);
      let items := default [] response in
      match List.find (plexMatch title year) items with
      | Some m =>
          let result := JPresence true (Some (k, m)) in
          do _ <- cacheSet cacheKey result;
          ret (Some result)
      | None => scanSections k server token title year cacheKey rest
      end
  end.

(** Body shared by [checkPlexMovie] and [checkPlexTv]. *)
Definition checkPlex (k : PlexKind) (serverId title : string)
    (year : option string) : M W jsdata :=
  try_catch
    (let cacheKey := plexCacheKey k serverId title year in
     do cached <- cacheGet cacheKey;
     do t <- Date_now;
     match cacheHit cached t with
     | Some data => ret data
     | None =>
       do server <- getServer serverId;
       match server with
       | None => ret (JPresence false None)
       | Some server =>
           let token := decrypt_col (Some (srv_token server)) in
           do dirs <- axios (PlexSections (srv_url server) token);
           let sections :=
             map dir_key
                 (List.filter (fun d => String.eqb (dir_type d) (plexSectionType k)) dirs) in
           do hit <- scanSections k server token title year cacheKey sections;
           match hit with
           | Some result => ret result
           | None =>
               let result := JPresence false None in
               do _ <- cacheSet cacheKey result;
               ret result
           end
       end
     end)
    (fun error => ret (JPresence false None)).

Definition checkPlexMovie := checkPlex PMovie.
Definition checkPlexTv := checkPlex PShow.

(** [`radarr_${serverId}_${tmdbId}`] and [`sonarr_${serverId}_${tmdbId}`].
    The identifier is printed by its decimal digits, which is what the
    template literal gives for a safe integer ([JS.isSafeInteger]). *)
Definition radarrCacheKey (serverId : string) (tmdbId : Z) : string :=
  "radarr_" +:+ serverId +:+ "_" +:+ pretty tmdbId.

Definition sonarrCacheKey (serverId : string) (tmdbId : Z) : string :=
  "sonarr_" +:+ serverId +:+ "_" +:+ pretty tmdbId.

(** [!server || !server.radarr_url || !server.radarr_api_key] negated. *)
Definition radarrConfigured (server : Server) : bool :=
  JS.truthy_str (radarr_url server) && JS.truthy_str (radarr_api_key server).

Definition sonarrConfigured (server : Server) : bool :=
  JS.truthy_str (sonarr_url server) && JS.truthy_str (sonarr_api_key server).

(** [checkRadarrMovie]. *)
Definition checkRadarrMovie (serverId : string) (tmdbId : Z) : M W jsdata :=
  try_catch
    (let cacheKey := radarrCacheKey serverId tmdbId in
     do cached <- cacheGet cacheKey;
     do t <- Date_now;
     match cacheHit cached t with
     | Some data => ret data
     | None =>
       do server <- getServer serverId;
       match server with
       | None => ret JNull
       | Some server =>
           if negb (radarrConfigured server) then ret JNull
           else
             let url := default "" (radarr_url server) in
             let apiKey := decrypt_col (radarr_api_key server) in
             do movies <- axios (RadarrMovies url apiKey);
             do status <-
               match List.find (fun m => rm_tmdbId m =? tmdbId) movies with
               | Some movie =>
                   if rm_hasFile movie then ret (JStr "downloaded")
                   else if rm_monitored movie then
                     do queue <- axios (RadarrQueue url apiKey);
                     let inQueue :=
                       match queue with
                       | Some records =>
                           existsb (fun q => q_movieId q =? rm_id movie) records
                       | None => false
                       end in
                     ret (JStr (if inQueue then "queued"
                                else if String.eqb (rm_status movie) "released"
                                     then "missing" else "unreleased"))
                   else ret JNull
               | None => ret JNull
               end;
             do _ <- cacheSet cacheKey status;
             ret status
       end
     end)
    (fun error => ret JNull).

(** [checkSonarrSeries]: the series list is fetched and not looked at. *)
Definition checkSonarrSeries (serverId : string) (tmdbId : Z) : M W jsdata :=
  try_catch
    (let cacheKey := sonarrCacheKey serverId tmdbId in
     do cached <- cacheGet cacheKey;
     do t <- Date_now;
     match cacheHit cached t with
     | Some data => ret data
     | None =>
       do server <- getServer serverId;
       match server with
       | None => ret JNull
       | Some server =>
           if negb (sonarrConfigured server) then ret JNull
           else
             let url := default "" (sonarr_url server) in
             let apiKey := decrypt_col (sonarr_api_key server) in
             do response <- axios (SonarrSeriesList url apiKey);
             let status := JNull in
             do _ <- cacheSet cacheKey status;
             ret status
       end
     end)
    (fun error => ret JNull).

(** A TMDB search result: [movie.id], [movie.title] / [show.name] and
    [movie.release_date] / [show.first_air_date]. *)
Record CatalogItem := mkCatalogItem {
  item_id : Z;
  item_title : string;
  item_date : option string }.

(** The object built by [checkMovieAvailability] / [checkTvAvailability];
    [arrStatus] is the field [radarrStatus], respectively [sonarrStatus]. *)
Record Availability := mkAvailability {
  av_status : jsdata;
  plexAvailable : bool;
  plexServers : list string;
  arrStatus : jsdata;
  inRssFeed : bool }.

(** [movie.release_date?.split('-')[0]]. *)
Definition itemYear (item : CatalogItem) : option string :=
  JS.split_dash_head <$> item_date item.

(** Truthiness of a checker result, as tested by [if (radarrResult)]. *)
Definition truthy (d : jsdata) : bool :=
  match d with
  | JNull => false
  | JStr s => negb (String.eqb s "")
  | JPresence _ _ => true
  end.

(** [plexResult.exists]: a [TypeError] on [null], [undefined] (falsy) on
    a string. *)
Definition get_exists (d : jsdata) : M W bool :=
  match d with
  | JNull => throw (TypeError "Cannot read properties of null (reading 'exists')")
  | JStr _ => ret false
  | JPresence b _ => ret b
  end.

(** The checker of the download manager that goes with a media kind. *)
Definition checkArr (k : PlexKind) : string -> Z -> M W jsdata :=
  match k with
  | PMovie => checkRadarrMovie
  | PShow => checkSonarrSeries
  end.

(** One turn of the [for (const server of servers)] loop, on the running
    [result]. *)
Definition serverStep (k : PlexKind) (item : CatalogItem) (user : ReqUser)
    (server : Server) (result : Availability) : M W Availability :=
  do plexResult <- checkPlex k (srv_id server) (item_title item) (itemYear item);
  do present <- get_exists plexResult;
  let result1 :=
    if present
    then mkAvailability (av_status result) true
                        (plexServers result ++ [srv_name server])
                        (arrStatus result) (inRssFeed result)
    else result in
  if decide (Some (srv_id server) = primaryServerId user) then
    do arrResult <- checkArr k (srv_id server) (item_id item);
    ret (if truthy arrResult
         then mkAvailability (av_status result1) (plexAvailable result1)
                             (plexServers result1) arrResult (inRssFeed result1)
         else result1)
  else ret result1.

(** The loop over [user.servers]. *)
Fixpoint serverLoop (k : PlexKind) (item : CatalogItem) (user : ReqUser)
    (servers : list Server) (result : Availability) : M W Availability :=
  match servers with
  | [] => ret result
  | server :: rest =>
      do result' <- serverStep k item user server result;
      serverLoop k item user rest result'
  end.

(** The value bound to [content_type] in the [rss_items] query. *)
Definition contentTypeOf (k : PlexKind) : string :=
  match k with PMovie => "movie" | PShow => "tv" end.

(** [SELECT * FROM rss_items WHERE tmdb_id = ? AND content_type = '...']. *)
Definition getRssItem (k : PlexKind) (tmdbId : Z) : M W (option RssRow) :=
  fun s =>
    (Ret (List.find (fun r => (rss_tmdb_id r =? tmdbId)
                              && String.eqb (rss_content_type r) (contentTypeOf k))
                    (rss_items (db s))), s).

(** The "Determine overall status" chain of conditionals. *)
Definition overallStatus (plexAvailable : bool) (arrStatus : jsdata)
    (inRssFeed : bool) : jsdata :=
  if plexAvailable then JStr "available"
  else if truthy arrStatus then arrStatus
  else if inRssFeed then JStr "requested"
  else JStr "not_available".

(** Body shared by [checkMovieAvailability] and [checkTvAvailability]. *)
Definition checkAvailability (k : PlexKind) (item : CatalogItem)
    (user : ReqUser) : M W Availability :=
  let result := mkAvailability (JStr "unknown") false [] JNull false in
  let servers := user_servers user in
  do result <- serverLoop k item user servers result;
  do rssItem <- getRssItem k (item_id item);
  let inRss := match rssItem with Some _ => true | None => false end in
  ret (mkAvailability
         (overallStatus (plexAvailable result) (arrStatus result) inRss)
         (plexAvailable result) (plexServers result) (arrStatus result) inRss).

Definition checkMovieAvailability := checkAvailability PMovie.
Definition checkTvAvailability := checkAvailability PShow.

End Search.

(** ** requests.js *)

Section Requests.

Context {W : Type} (env : Env W).

(** The object returned by [addToRadarr] / [addToSonarr]; [arr_id] is
    [radarrId], respectively [sonarrId]. *)
Record ArrResult := mkArrResult {
  success : bool;
  alreadyExists : bool;
  arr_error : option string;
  arr_id : option Z }.

Definition arrFailure (msg : string) : ArrResult :=
  mkArrResult false false (Some msg) None.

(** [error.response?.status === 400 &&
     error.response?.data?.some?.(e => e.errorCode === code)]. *)
Definition existsRejection (code : string) (error : JsError) : bool :=
  match err_status error, err_data error with
  | Some st, Some errs =>
      (st =? 400) && existsb (fun e => String.eqb (errorCode e) code) errs
  | _, _ => false
  end.

(** [error.response?.data?.[0]?.errorMessage || error.message]. *)
Definition errorText (error : JsError) : string :=
  match err_data error with
  | Some (e :: _) =>
      if JS.truthy_str (errorMessage e) then default "" (errorMessage e)
      else err_message error
  | _ => err_message error
  end.

(** The object returned by the [catch] clause of the two executors. *)
Definition catchResult (code : string) (error : JsError) : ArrResult :=
  if existsRejection code error then mkArrResult true true None None
  else arrFailure (errorText error).

Definition arrCatch (code : string) (error : JsError) : M W ArrResult :=
  ret (catchResult code error).

(** [addToRadarr(server, tmdbId, title)]. *)
Definition addToRadarr (server : Server) (tmdbId : Z) (title : string)
    : M W ArrResult :=
  if negb (radarrConfigured server) then ret (arrFailure "Radarr not configured")
  else
    let url := default "" (radarr_url server) in
    let apiKey := decrypt_col env (radarr_api_key server) in
    try_catch
      (do lookupResponse <- axios env (RadarrLookup url apiKey tmdbId);
       match lookupResponse with
       | None => ret (arrFailure "Movie not found in TMDB")
       | Some movieData =>
           do rootFolderResponse <- axios env (RootFolders url apiKey);
           match rootFolderResponse with
           | None | Some [] => ret (arrFailure "No root folder configured in Radarr")
           | Some (root :: _) =>
               let rootFolderPath := rf_path root in
               do profileResponse <- axios env (QualityProfiles url apiKey);
               match profileResponse with
               | None | Some [] =>
                   ret (arrFailure "No quality profile configured in Radarr")
               | Some (profile :: _) =>
                   let qualityProfileId := qp_id profile in
                   do addResponse <-
                     axios env (RadarrAdd url apiKey
                       (mkAddMovie (lk_title movieData) (lk_extId movieData)
                                   (lk_year movieData) qualityProfileId
                                   rootFolderPath true true));
                   ret (mkArrResult true false None (Some addResponse))
               end
           end
       end)
      (arrCatch "MovieExistsValidator").

(** [addToSonarr(server, tmdbId, title, seasons)]; the series is looked
    up by title and the first hit is taken. *)
Definition addToSonarr (server : Server) (tmdbId : Z) (title : string)
    (seasons : option (list Z)) : M W ArrResult :=
  if negb (sonarrConfigured server) then ret (arrFailure "Sonarr not configured")
  else
    let url := default "" (sonarr_url server) in
    let apiKey := decrypt_col env (sonarr_api_key server) in
    try_catch
      (do searchResponse <- axios env (SonarrLookup url apiKey title);
       match searchResponse with
       | None | Some [] => ret (arrFailure "Series not found")
       | Some (seriesData :: _) =>
           do rootFolderResponse <- axios env (RootFolders url apiKey);
           match rootFolderResponse with
           | None | Some [] => ret (arrFailure "No root folder configured in Sonarr")
           | Some (root :: _) =>
               let rootFolderPath := rf_path root in
               do profileResponse <- axios env (QualityProfiles url apiKey);
               match profileResponse with
               | None | Some [] =>
                   ret (arrFailure "No quality profile configured in Sonarr")
               | Some (profile :: _) =>
                   let qualityProfileId := qp_id profile in
                   do addResponse <-
                     axios env (SonarrAdd url apiKey
                       (mkAddSeries (lk_title seriesData) (lk_extId seriesData)
                                    (lk_year seriesData) qualityProfileId
                                    rootFolderPath true true true));
                   ret (mkArrResult true false None (Some addResponse))
               end
           end
       end)
      (arrCatch "SeriesExistsValidator").

(** The reads of [addToRadarr] as a function of the world: the result
    returned before any add is attempted, or the body to post. *)
Definition radarrPrep (server : Server) (tmdbId : Z) (w : W)
    : (ArrResult + AddMovie) * W :=
  let url := default "" (radarr_url server) in
  let apiKey := decrypt_col env (radarr_api_key server) in
  match http env (RadarrLookup url apiKey tmdbId) w with
  | (inl e, w1) => (inl (catchResult "MovieExistsValidator" e), w1)
  | (inr None, w1) => (inl (arrFailure "Movie not found in TMDB"), w1)
  | (inr (Some movieData), w1) =>
      match http env (RootFolders url apiKey) w1 with
      | (inl e, w2) => (inl (catchResult "MovieExistsValidator" e), w2)
      | (inr (Some (root :: _)), w2) =>
          match http env (QualityProfiles url apiKey) w2 with
          | (inl e, w3) => (inl (catchResult "MovieExistsValidator" e), w3)
          | (inr (Some (profile :: _)), w3) =>
              (inr (mkAddMovie (lk_title movieData) (lk_extId movieData)
                               (lk_year movieData) (qp_id profile)
                               (rf_path root) true true), w3)
          | (inr _, w3) =>
              (inl (arrFailure "No quality profile configured in Radarr"), w3)
          end
      | (inr _, w2) => (inl (arrFailure "No root folder configured in Radarr"), w2)
      end
  end.

(** The same for [addToSonarr]. *)
Definition sonarrPrep (server : Server) (title : string) (w : W)
    : (ArrResult + AddSeries) * W :=
  let url := default "" (sonarr_url server) in
  let apiKey := decrypt_col env (sonarr_api_key server) in
  match http env (SonarrLookup url apiKey title) w with
  | (inl e, w1) => (inl (catchResult "SeriesExistsValidator" e), w1)
  | (inr (Some (seriesData :: _)), w1) =>
      match http env (RootFolders url apiKey) w1 with
      | (inl e, w2) => (inl (catchResult "SeriesExistsValidator" e), w2)
      | (inr (Some (root :: _)), w2) =>
          match http env (QualityProfiles url apiKey) w2 with
          | (inl e, w3) => (inl (catchResult "SeriesExistsValidator" e), w3)
          | (inr (Some (profile :: _)), w3) =>
              (inr (mkAddSeries (lk_title seriesData) (lk_extId seriesData)
                                (lk_year seriesData) (qp_id profile)
                                (rf_path root) true true true), w3)
          | (inr _, w3) =>
              (inl (arrFailure "No quality profile configured in Sonarr"), w3)
          end
      | (inr _, w2) => (inl (arrFailure "No root folder configured in Sonarr"), w2)
      end
  | (inr _, w1) => (inl (arrFailure "Series not found"), w1)
  end.

(** The executors as functions of the world: their reads, then the add. *)
Definition radarrOutcome (server : Server) (tmdbId : Z) (w : W) : ArrResult * W :=
  match radarrPrep server tmdbId w with
  | (inl r, w') => (r, w')
  | (inr body, w3) =>
      match http env (RadarrAdd (default "" (radarr_url server))
                                (decrypt_col env (radarr_api_key server)) body) w3 with
      | (inl e, w4) => (catchResult "MovieExistsValidator" e, w4)
      | (inr id, w4) => (mkArrResult true false None (Some id), w4)
      end
  end.

Definition sonarrOutcome (server : Server) (title : string) (w : W) : ArrResult * W :=
  match sonarrPrep server title w with
  | (inl r, w') => (r, w')
  | (inr body, w3) =>
      match http env (SonarrAdd (default "" (sonarr_url server))
                                (decrypt_col env (sonarr_api_key server)) body) w3 with
      | (inl e, w4) => (catchResult "SeriesExistsValidator" e, w4)
      | (inr id, w4) => (mkArrResult true false None (Some id), w4)
      end
  end.

(** *** Responses *)

(** An element of the array answered by [GET /api/requests]. *)
Record ListedRequest := mkListedRequest {
  l_id : string;
  l_userId : string;
  l_requestedByUsername : option string;
  l_serverId : string;
  l_serverName : option string;
  l_tmdbId : Z;
  l_contentType : string;
  l_title : string;
  l_year : option Z;
  l_overview : option string;
  l_posterPath : option string;
  l_status : string;
  l_seasons : option (list Z);
  l_requestedAt : Z;
  l_processedAt : option Z;
  l_processedByUsername : option string;
  l_notes : option string }.

(** A JSON body: an object of string fields, or the request listing. *)
Inductive Body :=
| Obj (fields : list (string * string))
| Rows (rows : list ListedRequest).

(** [res.status(code).json(body)]. *)
Record HttpResponse := mkHttpResponse {
  res_status : Z;
  res_body : Body }.

Definition json (code : Z) (fields : list (string * string)) : HttpResponse :=
  mkHttpResponse code (Obj fields).

(** *** Database statements *)

Definition setDb (d : DB) : M W unit :=
  fun s => (Ret tt, mkState d (cache s) (world s) (trace s)).

Definition getDb : M W DB := fun s => (Ret (db s), s).

(** SQLite's [datetime('now')] / [CURRENT_TIMESTAMP]: the text
    ['YYYY-MM-DD HH:MM:SS'], kept as the whole number of seconds that it
    denotes. *)
Definition sql_now : M W Z := fun s => (Ret (now env (world s) / 1000), s).

(** [crypto.randomUUID()]. *)
Definition crypto_randomUUID : M W string :=
  fun s =>
    let '(u, w') := randomUUID env (world s) in
    (Ret u, mkState (db s) (cache s) w' (trace s)).

Definition userExists (d : DB) (uid : string) : bool :=
  existsb (fun u => String.eqb (u_id u) uid) (users d).

Definition serverExists (d : DB) (sid : string) : bool :=
  existsb (fun x => String.eqb (srv_id x) sid) (plex_servers d).

(** [CHECK(content_type IN ('movie', 'tv'))]. *)
Definition contentTypeOk (ct : string) : bool :=
  String.eqb ct "movie" || String.eqb ct "tv".

(** [UNIQUE(server_id, content_type, tmdb_id)] of [rss_items]. *)
Definition rssTracked (d : DB) (sid ct : string) (tmdbId : Z) : bool :=
  existsb (fun r => String.eqb (rss_server_id r) sid
                    && String.eqb (rss_content_type r) ct
                    && (rss_tmdb_id r =? tmdbId))
          (rss_items d).

(** [INSERT INTO rss_items (...)]: the primary key, the uniqueness
    constraint, the check and the foreign keys of the schema; a violation
    makes [run] throw and writes nothing. *)
Definition insertRss (id sid ct : string) (tmdbId : Z) (title : string)
    (year : option Z) (overview poster seasons : option string)
    (added_by : string) : M W unit :=
  do d <- getDb;
  do t <- sql_now;
  if existsb (fun r => String.eqb (rss_id r) id) (rss_items d)
  then throw (SqliteError "UNIQUE constraint failed: rss_items.id")
  else if rssTracked d sid ct tmdbId
  then throw (SqliteError
    "UNIQUE constraint failed: rss_items.server_id, rss_items.content_type, rss_items.tmdb_id")
  else if negb (contentTypeOk ct)
  then throw (SqliteError "CHECK constraint failed: content_type")
  else if negb (serverExists d sid && userExists d added_by)
  then throw (SqliteError "FOREIGN KEY constraint failed")
  else
    setDb (mkDB (plex_servers d) (users d) (content_requests d)
                (rss_items d ++ [mkRssRow id sid ct tmdbId title year overview
                                          poster seasons (Some added_by) t])
                (audit_log d)).

(** [INSERT INTO content_requests (...)]; [status] defaults to
    ['pending'] and [requested_at] to the current time. *)
Definition insertRequest (id uid sid : string) (tmdbId : Z) (ct title : string)
    (year : option Z) (overview poster seasons : option string) : M W unit :=
  do d <- getDb;
  do t <- sql_now;
  if existsb (fun r => String.eqb (r_id r) id) (content_requests d)
  then throw (SqliteError "UNIQUE constraint failed: content_requests.id")
  else if negb (contentTypeOk ct)
  then throw (SqliteError "CHECK constraint failed: content_type")
  else if negb (userExists d uid && serverExists d sid)
  then throw (SqliteError "FOREIGN KEY constraint failed")
  else
    setDb (mkDB (plex_servers d) (users d)
                (content_requests d ++
                   [mkRequestRow id uid sid tmdbId ct title year overview poster
                                 "pending" seasons t None None None])
                (rss_items d) (audit_log d)).

(** [INSERT INTO audit_log (user_id, action, details, ip_address)]. *)
Definition insertAudit (uid action details ip : string) : M W unit :=
  do d <- getDb;
  if negb (userExists d uid)
  then throw (SqliteError "FOREIGN KEY constraint failed")
  else
    setDb (mkDB (plex_servers d) (users d) (content_requests d) (rss_items d)
                (audit_log d ++ [mkAuditRow (Some uid) action details ip])).

(** [SELECT * FROM content_requests WHERE id = ?]. *)
Definition getRequest (id : string) : M W (option RequestRow) :=
  fun s => (Ret (List.find (fun r => String.eqb (r_id r) id)
                           (content_requests (db s))), s).

(** The row written by the [UPDATE] of the approve route. *)
Definition approvedRow (r : RequestRow) (t : Z) (uid : string)
    (notes : option string) : RequestRow :=
  mkRequestRow (r_id r) (r_user_id r) (r_server_id r) (r_tmdb_id r)
               (r_content_type r) (r_title r) (r_year r) (r_overview r)
               (r_poster_path r) "approved" (r_seasons r) (r_requested_at r)
               (Some t) (Some uid) notes.

(** [UPDATE content_requests SET status = 'approved', processed_at =
    datetime('now'), processed_by = ?, notes = ? WHERE id = ?]. *)
Definition updateApproved (uid : string) (notes : option string) (id : string)
    : M W unit :=
  do d <- getDb;
  do t <- sql_now;
  if negb (userExists d uid)
  then throw (SqliteError "FOREIGN KEY constraint failed")
  else
    setDb (mkDB (plex_servers d) (users d)
                (map (fun r => if String.eqb (r_id r) id
                               then approvedRow r t uid notes else r)
                     (content_requests d))
                (rss_items d) (audit_log d)).

(** *** GET /api/requests *)

(** [req.query]. *)
Record ListQuery := mkListQuery {
  q_status : option string;
  q_type : option string }.

(** The [WHERE] clause assembled from [conditions] and [params]. *)
Definition listWhere (user : ReqUser) (q : ListQuery) (r : RequestRow) : bool :=
  (if negb (String.eqb (user_role user) "admin")
   then String.eqb (r_user_id r) (user_id user) else true)
  && (if JS.truthy_str (q_status q)
      then String.eqb (r_status r) (default "" (q_status q)) else true)
  && (if JS.truthy_str (q_type q)
      then String.eqb (r_content_type r) (default "" (q_type q)) else true).

(** [ORDER BY r.requested_at DESC]; rows with equal times keep their
    storage order. *)
Fixpoint insertDesc (r : RequestRow) (l : list RequestRow) : list RequestRow :=
  match l with
  | [] => [r]
  | x :: xs =>
      if r_requested_at x <=? r_requested_at r then r :: l
      else x :: insertDesc r xs
  end.

Definition orderByRequestedAtDesc (l : list RequestRow) : list RequestRow :=
  fold_right insertDesc [] l.

(** The three [LEFT JOIN]s: the joined column, or [NULL]. *)
Definition usernameOf (d : DB) (uid : string) : option string :=
  u_username <$> List.find (fun u => String.eqb (u_id u) uid) (users d).

Definition serverNameOf (d : DB) (sid : string) : option string :=
  srv_name <$> List.find (fun x => String.eqb (srv_id x) sid) (plex_servers d).

(** The object built by [requests.map(r => ...)] for one row;
    [JSON.parse] may throw. *)
Definition listedOf (d : DB) (r : RequestRow) : M W ListedRequest :=
  do seasons <-
    (if JS.truthy_str (r_seasons r) then
       match JSON_parse env (default "" (r_seasons r)) with
       | Some l => ret (Some l)
       | None => throw (mkJsError None None "Unexpected token in JSON")
       end
     else ret None);
  ret (mkListedRequest (r_id r) (r_user_id r) (usernameOf d (r_user_id r))
         (r_server_id r) (serverNameOf d (r_server_id r)) (r_tmdb_id r)
         (r_content_type r) (r_title r) (r_year r) (r_overview r)
         (r_poster_path r) (r_status r) seasons (r_requested_at r)
         (r_processed_at r) (r_processed_by r ≫= usernameOf d) (r_notes r)).

Fixpoint mapRows (d : DB) (rows : list RequestRow) : M W (list ListedRequest) :=
  match rows with
  | [] => ret []
  | r :: rest =>
      do x <- listedOf d r;
      do xs <- mapRows d rest;
      ret (x :: xs)
  end.

(** [router.get('/')]. *)
Definition listRequests (user : ReqUser) (q : ListQuery) : M W HttpResponse :=
  try_catch
    (do d <- getDb;
     let requests :=
       orderByRequestedAtDesc (List.filter (listWhere user q) (content_requests d)) in
     do rows <- mapRows d requests;
     ret (mkHttpResponse 200 (Rows rows)))
    (fun error => ret (json 500 [("error", "Failed to list requests")])).

(** *** POST /api/requests *)

(** [req.body] of a create call. *)
Record CreateBody := mkCreateBody {
  b_tmdbId : option Z;
  b_contentType : option string;
  b_title : option string;
  b_year : option Z;
  b_overview : option string;
  b_posterPath : option string;
  b_seasons : option (list Z) }.

(** [seasons ? JSON.stringify(seasons) : fallback]. *)
Definition seasonsText (seasons : option (list Z)) (fallback : option string)
    : option string :=
  match seasons with
  | Some l => Some (JSON_stringify env l)
  | None => fallback
  end.

(** The "already in Radarr/Sonarr" block of the create route, without
    its [try]: [Some response] is an early [return res.status(409)]. *)
Definition managerPrecheck (server : Server) (contentType : string)
    (tmdbId : Z) (title : string) : M W (option HttpResponse) :=
  do early <-
    (if String.eqb contentType "movie" && radarrConfigured server then
       let apiKey := decrypt_col env (radarr_api_key server) in
       do movies <- axios env (RadarrMovies (default "" (radarr_url server)) apiKey);
       match List.find (fun m => rm_tmdbId m =? tmdbId) movies with
       | Some existingMovie =>
           if rm_hasFile existingMovie then
             ret (Some (json 409
                    [("error", "This movie is already downloaded in Radarr");
                     ("status", "downloaded")]))
           else if rm_monitored existingMovie then
             ret (Some (json 409
                    [("error", "This movie is already being monitored in Radarr");
                     ("status", if String.eqb (rm_status existingMovie) "released"
                                then "missing" else "unreleased")]))
           else ret None
       | None => ret None
       end
     else ret None);
  match early with
  | Some response => ret (Some response)
  | None =>
      if String.eqb contentType "tv" && sonarrConfigured server then
        let apiKey := decrypt_col env (sonarr_api_key server) in
        do series <- axios env (SonarrSeriesList (default "" (sonarr_url server)) apiKey);
        match List.find (fun x => JS.truthy_num (ss_tvdbId x)
                                  && String.eqb (ss_title x) title) series with
        | Some existingSeries =>
            if JS.num_strict_eq (ss_percentOfEpisodes existingSeries) (Some 100) then
              ret (Some (json 409
                     [("error", "This series is already fully downloaded in Sonarr");
                      ("status", "downloaded")]))
            else ret None
        | None => ret None
        end
      else ret None
  end.

(** [SELECT * FROM content_requests WHERE tmdb_id = ? AND content_type = ?
    AND server_id = ? AND status IN ('pending', 'approved')]. *)
Definition isOpenRequest (tmdbId : Z) (contentType serverId : string)
    (r : RequestRow) : bool :=
  (r_tmdb_id r =? tmdbId)
  && String.eqb (r_content_type r) contentType
  && String.eqb (r_server_id r) serverId
  && (String.eqb (r_status r) "pending" || String.eqb (r_status r) "approved").

Definition getExisting (tmdbId : Z) (contentType serverId : string)
    : M W (option RequestRow) :=
  fun s => (Ret (List.find (isOpenRequest tmdbId contentType serverId)
                           (content_requests (db s))), s).

Definition kindName (contentType : string) : string :=
  if String.eqb contentType "movie" then "Movie" else "Series".

Definition managerName (contentType : string) : string :=
  if String.eqb contentType "movie" then "Radarr" else "Sonarr".

(** The [if (req.user.canAddDirectly)] block. *)
Definition directAdd (user : ReqUser) (ip : string) (server : Server)
    (serverId : string) (tmdbId : Z) (contentType title : string)
    (body : CreateBody) : M W HttpResponse :=
  do arrResult <-
    (if String.eqb contentType "movie" then addToRadarr server tmdbId title
     else if String.eqb contentType "tv"
          then addToSonarr server tmdbId title (b_seasons body)
          else ret (mkArrResult false false None None));
  do rssId <- crypto_randomUUID;
  do _ <- insertRss rssId serverId contentType tmdbId title
            (JS.or_null_num (b_year body)) (JS.or_null_str (b_overview body))
            (JS.or_null_str (b_posterPath body))
            (seasonsText (b_seasons body) None) (user_id user);
  do _ <- insertAudit (user_id user) "add_content"
            ("Added " +:+ contentType +:+ ": " +:+ title) ip;
  if success arrResult then
    ret (json 201
           [("message", kindName contentType +:+ " added to "
                        +:+ managerName contentType +:+ " and will start downloading");
            ("status", "added");
            ("rssId", rssId)])
  else
    ret (json 201
           ([("message", "Added to queue but " +:+ managerName contentType
                         +:+ " integration failed: "
                         +:+ JS.show_str (arr_error arrResult));
             ("status", "added")]
            ++ match arr_error arrResult with
               | Some e => [("warning", e)]
               | None => []
               end
            ++ [("rssId", rssId)])).

(** The rest of the create route once the manager check has let the
    call through: duplicate guard, then direct add or a pending record. *)
Definition createAfterPrecheck (user : ReqUser) (ip : string) (server : Server)
    (serverId : string) (tmdbId : Z) (contentType title : string)
    (body : CreateBody) : M W HttpResponse :=
  do existing <- getExisting tmdbId contentType serverId;
  match existing with
  | Some _ => ret (json 409 [("error", "Request already exists")])
  | None =>
      if canAddDirectly user then
        directAdd user ip server serverId tmdbId contentType title body
      else
        do requestId <- crypto_randomUUID;
        do _ <- insertRequest requestId (user_id user) serverId tmdbId
                  contentType title
                  (JS.or_null_num (b_year body)) (JS.or_null_str (b_overview body))
                  (JS.or_null_str (b_posterPath body))
                  (seasonsText (b_seasons body) None);
        do _ <- insertAudit (user_id user) "request_content"
                  ("Requested " +:+ contentType +:+ ": " +:+ title) ip;
        ret (json 201
               [("message", "Request submitted for approval");
                ("status", "pending");
                ("requestId", requestId)])
  end.

(** [router.post('/')]. *)
Definition createRequest (user : ReqUser) (ip : string) (body : CreateBody)
    : M W HttpResponse :=
  try_catch
    (if negb (JS.truthy_num (b_tmdbId body))
        || negb (JS.truthy_str (b_contentType body))
        || negb (JS.truthy_str (b_title body))
     then ret (json 400 [("error", "TMDB ID, content type, and title required")])
     else
       let tmdbId := default 0 (b_tmdbId body) in
       let contentType := default "" (b_contentType body) in
       let title := default "" (b_title body) in
       if negb (contentTypeOk contentType)
       then ret (json 400 [("error", "Invalid content type")])
       else if negb (JS.truthy_str (primaryServerId user))
       then ret (json 400 [("error", "No server assigned to user")])
       else
         let serverId := default "" (primaryServerId user) in
         do server <- getServer serverId;
         match server with
         | None => ret (json 400 [("error", "Server not found")])
         | Some server =>
             do early <-
               try_catch (managerPrecheck server contentType tmdbId title)
                         (fun err => ret None);
             match early with
             | Some response => ret response
             | None =>
                 createAfterPrecheck user ip server serverId tmdbId
                                     contentType title body
             end
         end)
    (fun error => ret (json 500 [("error", "Failed to create request")])).

(** *** POST /api/requests/:id/approve *)

(** [req.body.notes], which the approve route does not validate: a text
    (a number is stored as a text too), or another truthy value ([true],
    an object, an array), which SQLite cannot bind. A missing or falsy
    value is [None]. *)
Inductive NoteValue :=
| NoteText (text : string)
| NoteOther.

(** [req.body] of an approve call. *)
Record ApproveBody := mkApproveBody {
  ab_notes : option NoteValue;
  ab_seasons : option (list Z) }.

(** [notes || null] for notes that can be bound. *)
Definition notesText (notes : option NoteValue) : option string :=
  match notes with
  | Some (NoteText text) => JS.or_null_str (Some text)
  | _ => None
  end.

(** [notes || null] as a parameter of [run]: better-sqlite3 binds
    numbers, strings, buffers and [null], and throws a [TypeError] for
    anything else, before the statement is executed. *)
Definition bindNotes (notes : option NoteValue) : M W (option string) :=
  match notes with
  | Some NoteOther =>
      throw (TypeError
               "SQLite3 can only bind numbers, strings, bigints, buffers, and null")
  | _ => ret (notesText notes)
  end.

(** [seasons || (request.seasons ? JSON.parse(request.seasons) : null)]. *)
Definition seasonList (seasons : option (list Z)) (request : RequestRow)
    : M W (option (list Z)) :=
  match seasons with
  | Some l => ret (Some l)
  | None =>
      if JS.truthy_str (r_seasons request) then
        match JSON_parse env (default "" (r_seasons request)) with
        | Some l => ret (Some l)
        | None => throw (mkJsError None None "Unexpected token in JSON")
        end
      else ret None
  end.

(** The handler of the approve route, behind [requireAdmin]. *)
Definition approveHandler (user : ReqUser) (ip id : string) (body : ApproveBody)
    : M W HttpResponse :=
  try_catch
    (do found <- getRequest id;
     match found with
     | None => ret (json 404 [("error", "Request not found")])
     | Some request =>
         if negb (String.eqb (r_status request) "pending")
         then ret (json 400 [("error", "Request is not pending")])
         else
           do server <- getServer (r_server_id request);
           do arrResult <-
             match server with
             | Some server =>
                 if String.eqb (r_content_type request) "movie" then
                   addToRadarr server (r_tmdb_id request) (r_title request)
                 else if String.eqb (r_content_type request) "tv" then
                   do l <- seasonList (ab_seasons body) request;
                   addToSonarr server (r_tmdb_id request) (r_title request) l
                 else ret (mkArrResult false false None None)
             | None => ret (mkArrResult false false None None)
             end;
           do rssId <- crypto_randomUUID;
           do _ <- insertRss rssId (r_server_id request) (r_content_type request)
                     (r_tmdb_id request) (r_title request) (r_year request)
                     (r_overview request) (r_poster_path request)
                     (seasonsText (ab_seasons body) (r_seasons request))
                     (user_id user);
           do notes <- bindNotes (ab_notes body);
           do _ <- updateApproved (user_id user) notes (r_id request);
           do _ <- insertAudit (user_id user) "approve_request"
                     ("Approved " +:+ r_content_type request +:+ ": "
                      +:+ r_title request) ip;
           if success arrResult then
             ret (json 200
                    [("message", "Request approved and added to "
                                 +:+ managerName (r_content_type request));
                     ("rssId", rssId)])
           else
             ret (json 200
                    [("message", "Request approved");
                     ("warning", managerName (r_content_type request)
                                 +:+ " integration failed: "
                                 +:+ JS.show_str (arr_error arrResult));
                     ("rssId", rssId)])
     end)
    (fun error => ret (json 500 [("error", "Failed to approve request")])).

(** [router.post('/:id/approve', requireAdmin, ...)]. *)
Definition approveRequest (user : ReqUser) (ip id : string) (body : ApproveBody)
    : M W HttpResponse :=
  if negb (String.eqb (user_role user) "admin")
  then ret (json 403 [("error", "Admin access required")])
  else approveHandler user ip id body.

End Requests.

(** ** Predicates used in the statements *)

(** The four status strings of the download-manager checkers. *)
Definition managerStatuses : list string :=
  ["downloaded"; "queued"; "missing"; "unreleased"].

(** A value that a download-manager checker produces: [null] or one of
    the four status strings. *)
Definition isStatus (d : jsdata) : bool :=
  match d with
  | JNull => true
  | JStr s => existsb (String.eqb s) managerStatuses
  | JPresence _ _ => false
  end.

(** A value that a library presence checker produces. *)
Definition isPresence (d : jsdata) : bool :=
  match d with
  | JPresence _ _ => true
  | _ => false
  end.

(** [s.startsWith(p)]. *)
Fixpoint startsWith (p s : string) : bool :=
  match p with
  | EmptyString => true
  | String a p' =>
      match s with
      | String b s' => Ascii.eqb a b && startsWith p' s'
      | EmptyString => false
      end
  end.

(** The only value that the series checker produces. *)
Definition isNull (d : jsdata) : bool :=
  match d with
  | JNull => true
  | _ => false
  end.

(** Each family of cache keys holds the data of its own checker. *)
Definition entry_ok (key : string) (e : Entry) : bool :=
  if startsWith "plex_" key then isPresence (e_data e)
  else if startsWith "radarr_" key then isStatus (e_data e)
  else if startsWith "sonarr_" key then isNull (e_data e)
  else true.

(** The invariant of [availabilityCache]: it holds initially (the map is
    empty) and every checker keeps it. *)
Definition cache_ok (c : gmap string Entry) : Prop :=
  map_Forall (fun k e => entry_ok k e = true) c.

(** The database and the cache are left as they were. *)
Definition same_store {W} (s s' : State W) : Prop :=
  db s' = db s /\ cache s' = cache s.

(** The postcondition shared by the checkers: a value of the right
    family, the invariant, and an untouched database. *)
Definition checked (good : jsdata -> bool) {W} (s : State W)
    : jsdata -> State W -> Prop :=
  fun d s' => good d = true /\ cache_ok (cache s') /\ db s' = db s.

(** What the loop maintains on the running result. *)
Definition loop_inv (names : list string) (r : Availability) : Prop :=
  isStatus (arrStatus r) = true
  /\ (plexAvailable r = true <-> plexServers r <> [])
  /\ (forall n, In n (plexServers r) -> In n names).

(** A create call that passes the validation of the route: the body
    names item [tmdbId], kind [contentType] and a title, the user's
    primary server is [serverId], and that server is the row [server]. *)
Definition validCreate (user : ReqUser) (body : CreateBody) (d : DB)
    (tmdbId : Z) (contentType title serverId : string) (server : Server) : Prop :=
  b_tmdbId body = Some tmdbId /\ tmdbId <> 0
  /\ b_contentType body = Some contentType /\ contentTypeOk contentType = true
  /\ b_title body = Some title /\ title <> ""
  /\ primaryServerId user = Some serverId /\ serverId <> ""
  /\ List.find (fun x => String.eqb (srv_id x) serverId) (plex_servers d) = Some server.

(** The record that a create call writes for approval. *)
Definition pendingRow {W} (env : Env W) (user : ReqUser) (body : CreateBody)
    (id serverId : string) (tmdbId : Z) (contentType title : string) (t : Z)
    : RequestRow :=
  mkRequestRow id (user_id user) serverId tmdbId contentType title
               (JS.or_null_num (b_year body)) (JS.or_null_str (b_overview body))
               (JS.or_null_str (b_posterPath body))
               "pending" (seasonsText env (b_seasons body) None) t None None None.

(** [runs m s Q E]: from [s], [m] returns a value and a state that
    satisfy [Q], or throws an error and leaves a state that satisfy [E]. *)
Definition runs {W A} (m : M W A) (s : State W)
    (Q : A -> State W -> Prop) (E : JsError -> State W -> Prop) : Prop :=
  match m s with
  | (Ret a, s') => Q a s'
  | (Throw e, s') => E e s'
  end.

(** A postcondition for code that does not throw. *)
Definition no_throw {W} : JsError -> State W -> Prop := fun _ _ => False.

(** ** The four cached checkers, taken together *)

Section Checkers.

Context {W : Type} (env : Env W).

(** An invocation of one of the cached checkers of search.js. *)
Inductive Checker :=
| PlexCheck (k : PlexKind) (serverId title : string) (year : option string)
| RadarrCheck (serverId : string) (tmdbId : Z)
| SonarrCheck (serverId : string) (tmdbId : Z).

Definition runChecker (ch : Checker) : M W jsdata :=
  match ch with
  | PlexCheck k serverId title year => checkPlex env k serverId title year
  | RadarrCheck serverId tmdbId => checkRadarrMovie env serverId tmdbId
  | SonarrCheck serverId tmdbId => checkSonarrSeries env serverId tmdbId
  end.

(** The [cacheKey] of the invocation. *)
Definition checkerKey (ch : Checker) : string :=
  match ch with
  | PlexCheck k serverId title year => plexCacheKey k serverId title year
  | RadarrCheck serverId tmdbId => radarrCacheKey serverId tmdbId
  | SonarrCheck serverId tmdbId => sonarrCacheKey serverId tmdbId
  end.

(** What the [catch] clause and the guards of the checker return. *)
Definition softFailure (ch : Checker) : jsdata :=
  match ch with
  | PlexCheck _ _ _ _ => JPresence false None
  | _ => JNull
  end.

Definition checkerServerId (ch : Checker) : string :=
  match ch with
  | PlexCheck _ serverId _ _ => serverId
  | RadarrCheck serverId _ => serverId
  | SonarrCheck serverId _ => serverId
  end.

(** The server row the checker goes on with: it exists and, for a
    manager checker, has the manager's address and key. *)
Definition binding (d : DB) (ch : Checker) : option Server :=
  match List.find (fun x => String.eqb (srv_id x) (checkerServerId ch))
                  (plex_servers d) with
  | Some server =>
      match ch with
      | PlexCheck _ _ _ _ => Some server
      | RadarrCheck _ _ => if radarrConfigured server then Some server else None
      | SonarrCheck _ _ => if sonarrConfigured server then Some server else None
      end
  | None => None
  end.

(** The first remote call of an uncached invocation. *)
Definition firstCall (ch : Checker) (server : Server) : AnyCall :=
  match ch with
  | PlexCheck _ _ _ _ =>
      existT _ (PlexSections (srv_url server)
                             (decrypt_col env (Some (srv_token server))))
  | RadarrCheck _ _ =>
      existT _ (RadarrMovies (default "" (radarr_url server))
                             (decrypt_col env (radarr_api_key server)))
  | SonarrCheck _ _ =>
      existT _ (SonarrSeriesList (default "" (sonarr_url server))
                                 (decrypt_col env (sonarr_api_key server)))
  end.

(** Whether a remote call is answered with an error in world [w]. *)
Definition callFails (c : AnyCall) (w : W) : bool :=
  match fst (http env (projT2 c) w) with
  | inl _ => true
  | inr _ => false
  end.

(** The effect of an invocation on the cache: at most one write, under
    the key of the invocation. *)
Definition put (upd : option Entry) (key : string) (c : gmap string Entry)
    : gmap string Entry :=
  match upd with
  | Some e => <[key := e]> c
  | None => c
  end.

(** What an uncached invocation from database [d], world [w] and call
    log [tr] does, whatever the rest of the cache holds: it returns [o]
    and leaves world [w'], the log extended by [added] and the cache
    write [upd]. *)
Definition uncached (ch : Checker) (d : DB) (w : W) (tr : list Logged)
    (o : jsdata) (w' : W) (added : list Logged) (upd : option Entry) : Prop :=
  forall c,
    cacheHit (c !! checkerKey ch) (now env w) = None ->
    runChecker ch (mkState d c w tr)
    = (Ret o, mkState d (put upd (checkerKey ch) c) w' (tr ++ added)).

(** The summary of an uncached invocation used below. Without a usable
    server row there is neither a remote call nor a cache write. With
    one, the first remote call is issued; if some call of the invocation
    fails, the soft failure is returned and nothing is written; if none
    fails, the returned value is written. *)
Definition uncached_summary (ch : Checker) (d : DB) (w : W)
    (o : jsdata) (w' : W) (added : list Logged) (upd : option Entry) : Prop :=
  match binding d ch with
  | None => added = [] /\ upd = None /\ o = softFailure ch /\ w' = w
  | Some server =>
      (exists more,
         added = (firstCall ch server, callFails (firstCall ch server) w) :: more)
      /\ (if anyFailed added
          then upd = None /\ o = softFailure ch
          else exists t, upd = Some (mkEntry o t))
  end.

End Checkers.

(** ** What idempotence of the executors assumes of the managers *)

Section Managers.

Context {W : Type} (env : Env W).

(** [w'] is reached from [w] by remote calls. *)
Inductive reach : W -> W -> Prop :=
| reach_refl (w : W) : reach w w
| reach_step (w w' : W) (T : Type) (c : Call T) :
    reach w w' -> reach w (snd (http env c w')).

Definition isAdd {T} (c : Call T) : bool :=
  match c with
  | RadarrAdd _ _ _ | SonarrAdd _ _ _ => true
  | _ => false
  end.

(** The reads of the executors: catalog lookup, storage roots and
    quality profiles. *)
Definition isExecutorRead {T} (c : Call T) : bool :=
  match c with
  | RadarrLookup _ _ _ | SonarrLookup _ _ _
  | RootFolders _ _ | QualityProfiles _ _ => true
  | _ => false
  end.

(** The behaviour of Radarr and Sonarr that the executors count on;
    [movies w] and [series w] are the catalog identifiers (TMDB,
    respectively TVDB) that the managers track in world [w].
    - a call that is not an add tracks nothing new;
    - the answer to a read of the executors (lookup, storage roots,
      quality profiles) is not changed by other remote calls;
    - an add of a tracked identifier is rejected with status 400 and the
      "exists" validator, and nothing is added;
    - an add of an untracked identifier either succeeds and tracks it, or
      fails for another reason and tracks nothing. *)
Record Managers (movies series : W -> list Z) : Prop := mkManagers {
  reads_keep : forall T (c : Call T) w,
    isAdd c = false ->
    movies (snd (http env c w)) = movies w
    /\ series (snd (http env c w)) = series w;
  reads_stable : forall T (c : Call T) T' (c' : Call T') w,
    isExecutorRead c = true ->
    fst (http env c (snd (http env c' w))) = fst (http env c w);
  movie_known : forall url key body w,
    In (am_tmdbId body) (movies w) ->
    movies (snd (http env (RadarrAdd url key body) w)) = movies w
    /\ exists e, fst (http env (RadarrAdd url key body) w) = inl e
                 /\ existsRejection "MovieExistsValidator" e = true;
  movie_new : forall url key body w,
    ~ In (am_tmdbId body) (movies w) ->
    match fst (http env (RadarrAdd url key body) w) with
    | inr _ => movies (snd (http env (RadarrAdd url key body) w))
               = movies w ++ [am_tmdbId body]
    | inl e => movies (snd (http env (RadarrAdd url key body) w)) = movies w
               /\ existsRejection "MovieExistsValidator" e = false
    end;
  series_known : forall url key body w,
    In (as_tvdbId body) (series w) ->
    series (snd (http env (SonarrAdd url key body) w)) = series w
    /\ exists e, fst (http env (SonarrAdd url key body) w) = inl e
                 /\ existsRejection "SeriesExistsValidator" e = true;
  series_new : forall url key body w,
    ~ In (as_tvdbId body) (series w) ->
    match fst (http env (SonarrAdd url key body) w) with
    | inr _ => series (snd (http env (SonarrAdd url key body) w))
               = series w ++ [as_tvdbId body]
    | inl e => series (snd (http env (SonarrAdd url key body) w)) = series w
               /\ existsRejection "SeriesExistsValidator" e = false
    end }.

End Managers.

(** ** A reference environment

    A small deterministic world used to run the handlers on concrete
    inputs: one Plex server whose sections all hold [dw_plex], one Radarr
    and one Sonarr that reject an add of something they already track,
    a clock that advances by one millisecond per remote call, and
    identifiers drawn from a counter. [None] for a service means that it
    does not answer. *)

Module Demo.

Record World := mkWorld {
  dw_clock : Z;
  dw_uuid : Z;
  dw_plex : option (list PlexDirectory * list PlexMetadata);
  dw_radarr : option (list RadarrMovie);
  dw_queue : list QueueRecord;
  dw_sonarr : option (list SonarrSeries);
  dw_catalog : list LookupData;
  dw_roots : list RootFolder;
  dw_profiles : list QualityProfile }.

Definition tick (w : World) : World :=
  mkWorld (dw_clock w + 1) (dw_uuid w) (dw_plex w) (dw_radarr w) (dw_queue w)
          (dw_sonarr w) (dw_catalog w) (dw_roots w) (dw_profiles w).

Definition timeout : JsError :=
  mkJsError None None "timeout of 10000ms exceeded".

Definition rejected (code msg : string) : JsError :=
  mkJsError (Some 400) (Some [mkValidationError code (Some msg)])
            "Request failed with status code 400".

(** The answer of a service that is up, a timeout otherwise. *)
Definition answer {S T : Type} (service : option S) (f : S -> T) (w : World)
    : (JsError + T) * World :=
  match service with
  | Some x => (inr (f x), tick w)
  | None => (inl timeout, tick w)
  end.

Definition addMovie (body : AddMovie) (w : World) : (JsError + Z) * World :=
  match dw_radarr w with
  | None => (inl timeout, tick w)
  | Some movies =>
      if existsb (fun m => rm_tmdbId m =? am_tmdbId body) movies
      then (inl (rejected "MovieExistsValidator" "This movie has already been added"),
            tick w)
      else
        let id := Z.of_nat (length movies) + 1 in
        (inr id,
         mkWorld (dw_clock w + 1) (dw_uuid w) (dw_plex w)
                 (Some (movies ++ [mkRadarrMovie id (am_tmdbId body) false
                                                 (am_monitored body) "released"]))
                 (dw_queue w) (dw_sonarr w) (dw_catalog w) (dw_roots w)
                 (dw_profiles w))
  end.

Definition addSeries (body : AddSeries) (w : World) : (JsError + Z) * World :=
  match dw_sonarr w with
  | None => (inl timeout, tick w)
  | Some series =>
      if existsb (fun x => JS.num_strict_eq (ss_tvdbId x) (Some (as_tvdbId body))) series
      then (inl (rejected "SeriesExistsValidator" "This series has already been added"),
            tick w)
      else
        (inr (Z.of_nat (length series) + 1),
         mkWorld (dw_clock w + 1) (dw_uuid w) (dw_plex w) (dw_radarr w)
                 (dw_queue w)
                 (Some (series ++ [mkSonarrSeries (Some (as_tvdbId body))
                                                  (as_title body) (Some 0)]))
                 (dw_catalog w) (dw_roots w) (dw_profiles w))
  end.

Definition serve (T : Type) (c : Call T) : World -> (JsError + T) * World :=
  match c in Call T return World -> (JsError + T) * World with
  | PlexSections _ _ => fun w => answer (dw_plex w) fst w
  | PlexSectionAll _ _ _ _ _ => fun w => answer (dw_plex w) (fun p => Some (snd p)) w
  | RadarrMovies _ _ => fun w => answer (dw_radarr w) (fun l => l) w
  | RadarrQueue _ _ => fun w => answer (dw_radarr w) (fun _ => Some (dw_queue w)) w
  | SonarrSeriesList _ _ => fun w => answer (dw_sonarr w) (fun l => l) w
  | RadarrLookup _ _ tmdbId => fun w =>
      answer (dw_radarr w)
             (fun _ => List.find (fun x => lk_extId x =? tmdbId) (dw_catalog w)) w
  | SonarrLookup _ _ term => fun w =>
      answer (dw_sonarr w)
             (fun _ => Some (List.filter (fun x => String.eqb (lk_title x) term)
                                         (dw_catalog w))) w
  | RootFolders _ _ => fun w => (inr (Some (dw_roots w)), tick w)
  | QualityProfiles _ _ => fun w => (inr (Some (dw_profiles w)), tick w)
  | RadarrAdd _ _ body => addMovie body
  | SonarrAdd _ _ body => addSeries body
  end.

Definition uuid (w : World) : string * World :=
  ("uuid-" +:+ pretty (dw_uuid w),
   mkWorld (dw_clock w) (dw_uuid w + 1) (dw_plex w) (dw_radarr w) (dw_queue w)
           (dw_sonarr w) (dw_catalog w) (dw_roots w) (dw_profiles w)).

(** Season lists are written as digits separated by commas. *)
Fixpoint showSeasons (l : list Z) : string :=
  match l with
  | [] => ""
  | [x] => pretty x
  | x :: rest => pretty x +:+ "," +:+ showSeasons rest
  end.

Fixpoint readSeasons (s : string) (cur : option Z) (acc : list Z)
    : option (list Z) :=
  match s with
  | EmptyString =>
      match cur with
      | Some n => Some (acc ++ [n])
      | None => match acc with [] => Some [] | _ => None end
      end
  | String a r =>
      if Ascii.eqb a ","
      then match cur with
           | Some n => readSeasons r None (acc ++ [n])
           | None => None
           end
      else match JS.digit_of 10 a with
           | Some d => readSeasons r (Some (10 * default 0 cur + d)) acc
           | None => None
           end
  end.

Definition env : Env World :=
  mkEnv World dw_clock serve uuid (fun x => Some x)
        (fun l => "[" +:+ showSeasons l +:+ "]")
        (fun s =>
           match s with
           | String "[" r =>
               match String.rev r with
               | String "]" body => readSeasons (String.rev body) None []
               | _ => None
               end
           | _ => None
           end)
        JS.toLowerCase_ascii.

(** The server of the examples: Plex with Radarr and Sonarr attached. *)
Definition serverS : Server :=
  mkServer "S" "Home" "http://plex:32400" "plex-token"
           (Some "http://radarr:7878") (Some "radarr-key")
           (Some "http://sonarr:8989") (Some "sonarr-key").

(** A second server, without download managers. *)
Definition serverT : Server :=
  mkServer "T" "Cabin" "http://cabin:32400" "cabin-token" None None None None.

Definition admin : UserRow := mkUserRow "u0" "root" "admin".
Definition alice : UserRow := mkUserRow "u1" "alice" "user".
Definition bob : UserRow := mkUserRow "u2" "bob" "user".

(** The Matrix, as TMDB and the managers know it. *)
Definition matrix : CatalogItem := mkCatalogItem 603 "The Matrix" (Some "1999-03-30").
Definition matrixLookup : LookupData := mkLookupData "The Matrix" 603 1999.

Definition world0 : World :=
  mkWorld 1000000 1 (Some ([mkPlexDirectory "movie" "1"; mkPlexDirectory "show" "2"], []))
          (Some []) [] (Some []) [matrixLookup]
          [mkRootFolder "/movies"] [mkQualityProfile 4].

Definition db0 : DB := mkDB [serverS; serverT] [admin; alice; bob] [] [] [].

(** Severance, fully downloaded in Sonarr; The Matrix, with its file in
    Radarr and in the Plex library; and a Radarr that does not answer. *)
Definition severance : CatalogItem := mkCatalogItem 95396 "Severance" (Some "2022-02-17").

Definition worldSeries : World :=
  mkWorld 1000000 1 (Some ([mkPlexDirectory "movie" "1"; mkPlexDirectory "show" "2"], []))
          (Some []) [] (Some [mkSonarrSeries (Some 371980) "Severance" (Some 100)])
          [matrixLookup] [mkRootFolder "/movies"] [mkQualityProfile 4].

Definition worldDownloaded : World :=
  mkWorld 1000000 1
          (Some ([mkPlexDirectory "movie" "1"; mkPlexDirectory "show" "2"],
                 [mkPlexMetadata "The Matrix" (Some 1999)]))
          (Some [mkRadarrMovie 1 603 true true "released"]) [] (Some [])
          [matrixLookup] [mkRootFolder "/movies"] [mkQualityProfile 4].

Definition worldRadarrDown : World :=
  mkWorld 1000000 1 (Some ([mkPlexDirectory "movie" "1"; mkPlexDirectory "show" "2"], []))
          None [] (Some []) [matrixLookup] [mkRootFolder "/movies"]
          [mkQualityProfile 4].

Definition state0 : State World := mkState db0 ∅ world0 [].
Definition stateSeries : State World := mkState db0 ∅ worldSeries [].
Definition stateDownloaded : State World := mkState db0 ∅ worldDownloaded [].
Definition stateRadarrDown : State World := mkState db0 ∅ worldRadarrDown [].

(** The clock of [world0] reads 1000000: an entry written one second
    ago, and one written exactly five minutes ago. *)
Definition stateCached : State World :=
  mkState db0 {[ radarrCacheKey "S" 603 := mkEntry (JStr "queued") 999000 ]} world0 [].

Definition stateExpired : State World :=
  mkState db0 {[ radarrCacheKey "S" 603 := mkEntry (JStr "queued") 700000 ]} world0 [].

(** Requests: Alice's pending request for The Matrix on server S and a
    request of Bob's; a tracked item left by an earlier direct add. The
    times of the rows are in seconds, as SQLite stamps them. *)
Definition reqMatrix : RequestRow :=
  mkRequestRow "r1" "u1" "S" 603 "movie" "The Matrix" (Some 1999) None None
               "pending" None 999 None None None.

Definition reqBob : RequestRow :=
  mkRequestRow "r2" "u2" "S" 27205 "movie" "Inception" (Some 2010) None None
               "approved" None 990 (Some 995) (Some "u0") None.

Definition rssMatrix : RssRow :=
  mkRssRow "x1" "S" "movie" 603 "The Matrix" (Some 1999) None None None
           (Some "u2") 997.

Definition dbPending : DB := mkDB [serverS; serverT] [admin; alice; bob] [reqMatrix] [] [].
Definition dbBoth : DB := mkDB [serverS; serverT] [admin; alice; bob] [reqBob; reqMatrix] [] [].
Definition dbTracked : DB :=
  mkDB [serverS; serverT] [admin; alice; bob] [reqMatrix] [rssMatrix] [].

Definition statePending : State World := mkState dbPending ∅ world0 [].
Definition stateBoth : State World := mkState dbBoth ∅ world0 [].
Definition statePendingDown : State World := mkState dbPending ∅ worldRadarrDown [].
Definition stateTracked : State World := mkState dbTracked ∅ worldRadarrDown [].

Definition matrixBody : CreateBody :=
  mkCreateBody (Some 603) (Some "movie") (Some "The Matrix") (Some 1999) None None None.

(** What the managers of a world track. *)
Definition movies (w : World) : list Z :=
  map rm_tmdbId (default [] (dw_radarr w)).

Definition series (w : World) : list Z :=
  omap ss_tvdbId (default [] (dw_sonarr w)).

Definition asUser (u : UserRow) (direct : bool) (primary : option string)
    : ReqUser :=
  mkReqUser (u_id u) (u_role u) direct primary [serverS].

End Demo.

(** ** requests.js: the remaining routes *)

Section Moderation.

Context {W : Type} (env : Env W).

(** [requireAdmin] of middleware/auth.js in front of a handler, for a
    [req.user] set by [authenticateToken]; [denied] is how the route's
    response type carries the 403. *)
Definition adminRequired : HttpResponse :=
  json 403 [("error", "Admin access required")].

Definition requireAdmin {A} (user : ReqUser) (denied : HttpResponse -> A)
    (next : M W A) : M W A :=
  if negb (String.eqb (user_role user) "admin")
  then ret (denied adminRequired)
  else next.

(** *** GET /api/requests/pending *)

(** The answer of the route: [{ count }], or an error response. *)
Inductive CountResponse :=
| Count (count : Z)
| CountError (response : HttpResponse).

(** [SELECT COUNT( * ) as count FROM content_requests WHERE status =
    'pending']. *)
Definition countPending : M W Z :=
  fun s =>
    (Ret (Z.of_nat (length (List.filter (fun r => String.eqb (r_status r) "pending")
                                        (content_requests (db s))))), s).

(** [router.get('/pending', requireAdmin, ...)]. *)
Definition pendingCount (user : ReqUser) : M W CountResponse :=
  requireAdmin user CountError
    (try_catch
       (do count <- countPending;
        ret (Count count))
       (fun error =>
          ret (CountError (json 500 [("error", "Failed to get pending count")])))).

(** *** POST /api/requests/:id/reject *)

(** The row written by the [UPDATE] of the reject route. *)
Definition rejectedRow (r : RequestRow) (t : Z) (uid : string)
    (notes : option string) : RequestRow :=
  mkRequestRow (r_id r) (r_user_id r) (r_server_id r) (r_tmdb_id r)
               (r_content_type r) (r_title r) (r_year r) (r_overview r)
               (r_poster_path r) "rejected" (r_seasons r) (r_requested_at r)
               (Some t) (Some uid) notes.

(** [UPDATE content_requests SET status = 'rejected', processed_at =
    datetime('now'), processed_by = ?, notes = ? WHERE id = ?]. *)
Definition updateRejected (uid : string) (notes : option string) (id : string)
    : M W unit :=
  do d <- getDb;
  do t <- sql_now env;
  if negb (userExists d uid)
  then throw (SqliteError "FOREIGN KEY constraint failed")
  else
    setDb (mkDB (plex_servers d) (users d)
                (map (fun r => if String.eqb (r_id r) id
                               then rejectedRow r t uid notes else r)
                     (content_requests d))
                (rss_items d) (audit_log d)).

(** The handler of the reject route; [notes] is [req.body.notes] when it
    is a text or is missing. (Notes that SQLite cannot bind make the
    [UPDATE], the first write of the route, throw: the answer is the 500
    of the [catch] and nothing is written.) *)
Definition rejectHandler (user : ReqUser) (ip id : string) (notes : option string)
    : M W HttpResponse :=
  try_catch
    (do found <- getRequest id;
     match found with
     | None => ret (json 404 [("error", "Request not found")])
     | Some request =>
         if negb (String.eqb (r_status request) "pending")
         then ret (json 400 [("error", "Request is not pending")])
         else
           do _ <- updateRejected (user_id user) (JS.or_null_str notes) (r_id request);
           do _ <- insertAudit (user_id user) "reject_request"
                     ("Rejected " +:+ r_content_type request +:+ ": "
                      +:+ r_title request) ip;
           ret (json 200 [("message", "Request rejected")])
     end)
    (fun error => ret (json 500 [("error", "Failed to reject request")])).

(** [router.post('/:id/reject', requireAdmin, ...)]. *)
Definition rejectRequest (user : ReqUser) (ip id : string) (notes : option string)
    : M W HttpResponse :=
  requireAdmin user (fun r => r) (rejectHandler user ip id notes).

(** *** DELETE /api/requests/:id *)

(** [DELETE FROM content_requests WHERE id = ?]; no table refers to
    [content_requests]. *)
Definition deleteRow (id : string) : M W unit :=
  do d <- getDb;
  setDb (mkDB (plex_servers d) (users d)
              (List.filter (fun r => negb (String.eqb (r_id r) id)) (content_requests d))
              (rss_items d) (audit_log d)).

(** [router.delete('/:id', ...)]. *)
Definition deleteRequest (user : ReqUser) (ip id : string) : M W HttpResponse :=
  try_catch
    (do found <- getRequest id;
     match found with
     | None => ret (json 404 [("error", "Request not found")])
     | Some request =>
         do refused <-
           (if negb (String.eqb (user_role user) "admin") then
              if negb (String.eqb (r_user_id request) (user_id user))
              then ret (Some (json 403 [("error", "Access denied")]))
              else if negb (String.eqb (r_status request) "pending")
              then ret (Some (json 400 [("error", "Cannot delete processed request")]))
              else ret None
            else ret None);
         match refused with
         | Some response => ret response
         | None =>
             do _ <- deleteRow (r_id request);
             do _ <- insertAudit (user_id user) "delete_request"
                       ("Deleted request: " +:+ r_title request) ip;
             ret (json 200 [("message", "Request deleted")])
         end
     end)
    (fun error => ret (json 500 [("error", "Failed to delete request")])).

End Moderation.

(** ** search.js: enrichment of TMDB results *)

(** An element of [response.data.results] of a movie search, or the body
    of [/movie/:id]; [vote_average] is a JSON number that is only copied. *)
Record TmdbMovie := mkTmdbMovie {
  tm_id : Z;
  tm_title : string;
  tm_overview : option string;
  tm_poster_path : option string;
  tm_backdrop_path : option string;
  tm_release_date : option string;
  tm_vote_average : option QArith_base.Q }.

(** An element of [show.seasons]. *)
Record TmdbSeason := mkTmdbSeason {
  sn_season_number : Z;
  sn_name : option string;
  sn_episode_count : option Z;
  sn_air_date : option string;
  sn_poster_path : option string }.

(** A TV result, or the body of [/tv/:id]. *)
Record TmdbShow := mkTmdbShow {
  ts_id : Z;
  ts_name : string;
  ts_overview : option string;
  ts_poster_path : option string;
  ts_backdrop_path : option string;
  ts_first_air_date : option string;
  ts_vote_average : option QArith_base.Q;
  ts_number_of_seasons : option Z;
  ts_seasons : option (list TmdbSeason) }.

(** The objects pushed on [results]; the five fields spread from
    [availability] share no name with the others and are kept together. *)
Record EnrichedMovie := mkEnrichedMovie {
  em_id : Z;
  em_title : string;
  em_overview : option string;
  em_posterPath : option string;
  em_backdropPath : option string;
  em_releaseDate : option string;
  em_year : option Z;
  em_voteAverage : option QArith_base.Q;
  em_mediaType : string;
  em_availability : Availability }.

Record SeasonInfo := mkSeasonInfo {
  si_seasonNumber : Z;
  si_name : option string;
  si_episodeCount : option Z;
  si_airDate : option string;
  si_posterPath : option string }.

Record EnrichedShow := mkEnrichedShow {
  es_id : Z;
  es_title : string;
  es_overview : option string;
  es_posterPath : option string;
  es_backdropPath : option string;
  es_firstAirDate : option string;
  es_year : option Z;
  es_voteAverage : option QArith_base.Q;
  es_mediaType : string;
  es_numberOfSeasons : option Z;
  es_availability : Availability;
  es_seasons : option (list SeasonInfo) }.

Section Enrichment.

Context {W : Type} (env : Env W).

(** [date ? parseInt(date.split('-')[0]) : null]; [None] stands for
    [null] and for [NaN], which [res.json] writes as [null] as well. *)
Definition yearOf (date : option string) : option Z :=
  if JS.truthy_str date
  then JS.parseInt (JS.split_dash_head (default "" date))
  else None.

(** What the availability check reads of a movie and of a show. *)
Definition movieItem (movie : TmdbMovie) : CatalogItem :=
  mkCatalogItem (tm_id movie) (tm_title movie) (tm_release_date movie).

Definition showItem (show : TmdbShow) : CatalogItem :=
  mkCatalogItem (ts_id show) (ts_name show) (ts_first_air_date show).

(** [enrichMovieResults(movies, user)]. *)
Fixpoint enrichMovieResults (movies : list TmdbMovie) (user : ReqUser)
    : M W (list EnrichedMovie) :=
  match movies with
  | [] => ret []
  | movie :: rest =>
      do availability <- checkMovieAvailability env (movieItem movie) user;
      do results <- enrichMovieResults rest user;
      ret (mkEnrichedMovie (tm_id movie) (tm_title movie) (tm_overview movie)
             (tm_poster_path movie) (tm_backdrop_path movie)
             (tm_release_date movie) (yearOf (tm_release_date movie))
             (tm_vote_average movie) "movie" availability
           :: results)
  end.

(** [s => ({ seasonNumber: s.season_number, ... })]. *)
Definition seasonInfo (s : TmdbSeason) : SeasonInfo :=
  mkSeasonInfo (sn_season_number s) (sn_name s) (sn_episode_count s)
               (sn_air_date s) (sn_poster_path s).

(** [enrichTvResults(shows, user, includeSeasons)]. *)
Fixpoint enrichTvResults (shows : list TmdbShow) (user : ReqUser)
    (includeSeasons : bool) : M W (list EnrichedShow) :=
  match shows with
  | [] => ret []
  | show :: rest =>
      do availability <- checkTvAvailability env (showItem show) user;
      let seasons :=
        if includeSeasons then map seasonInfo <$> ts_seasons show else None in
      do results <- enrichTvResults rest user includeSeasons;
      ret (mkEnrichedShow (ts_id show) (ts_name show) (ts_overview show)
             (ts_poster_path show) (ts_backdrop_path show)
             (ts_first_air_date show) (yearOf (ts_first_air_date show))
             (ts_vote_average show) "tv" (ts_number_of_seasons show)
             availability seasons
           :: results)
  end.

End Enrichment.
(** ** Further predicates *)

(** What the aggregation is measured against: the checkers themselves,
    run one bound server after the other in the order of [user.servers],
    the presence check on every server and the manager check on the
    primary server only, each from the state that the check before it
    left. A visit records what the checks of one server returned. *)
Record Visit := mkVisit {
  v_server : Server;
  v_plex : outcome jsdata;
  v_manager : option (outcome jsdata) }.

Fixpoint survey {W} (env : Env W) (k : PlexKind) (item : CatalogItem)
    (user : ReqUser) (servers : list Server) (s : State W)
    : list Visit * State W :=
  match servers with
  | [] => ([], s)
  | server :: rest =>
      let '(plex, s1) :=
        checkPlex env k (srv_id server) (item_title item) (itemYear item) s in
      let '(manager, s2) :=
        if decide (Some (srv_id server) = primaryServerId user)
        then let '(d, s2) := checkArr env k (srv_id server) (item_id item) s1 in
             (Some d, s2)
        else (None, s1) in
      let '(log, s3) := survey env k item user rest s2 in
      (mkVisit server plex manager :: log, s3)
  end.

(** The presence check of the visit reported the item. *)
Definition holds (v : Visit) : bool :=
  match v_plex v with
  | Ret (JPresence b _) => b
  | _ => false
  end.

(** The names of the servers whose presence check reported the item. *)
Definition holders (log : list Visit) : list string :=
  map (fun v => srv_name (v_server v)) (List.filter holds log).

(** The last manager result of the visits that is truthy, [init] if
    there is none. *)
Definition managerFrom (init : jsdata) (log : list Visit) : jsdata :=
  fold_left (fun acc v =>
               match v_manager v with
               | Some (Ret d) => if truthy d then d else acc
               | _ => acc
               end) log init.

(** A logged call went to a Plex server, not to a download manager. *)
Definition isPlexCall (l : Logged) : bool :=
  match projT2 (fst l) with
  | PlexSections _ _ | PlexSectionAll _ _ _ _ _ => true
  | _ => false
  end.

(** The calls logged between two states all went to Plex. *)
Definition plex_only {W} (s s' : State W) : Prop :=
  exists added, trace s' = trace s ++ added /\ forallb isPlexCall added = true.

(** What a create call answered 201 has written, from database [d] to
    [d']: an audit row and, for a user who adds directly, one tracked
    item; otherwise one pending request. *)
Definition created (user : ReqUser) (serverId : string) (tmdbId : Z)
    (contentType title : string) (d d' : DB) : Prop :=
  plex_servers d' = plex_servers d /\ users d' = users d
  /\ (exists a, audit_log d' = audit_log d ++ [a]
                /\ a_user_id a = Some (user_id user))
  /\ if canAddDirectly user
     then content_requests d' = content_requests d
          /\ exists row, rss_items d' = rss_items d ++ [row]
                         /\ rss_server_id row = serverId
                         /\ rss_content_type row = contentType
                         /\ rss_tmdb_id row = tmdbId
                         /\ rss_added_by row = Some (user_id user)
     else rss_items d' = rss_items d
          /\ exists row, content_requests d' = content_requests d ++ [row]
                         /\ r_user_id row = user_id user
                         /\ r_server_id row = serverId
                         /\ r_tmdb_id row = tmdbId
                         /\ r_content_type row = contentType
                         /\ r_title row = title
                         /\ r_status row = "pending".

(** The values of the aggregated [status]. *)
Definition overallStatuses : list string :=
  ["available"; "downloaded"; "queued"; "missing"; "unreleased"; "requested";
   "not_available"].

(** From database [d] to [d'], one tracked item was added and nothing
    else was written. *)
Definition tracksOnly (d d' : DB) : Prop :=
  exists row,
    d' = mkDB (plex_servers d) (users d) (content_requests d)
              (rss_items d ++ [row]) (audit_log d).

(** How the approve and the reject route answer user [user] about
    request [id] from state [s]; [mark r t] is the row that a success
    at time [t] writes in place of [r], and [undone d d'] is what a
    failure leaves of database [d]. *)
Definition moderated {W} (mark : RequestRow -> Z -> RequestRow)
    (undone : DB -> DB -> Prop) (user : ReqUser)
    (id : string) (s : State W) (resp : HttpResponse) (s' : State W) : Prop :=
  cache s' = cache s
  /\ if negb (String.eqb (user_role user) "admin")
     then res_status resp = 403 /\ s' = s
     else
       match List.find (fun r => String.eqb (r_id r) id) (content_requests (db s)) with
       | None => res_status resp = 404 /\ s' = s
       | Some request =>
           if negb (String.eqb (r_status request) "pending")
           then resp = json 400 [("error", "Request is not pending")] /\ s' = s
           else (res_status resp = 500 /\ undone (db s) (db s'))
                \/ (res_status resp = 200
                    /\ plex_servers (db s') = plex_servers (db s)
                    /\ users (db s') = users (db s)
                    /\ exists t,
                         content_requests (db s')
                         = map (fun r => if String.eqb (r_id r) id then mark r t else r)
                               (content_requests (db s)))
       end.

(** What a failed approval leaves: the database as it was, or, when the
    notes of the body cannot be bound, the tracked item that the route
    inserts before its [UPDATE]. *)
Definition approvalUndone (body : ApproveBody) (d d' : DB) : Prop :=
  d' = d \/ (ab_notes body = Some NoteOther /\ tracksOnly d d').

(** What a failed rejection leaves: the database as it was. *)
Definition rejectionUndone (d d' : DB) : Prop := d' = d.

(** How the delete route answers user [user] about request [id] from
    state [s]. *)
Definition deleted {W} (user : ReqUser) (id : string) (s : State W)
    (resp : HttpResponse) (s' : State W) : Prop :=
  cache s' = cache s /\ world s' = world s /\ trace s' = trace s
  /\ plex_servers (db s') = plex_servers (db s) /\ users (db s') = users (db s)
  /\ rss_items (db s') = rss_items (db s)
  /\ match List.find (fun r => String.eqb (r_id r) id) (content_requests (db s)) with
     | None => res_status resp = 404 /\ s' = s
     | Some request =>
         if negb (String.eqb (user_role user) "admin")
            && negb (String.eqb (r_user_id request) (user_id user))
         then res_status resp = 403 /\ s' = s
         else if negb (String.eqb (user_role user) "admin")
                 && negb (String.eqb (r_status request) "pending")
         then res_status resp = 400 /\ s' = s
         else content_requests (db s')
              = List.filter (fun r => negb (String.eqb (r_id r) id))
                            (content_requests (db s))
              /\ ((res_status resp = 200
                   /\ exists a, audit_log (db s') = audit_log (db s) ++ [a])
                  \/ (res_status resp = 500
                      /\ userExists (db s) (user_id user) = false))
     end.

(** ** More of the reference environment *)

Module Cases.

(** A request body for the series Severance. *)
Definition severanceBody : CreateBody :=
  mkCreateBody (Some 95396) (Some "tv") (Some "Severance") (Some 2022) None None None.

(** Radarr monitors The Matrix without a file, and it sits in the
    download queue; Plex does not hold it. *)
Definition worldQueued : Demo.World :=
  Demo.mkWorld 1000000 1
    (Some ([mkPlexDirectory "movie" "1"; mkPlexDirectory "show" "2"], []))
    (Some [mkRadarrMovie 7 603 false true "released"]) [mkQueueRecord 7] (Some [])
    [Demo.matrixLookup] [mkRootFolder "/movies"] [mkQualityProfile 4].

Definition stateQueued : State Demo.World := mkState Demo.db0 ∅ worldQueued [].

(** Alice's pending request for The Matrix while Radarr already
    monitors it. *)
Definition statePendingQueued : State Demo.World :=
  mkState Demo.dbPending ∅ worldQueued [].

(** A pending request for The Matrix on the second server, while the
    Radarr of the first server has the file. *)
Definition reqCabin : RequestRow :=
  mkRequestRow "r3" "u2" "T" 603 "movie" "The Matrix" (Some 1999) None None
               "pending" None 999 None None None.

Definition stateElsewhere : State Demo.World :=
  mkState (mkDB [Demo.serverS; Demo.serverT] [Demo.admin; Demo.alice; Demo.bob]
                [reqCabin] [] [])
          ∅ Demo.worldDownloaded [].

(** TMDB's record of The Matrix. *)
Definition matrixMovie : TmdbMovie :=
  mkTmdbMovie 603 "The Matrix" None (Some "/matrix.jpg") None (Some "1999-03-30") None.

End Cases.

(** * Properties *)

(** ** JavaScript primitives *)

Example parseInt_year : JS.parseInt "1999" = Some 1999.
Proof. reflexivity. Qed.

Example parseInt_hex : JS.parseInt " -0x1f rest" = Some (-31).
Proof. reflexivity. Qed.

Example parseInt_nan : JS.parseInt "abc" = None.
Proof. reflexivity. Qed.

(** A no-break space (U+00A0) and an ideographic space (U+3000) before
    the digits are skipped. *)
Example parseInt_wide_space :
  JS.parseInt (String (ascii_of_nat 194) (String (ascii_of_nat 160)
                 (String (ascii_of_nat 227) (String (ascii_of_nat 128)
                    (String (ascii_of_nat 128) "2022"))))) = Some 2022.
Proof. reflexivity. Qed.

(** [parseInt('9007199254740993')] is [9007199254740992]: a tie, rounded
    to the even significand. *)
Example parseInt_rounds : JS.parseInt "9007199254740993" = Some 9007199254740992.
Proof. vm_compute. reflexivity. Qed.

Example parseInt_rounds_up : JS.parseInt "9007199254740995" = Some 9007199254740996.
Proof. vm_compute. reflexivity. Qed.

Example lower_matrix : JS.toLowerCase_ascii "The MATRIX" = "the matrix".
Proof. reflexivity. Qed.
(** ** Rules for [runs] *)

Section Rules.

Context {W : Type} (env : Env W).

Lemma runs_ret {A} (a : A) (s : State W) Q E :
  Q a s -> runs (ret a) s Q E.
Proof. intros H. exact H. Qed.

Lemma runs_throw {A} (e : JsError) (s : State W) (Q : A -> State W -> Prop) E :
  E e s -> runs (throw e) s Q E.
Proof. intros H. exact H. Qed.

Lemma runs_bind {A B} (m : M W A) (k : A -> M W B) (s : State W) Q E :
  runs m s (fun a s' => runs (k a) s' Q E) E -> runs (bind m k) s Q E.
Proof.
  unfold runs, bind. destruct (m s) as [[a|e] s']; intros H; exact H.
Qed.

Lemma runs_try {A} (m : M W A) (h : JsError -> M W A) (s : State W) Q E :
  runs m s Q (fun e s' => runs (h e) s' Q E) -> runs (try_catch m h) s Q E.
Proof.
  unfold runs, try_catch. destruct (m s) as [[a|e] s']; intros H; exact H.
Qed.

Lemma runs_weaken {A} (m : M W A) (s : State W)
    (Q Q' : A -> State W -> Prop) (E E' : JsError -> State W -> Prop) :
  runs m s Q E ->
  (forall a s', Q a s' -> Q' a s') ->
  (forall e s', E e s' -> E' e s') ->
  runs m s Q' E'.
Proof.
  unfold runs. destruct (m s) as [[a|e] s']; intros H HQ HE; auto.
Qed.

Lemma runs_returns {A} (m : M W A) (s : State W) Q :
  runs m s Q no_throw -> exists a s', m s = (Ret a, s') /\ Q a s'.
Proof.
  unfold runs, no_throw. destruct (m s) as [[a|e] s']; intros H.
  - exists a, s'. split; [reflexivity | exact H].
  - destruct H.
Qed.


(** A remote call touches neither the database nor the cache. *)
Lemma runs_axios {T} (c : Call T) (s : State W) Q E :
  (forall s', same_store s s' ->
     world s' = snd (http env c (world s)) ->
     match fst (http env c (world s)) with
     | inl e => trace s' = trace s ++ [(existT T c, true)] -> E e s'
     | inr v => trace s' = trace s ++ [(existT T c, false)] -> Q v s'
     end) ->
  runs (axios env c) s Q E.
Proof.
  intros H. unfold runs, axios.
  destruct (http env c (world s)) as [[e|v] w'] eqn:Hc; simpl in H.
  - apply (H (mkState (db s) (cache s) w' (trace s ++ [(existT T c, true)])));
      try split; reflexivity.
  - apply (H (mkState (db s) (cache s) w' (trace s ++ [(existT T c, false)])));
      try split; reflexivity.
Qed.

End Rules.

(** ** Library presence: the match predicate *)

Lemma string_eqb_true (a b : string) : String.eqb a b = true <-> a = b.
Proof. apply String.eqb_eq. Qed.

Lemma truthy_str_some (s : string) : JS.truthy_str (Some s) = true <-> s <> "".
Proof.
  unfold JS.truthy_str. rewrite negb_true_iff.
  split; intros H.
  - intros ->. discriminate.
  - apply String.eqb_neq. exact H.
Qed.

Lemma num_strict_eq_true (a b : option Z) :
  JS.num_strict_eq a b = true <-> exists y, a = Some y /\ b = Some y.
Proof.
  split.
  - destruct a as [x|], b as [y|]; simpl; intros H; try discriminate.
    apply Z.eqb_eq in H. subst. eauto.
  - intros (z & -> & ->). simpl. apply Z.eqb_refl.
Qed.

(** C2, as the code has it: with a year supplied, a remote record matches
    exactly when the titles agree after [toLowerCase] and the record
    carries a year equal to the supplied one read by [parseInt]; a record
    without a year does not match. Without a supplied year the title
    alone decides. *)
Theorem plexMatch_supplied_year {W : Type} (env : Env W) (title year : string)
    (m : PlexMetadata) :
  year <> "" ->
  (plexMatch env title (Some year) m = true <->
     toLowerCase env (md_title m) = toLowerCase env title
     /\ exists y, md_year m = Some y /\ JS.parseInt year = Some y)
  /\ (md_year m = None -> plexMatch env title (Some year) m = false)
  /\ (forall absent, JS.truthy_str absent = false ->
        (plexMatch env title absent m = true <->
           toLowerCase env (md_title m) = toLowerCase env title)).
Proof.
  intros Hy. apply truthy_str_some in Hy.
  split; [|split].
  - unfold plexMatch. rewrite Hy. simpl.
    rewrite andb_true_iff, string_eqb_true, num_strict_eq_true. tauto.
  - intros Hn. unfold plexMatch. rewrite Hy, Hn. simpl. apply andb_false_r.
  - intros absent Ha. unfold plexMatch. rewrite Ha. simpl.
    rewrite andb_true_r. apply string_eqb_true.
Qed.

Lemma plexMatch_supplied_year_witness :
  "1999" <> ""
  /\ plexMatch Demo.env "the matrix" (Some "1999")
               (mkPlexMetadata "The Matrix" (Some 1999)) = true
  /\ plexMatch Demo.env "the matrix" (Some "1999")
               (mkPlexMetadata "The Matrix" None) = false.
Proof.
  assert (H : "1999" <> "") by discriminate.
  split; [exact H|].
  split.
  - apply (proj1 (plexMatch_supplied_year Demo.env "the matrix" "1999"
                    (mkPlexMetadata "The Matrix" (Some 1999)) H)).
    split; [reflexivity|]. exists 1999. split; reflexivity.
  - apply (proj1 (proj2 (plexMatch_supplied_year Demo.env "the matrix" "1999"
                    (mkPlexMetadata "The Matrix" None) H))).
    reflexivity.
Defined.

(** C2 as worded fails, whatever [toLowerCase] does: a record without a
    year, whose title is the requested one, is not matched when a year is
    supplied. *)
Lemma plexMatch_missing_remote_year_counterexample :
  ~ (exists (W : Type) (env : Env W),
       forall (title year : string) (m : PlexMetadata),
         year <> "" ->
         (plexMatch env title (Some year) m = true <->
            toLowerCase env (md_title m) = toLowerCase env title
            /\ (forall y, md_year m = Some y -> JS.parseInt year = Some y))).
Proof.
  intros (W & env & H).
  specialize (H "The Matrix" "1999" (mkPlexMetadata "The Matrix" None)).
  assert (Hy : "1999" <> "") by discriminate.
  destruct (H Hy) as [_ Hback].
  assert (Hm : plexMatch env "The Matrix" (Some "1999")
                 (mkPlexMetadata "The Matrix" None) = true).
  { apply Hback. split; [reflexivity|]. intros y Hsome. discriminate. }
  unfold plexMatch in Hm. simpl in Hm. rewrite andb_false_r in Hm. discriminate.
Qed.

(** ** The availability cache keeps each key family well typed *)

Section CacheInvariant.

Context {W : Type} (env : Env W).

Lemma plexKey_entry_ok k sid title year d t :
  entry_ok (plexCacheKey k sid title year) (mkEntry d t) = isPresence d.
Proof. destruct k; reflexivity. Qed.

Lemma radarrKey_entry_ok sid id d t :
  entry_ok (radarrCacheKey sid id) (mkEntry d t) = isStatus d.
Proof. reflexivity. Qed.

Lemma sonarrKey_entry_ok sid id d t :
  entry_ok (sonarrCacheKey sid id) (mkEntry d t) = isNull d.
Proof. reflexivity. Qed.

Lemma cacheHit_lookup (c : gmap string Entry) key t d :
  cacheHit (c !! key) t = Some d ->
  exists e, c !! key = Some e /\ e_data e = d /\ t - e_timestamp e < CACHE_TTL.
Proof.
  unfold cacheHit. destruct (c !! key) as [e|]; [|discriminate].
  destruct (t - e_timestamp e <? CACHE_TTL) eqn:Hlt; [|discriminate].
  intros [= <-]. exists e. apply Z.ltb_lt in Hlt. auto.
Qed.

Lemma cache_ok_hit (c : gmap string Entry) key t d :
  cache_ok c -> cacheHit (c !! key) t = Some d -> entry_ok key (mkEntry d t) = true.
Proof.
  intros Hok Hhit. apply cacheHit_lookup in Hhit as (e & Hl & <- & _).
  specialize (Hok key e Hl). simpl in Hok. destruct e; exact Hok.
Qed.

Lemma runs_cacheSet key d (s : State W) (Q : unit -> State W -> Prop) E :
  Q tt (mkState (db s) (<[key := mkEntry d (now env (world s))]> (cache s))
                (world s) (trace s)) ->
  runs (cacheSet env key d) s Q E.
Proof. intros H. exact H. Qed.

Lemma cache_ok_insert (c : gmap string Entry) key d t :
  cache_ok c -> entry_ok key (mkEntry d t) = true ->
  cache_ok (<[key := mkEntry d t]> c).
Proof. intros Hok He. apply map_Forall_insert_2; assumption. Qed.

Lemma scanSections_ok k server token title year sections :
  forall s0 s : State W,
    cache_ok (cache s) -> db s = db s0 ->
    runs (scanSections env k server token title year
                       (plexCacheKey k (srv_id server) title year) sections) s
         (fun hit s' =>
            cache_ok (cache s') /\ db s' = db s0
            /\ match hit with Some d => isPresence d = true | None => True end)
         (fun _ s' => cache_ok (cache s') /\ db s' = db s0).
Proof.
  induction sections as [|sec rest IH]; intros s0 s Hok Hdb; simpl.
  - apply runs_ret. auto.
  - apply runs_bind, runs_axios. intros s' [Hd Hc] _.
    destruct (fst (http env _ (world s))) as [e|resp]; intros _.
    + rewrite Hc, Hd. auto.
    + destruct (List.find (plexMatch env title year) (default [] resp)) as [m|].
      * apply runs_bind, runs_cacheSet, runs_ret. simpl.
        split; [|split; [congruence | reflexivity]].
        apply cache_ok_insert; [rewrite Hc; exact Hok|].
        rewrite plexKey_entry_ok. reflexivity.
      * apply IH; [rewrite Hc; exact Hok | congruence].
Qed.

Lemma getServer_runs sid (s : State W) (Q : option Server -> State W -> Prop) E :
  Q (List.find (fun x => String.eqb (srv_id x) sid) (plex_servers (db s))) s ->
  runs (getServer sid) s Q E.
Proof. intros H. exact H. Qed.

Lemma find_srv_id sid (l : list Server) server :
  List.find (fun x => String.eqb (srv_id x) sid) l = Some server ->
  srv_id server = sid.
Proof.
  intros H. apply List.find_some in H as [_ H]. apply String.eqb_eq in H. exact H.
Qed.

Lemma checkPlex_ok k sid title year (s : State W) :
  cache_ok (cache s) ->
  runs (checkPlex env k sid title year) s (checked isPresence s) no_throw.
Proof.
  intros Hok. unfold checkPlex, checked.
  apply runs_try, runs_bind. unfold cacheGet, runs at 1.
  apply runs_bind. unfold Date_now, runs at 1.
  destruct (cacheHit _ _) as [d|] eqn:Hhit.
  - apply runs_ret. split; [|auto].
    apply (cache_ok_hit _ _ _ _ Hok) in Hhit.
    rewrite plexKey_entry_ok in Hhit. exact Hhit.
  - apply runs_bind, getServer_runs.
    destruct (List.find _ _) as [server|] eqn:Hsrv.
    + apply find_srv_id in Hsrv. subst sid.
      apply runs_bind, runs_axios. intros s1 [Hd Hc] _.
      destruct (fst (http env _ (world s))) as [e|dirs]; intros _.
      * apply runs_ret. rewrite Hc, Hd. auto.
      * apply runs_bind.
        eapply runs_weaken.
        { apply (scanSections_ok k server _ title year _ s s1);
            [rewrite Hc; exact Hok | exact Hd]. }
        -- intros [d|] s2 (Hok2 & Hd2 & Hp).
           ++ apply runs_ret. auto.
           ++ apply runs_bind, runs_cacheSet, runs_ret. simpl.
              split; [reflexivity|]. split; [|exact Hd2].
              apply cache_ok_insert; [exact Hok2|].
              rewrite plexKey_entry_ok. reflexivity.
        -- intros e s2 [Hok2 Hd2]. apply runs_ret. auto.
    + apply runs_ret. auto.
Qed.

Lemma checkRadarrMovie_ok sid tmdbId (s : State W) :
  cache_ok (cache s) ->
  runs (checkRadarrMovie env sid tmdbId) s (checked isStatus s) no_throw.
Proof.
  intros Hok. unfold checkRadarrMovie, checked.
  apply runs_try, runs_bind. unfold cacheGet, runs at 1.
  apply runs_bind. unfold Date_now, runs at 1.
  destruct (cacheHit _ _) as [d|] eqn:Hhit.
  - apply runs_ret. split; [|auto].
    apply (cache_ok_hit _ _ _ _ Hok) in Hhit.
    rewrite radarrKey_entry_ok in Hhit. exact Hhit.
  - apply runs_bind, getServer_runs.
    destruct (List.find _ _) as [server|]; [|apply runs_ret; auto].
    destruct (negb (radarrConfigured server)); [apply runs_ret; auto|].
    apply runs_bind, runs_axios. intros s1 [Hd Hc] _.
    destruct (fst (http env _ (world s))) as [e|movies]; intros _.
    { apply runs_ret. rewrite Hc, Hd. auto. }
    assert (Hfin : forall d (s2 : State W),
               isStatus d = true -> cache s2 = cache s -> db s2 = db s ->
               runs (do _ <- cacheSet env (radarrCacheKey sid tmdbId) d; ret d) s2
                    (fun d' s' => isStatus d' = true /\ cache_ok (cache s') /\ db s' = db s)
                    (fun _ s' => runs (ret JNull) s'
                       (fun d' s' => isStatus d' = true /\ cache_ok (cache s') /\ db s' = db s)
                       no_throw)).
    { intros d s2 Hs Hc2 Hd2. apply runs_bind, runs_cacheSet, runs_ret. simpl.
      split; [exact Hs|]. split; [|exact Hd2].
      apply cache_ok_insert; [rewrite Hc2; exact Hok|].
      rewrite radarrKey_entry_ok. exact Hs. }
    apply runs_bind.
    destruct (List.find _ movies) as [movie|].
    + destruct (rm_hasFile movie).
      * apply runs_ret. apply Hfin; auto.
      * destruct (rm_monitored movie).
        -- apply runs_bind, runs_axios. intros s2 [Hd2 Hc2] _.
           destruct (fst (http env _ (world s1))) as [e|queue]; intros _.
           ++ apply runs_ret. rewrite Hc2, Hc, Hd2, Hd. auto.
           ++ apply runs_ret. apply Hfin; [|congruence|congruence].
              destruct (match queue with Some _ => _ | None => _ end);
                [reflexivity|].
              destruct (String.eqb (rm_status movie) "released"); reflexivity.
        -- apply runs_ret. apply Hfin; auto.
    + apply runs_ret. apply Hfin; auto.
Qed.

Lemma checkSonarrSeries_ok sid tmdbId (s : State W) :
  cache_ok (cache s) ->
  runs (checkSonarrSeries env sid tmdbId) s (checked isNull s) no_throw.
Proof.
  intros Hok. unfold checkSonarrSeries, checked.
  apply runs_try, runs_bind. unfold cacheGet, runs at 1.
  apply runs_bind. unfold Date_now, runs at 1.
  destruct (cacheHit _ _) as [d|] eqn:Hhit.
  - apply runs_ret. split; [|auto].
    apply (cache_ok_hit _ _ _ _ Hok) in Hhit.
    rewrite sonarrKey_entry_ok in Hhit. exact Hhit.
  - apply runs_bind, getServer_runs.
    destruct (List.find _ _) as [server|]; [|apply runs_ret; auto].
    destruct (negb (sonarrConfigured server)); [apply runs_ret; auto|].
    apply runs_bind, runs_axios. intros s1 [Hd Hc] _.
    destruct (fst (http env _ (world s))) as [e|series]; intros _.
    + apply runs_ret. rewrite Hc, Hd. auto.
    + apply runs_bind, runs_cacheSet, runs_ret. simpl.
      split; [reflexivity|]. split; [|exact Hd].
      apply cache_ok_insert; [rewrite Hc; exact Hok|]. reflexivity.
Qed.

End CacheInvariant.

(** ** Aggregation *)

Section Aggregation.

Context {W : Type} (env : Env W).


Lemma isStatus_cases d :
  isStatus d = true ->
  d = JNull \/ exists st, In st managerStatuses /\ d = JStr st.
Proof.
  destruct d as [|st|]; simpl; intros H; [left; reflexivity | right | discriminate].
  exists st. split; [|reflexivity].
  repeat rewrite orb_true_iff in H. unfold managerStatuses. simpl.
  repeat destruct H as [H|H]; try discriminate;
    apply String.eqb_eq in H; subst; tauto.
Qed.

Lemma isStatus_truthy d :
  isStatus d = true -> truthy d = negb (match d with JNull => true | _ => false end).
Proof.
  intros H. destruct (isStatus_cases d H) as [->|(st & Hin & ->)]; [reflexivity|].
  unfold managerStatuses in Hin. simpl in Hin.
  repeat destruct Hin as [<-|Hin]; try reflexivity. destruct Hin.
Qed.

Lemma checkArr_ok k sid tmdbId (s : State W) :
  cache_ok (cache s) ->
  runs (checkArr env k sid tmdbId) s (checked isStatus s) no_throw.
Proof.
  intros Hok. destruct k; [apply checkRadarrMovie_ok; exact Hok|].
  eapply runs_weaken; [apply checkSonarrSeries_ok; exact Hok | | auto].
  intros d s' (Hn & H). split; [|exact H]. destruct d; try discriminate. reflexivity.
Qed.

(** One server: the library flag is raised exactly when the presence
    check of this server, run first, reports the item. *)
Lemma serverStep_ok k item user server names acc (s0 s : State W) :
  cache_ok (cache s) -> db s = db s0 -> loop_inv names acc ->
  In (srv_name server) names ->
  runs (serverStep env k item user server acc) s
       (fun r s' =>
          cache_ok (cache s') /\ db s' = db s0 /\ loop_inv names r
          /\ exists b f s1,
               checkPlex env k (srv_id server) (item_title item) (itemYear item) s
                 = (Ret (JPresence b f), s1)
               /\ plexAvailable r = (plexAvailable acc || b)%bool)
       no_throw.
Proof.
  intros Hok Hdb (Hst & Hav & Hnames) Hin. unfold serverStep.
  pose proof (checkPlex_ok env k (srv_id server) (item_title item) (itemYear item) s Hok)
    as Hplex.
  apply runs_bind. unfold runs at 1. unfold runs in Hplex.
  destruct (checkPlex env k _ _ _ s) as [[[| |b f]|e] s1] eqn:Hrun.
  1, 2: destruct Hplex as [Hp _]; discriminate.
  2: destruct Hplex.
  destruct Hplex as (_ & Hok1 & Hdb1).
  apply runs_bind, runs_ret.
  set (acc1 := if b then _ else acc).
  assert (Hinv1 : loop_inv names acc1).
  { subst acc1. destruct b; [|repeat split; try apply Hav; auto].
    repeat split; simpl; auto.
    - intros _ Hnil. apply app_eq_nil in Hnil as [_ Hnil]. discriminate.
    - intros n Hn. apply in_app_or in Hn as [Hn|[<-|[]]]; auto. }
  assert (Hb : plexAvailable acc1 = (plexAvailable acc || b)%bool).
  { subst acc1. destruct b; simpl; [apply eq_sym, orb_true_r | apply eq_sym, orb_false_r]. }
  destruct (decide (Some (srv_id server) = primaryServerId user)).
  - apply runs_bind.
    eapply runs_weaken; [apply (checkArr_ok k _ _ s1 Hok1) | | intros ? ? []].
    intros d s2 (Hd & Hok2 & Hdb2). apply runs_ret.
    split; [exact Hok2|]. split; [congruence|].
    split.
    + destruct Hinv1 as (Hst1 & Hav1 & Hn1).
      destruct (truthy d); repeat split; simpl; try apply Hav1; auto.
    + exists b, f, s1. split; [reflexivity|].
      destruct (truthy d); exact Hb.
  - apply runs_ret. split; [exact Hok1|]. split; [congruence|].
    split; [exact Hinv1|]. exists b, f, s1. auto.
Qed.

Lemma serverLoop_ok k item user names servers :
  forall acc (s0 s : State W),
    cache_ok (cache s) -> db s = db s0 -> loop_inv names acc ->
    (forall sv, In sv servers -> In (srv_name sv) names) ->
    runs (serverLoop env k item user servers acc) s
         (fun r s' => cache_ok (cache s') /\ db s' = db s0 /\ loop_inv names r)
         no_throw.
Proof.
  induction servers as [|server rest IH]; intros acc s0 s Hok Hdb Hinv Hsub; simpl.
  - apply runs_ret. auto.
  - apply runs_bind.
    eapply runs_weaken;
      [apply (serverStep_ok k item user server names acc s0 s Hok Hdb Hinv) | | intros ? ? []].
    + apply Hsub. left. reflexivity.
    + intros r s1 (Hok1 & Hdb1 & Hinv1 & _).
      apply IH; auto. intros sv Hsv. apply Hsub. right. exact Hsv.
Qed.

Lemma getRssItem_found k tmdbId (d : DB) :
  (exists row, List.find (fun r => (rss_tmdb_id r =? tmdbId)
                                   && String.eqb (rss_content_type r) (contentTypeOf k))
                         (rss_items d) = Some row)
  <-> exists row, In row (rss_items d) /\ rss_tmdb_id row = tmdbId
                  /\ rss_content_type row = contentTypeOf k.
Proof.
  split.
  - intros [row H]. apply List.find_some in H as [Hin H].
    apply andb_true_iff in H as [H1 H2].
    apply Z.eqb_eq in H1. apply String.eqb_eq in H2. eauto.
  - intros (row & Hin & H1 & H2).
    destruct (List.find _ (rss_items d)) as [row'|] eqn:Hf; [eauto|].
    exfalso. apply (List.find_none _ _ Hf) in Hin.
    rewrite H1, H2, Z.eqb_refl, String.eqb_refl in Hin. discriminate.
Qed.

(** The loop returns what the checkers, run server by server, report. *)
Lemma serverLoop_survey k item user servers :
  forall acc (s : State W),
    cache_ok (cache s) ->
    exists r,
      serverLoop env k item user servers acc s
        = (Ret r, snd (survey env k item user servers s))
      /\ plexServers r
         = plexServers acc ++ holders (fst (survey env k item user servers s))
      /\ plexAvailable r
         = (plexAvailable acc
            || existsb holds (fst (survey env k item user servers s)))%bool
      /\ arrStatus r
         = managerFrom (arrStatus acc) (fst (survey env k item user servers s))
      /\ map v_server (fst (survey env k item user servers s)) = servers.
Proof.
  induction servers as [|server rest IH]; intros acc s Hok.
  - exists acc. simpl. unfold holders. simpl. rewrite app_nil_r, orb_false_r. auto.
  - cbn [serverLoop survey].
    pose proof (checkPlex_ok env k (srv_id server) (item_title item) (itemYear item) s Hok)
      as Hplex.
    unfold runs in Hplex. unfold bind at 1. unfold serverStep. unfold bind at 1.
    destruct (checkPlex env k _ _ _ s) as [[[| |b f]|e] s1] eqn:Hrun.
    1, 2: destruct Hplex as [Hp _]; discriminate.
    2: destruct Hplex.
    destruct Hplex as (_ & Hok1 & Hdb1).
    cbn [get_exists]. unfold bind at 1. unfold ret at 1.
    set (acc1 := if b then mkAvailability (av_status acc) true
                                          (plexServers acc ++ [srv_name server])
                                          (arrStatus acc) (inRssFeed acc)
                 else acc).
    destruct (decide (Some (srv_id server) = primaryServerId user)) as [Hprim|Hprim].
    + pose proof (checkArr_ok k (srv_id server) (item_id item) s1 Hok1) as Harr.
      unfold runs in Harr. unfold bind at 1.
      destruct (checkArr env k _ _ s1) as [[d|e] s2] eqn:Hrun2; [|destruct Harr].
      destruct Harr as (Hd & Hok2 & Hdb2). unfold ret at 1.
      destruct (IH (if truthy d
                    then mkAvailability (av_status acc1) (plexAvailable acc1)
                                        (plexServers acc1) d (inRssFeed acc1)
                    else acc1) s2 Hok2)
        as (r & Hloop & Hnames & Hav & Harrs & Hmap).
      exists r. destruct (survey env k item user rest s2) as [log s3] eqn:Hsv.
      cbn [fst snd] in *. split; [exact Hloop|].
      unfold holders, managerFrom in *.
      cbn [List.filter existsb fold_left map holds v_plex v_manager v_server].
      rewrite Hnames, Hav, Harrs, Hmap. subst acc1.
      destruct b, (truthy d); cbn [plexServers plexAvailable arrStatus map];
        rewrite <- ?app_assoc, ?orb_true_r, ?orb_false_r; auto.
    + destruct (IH acc1 s1 Hok1) as (r & Hloop & Hnames & Hav & Harrs & Hmap).
      exists r. destruct (survey env k item user rest s1) as [log s3] eqn:Hsv.
      cbn [fst snd] in *. split; [exact Hloop|].
      unfold holders, managerFrom in *.
      cbn [List.filter existsb fold_left map holds v_plex v_manager v_server].
      rewrite Hnames, Hav, Harrs, Hmap. subst acc1.
      destruct b; cbn [plexServers plexAvailable arrStatus map];
        rewrite <- ?app_assoc, ?orb_true_r, ?orb_false_r; auto.
Qed.

(** The manager check is run at the primary server and nowhere else. *)
Lemma survey_primary k item user servers :
  forall (s : State W) v,
    In v (fst (survey env k item user servers s)) ->
    (is_Some (v_manager v) <-> Some (srv_id (v_server v)) = primaryServerId user).
Proof.
  induction servers as [|server rest IH]; intros s v Hin; [destruct Hin|].
  cbn [survey] in Hin.
  destruct (checkPlex env k _ _ _ s) as [plex s1].
  destruct (decide (Some (srv_id server) = primaryServerId user)) as [Hprim|Hprim].
  - destruct (checkArr env k _ _ s1) as [d s2].
    specialize (IH s2 v). destruct (survey env k item user rest s2) as [log s3].
    destruct Hin as [<-|Hin]; [|exact (IH Hin)].
    simpl. split; [intros _; exact Hprim | intros _; eexists; reflexivity].
  - specialize (IH s1 v). destruct (survey env k item user rest s1) as [log s3].
    destruct Hin as [<-|Hin]; [|exact (IH Hin)].
    simpl. split; [intros [x Hx]; discriminate Hx | intros H; destruct (Hprim H)].
Qed.

(** From a well-typed cache, a manager check of the survey returns
    [null] or a status string. *)
Lemma survey_statuses k item user servers :
  forall (s : State W) v d,
    cache_ok (cache s) ->
    In v (fst (survey env k item user servers s)) ->
    v_manager v = Some (Ret d) -> isStatus d = true.
Proof.
  induction servers as [|server rest IH]; intros s v d Hok Hin Hm; [destruct Hin|].
  cbn [survey] in Hin.
  pose proof (checkPlex_ok env k (srv_id server) (item_title item) (itemYear item) s Hok)
    as Hplex.
  unfold runs in Hplex.
  destruct (checkPlex env k _ _ _ s) as [[p|e] s1]; [|destruct Hplex].
  destruct Hplex as (_ & Hok1 & _).
  destruct (decide (Some (srv_id server) = primaryServerId user)) as [Hprim|Hprim].
  - pose proof (checkArr_ok k (srv_id server) (item_id item) s1 Hok1) as Harr.
    unfold runs in Harr.
    destruct (checkArr env k _ _ s1) as [[d'|e] s2]; [|destruct Harr].
    destruct Harr as (Hd & Hok2 & _).
    specialize (IH s2 v d Hok2).
    destruct (survey env k item user rest s2) as [log s3].
    destruct Hin as [<-|Hin]; [|exact (IH Hin Hm)].
    simpl in Hm. injection Hm as <-. exact Hd.
  - specialize (IH s1 v d Hok1).
    destruct (survey env k item user rest s1) as [log s3].
    destruct Hin as [<-|Hin]; [|exact (IH Hin Hm)].
    discriminate Hm.
Qed.

(** What the fold over the manager results keeps. *)
Lemma managerFrom_cases (log : list Visit) :
  forall init,
    (managerFrom init log = init
     /\ forall v d, In v log -> v_manager v = Some (Ret d) -> truthy d = false)
    \/ (truthy (managerFrom init log) = true
        /\ exists v, In v log /\ v_manager v = Some (Ret (managerFrom init log))).
Proof.
  unfold managerFrom.
  induction log as [|v rest IH]; intros init; [left; split; [reflexivity | intros ? ? []]|].
  cbn [fold_left].
  destruct (v_manager v) as [[d|e]|] eqn:Hv.
  - destruct (truthy d) eqn:Ht.
    + right. destruct (IH d) as [[Heq _]|(Htr & w & Hw & Hm)].
      * rewrite Heq. split; [exact Ht|]. exists v. split; [left; reflexivity | exact Hv].
      * split; [exact Htr|]. exists w. split; [right; exact Hw | exact Hm].
    + destruct (IH init) as [[Heq Hall]|(Htr & w & Hw & Hm)].
      * left. split; [exact Heq|]. intros w d' [<-|Hw] Hm; [congruence | eauto].
      * right. split; [exact Htr|]. exists w. split; [right; exact Hw | exact Hm].
  - destruct (IH init) as [[Heq Hall]|(Htr & w & Hw & Hm)].
    + left. split; [exact Heq|]. intros w d' [<-|Hw] Hm; [congruence | eauto].
    + right. split; [exact Htr|]. exists w. split; [right; exact Hw | exact Hm].
  - destruct (IH init) as [[Heq Hall]|(Htr & w & Hw & Hm)].
    + left. split; [exact Heq|]. intros w d' [<-|Hw] Hm; [congruence | eauto].
    + right. split; [exact Htr|]. exists w. split; [right; exact Hw | exact Hm].
Qed.

(** C1. From a well-typed cache the aggregation of either media kind
    returns, and its [status] follows the priority chain, first match
    wins: ['available'] as soon as some bound server holds the item,
    whatever the manager says; otherwise the manager status when it is
    not [null], then one of the four status strings; otherwise
    ['requested'] when [rss_items] tracks the item for this media kind;
    otherwise ['not_available']. The inputs of the chain are what the
    checkers report, run server by server over the bound servers: the
    item is held exactly when the presence check of some bound server
    reports it, [plexServers] lists the names of those servers, and the
    manager status is the result of the manager check of the primary
    server, [null] when no such check returned a status. *)
Theorem overall_status_priority_chain k item user (s : State W) :
  cache_ok (cache s) ->
  exists r s',
    checkAvailability env k item user s = (Ret r, s')
    /\ cache_ok (cache s')
    /\ av_status r = overallStatus (plexAvailable r) (arrStatus r) (inRssFeed r)
    /\ (plexAvailable r = true -> av_status r = JStr "available")
    /\ (plexAvailable r = false -> arrStatus r <> JNull ->
          av_status r = arrStatus r
          /\ exists st, In st managerStatuses /\ arrStatus r = JStr st)
    /\ (plexAvailable r = false -> arrStatus r = JNull -> inRssFeed r = true ->
          av_status r = JStr "requested")
    /\ (plexAvailable r = false -> arrStatus r = JNull -> inRssFeed r = false ->
          av_status r = JStr "not_available")
    /\ (plexAvailable r = true <-> plexServers r <> [])
    /\ (forall n, In n (plexServers r) -> In n (map srv_name (user_servers user)))
    /\ (inRssFeed r = true <->
          exists row, In row (rss_items (db s)) /\ rss_tmdb_id row = item_id item
                      /\ rss_content_type row = contentTypeOf k)
    /\ (let log := fst (survey env k item user (user_servers user) s) in
        s' = snd (survey env k item user (user_servers user) s)
        /\ map v_server log = user_servers user
        /\ (forall v, In v log ->
              (is_Some (v_manager v)
               <-> Some (srv_id (v_server v)) = primaryServerId user))
        /\ plexAvailable r = existsb holds log
        /\ plexServers r = holders log
        /\ arrStatus r = managerFrom JNull log
        /\ (arrStatus r <> JNull ->
              exists v, In v log
                        /\ Some (srv_id (v_server v)) = primaryServerId user
                        /\ v_manager v = Some (Ret (arrStatus r)))
        /\ (arrStatus r = JNull ->
              forall v d, In v log -> v_manager v = Some (Ret d) -> d = JNull)).
Proof.
  intros Hok.
  destruct (serverLoop_survey k item user (user_servers user)
              (mkAvailability (JStr "unknown") false [] JNull false) s Hok)
    as (r0 & Hloop & Hholders & Hheld & Hmgr & Hmap).
  cbn [plexServers plexAvailable arrStatus app orb] in Hholders, Hheld, Hmgr.
  assert (Hinv : cache_ok (cache (snd (survey env k item user (user_servers user) s)))
                 /\ db (snd (survey env k item user (user_servers user) s)) = db s
                 /\ loop_inv (map srv_name (user_servers user)) r0).
  { pose proof (serverLoop_ok k item user (map srv_name (user_servers user))
                  (user_servers user)
                  (mkAvailability (JStr "unknown") false [] JNull false) s s Hok eq_refl)
      as H.
    unfold runs in H. rewrite Hloop in H. apply H.
    - repeat split; simpl; try discriminate; try contradiction.
    - intros sv Hsv. apply in_map. exact Hsv. }
  destruct Hinv as (Hok1 & Hdb1 & Hst & Hav & Hnames).
  eexists _, _. split.
  { unfold checkAvailability, bind. rewrite Hloop. unfold getRssItem, ret. reflexivity. }
  cbn [av_status plexAvailable plexServers arrStatus inRssFeed].
  pose proof (isStatus_truthy _ Hst) as Htr.
  split; [exact Hok1|]. split; [reflexivity|].
  split; [intros ->; reflexivity|].
  split.
  { intros -> Hnn. unfold overallStatus. rewrite Htr.
    destruct (isStatus_cases _ Hst) as [Hn|Hs]; [contradiction|].
    destruct Hs as (st & Hin & Heq). rewrite Heq. simpl negb. cbv iota.
    split; [reflexivity|]. exists st. split; [exact Hin | reflexivity]. }
  split.
  { intros -> Hn Hrss. unfold overallStatus. rewrite Hn. simpl.
    destruct (List.find _ _); [reflexivity | discriminate]. }
  split.
  { intros -> Hn Hrss. unfold overallStatus. rewrite Hn. simpl.
    destruct (List.find _ _); [discriminate | reflexivity]. }
  split; [exact Hav|]. split; [exact Hnames|].
  split.
  { rewrite <- getRssItem_found, Hdb1.
    destruct (List.find _ _) as [row|]; split; intros H; eauto; try discriminate.
    destruct H as [row H]. discriminate. }
  cbv zeta.
  split; [reflexivity|]. split; [exact Hmap|].
  split; [intros v Hv; exact (survey_primary k item user _ s v Hv)|].
  split; [exact Hheld|]. split; [exact Hholders|]. split; [exact Hmgr|].
  destruct (managerFrom_cases (fst (survey env k item user (user_servers user) s)) JNull)
    as [[Heq Hall]|(Htruthy & v & Hv & Hm)].
  - split; [intros Hnn; rewrite Hmgr in Hnn; contradiction|].
    intros _ v d Hv Hm.
    pose proof (Hall v d Hv Hm) as Hfalsy.
    pose proof (survey_statuses k item user _ s v d Hok Hv Hm) as Hd.
    destruct (isStatus_cases d Hd) as [->|(st & Hin & ->)]; [reflexivity|].
    simpl in Hin. destruct Hin as [<-|[<-|[<-|[<-|[]]]]]; discriminate Hfalsy.
  - rewrite <- Hmgr in Htruthy, Hm.
    split.
    + intros _. exists v. split; [exact Hv|]. split; [|exact Hm].
      apply (survey_primary k item user _ s v Hv). rewrite Hm. eexists; reflexivity.
    + intros Hn. rewrite Hn in Htruthy. discriminate Htruthy.
Qed.


End Aggregation.

Example demo_json_roundtrip :
  JSON_parse Demo.env (JSON_stringify Demo.env [1; 2; 10]) = Some [1; 2; 10].
Proof. vm_compute. reflexivity. Qed.

Example demo_check :
  fst (checkMovieAvailability Demo.env Demo.matrix
         (Demo.asUser Demo.alice false (Some "S")) Demo.state0)
  = Ret (mkAvailability (JStr "not_available") false [] JNull false).
Proof. vm_compute. reflexivity. Qed.

(** ** An uncached check does not depend on the rest of the cache *)

Section Uncached.

Context {W : Type} (env : Env W).

Lemma axios_eq {T} (c : Call T) d ca w tr :
  axios env c (mkState d ca w tr)
  = match fst (http env c w) with
    | inl e => (Throw e, mkState d ca (snd (http env c w)) (tr ++ [(existT T c, true)]))
    | inr v => (Ret v, mkState d ca (snd (http env c w)) (tr ++ [(existT T c, false)]))
    end.
Proof.
  unfold axios. simpl. destruct (http env c w) as [[e|v] w1]; reflexivity.
Qed.

Lemma callFails_inl {T} (c : Call T) (w : W) e :
  fst (http env c w) = inl e -> callFails env (existT T c) w = true.
Proof. unfold callFails. simpl. intros ->. reflexivity. Qed.

Lemma callFails_inr {T} (c : Call T) (w : W) v :
  fst (http env c w) = inr v -> callFails env (existT T c) w = false.
Proof. unfold callFails. simpl. intros ->. reflexivity. Qed.



(** The section loop: its outcome, the world and the log do not depend on
    the cache, which receives at most the positive result; it throws
    exactly when a call fails. *)
Lemma scanSections_uncached k server token title year key sections :
  forall d w tr,
  exists o w' added upd,
    (forall c, scanSections env k server token title year key sections
                 (mkState d c w tr)
               = (o, mkState d (put upd key c) w' (tr ++ added)))
    /\ match o with
       | Ret (Some r) => (exists t, upd = Some (mkEntry r t)) /\ anyFailed added = false
       | Ret None => upd = None /\ anyFailed added = false
       | Throw _ => upd = None /\ anyFailed added = true
       end.
Proof.
  induction sections as [|sec rest IH]; intros d w tr.
  - exists (Ret None), w, [], None. simpl. split; [|auto].
    intros c. rewrite app_nil_r. reflexivity.
  - set (call := PlexSectionAll (srv_url server) token sec (plexTypeParam k) title).
    destruct (fst (http env call w)) as [e|resp] eqn:Hresp.
    + exists (Throw e), (snd (http env call w)), [(existT _ call, true)], None.
      split; [|auto].
      intros c. simpl. unfold bind. fold call. rewrite axios_eq, Hresp. reflexivity.
    + destruct (List.find (plexMatch env title year) (default [] resp)) as [m|] eqn:Hfind.
      * exists (Ret (Some (JPresence true (Some (k, m))))),
               (snd (http env call w)), [(existT _ call, false)],
               (Some (mkEntry (JPresence true (Some (k, m)))
                              (now env (snd (http env call w))))).
        split; [|eauto].
        intros c. simpl. unfold bind. fold call. rewrite axios_eq, Hresp, Hfind.
        reflexivity.
      * destruct (IH d (snd (http env call w)) (tr ++ [(existT _ call, false)]))
          as (o & w' & added & upd & Hrun & Ho).
        exists o, w', ((existT _ call, false) :: added), upd.
        split; [|exact Ho].
        intros c. simpl. unfold bind. fold call. rewrite axios_eq, Hresp, Hfind.
        rewrite Hrun, <- app_assoc. reflexivity.
Qed.

Lemma checkPlex_uncached k sid title year d w tr :
  exists o w' added upd,
    uncached env (PlexCheck k sid title year) d w tr o w' added upd
    /\ uncached_summary env (PlexCheck k sid title year) d w o w' added upd.
Proof.
  unfold uncached, uncached_summary, binding. simpl checkerServerId.
  simpl checkerKey. simpl runChecker. simpl softFailure.
  destruct (List.find _ (plex_servers d)) as [server|] eqn:Hsrv.
  2:{ exists (JPresence false None), w, [], None. split; [|auto].
      intros c Hmiss. unfold checkPlex, try_catch. unfold bind at 1. unfold cacheGet.
      unfold bind at 1. unfold Date_now. cbn [cache world]. rewrite Hmiss.
      unfold bind at 1. unfold getServer. cbn [db]. rewrite Hsrv, app_nil_r.
      reflexivity. }
  unfold firstCall.
  set (token := decrypt_col env (Some (srv_token server))).
  set (call := PlexSections (srv_url server) token).
  set (key := plexCacheKey k sid title year).
  assert (Hpre : forall c,
             cacheHit (c !! key) (now env w) = None ->
             checkPlex env k sid title year (mkState d c w tr)
             = match fst (http env call w) with
               | inl e => (Ret (JPresence false None),
                           mkState d c (snd (http env call w))
                                   (tr ++ [(existT _ call, true)]))
               | inr dirs =>
                   match scanSections env k server token title year key
                           (map dir_key (List.filter
                              (fun d0 => String.eqb (dir_type d0) (plexSectionType k)) dirs))
                           (mkState d c (snd (http env call w))
                                    (tr ++ [(existT _ call, false)])) with
                   | (Ret (Some result), s') => (Ret result, s')
                   | (Ret None, s') =>
                       (Ret (JPresence false None),
                        mkState (db s')
                                (<[key := mkEntry (JPresence false None)
                                                  (now env (world s'))]> (cache s'))
                                (world s') (trace s'))
                   | (Throw _, s') => (Ret (JPresence false None), s')
                   end
               end).
  { intros c Hmiss. unfold checkPlex, try_catch. unfold bind at 1.
    unfold cacheGet. unfold bind at 1. unfold Date_now. cbn [cache world].
    fold key. rewrite Hmiss. unfold bind at 1. unfold getServer. cbn [db].
    rewrite Hsrv. unfold bind at 1. fold token. fold call. rewrite axios_eq.
    destruct (fst (http env call w)) as [e|dirs]; [reflexivity|].
    unfold bind at 1.
    destruct (scanSections _ _ _ _ _ _ _ _ _) as [[[r|]|e] s']; reflexivity. }
  destruct (fst (http env call w)) as [e|dirs] eqn:Hresp.
  - exists (JPresence false None), (snd (http env call w)),
           [(existT _ call, true)], None.
    split; [intros c Hmiss; rewrite (Hpre c Hmiss); reflexivity|].
    rewrite (callFails_inl call w e Hresp). simpl. eauto.
  - destruct (scanSections_uncached k server token title year key
                (map dir_key (List.filter
                   (fun d0 => String.eqb (dir_type d0) (plexSectionType k)) dirs))
                d (snd (http env call w)) (tr ++ [(existT _ call, false)]))
      as (o & w' & added & upd & Hrun & Ho).
    rewrite (callFails_inr call w dirs Hresp).
    destruct o as [[r|]|e].
    + destruct Ho as [[t Hupd] Hnf]. exists r, w', ((existT _ call, false) :: added), upd.
      split.
      * intros c Hmiss. rewrite (Hpre c Hmiss), Hrun, <- app_assoc. reflexivity.
      * split; [eauto|]. simpl. rewrite Hnf. eauto.
    + destruct Ho as [Hupd Hnf].
      exists (JPresence false None), w', ((existT _ call, false) :: added),
             (Some (mkEntry (JPresence false None) (now env w'))).
      split.
      * intros c Hmiss. rewrite (Hpre c Hmiss), Hrun, Hupd, <- app_assoc. reflexivity.
      * split; [eauto|]. simpl. rewrite Hnf. eauto.
    + destruct Ho as [Hupd Hf].
      exists (JPresence false None), w', ((existT _ call, false) :: added), None.
      split.
      * intros c Hmiss. rewrite (Hpre c Hmiss), Hrun, Hupd, <- app_assoc. reflexivity.
      * split; [eauto|]. simpl. rewrite Hf. auto.
Qed.

(** The status computed by [checkRadarrMovie] from the movie list and,
    when needed, the queue. *)
Lemma checkRadarrMovie_miss sid tmdbId d w tr server c :
  List.find (fun x => String.eqb (srv_id x) sid) (plex_servers d) = Some server ->
  radarrConfigured server = true ->
  cacheHit (c !! radarrCacheKey sid tmdbId) (now env w) = None ->
  let key := radarrCacheKey sid tmdbId in
  let url := default "" (radarr_url server) in
  let apiKey := decrypt_col env (radarr_api_key server) in
  let call := RadarrMovies url apiKey in
  let qcall := RadarrQueue url apiKey in
  let w1 := snd (http env call w) in
  let w2 := snd (http env qcall w1) in
  let written (st : jsdata) (w' : W) (tr' : list Logged) :=
    (Ret st, mkState d (<[key := mkEntry st (now env w')]> c) w' tr') in
  checkRadarrMovie env sid tmdbId (mkState d c w tr)
  = match fst (http env call w) with
    | inl e => (Ret JNull, mkState d c w1 (tr ++ [(existT _ call, true)]))
    | inr movies =>
        let tr1 := tr ++ [(existT _ call, false)] in
        match List.find (fun m => rm_tmdbId m =? tmdbId) movies with
        | Some movie =>
            if rm_hasFile movie then written (JStr "downloaded") w1 tr1
            else if rm_monitored movie then
              match fst (http env qcall w1) with
              | inl e => (Ret JNull, mkState d c w2 (tr1 ++ [(existT _ qcall, true)]))
              | inr queue =>
                  written
                    (JStr (if match queue with
                               | Some records =>
                                   existsb (fun q => q_movieId q =? rm_id movie) records
                               | None => false
                               end
                           then "queued"
                           else if String.eqb (rm_status movie) "released"
                                then "missing" else "unreleased"))
                    w2 (tr1 ++ [(existT _ qcall, false)])
              end
            else written JNull w1 tr1
        | None => written JNull w1 tr1
        end
    end.
Proof.
  intros Hsrv Hconf Hmiss. cbv zeta.
  unfold checkRadarrMovie, try_catch. unfold bind at 1.
  unfold cacheGet. unfold bind at 1. unfold Date_now. cbn [cache world].
  rewrite Hmiss. unfold bind at 1. unfold getServer. cbn [db].
  rewrite Hsrv, Hconf. cbn [negb]. unfold bind at 1. rewrite axios_eq.
  destruct (fst (http env _ w)) as [e|movies]; [reflexivity|].
  unfold bind at 1.
  destruct (List.find _ movies) as [movie|]; [|reflexivity].
  destruct (rm_hasFile movie); [reflexivity|].
  destruct (rm_monitored movie); [|reflexivity].
  unfold bind at 1. rewrite axios_eq.
  destruct (fst (http env _ _)) as [e|queue]; reflexivity.
Qed.

Lemma checkRadarrMovie_uncached sid tmdbId d w tr :
  exists o w' added upd,
    uncached env (RadarrCheck sid tmdbId) d w tr o w' added upd
    /\ uncached_summary env (RadarrCheck sid tmdbId) d w o w' added upd.
Proof.
  unfold uncached, uncached_summary, binding. simpl checkerServerId.
  simpl checkerKey. simpl runChecker. simpl softFailure.
  assert (Hnone : forall c,
             cacheHit (c !! radarrCacheKey sid tmdbId) (now env w) = None ->
             match List.find (fun x => String.eqb (srv_id x) sid) (plex_servers d) with
             | Some server => radarrConfigured server = false
             | None => True
             end ->
             checkRadarrMovie env sid tmdbId (mkState d c w tr)
             = (Ret JNull, mkState d c w (tr ++ []))).
  { intros c Hmiss Hno. unfold checkRadarrMovie, try_catch. unfold bind at 1.
    unfold cacheGet. unfold bind at 1. unfold Date_now. cbn [cache world].
    rewrite Hmiss. unfold bind at 1. unfold getServer. cbn [db]. rewrite app_nil_r.
    destruct (List.find _ (plex_servers d)) as [server|]; [|reflexivity].
    rewrite Hno. reflexivity. }
  destruct (List.find _ (plex_servers d)) as [server|] eqn:Hsrv.
  2:{ exists JNull, w, [], None. split; [|auto].
      intros c Hmiss. apply (Hnone c Hmiss I). }
  destruct (radarrConfigured server) eqn:Hconf.
  2:{ exists JNull, w, [], None. split; [|auto].
      intros c Hmiss. apply (Hnone c Hmiss eq_refl). }
  clear Hnone. unfold firstCall.
  pose proof (fun c => checkRadarrMovie_miss sid tmdbId d w tr server c Hsrv Hconf) as Hrun.
  cbv zeta in Hrun.
  set (url := default "" (radarr_url server)) in *.
  set (apiKey := decrypt_col env (radarr_api_key server)) in *.
  set (call := RadarrMovies url apiKey) in *.
  set (qcall := RadarrQueue url apiKey) in *.
  set (w1 := snd (http env call w)) in *.
  destruct (fst (http env call w)) as [e|movies] eqn:Hresp.
  { exists JNull, w1, [(existT _ call, true)], None.
    split; [exact Hrun|].
    rewrite (callFails_inl call w e Hresp). simpl. eauto. }
  rewrite (callFails_inr call w movies Hresp).
  assert (Hsimple : forall st,
             (forall c, cacheHit (c !! radarrCacheKey sid tmdbId) (now env w) = None ->
                checkRadarrMovie env sid tmdbId (mkState d c w tr)
                = (Ret st, mkState d (<[radarrCacheKey sid tmdbId := mkEntry st (now env w1)]> c)
                                   w1 (tr ++ [(existT _ call, false)]))) ->
             exists o w' added upd,
               (forall c, cacheHit (c !! radarrCacheKey sid tmdbId) (now env w) = None ->
                  checkRadarrMovie env sid tmdbId (mkState d c w tr)
                  = (Ret o, mkState d (put upd (radarrCacheKey sid tmdbId) c) w' (tr ++ added)))
               /\ (exists more, added = (existT _ call, false) :: more)
               /\ (if anyFailed added then upd = None /\ o = JNull
                   else exists t, upd = Some (mkEntry o t))).
  { intros st H. exists st, w1, [(existT _ call, false)], (Some (mkEntry st (now env w1))).
    split; [exact H|]. simpl. eauto. }
  destruct (List.find (fun m => rm_tmdbId m =? tmdbId) movies) as [movie|];
    [|apply (Hsimple JNull Hrun)].
  destruct (rm_hasFile movie); [apply (Hsimple (JStr "downloaded") Hrun)|].
  destruct (rm_monitored movie); [|apply (Hsimple JNull Hrun)].
  clear Hsimple.
  destruct (fst (http env qcall w1)) as [e|queue] eqn:Hq.
  - exists JNull, (snd (http env qcall w1)),
           [(existT _ call, false); (existT _ qcall, true)], None.
    split.
    + intros c Hmiss. rewrite (Hrun c Hmiss), <- app_assoc. reflexivity.
    + simpl. eauto.
  - eexists _, (snd (http env qcall w1)),
            [(existT _ call, false); (existT _ qcall, false)], (Some (mkEntry _ _)).
    split.
    + intros c Hmiss. rewrite (Hrun c Hmiss), <- app_assoc. reflexivity.
    + simpl. eauto.
Qed.

Lemma checkSonarrSeries_miss sid tmdbId d w tr c :
  cacheHit (c !! sonarrCacheKey sid tmdbId) (now env w) = None ->
  checkSonarrSeries env sid tmdbId (mkState d c w tr)
  = match List.find (fun x => String.eqb (srv_id x) sid) (plex_servers d) with
    | None => (Ret JNull, mkState d c w tr)
    | Some server =>
        if sonarrConfigured server then
          let call := SonarrSeriesList (default "" (sonarr_url server))
                        (decrypt_col env (sonarr_api_key server)) in
          match fst (http env call w) with
          | inl _ => (Ret JNull, mkState d c (snd (http env call w))
                                         (tr ++ [(existT _ call, true)]))
          | inr _ =>
              (Ret JNull,
               mkState d (<[sonarrCacheKey sid tmdbId :=
                              mkEntry JNull (now env (snd (http env call w)))]> c)
                       (snd (http env call w)) (tr ++ [(existT _ call, false)]))
          end
        else (Ret JNull, mkState d c w tr)
    end.
Proof.
  intros Hmiss. unfold checkSonarrSeries, try_catch. unfold bind at 1.
  unfold cacheGet. unfold bind at 1. unfold Date_now. cbn [cache world].
  rewrite Hmiss. unfold bind at 1. unfold getServer. cbn [db].
  destruct (List.find _ (plex_servers d)) as [server|]; [|reflexivity].
  destruct (sonarrConfigured server); [|reflexivity].
  cbn [negb]. cbv zeta. unfold bind at 1. rewrite axios_eq.
  destruct (fst (http env _ w)); reflexivity.
Qed.

Lemma checkSonarrSeries_uncached sid tmdbId d w tr :
  exists o w' added upd,
    uncached env (SonarrCheck sid tmdbId) d w tr o w' added upd
    /\ uncached_summary env (SonarrCheck sid tmdbId) d w o w' added upd.
Proof.
  unfold uncached, uncached_summary, binding. simpl checkerServerId.
  simpl checkerKey. simpl runChecker. simpl softFailure.
  pose proof (fun c => checkSonarrSeries_miss sid tmdbId d w tr c) as Hrun.
  destruct (List.find _ (plex_servers d)) as [server|] eqn:Hsrv.
  2:{ exists JNull, w, [], None. split; [|auto].
      intros c Hmiss. rewrite (Hrun c Hmiss), app_nil_r. reflexivity. }
  destruct (sonarrConfigured server) eqn:Hconf.
  2:{ exists JNull, w, [], None. split; [|auto].
      intros c Hmiss. rewrite (Hrun c Hmiss), app_nil_r. reflexivity. }
  unfold firstCall. cbv zeta in Hrun.
  set (call := SonarrSeriesList (default "" (sonarr_url server))
                 (decrypt_col env (sonarr_api_key server))) in *.
  destruct (fst (http env call w)) as [e|series] eqn:Hresp.
  - exists JNull, (snd (http env call w)), [(existT _ call, true)], None.
    split; [exact Hrun|].
    rewrite (callFails_inl call w e Hresp). simpl. eauto.
  - exists JNull, (snd (http env call w)), [(existT _ call, false)],
           (Some (mkEntry JNull (now env (snd (http env call w))))).
    split; [exact Hrun|].
    rewrite (callFails_inr call w series Hresp). simpl. eauto.
Qed.

(** Every uncached invocation fits the summary. *)
Lemma checker_uncached ch d w tr :
  exists o w' added upd,
    uncached env ch d w tr o w' added upd
    /\ uncached_summary env ch d w o w' added upd.
Proof.
  destruct ch.
  - apply checkPlex_uncached.
  - apply checkRadarrMovie_uncached.
  - apply checkSonarrSeries_uncached.
Qed.

(** A fresh entry is returned as it is and nothing else happens. *)
Lemma checker_hit ch (s : State W) v :
  cacheHit (cache s !! checkerKey ch) (now env (world s)) = Some v ->
  runChecker env ch s = (Ret v, s).
Proof.
  intros Hhit.
  destruct ch; simpl in *;
    [unfold checkPlex | unfold checkRadarrMovie | unfold checkSonarrSeries];
    unfold try_catch; unfold bind at 1; unfold cacheGet;
    unfold bind at 1; unfold Date_now; rewrite Hhit; reflexivity.
Qed.

End Uncached.

(** ** Claims about the cached checkers *)

Section CheckerClaims.

Context {W : Type} (env : Env W).

Lemma put_cases (upd : option Entry) key (c : gmap string Entry) o :
  (upd = None \/ exists t, upd = Some (mkEntry o t)) ->
  put upd key c = c \/ exists t, put upd key c = <[key := mkEntry o t]> c.
Proof.
  intros [->|[t ->]]; [left; reflexivity | right; exists t; reflexivity].
Qed.

(** The series checker answers [null] whatever Sonarr lists. *)
Lemma checkSonarrSeries_null sid tmdbId (s : State W) :
  cache_ok (cache s) ->
  exists s', checkSonarrSeries env sid tmdbId s = (Ret JNull, s').
Proof.
  intros Hok.
  destruct (runs_returns _ _ _ (checkSonarrSeries_ok env sid tmdbId s Hok))
    as (d & s' & Hrun & Hn & _).
  exists s'. rewrite Hrun. destruct d; try discriminate. reflexivity.
Qed.


(** C5. An entry inserted at time [T] is returned, with no remote call
    and no other effect, by a read strictly before [T] plus five minutes.
    From [T] plus five minutes on the read behaves as if the entry were
    absent: same result, same remote calls as from the cache without the
    entry; the stale entry is not removed, only overwritten by a fresh
    result; and with a usable server row the first remote call of the
    checker is issued again. *)
Theorem cache_freshness_window ch (s : State W) v T :
  cache s !! checkerKey ch = Some (mkEntry v T) ->
  CACHE_TTL = 5 * 60 * 1000
  /\ (now env (world s) < T + 5 * 60 * 1000 ->
      runChecker env ch s = (Ret v, s))
  /\ (T + 5 * 60 * 1000 <= now env (world s) ->
      exists r s' a',
        runChecker env ch s = (Ret r, s')
        /\ runChecker env ch
             (mkState (db s) (delete (checkerKey ch) (cache s)) (world s) (trace s))
           = (Ret r, a')
        /\ db s' = db a' /\ world s' = world a' /\ trace s' = trace a'
        /\ delete (checkerKey ch) (cache s') = delete (checkerKey ch) (cache a')
        /\ (cache s' = cache s
            \/ exists t, cache s' = <[checkerKey ch := mkEntry r t]> (cache s))
        /\ (forall server, binding (db s) ch = Some server ->
              exists more,
                trace s' = trace s
                  ++ (firstCall env ch server,
                      callFails env (firstCall env ch server) (world s)) :: more)).
Proof.
  intros Hentry. split; [reflexivity|]. split.
  - intros Hlt. apply checker_hit. rewrite Hentry. unfold cacheHit. simpl.
    replace (now env (world s) - T <? CACHE_TTL) with true; [reflexivity|].
    symmetry. apply Z.ltb_lt. unfold CACHE_TTL. lia.
  - intros Hge. destruct s as [d c w tr]. simpl in *.
    assert (Hmiss : cacheHit (c !! checkerKey ch) (now env w) = None).
    { rewrite Hentry. unfold cacheHit. simpl.
      replace (now env w - T <? CACHE_TTL) with false; [reflexivity|].
      symmetry. apply Z.ltb_ge. unfold CACHE_TTL. lia. }
    assert (Hmiss' : cacheHit (delete (checkerKey ch) c !! checkerKey ch) (now env w) = None).
    { rewrite lookup_delete_eq. reflexivity. }
    destruct (checker_uncached env ch d w tr) as (o & w' & added & upd & Hrun & Hsum).
    exists o, (mkState d (put upd (checkerKey ch) c) w' (tr ++ added)),
           (mkState d (put upd (checkerKey ch) (delete (checkerKey ch) c)) w' (tr ++ added)).
    rewrite (Hrun c Hmiss), (Hrun _ Hmiss'). simpl.
    repeat (split; [reflexivity|]).
    unfold uncached_summary in Hsum.
    assert (Hupd : upd = None \/ exists t, upd = Some (mkEntry o t)).
    { destruct (binding d ch); [|left; apply Hsum].
      destruct Hsum as [_ Hupd]. destruct (anyFailed added); [left; apply Hupd | right; exact Hupd]. }
    split.
    { destruct upd as [e|]; simpl.
      - rewrite !delete_insert_eq, delete_delete_eq. reflexivity.
      - rewrite delete_delete_eq. reflexivity. }
    split; [apply put_cases; exact Hupd|].
    intros server Hb. rewrite Hb in Hsum. destruct Hsum as [[more ->] _]. eauto.
Qed.

End CheckerClaims.

(** ** The claims on the reference environment *)

Lemma overall_status_priority_chain_witness :
  cache_ok (cache Demo.stateDownloaded)
  /\ exists r s',
       checkAvailability Demo.env PMovie Demo.matrix
         (Demo.asUser Demo.alice false (Some "S")) Demo.stateDownloaded = (Ret r, s')
       /\ arrStatus r = JStr "downloaded"
       /\ av_status r = JStr "available".
Proof.
  assert (Hok : cache_ok (cache Demo.stateDownloaded)) by apply map_Forall_empty.
  split; [exact Hok|].
  destruct (overall_status_priority_chain Demo.env PMovie Demo.matrix
              (Demo.asUser Demo.alice false (Some "S")) Demo.stateDownloaded Hok)
    as (r & s' & Hrun & _ & _ & Hav & _).
  exists r, s'. split; [exact Hrun|].
  assert (Hr : plexAvailable r = true /\ arrStatus r = JStr "downloaded").
  { vm_compute in Hrun. injection Hrun as <- _. split; reflexivity. }
  destruct Hr as [Hp Ha]. split; [exact Ha | exact (Hav Hp)].
Defined.

(** C3 on the code: Sonarr is configured on the primary server and lists
    the series with all its episodes, yet [checkSonarrSeries] answers
    [null] and the aggregated status is ['not_available']; the movie
    variant classifies the same situation as ['downloaded']. *)
Theorem checkSonarrSeries_ignores_series_list :
  sonarrConfigured Demo.serverS = true
  /\ Demo.dw_sonarr (world Demo.stateSeries)
     = Some [mkSonarrSeries (Some 371980) "Severance" (Some 100)]
  /\ fst (checkSonarrSeries Demo.env "S" 95396 Demo.stateSeries) = Ret JNull
  /\ fst (checkTvAvailability Demo.env Demo.severance
            (Demo.asUser Demo.alice false (Some "S")) Demo.stateSeries)
     = Ret (mkAvailability (JStr "not_available") false [] JNull false)
  /\ fst (checkRadarrMovie Demo.env "S" 603 Demo.stateDownloaded)
     = Ret (JStr "downloaded").
Proof. repeat split; vm_compute; reflexivity. Qed.



Lemma cache_freshness_window_witness :
  cache Demo.stateCached !! checkerKey (RadarrCheck "S" 603)
    = Some (mkEntry (JStr "queued") 999000)
  /\ runChecker Demo.env (RadarrCheck "S" 603) Demo.stateCached
     = (Ret (JStr "queued"), Demo.stateCached)
  /\ exists r s' more,
       runChecker Demo.env (RadarrCheck "S" 603) Demo.stateExpired = (Ret r, s')
       /\ trace s'
          = (firstCall Demo.env (RadarrCheck "S" 603) Demo.serverS, false) :: more.
Proof.
  assert (H1 : cache Demo.stateCached !! checkerKey (RadarrCheck "S" 603)
               = Some (mkEntry (JStr "queued") 999000)) by (vm_compute; reflexivity).
  assert (H2 : cache Demo.stateExpired !! checkerKey (RadarrCheck "S" 603)
               = Some (mkEntry (JStr "queued") 700000)) by (vm_compute; reflexivity).
  split; [exact H1|]. split.
  - apply (proj1 (proj2 (cache_freshness_window Demo.env (RadarrCheck "S" 603)
                           Demo.stateCached (JStr "queued") 999000 H1))).
    vm_compute. reflexivity.
  - destruct (proj2 (proj2 (cache_freshness_window Demo.env (RadarrCheck "S" 603)
                              Demo.stateExpired (JStr "queued") 700000 H2)))
      as (r & s' & a' & Hrun & _ & _ & _ & _ & _ & _ & Hcall).
    + vm_compute. discriminate.
    + destruct (Hcall Demo.serverS) as [more Hmore]; [vm_compute; reflexivity|].
      exists r, s', more. split; [exact Hrun|]. exact Hmore.
Defined.

(** ** GET /api/requests *)

Section Listing.

Context {W : Type} (env : Env W).

Lemma insertDesc_perm r l : Permutation (insertDesc r l) (r :: l).
Proof.
  induction l as [|x xs IH]; simpl; [reflexivity|].
  destruct (r_requested_at x <=? r_requested_at r); [reflexivity|].
  rewrite IH. apply perm_swap.
Qed.

Lemma orderBy_perm l : Permutation (orderByRequestedAtDesc l) l.
Proof.
  induction l as [|x xs IH]; simpl; [reflexivity|].
  rewrite insertDesc_perm. apply perm_skip. exact IH.
Qed.

(** The rows selected for a user who is not an administrator are taken
    among the user's own rows. *)
Lemma listWhere_own user q l :
  user_role user <> "admin" ->
  List.filter (listWhere user q) l
  = List.filter (listWhere user q)
      (List.filter (fun r => String.eqb (r_user_id r) (user_id user)) l).
Proof.
  intros Hrole. apply String.eqb_neq in Hrole.
  induction l as [|r l IH]; simpl; [reflexivity|].
  destruct (String.eqb (r_user_id r) (user_id user)) eqn:Hown; simpl.
  - rewrite IH. reflexivity.
  - rewrite <- IH. unfold listWhere at 1. rewrite Hrole, Hown. reflexivity.
Qed.

(** Mapping the rows reads the database it is given and nothing else. *)
Lemma mapRows_pure d rows (s : State W) :
  exists o, mapRows env d rows s = (o, s)
            /\ forall s2 : State W, mapRows env d rows s2 = (o, s2).
Proof.
  induction rows as [|r rest IH]; simpl.
  - exists (Ret []). split; [reflexivity | intros; reflexivity].
  - destruct IH as (o & Ho & Hall).
    unfold bind, listedOf, bind.
    destruct (JS.truthy_str (r_seasons r)).
    + destruct (JSON_parse env (default "" (r_seasons r))) as [l|]; simpl.
      * destruct o as [xs|e].
        -- eexists. split; [rewrite Ho; reflexivity|]. intros s2. rewrite Hall. reflexivity.
        -- eexists. split; [rewrite Ho; reflexivity|]. intros s2. rewrite Hall. reflexivity.
      * eexists. split; [reflexivity | intros; reflexivity].
    + simpl. destruct o as [xs|e].
      * eexists. split; [rewrite Ho; reflexivity|]. intros s2. rewrite Hall. reflexivity.
      * eexists. split; [rewrite Ho; reflexivity|]. intros s2. rewrite Hall. reflexivity.
Qed.

Lemma mapRows_ext d1 d2 rows (s : State W) :
  users d1 = users d2 -> plex_servers d1 = plex_servers d2 ->
  mapRows env d1 rows s = mapRows env d2 rows s.
Proof.
  intros Hu Hs. revert s.
  induction rows as [|r rest IH]; intros s; simpl; [reflexivity|].
  assert (Hl : listedOf env d1 r s = listedOf env d2 r s).
  { unfold listedOf, bind, usernameOf, serverNameOf. rewrite Hu, Hs. reflexivity. }
  unfold bind at 1 3. rewrite Hl.
  destruct (listedOf env d2 r s) as [[x|e] s']; [|reflexivity].
  unfold bind. rewrite IH. reflexivity.
Qed.

Lemma mapRows_ids d rows (s s' : State W) out :
  mapRows env d rows s = (Ret out, s') ->
  map l_id out = map r_id rows
  /\ map l_userId out = map r_user_id rows.
Proof.
  revert s s' out. induction rows as [|r rest IH]; simpl; intros s s' out H.
  - injection H as <- _. split; reflexivity.
  - unfold bind in H.
    destruct (listedOf env d r s) as [[x|e] s1] eqn:Hx; [|discriminate].
    destruct (mapRows env d rest s1) as [[xs|e] s2] eqn:Hxs; [|discriminate].
    injection H as <- _. simpl.
    destruct (IH _ _ _ Hxs) as [-> ->].
    unfold listedOf, bind in Hx.
    destruct (JS.truthy_str (r_seasons r)).
    + destruct (JSON_parse env _); simpl in Hx; [|discriminate].
      injection Hx as <- _. split; reflexivity.
    + simpl in Hx. injection Hx as <- _. split; reflexivity.
Qed.

Lemma mapRows_parses d rows (s : State W) :
  Forall (fun r => JS.truthy_str (r_seasons r) = true ->
                   JSON_parse env (default "" (r_seasons r)) <> None) rows ->
  exists out, mapRows env d rows s = (Ret out, s).
Proof.
  induction 1 as [|r rest Hr _ IH]; simpl.
  - eexists. reflexivity.
  - destruct IH as [xs Hxs]. unfold bind, listedOf, bind.
    destruct (JS.truthy_str (r_seasons r)).
    + specialize (Hr eq_refl).
      destruct (JSON_parse env _) as [l|]; [|contradiction]. simpl.
      rewrite Hxs. eexists. reflexivity.
    + simpl. rewrite Hxs. eexists. reflexivity.
Qed.

Lemma listRequests_eq user q (s : State W) :
  listRequests env user q s
  = (match fst (mapRows env (db s)
                  (orderByRequestedAtDesc
                     (List.filter (listWhere user q) (content_requests (db s)))) s) with
     | Ret rows => Ret (mkHttpResponse 200 (Rows rows))
     | Throw _ => Ret (json 500 [("error", "Failed to list requests")])
     end, s).
Proof.
  unfold listRequests, try_catch, bind, getDb.
  destruct (mapRows_pure (db s)
              (orderByRequestedAtDesc
                 (List.filter (listWhere user q) (content_requests (db s)))) s)
    as (o & Ho & _).
  rewrite Ho. destruct o; reflexivity.
Qed.

(** C9. Listing changes nothing and always answers. For a user who is
    not an administrator the answer is the same in two databases that
    have the same users, the same servers and the same rows of that user,
    whatever the rows of the others are. A successful listing holds, in
    order, exactly the selected rows: those of the user (narrowed by the
    query filters) for a non-administrator, all rows for an administrator
    who sets no filter; and it is successful whenever the stored season
    texts parse. *)
Theorem list_requests_isolation user q (s1 s2 : State W) :
  (user_role user <> "admin" ->
   users (db s1) = users (db s2) ->
   plex_servers (db s1) = plex_servers (db s2) ->
   List.filter (fun r => String.eqb (r_user_id r) (user_id user))
               (content_requests (db s1))
   = List.filter (fun r => String.eqb (r_user_id r) (user_id user))
                 (content_requests (db s2)) ->
   fst (listRequests env user q s1) = fst (listRequests env user q s2))
  /\ snd (listRequests env user q s1) = s1
  /\ (exists resp, fst (listRequests env user q s1) = Ret resp)
  /\ (forall rows,
        fst (listRequests env user q s1) = Ret (mkHttpResponse 200 (Rows rows)) ->
        map l_id rows
        = map r_id (orderByRequestedAtDesc
                      (List.filter (listWhere user q) (content_requests (db s1))))
        /\ (forall id, In id (map l_id rows) <->
              exists r, In r (content_requests (db s1)) /\ r_id r = id
                        /\ listWhere user q r = true)
        /\ (user_role user <> "admin" ->
            Forall (fun x => l_userId x = user_id user) rows)
        /\ (user_role user <> "admin" -> q = mkListQuery None None ->
            Permutation (map l_id rows)
              (map r_id (List.filter
                           (fun r => String.eqb (r_user_id r) (user_id user))
                           (content_requests (db s1)))))
        /\ (user_role user = "admin" -> q = mkListQuery None None ->
            Permutation (map l_id rows) (map r_id (content_requests (db s1)))))
  /\ (Forall (fun r => JS.truthy_str (r_seasons r) = true ->
                       JSON_parse env (default "" (r_seasons r)) <> None)
             (content_requests (db s1)) ->
      exists rows,
        fst (listRequests env user q s1) = Ret (mkHttpResponse 200 (Rows rows))).
Proof.
  split; [|split; [|split; [|split]]].
  - intros Hrole Hu Hs Hown. rewrite !listRequests_eq. simpl.
    rewrite (listWhere_own user q (content_requests (db s1)) Hrole).
    rewrite (listWhere_own user q (content_requests (db s2)) Hrole).
    rewrite Hown.
    set (rows := orderByRequestedAtDesc _).
    rewrite (mapRows_ext (db s1) (db s2) rows s1 Hu Hs).
    destruct (mapRows_pure (db s2) rows s1) as (o & Ho & Hall).
    rewrite Ho, (Hall s2). reflexivity.
  - rewrite listRequests_eq. reflexivity.
  - rewrite listRequests_eq. simpl. destruct (fst _); eauto.
  - intros rows Hrun. rewrite listRequests_eq in Hrun. simpl in Hrun.
    set (sel := List.filter (listWhere user q) (content_requests (db s1))) in *.
    destruct (mapRows env (db s1) (orderByRequestedAtDesc sel) s1)
      as [[out|e] s'] eqn:Hmap; simpl in Hrun; [|discriminate].
    injection Hrun as ->.
    destruct (mapRows_ids _ _ _ _ _ Hmap) as [Hids Huids].
    assert (Hperm : Permutation (map l_id rows) (map r_id sel)).
    { rewrite Hids. apply Permutation_map, orderBy_perm. }
    split; [exact Hids|]. split; [|split; [|split]].
    + intros id. split.
      * intros Hin. apply (Permutation_in _ Hperm) in Hin.
        apply in_map_iff in Hin as (r & Hid & Hr).
        apply filter_In in Hr as [Hr Hw]. eauto.
      * intros (r & Hr & Hid & Hw).
        apply (Permutation_in _ (Permutation_sym Hperm)).
        apply in_map_iff. exists r. split; [exact Hid|].
        apply filter_In. auto.
    + intros Hrole. apply String.eqb_neq in Hrole.
      assert (Hall : Forall (fun u => u = user_id user) (map l_userId rows)).
      { rewrite Huids. apply List.Forall_forall. intros u Hu.
        apply in_map_iff in Hu as (r & <- & Hr).
        apply (Permutation_in _ (orderBy_perm sel)) in Hr.
        apply filter_In in Hr as [_ Hw]. unfold listWhere in Hw.
        rewrite Hrole in Hw. simpl in Hw.
        apply andb_true_iff in Hw as [Hw _]. apply andb_true_iff in Hw as [Hw _].
        apply String.eqb_eq in Hw. exact Hw. }
      clear -Hall. induction rows as [|x xs IH]; constructor;
        inversion Hall; subst; auto.
    + intros Hrole ->. apply String.eqb_neq in Hrole.
      rewrite Hperm. subst sel. apply Permutation_map.
      assert (Heq : forall l,
                 List.filter (listWhere user (mkListQuery None None)) l
                 = List.filter (fun r => String.eqb (r_user_id r) (user_id user)) l).
      { intros l. apply filter_ext. intros r. unfold listWhere. rewrite Hrole.
        simpl. rewrite !andb_true_r. reflexivity. }
      rewrite Heq. reflexivity.
    + intros Hrole ->. rewrite Hperm. subst sel. apply Permutation_map.
      assert (Heq : forall l,
                 List.filter (listWhere user (mkListQuery None None)) l = l).
      { intros l. induction l as [|r l IH]; simpl; [reflexivity|].
        unfold listWhere at 1. rewrite Hrole. simpl. rewrite IH. reflexivity. }
      rewrite Heq. reflexivity.
  - intros Hparse. rewrite listRequests_eq. simpl.
    destruct (mapRows_parses (db s1)
                (orderByRequestedAtDesc
                   (List.filter (listWhere user q) (content_requests (db s1)))) s1)
      as [out Hout].
    + apply List.Forall_forall. intros r Hr.
      apply (Permutation_in _ (orderBy_perm _)) in Hr.
      apply filter_In in Hr as [Hr _].
      rewrite List.Forall_forall in Hparse. apply Hparse. exact Hr.
    + rewrite Hout. eauto.
Qed.

End Listing.

(** ** The fulfillment executors *)

Section Executors.

Context {W : Type} (env : Env W).

Lemma same_store_refl (s : State W) : same_store s s.
Proof. split; reflexivity. Qed.

Lemma same_store_trans (s1 s2 s3 : State W) :
  same_store s1 s2 -> same_store s2 s3 -> same_store s1 s3.
Proof. unfold same_store. intros [? ?] [? ?]. split; congruence. Qed.

(** Steps through code that only returns, binds, catches and calls
    remote services, keeping track of the untouched store. *)
Ltac store_step :=
  match goal with
  | |- runs (bind _ _) _ _ _ => apply runs_bind
  | |- runs (try_catch _ _) _ _ _ => apply runs_try
  | |- runs (axios _ _) _ _ _ =>
      let s' := fresh "s" in
      let Hs := fresh "Hs" in
      apply runs_axios; intros s' Hs _;
      destruct (fst (http _ _ _)); intros _
  | |- runs (ret _) _ _ _ => apply runs_ret
  | |- runs (arrCatch _ _) _ _ _ => unfold arrCatch
  | |- runs (match ?x with _ => _ end) _ _ _ => destruct x
  | |- same_store _ _ =>
      solve [ repeat match goal with
                     | H : same_store _ _ |- _ => destruct H
                     end; split; congruence ]
  end.

(** The executors never throw and write neither the database nor the
    cache. *)
Lemma addToRadarr_runs server tmdbId title (s0 s : State W) :
  same_store s0 s ->
  runs (addToRadarr env server tmdbId title) s (fun _ s' => same_store s0 s') no_throw.
Proof.
  intros H0. unfold addToRadarr.
  destruct (negb (radarrConfigured server)); [apply runs_ret; exact H0|].
  repeat store_step.
Qed.

Lemma addToSonarr_runs server tmdbId title seasons (s0 s : State W) :
  same_store s0 s ->
  runs (addToSonarr env server tmdbId title seasons) s
       (fun _ s' => same_store s0 s') no_throw.
Proof.
  intros H0. unfold addToSonarr.
  destruct (negb (sonarrConfigured server)); [apply runs_ret; exact H0|].
  repeat store_step.
Qed.

(** Steps through the same code, keeping track of the world: it is
    reached by remote calls. *)
Ltac world_step :=
  match goal with
  | |- runs (bind _ _) _ _ _ => apply runs_bind
  | |- runs (try_catch _ _) _ _ _ => apply runs_try
  | Hr : reach _ ?w0 (world ?s) |- runs (axios _ _) ?s _ _ =>
      let s' := fresh "s" in
      let Hw := fresh "Hw" in
      let Hr' := fresh "Hr" in
      apply runs_axios; intros s' _ Hw;
      assert (Hr' : reach env w0 (world s'))
        by (rewrite Hw; apply reach_step; exact Hr);
      clear Hw; destruct (fst (http _ _ _)); intros _
  | |- runs (ret _) _ _ _ => apply runs_ret
  | |- runs (arrCatch _ _) _ _ _ => unfold arrCatch
  | |- runs (match ?x with _ => _ end) _ _ _ => destruct x
  | |- reach _ _ _ => assumption
  end.

Lemma addToRadarr_reach server tmdbId title w0 (s : State W) :
  reach env w0 (world s) ->
  runs (addToRadarr env server tmdbId title) s
       (fun _ s' => reach env w0 (world s')) no_throw.
Proof.
  intros H0. unfold addToRadarr.
  destruct (negb (radarrConfigured server)); [apply runs_ret; exact H0|].
  repeat world_step.
Qed.

Lemma addToSonarr_reach server tmdbId title seasons w0 (s : State W) :
  reach env w0 (world s) ->
  runs (addToSonarr env server tmdbId title seasons) s
       (fun _ s' => reach env w0 (world s')) no_throw.
Proof.
  intros H0. unfold addToSonarr.
  destruct (negb (sonarrConfigured server)); [apply runs_ret; exact H0|].
  repeat world_step.
Qed.

(** Whatever fails inside the executor with status 400 and the
    "exists" validator is reported as a success that already exists. *)
Lemma catchResult_exists code (e : JsError) :
  existsRejection code e = true ->
  catchResult code e = mkArrResult true true None None.
Proof. intros H. unfold catchResult. rewrite H. reflexivity. Qed.

Lemma catchResult_success code (e : JsError) :
  success (catchResult code e) = true ->
  catchResult code e = mkArrResult true true None None.
Proof. unfold catchResult. destruct (existsRejection code e); [reflexivity | discriminate]. Qed.

(** The executors, as their reads followed by one add: the database and
    the cache are untouched, the result and the world are those of
    [radarrOutcome] / [sonarrOutcome]. *)
Lemma addToRadarr_prep server tmdbId title (s : State W)
    (P : outcome ArrResult * State W -> Prop) :
  radarrConfigured server = true ->
  (forall tr',
     P (Ret (fst (radarrOutcome env server tmdbId (world s))),
        mkState (db s) (cache s) (snd (radarrOutcome env server tmdbId (world s))) tr')) ->
  P (addToRadarr env server tmdbId title s).
Proof.
  intros Hconf HP. destruct s as [d c w tr].
  unfold radarrOutcome, radarrPrep in HP. cbn [db cache world] in HP.
  unfold addToRadarr. rewrite Hconf. cbn [negb]. cbv zeta.
  unfold try_catch, arrCatch. unfold bind at 1. rewrite axios_eq.
  destruct (http env (RadarrLookup _ _ _) w) as [[e|[md|]] w1]; cbn [fst snd] in *;
    try apply HP.
  unfold bind at 1. rewrite axios_eq.
  destruct (http env (RootFolders _ _) w1) as [[e|[[|root roots]|]] w2];
    cbn [fst snd] in *; try apply HP.
  unfold bind at 1. rewrite axios_eq.
  destruct (http env (QualityProfiles _ _) w2) as [[e|[[|p ps]|]] w3];
    cbn [fst snd] in *; try apply HP.
  unfold bind at 1. rewrite axios_eq.
  destruct (http env (RadarrAdd _ _ _) w3) as [[e|id] w4]; cbn [fst snd] in *; apply HP.
Qed.

Lemma addToSonarr_prep server tmdbId title seasons (s : State W)
    (P : outcome ArrResult * State W -> Prop) :
  sonarrConfigured server = true ->
  (forall tr',
     P (Ret (fst (sonarrOutcome env server title (world s))),
        mkState (db s) (cache s) (snd (sonarrOutcome env server title (world s))) tr')) ->
  P (addToSonarr env server tmdbId title seasons s).
Proof.
  intros Hconf HP. destruct s as [d c w tr].
  unfold sonarrOutcome, sonarrPrep in HP. cbn [db cache world] in HP.
  unfold addToSonarr. rewrite Hconf. cbn [negb]. cbv zeta.
  unfold try_catch, arrCatch. unfold bind at 1. rewrite axios_eq.
  destruct (http env (SonarrLookup _ _ _) w) as [[e|[[|sd sds]|]] w1]; cbn [fst snd] in *;
    try apply HP.
  unfold bind at 1. rewrite axios_eq.
  destruct (http env (RootFolders _ _) w1) as [[e|[[|root roots]|]] w2];
    cbn [fst snd] in *; try apply HP.
  unfold bind at 1. rewrite axios_eq.
  destruct (http env (QualityProfiles _ _) w2) as [[e|[[|p ps]|]] w3];
    cbn [fst snd] in *; try apply HP.
  unfold bind at 1. rewrite axios_eq.
  destruct (http env (SonarrAdd _ _ _) w3) as [[e|id] w4]; cbn [fst snd] in *; apply HP.
Qed.

End Executors.

(** ** Idempotence of the executors *)

Section Idempotence.

Context {W : Type} (env : Env W).
Context (movies series : W -> list Z) (Hm : Managers env movies series).

Lemma stable_reach {T} (c : Call T) w w' :
  isExecutorRead c = true -> reach env w w' ->
  fst (http env c w') = fst (http env c w).
Proof.
  intros Hc Hr. induction Hr as [w|w w' T' c' Hr IH]; [reflexivity|].
  rewrite (reads_stable env movies series Hm T c T' c' w' Hc). exact IH.
Qed.

Lemma reach_trans w1 w2 w3 :
  reach env w1 w2 -> reach env w2 w3 -> reach env w1 w3.
Proof.
  intros H12 H23. induction H23; [exact H12|].
  apply reach_step. apply IHreach. exact H12.
Qed.

Lemma reach_one {T} (c : Call T) w : reach env w (snd (http env c w)).
Proof. apply reach_step, reach_refl. Qed.

(** *** Radarr *)

Lemma radarrPrep_spec server tmdbId w :
  reach env w (snd (radarrPrep env server tmdbId w))
  /\ movies (snd (radarrPrep env server tmdbId w)) = movies w
  /\ (forall r, fst (radarrPrep env server tmdbId w) = inl r ->
        success r = true -> r = mkArrResult true true None None).
Proof.
  unfold radarrPrep.
  set (url := default "" (radarr_url server)).
  set (key := decrypt_col env (radarr_api_key server)).
  pose proof (reach_one (RadarrLookup url key tmdbId) w) as R1.
  destruct (reads_keep env movies series Hm _ (RadarrLookup url key tmdbId) w eq_refl)
    as [K1 _].
  destruct (http env (RadarrLookup url key tmdbId) w) as [[e|[md|]] w1];
    cbn [fst snd] in *.
  1, 3: split; [exact R1|]; split; [exact K1|]; intros r [= <-];
        try discriminate; apply catchResult_success.
  pose proof (reach_one (RootFolders url key) w1) as R2.
  destruct (reads_keep env movies series Hm _ (RootFolders url key) w1 eq_refl)
    as [K2 _].
  destruct (http env (RootFolders url key) w1) as [[e|[[|root roots]|]] w2];
    cbn [fst snd] in *.
  1, 2, 4: split; [exact (reach_trans _ _ _ R1 R2)|]; split; [congruence|];
           intros r [= <-]; try discriminate; apply catchResult_success.
  pose proof (reach_one (QualityProfiles url key) w2) as R3.
  destruct (reads_keep env movies series Hm _ (QualityProfiles url key) w2 eq_refl)
    as [K3 _].
  destruct (http env (QualityProfiles url key) w2) as [[e|[[|p ps]|]] w3];
    cbn [fst snd] in *.
  all: split; [exact (reach_trans _ _ _ (reach_trans _ _ _ R1 R2) R3)|];
       split; [congruence|]; intros r [= <-]; try discriminate;
       apply catchResult_success.
Qed.

(** The reads give the same answer from every world reached from a
    common one. *)
Lemma radarrPrep_stable server tmdbId w0 wa wb :
  reach env w0 wa -> reach env w0 wb ->
  fst (radarrPrep env server tmdbId wa) = fst (radarrPrep env server tmdbId wb).
Proof.
  intros Ra Rb. unfold radarrPrep.
  set (url := default "" (radarr_url server)).
  set (key := decrypt_col env (radarr_api_key server)).
  pose proof (stable_reach (RadarrLookup url key tmdbId) w0 wa eq_refl Ra) as Sa.
  pose proof (stable_reach (RadarrLookup url key tmdbId) w0 wb eq_refl Rb) as Sb.
  pose proof (reach_trans _ _ _ Ra (reach_one (RadarrLookup url key tmdbId) wa)) as Ra1.
  pose proof (reach_trans _ _ _ Rb (reach_one (RadarrLookup url key tmdbId) wb)) as Rb1.
  destruct (http env (RadarrLookup url key tmdbId) wa) as [xa wa1].
  destruct (http env (RadarrLookup url key tmdbId) wb) as [xb wb1].
  cbn [fst snd] in *. rewrite Sa, Sb. clear Sa Sb.
  destruct (fst (http env (RadarrLookup url key tmdbId) w0)) as [e|[md|]];
    try reflexivity.
  pose proof (stable_reach (RootFolders url key) w0 wa1 eq_refl Ra1) as Sa.
  pose proof (stable_reach (RootFolders url key) w0 wb1 eq_refl Rb1) as Sb.
  pose proof (reach_trans _ _ _ Ra1 (reach_one (RootFolders url key) wa1)) as Ra2.
  pose proof (reach_trans _ _ _ Rb1 (reach_one (RootFolders url key) wb1)) as Rb2.
  destruct (http env (RootFolders url key) wa1) as [ya wa2].
  destruct (http env (RootFolders url key) wb1) as [yb wb2].
  cbn [fst snd] in *. rewrite Sa, Sb. clear Sa Sb.
  destruct (fst (http env (RootFolders url key) w0)) as [e|[[|root roots]|]];
    try reflexivity.
  pose proof (stable_reach (QualityProfiles url key) w0 wa2 eq_refl Ra2) as Sa.
  pose proof (stable_reach (QualityProfiles url key) w0 wb2 eq_refl Rb2) as Sb.
  destruct (http env (QualityProfiles url key) wa2) as [za wa3].
  destruct (http env (QualityProfiles url key) wb2) as [zb wb3].
  cbn [fst snd] in *. rewrite Sa, Sb.
  destruct (fst (http env (QualityProfiles url key) w0)) as [e|[[|p ps]|]];
    reflexivity.
Qed.

Lemma NoDup_snoc (l : list Z) (x : Z) : NoDup l -> ~ In x l -> NoDup (l ++ [x]).
Proof.
  intros Hl Hx. apply NoDup_app; split; [exact Hl|]. split.
  - intros y Hy Hyx. apply list_elem_of_In in Hy. apply list_elem_of_In in Hyx.
    destruct Hyx as [<-|[]]. exact (Hx Hy).
  - apply NoDup_singleton.
Qed.

(** One run never makes Radarr track an identifier twice. *)
Lemma radarrOutcome_reach server tmdbId w :
  reach env w (snd (radarrOutcome env server tmdbId w)).
Proof.
  unfold radarrOutcome.
  destruct (radarrPrep_spec server tmdbId w) as (R & _ & _).
  destruct (radarrPrep env server tmdbId w) as [[r|body] w3]; cbn [fst snd] in *;
    [exact R|].
  pose proof (reach_one (RadarrAdd (default "" (radarr_url server))
                           (decrypt_col env (radarr_api_key server)) body) w3) as R4.
  destruct (http env (RadarrAdd _ _ body) w3) as [[e|id] w4]; cbn [fst snd] in *;
    exact (reach_trans _ _ _ R R4).
Qed.

Lemma radarrOutcome_nodup server tmdbId w :
  NoDup (movies w) ->
  NoDup (movies (snd (radarrOutcome env server tmdbId w))).
Proof.
  intros Hnd. unfold radarrOutcome.
  destruct (radarrPrep_spec server tmdbId w) as (_ & K & _).
  destruct (radarrPrep env server tmdbId w) as [[r|body] w3]; cbn [fst snd] in *.
  - rewrite K. exact Hnd.
  - set (url := default "" (radarr_url server)).
    set (key := decrypt_col env (radarr_api_key server)).
    destruct (in_dec Z.eq_dec (am_tmdbId body) (movies w3)) as [Hin|Hnin].
    + destruct (movie_known env movies series Hm url key body w3 Hin) as [Hk _].
      destruct (http env (RadarrAdd url key body) w3) as [[e|id] w4];
        cbn [fst snd] in *; congruence.
    + pose proof (movie_new env movies series Hm url key body w3 Hnin) as Hn.
      destruct (http env (RadarrAdd url key body) w3) as [[e|id] w4];
        cbn [fst snd] in *.
      * destruct Hn as [-> _]. congruence.
      * rewrite Hn. apply NoDup_snoc; congruence.
Qed.

(** Two runs in a row: no identifier is tracked twice, and after a
    successful first run the second one reports that the item already
    exists and adds nothing. *)
Lemma radarrOutcome_twice server tmdbId w0 r1 w1 r2 w2 :
  radarrOutcome env server tmdbId w0 = (r1, w1) ->
  radarrOutcome env server tmdbId w1 = (r2, w2) ->
  (NoDup (movies w0) -> NoDup (movies w2))
  /\ (success r1 = true ->
      r2 = mkArrResult true true None None /\ movies w2 = movies w1).
Proof.
  intros H1 H2. split.
  - intros Hnd.
    pose proof (radarrOutcome_nodup server tmdbId w0 Hnd) as N1. rewrite H1 in N1.
    pose proof (radarrOutcome_nodup server tmdbId w1 N1) as N2. rewrite H2 in N2.
    exact N2.
  - pose proof (radarrOutcome_reach server tmdbId w0) as R01. rewrite H1 in R01.
    cbn [snd] in R01.
    pose proof (radarrPrep_stable server tmdbId w0 w1 w0 R01 (reach_refl env w0)) as Hst.
    pose proof (radarrPrep_spec server tmdbId w1) as (_ & K2 & _).
    pose proof (radarrPrep_spec server tmdbId w0) as (_ & K & Hsucc).
    unfold radarrOutcome in H1, H2.
    set (url := default "" (radarr_url server)) in *.
    set (key := decrypt_col env (radarr_api_key server)) in *.
    destruct (radarrPrep env server tmdbId w1) as [x w3']; cbn [fst snd] in *.
    destruct (radarrPrep env server tmdbId w0) as [[r|body] w3]; cbn [fst snd] in *;
      subst x.
    + injection H1 as <- <-. injection H2 as <- <-.
      intros Hs. split; [apply Hsucc; auto | exact K2].
    + assert (Hknown : In (am_tmdbId body) (movies w3') ->
                       r2 = mkArrResult true true None None /\ movies w2 = movies w3').
      { intros Hin'.
        destruct (movie_known env movies series Hm url key body w3' Hin')
          as (Hk' & e' & He' & Hrej').
        destruct (http env (RadarrAdd url key body) w3') as [a' w4']; cbn [fst snd] in *.
        subst a'. injection H2 as <- <-.
        split; [apply catchResult_exists; exact Hrej' | exact Hk']. }
      destruct (in_dec Z.eq_dec (am_tmdbId body) (movies w3)) as [Hin|Hnin].
      * destruct (movie_known env movies series Hm url key body w3 Hin)
          as (Hk & e & He & Hrej).
        destruct (http env (RadarrAdd url key body) w3) as [a w4]; cbn [fst snd] in *.
        subst a. injection H1 as <- <-. intros _.
        destruct Hknown as [-> ->]; [congruence|]. split; [reflexivity | exact K2].
      * pose proof (movie_new env movies series Hm url key body w3 Hnin) as Hn.
        destruct (http env (RadarrAdd url key body) w3) as [[e|id] w4];
          cbn [fst snd] in *; injection H1 as <- <-.
        -- destruct Hn as [_ Hrej]. intros Hs. exfalso.
           unfold catchResult in Hs. rewrite Hrej in Hs. discriminate.
        -- intros _. destruct Hknown as [-> ->].
           { rewrite K2, Hn. apply in_or_app. right. left. reflexivity. }
           split; [reflexivity | exact K2].
Qed.

(** *** Sonarr *)

Lemma sonarrPrep_spec server title w :
  reach env w (snd (sonarrPrep env server title w))
  /\ series (snd (sonarrPrep env server title w)) = series w
  /\ (forall r, fst (sonarrPrep env server title w) = inl r ->
        success r = true -> r = mkArrResult true true None None).
Proof.
  unfold sonarrPrep.
  set (url := default "" (sonarr_url server)).
  set (key := decrypt_col env (sonarr_api_key server)).
  pose proof (reach_one (SonarrLookup url key title) w) as R1.
  destruct (reads_keep env movies series Hm _ (SonarrLookup url key title) w eq_refl)
    as [_ K1].
  destruct (http env (SonarrLookup url key title) w) as [[e|[[|sd sds]|]] w1];
    cbn [fst snd] in *.
  1, 2, 4: split; [exact R1|]; split; [exact K1|]; intros r [= <-];
        try discriminate; apply catchResult_success.
  pose proof (reach_one (RootFolders url key) w1) as R2.
  destruct (reads_keep env movies series Hm _ (RootFolders url key) w1 eq_refl)
    as [_ K2].
  destruct (http env (RootFolders url key) w1) as [[e|[[|root roots]|]] w2];
    cbn [fst snd] in *.
  1, 2, 4: split; [exact (reach_trans _ _ _ R1 R2)|]; split; [congruence|];
           intros r [= <-]; try discriminate; apply catchResult_success.
  pose proof (reach_one (QualityProfiles url key) w2) as R3.
  destruct (reads_keep env movies series Hm _ (QualityProfiles url key) w2 eq_refl)
    as [_ K3].
  destruct (http env (QualityProfiles url key) w2) as [[e|[[|p ps]|]] w3];
    cbn [fst snd] in *.
  all: split; [exact (reach_trans _ _ _ (reach_trans _ _ _ R1 R2) R3)|];
       split; [congruence|]; intros r [= <-]; try discriminate;
       apply catchResult_success.
Qed.

(** The reads give the same answer from every world reached from a
    common one. *)
Lemma sonarrPrep_stable server title w0 wa wb :
  reach env w0 wa -> reach env w0 wb ->
  fst (sonarrPrep env server title wa) = fst (sonarrPrep env server title wb).
Proof.
  intros Ra Rb. unfold sonarrPrep.
  set (url := default "" (sonarr_url server)).
  set (key := decrypt_col env (sonarr_api_key server)).
  pose proof (stable_reach (SonarrLookup url key title) w0 wa eq_refl Ra) as Sa.
  pose proof (stable_reach (SonarrLookup url key title) w0 wb eq_refl Rb) as Sb.
  pose proof (reach_trans _ _ _ Ra (reach_one (SonarrLookup url key title) wa)) as Ra1.
  pose proof (reach_trans _ _ _ Rb (reach_one (SonarrLookup url key title) wb)) as Rb1.
  destruct (http env (SonarrLookup url key title) wa) as [xa wa1].
  destruct (http env (SonarrLookup url key title) wb) as [xb wb1].
  cbn [fst snd] in *. rewrite Sa, Sb. clear Sa Sb.
  destruct (fst (http env (SonarrLookup url key title) w0)) as [e|[[|sd sds]|]];
    try reflexivity.
  pose proof (stable_reach (RootFolders url key) w0 wa1 eq_refl Ra1) as Sa.
  pose proof (stable_reach (RootFolders url key) w0 wb1 eq_refl Rb1) as Sb.
  pose proof (reach_trans _ _ _ Ra1 (reach_one (RootFolders url key) wa1)) as Ra2.
  pose proof (reach_trans _ _ _ Rb1 (reach_one (RootFolders url key) wb1)) as Rb2.
  destruct (http env (RootFolders url key) wa1) as [ya wa2].
  destruct (http env (RootFolders url key) wb1) as [yb wb2].
  cbn [fst snd] in *. rewrite Sa, Sb. clear Sa Sb.
  destruct (fst (http env (RootFolders url key) w0)) as [e|[[|root roots]|]];
    try reflexivity.
  pose proof (stable_reach (QualityProfiles url key) w0 wa2 eq_refl Ra2) as Sa.
  pose proof (stable_reach (QualityProfiles url key) w0 wb2 eq_refl Rb2) as Sb.
  destruct (http env (QualityProfiles url key) wa2) as [za wa3].
  destruct (http env (QualityProfiles url key) wb2) as [zb wb3].
  cbn [fst snd] in *. rewrite Sa, Sb.
  destruct (fst (http env (QualityProfiles url key) w0)) as [e|[[|p ps]|]];
    reflexivity.
Qed.

(** One run never makes Sonarr track an identifier twice. *)
Lemma sonarrOutcome_reach server title w :
  reach env w (snd (sonarrOutcome env server title w)).
Proof.
  unfold sonarrOutcome.
  destruct (sonarrPrep_spec server title w) as (R & _ & _).
  destruct (sonarrPrep env server title w) as [[r|body] w3]; cbn [fst snd] in *;
    [exact R|].
  pose proof (reach_one (SonarrAdd (default "" (sonarr_url server))
                           (decrypt_col env (sonarr_api_key server)) body) w3) as R4.
  destruct (http env (SonarrAdd _ _ body) w3) as [[e|id] w4]; cbn [fst snd] in *;
    exact (reach_trans _ _ _ R R4).
Qed.

Lemma sonarrOutcome_nodup server title w :
  NoDup (series w) ->
  NoDup (series (snd (sonarrOutcome env server title w))).
Proof.
  intros Hnd. unfold sonarrOutcome.
  destruct (sonarrPrep_spec server title w) as (_ & K & _).
  destruct (sonarrPrep env server title w) as [[r|body] w3]; cbn [fst snd] in *.
  - rewrite K. exact Hnd.
  - set (url := default "" (sonarr_url server)).
    set (key := decrypt_col env (sonarr_api_key server)).
    destruct (in_dec Z.eq_dec (as_tvdbId body) (series w3)) as [Hin|Hnin].
    + destruct (series_known env movies series Hm url key body w3 Hin) as [Hk _].
      destruct (http env (SonarrAdd url key body) w3) as [[e|id] w4];
        cbn [fst snd] in *; congruence.
    + pose proof (series_new env movies series Hm url key body w3 Hnin) as Hn.
      destruct (http env (SonarrAdd url key body) w3) as [[e|id] w4];
        cbn [fst snd] in *.
      * destruct Hn as [-> _]. congruence.
      * rewrite Hn. apply NoDup_snoc; congruence.
Qed.

(** Two runs in a row: no identifier is tracked twice, and after a
    successful first run the second one reports that the item already
    exists and adds nothing. *)
Lemma sonarrOutcome_twice server title w0 r1 w1 r2 w2 :
  sonarrOutcome env server title w0 = (r1, w1) ->
  sonarrOutcome env server title w1 = (r2, w2) ->
  (NoDup (series w0) -> NoDup (series w2))
  /\ (success r1 = true ->
      r2 = mkArrResult true true None None /\ series w2 = series w1).
Proof.
  intros H1 H2. split.
  - intros Hnd.
    pose proof (sonarrOutcome_nodup server title w0 Hnd) as N1. rewrite H1 in N1.
    pose proof (sonarrOutcome_nodup server title w1 N1) as N2. rewrite H2 in N2.
    exact N2.
  - pose proof (sonarrOutcome_reach server title w0) as R01. rewrite H1 in R01.
    cbn [snd] in R01.
    pose proof (sonarrPrep_stable server title w0 w1 w0 R01 (reach_refl env w0)) as Hst.
    pose proof (sonarrPrep_spec server title w1) as (_ & K2 & _).
    pose proof (sonarrPrep_spec server title w0) as (_ & K & Hsucc).
    unfold sonarrOutcome in H1, H2.
    set (url := default "" (sonarr_url server)) in *.
    set (key := decrypt_col env (sonarr_api_key server)) in *.
    destruct (sonarrPrep env server title w1) as [x w3']; cbn [fst snd] in *.
    destruct (sonarrPrep env server title w0) as [[r|body] w3]; cbn [fst snd] in *;
      subst x.
    + injection H1 as <- <-. injection H2 as <- <-.
      intros Hs. split; [apply Hsucc; auto | exact K2].
    + assert (Hknown : In (as_tvdbId body) (series w3') ->
                       r2 = mkArrResult true true None None /\ series w2 = series w3').
      { intros Hin'.
        destruct (series_known env movies series Hm url key body w3' Hin')
          as (Hk' & e' & He' & Hrej').
        destruct (http env (SonarrAdd url key body) w3') as [a' w4']; cbn [fst snd] in *.
        subst a'. injection H2 as <- <-.
        split; [apply catchResult_exists; exact Hrej' | exact Hk']. }
      destruct (in_dec Z.eq_dec (as_tvdbId body) (series w3)) as [Hin|Hnin].
      * destruct (series_known env movies series Hm url key body w3 Hin)
          as (Hk & e & He & Hrej).
        destruct (http env (SonarrAdd url key body) w3) as [a w4]; cbn [fst snd] in *.
        subst a. injection H1 as <- <-. intros _.
        destruct Hknown as [-> ->]; [congruence|]. split; [reflexivity | exact K2].
      * pose proof (series_new env movies series Hm url key body w3 Hnin) as Hn.
        destruct (http env (SonarrAdd url key body) w3) as [[e|id] w4];
          cbn [fst snd] in *; injection H1 as <- <-.
        -- destruct Hn as [_ Hrej]. intros Hs. exfalso.
           unfold catchResult in Hs. rewrite Hrej in Hs. discriminate.
        -- intros _. destruct Hknown as [-> ->].
           { rewrite K2, Hn. apply in_or_app. right. left. reflexivity. }
           split; [reflexivity | exact K2].
Qed.


(** *** The executors themselves *)

Lemma addToRadarr_outcome server tmdbId title (s : State W) :
  radarrConfigured server = true ->
  exists tr',
    addToRadarr env server tmdbId title s
    = (Ret (fst (radarrOutcome env server tmdbId (world s))),
       mkState (db s) (cache s) (snd (radarrOutcome env server tmdbId (world s))) tr').
Proof.
  intros Hconf. apply addToRadarr_prep; [exact Hconf|]. intros tr'. eauto.
Qed.

Lemma addToSonarr_outcome server tmdbId title seasons (s : State W) :
  sonarrConfigured server = true ->
  exists tr',
    addToSonarr env server tmdbId title seasons s
    = (Ret (fst (sonarrOutcome env server title (world s))),
       mkState (db s) (cache s) (snd (sonarrOutcome env server title (world s))) tr').
Proof.
  intros Hconf. apply addToSonarr_prep; [exact Hconf|]. intros tr'. eauto.
Qed.

Lemma existsRejection_intro code (e : JsError) errs v :
  err_status e = Some 400 -> err_data e = Some errs -> In v errs ->
  errorCode v = code -> existsRejection code e = true.
Proof.
  intros Hs Hd Hin Hc. unfold existsRejection. rewrite Hs, Hd. simpl.
  apply existsb_exists. exists v. split; [exact Hin|].
  rewrite Hc. apply String.eqb_refl.
Qed.

(** C8. When the add of a run is rejected with status 400 and the
    "exists" validator, the executor returns [{ success: true,
    alreadyExists: true }]. Against managers that reject what they
    already track, two runs of the executor in a row leave the database
    and the cache alone, never make the manager track an identifier
    twice, and after a successful first run the second one returns
    [success] and [alreadyExists] and adds nothing. Both for
    [addToRadarr] and for [addToSonarr]. *)
Theorem executor_idempotent server tmdbId title seasons (s0 : State W) :
  (radarrConfigured server = true ->
   forall body w3 e w4 errs v,
     radarrPrep env server tmdbId (world s0) = (inr body, w3) ->
     http env (RadarrAdd (default "" (radarr_url server))
                         (decrypt_col env (radarr_api_key server)) body) w3
     = (inl e, w4) ->
     err_status e = Some 400 -> err_data e = Some errs -> In v errs ->
     errorCode v = "MovieExistsValidator" ->
     fst (addToRadarr env server tmdbId title s0)
     = Ret (mkArrResult true true None None))
  /\ (sonarrConfigured server = true ->
      forall body w3 e w4 errs v,
        sonarrPrep env server title (world s0) = (inr body, w3) ->
        http env (SonarrAdd (default "" (sonarr_url server))
                            (decrypt_col env (sonarr_api_key server)) body) w3
        = (inl e, w4) ->
        err_status e = Some 400 -> err_data e = Some errs -> In v errs ->
        errorCode v = "SeriesExistsValidator" ->
        fst (addToSonarr env server tmdbId title seasons s0)
        = Ret (mkArrResult true true None None))
  /\ (exists r1 s1 r2 s2,
        addToRadarr env server tmdbId title s0 = (Ret r1, s1)
        /\ addToRadarr env server tmdbId title s1 = (Ret r2, s2)
        /\ same_store s0 s2
        /\ (NoDup (movies (world s0)) -> NoDup (movies (world s2)))
        /\ (success r1 = true ->
            success r2 = true /\ alreadyExists r2 = true
            /\ movies (world s2) = movies (world s1)))
  /\ (exists r1 s1 r2 s2,
        addToSonarr env server tmdbId title seasons s0 = (Ret r1, s1)
        /\ addToSonarr env server tmdbId title seasons s1 = (Ret r2, s2)
        /\ same_store s0 s2
        /\ (NoDup (series (world s0)) -> NoDup (series (world s2)))
        /\ (success r1 = true ->
            success r2 = true /\ alreadyExists r2 = true
            /\ series (world s2) = series (world s1))).
Proof.
  split; [|split; [|split]].
  - intros Hconf body w3 e w4 errs v Hp Ha Hs Hd Hin Hc.
    destruct (addToRadarr_outcome server tmdbId title s0 Hconf) as [tr' ->].
    cbn [fst]. unfold radarrOutcome. rewrite Hp, Ha. cbn [fst].
    rewrite (catchResult_exists _ _ (existsRejection_intro _ _ _ _ Hs Hd Hin Hc)).
    reflexivity.
  - intros Hconf body w3 e w4 errs v Hp Ha Hs Hd Hin Hc.
    destruct (addToSonarr_outcome server tmdbId title seasons s0 Hconf) as [tr' ->].
    cbn [fst]. unfold sonarrOutcome. rewrite Hp, Ha. cbn [fst].
    rewrite (catchResult_exists _ _ (existsRejection_intro _ _ _ _ Hs Hd Hin Hc)).
    reflexivity.
  - destruct (radarrConfigured server) eqn:Hconf.
    + destruct (addToRadarr_outcome server tmdbId title s0 Hconf) as [tr1 H1].
      destruct (radarrOutcome env server tmdbId (world s0)) as [r1 w1] eqn:Ho1.
      cbn [fst snd] in H1.
      destruct (addToRadarr_outcome server tmdbId title
                  (mkState (db s0) (cache s0) w1 tr1) Hconf) as [tr2 H2].
      cbn [db cache world] in H2.
      destruct (radarrOutcome env server tmdbId w1) as [r2 w2] eqn:Ho2.
      cbn [fst snd] in H2.
      exists r1, (mkState (db s0) (cache s0) w1 tr1),
             r2, (mkState (db s0) (cache s0) w2 tr2).
      split; [exact H1|]. split; [exact H2|]. split; [split; reflexivity|].
      destruct (radarrOutcome_twice server tmdbId (world s0) r1 w1 r2 w2 Ho1 Ho2)
        as [Hnd Hsucc].
      cbn [world]. split; [exact Hnd|].
      intros Hs. destruct (Hsucc Hs) as [-> Hmv]. auto.
    + exists (arrFailure "Radarr not configured"), s0,
             (arrFailure "Radarr not configured"), s0.
      unfold addToRadarr. rewrite Hconf. cbn [negb].
      repeat split; auto; discriminate.
  - destruct (sonarrConfigured server) eqn:Hconf.
    + destruct (addToSonarr_outcome server tmdbId title seasons s0 Hconf) as [tr1 H1].
      destruct (sonarrOutcome env server title (world s0)) as [r1 w1] eqn:Ho1.
      cbn [fst snd] in H1.
      destruct (addToSonarr_outcome server tmdbId title seasons
                  (mkState (db s0) (cache s0) w1 tr1) Hconf) as [tr2 H2].
      cbn [db cache world] in H2.
      destruct (sonarrOutcome env server title w1) as [r2 w2] eqn:Ho2.
      cbn [fst snd] in H2.
      exists r1, (mkState (db s0) (cache s0) w1 tr1),
             r2, (mkState (db s0) (cache s0) w2 tr2).
      split; [exact H1|]. split; [exact H2|]. split; [split; reflexivity|].
      destruct (sonarrOutcome_twice server title (world s0) r1 w1 r2 w2 Ho1 Ho2)
        as [Hnd Hsucc].
      cbn [world]. split; [exact Hnd|].
      intros Hs. destruct (Hsucc Hs) as [-> Hmv]. auto.
    + exists (arrFailure "Sonarr not configured"), s0,
             (arrFailure "Sonarr not configured"), s0.
      unfold addToSonarr. rewrite Hconf. cbn [negb].
      repeat split; auto; discriminate.
Qed.

End Idempotence.

(** ** The reference managers behave as assumed *)

Lemma demo_existsb_movies (l : list RadarrMovie) (id : Z) :
  existsb (fun m => rm_tmdbId m =? id) l = true <-> In id (map rm_tmdbId l).
Proof.
  rewrite existsb_exists, in_map_iff. split.
  - intros (m & Hin & Heq). apply Z.eqb_eq in Heq. eauto.
  - intros (m & Heq & Hin). exists m. split; [exact Hin|]. apply Z.eqb_eq. exact Heq.
Qed.

Lemma demo_existsb_series (l : list SonarrSeries) (id : Z) :
  existsb (fun x => JS.num_strict_eq (ss_tvdbId x) (Some id)) l = true
  <-> In id (omap ss_tvdbId l).
Proof.
  induction l as [|x l IH]; simpl; [split; [discriminate | contradiction]|].
  rewrite orb_true_iff, IH.
  destruct (ss_tvdbId x) as [y|]; simpl.
  - rewrite Z.eqb_eq. tauto.
  - split; [intros [H|H]; [discriminate | exact H] | auto].
Qed.

Lemma demo_omap_snoc (l : list SonarrSeries) (x : SonarrSeries) (id : Z) :
  ss_tvdbId x = Some id -> omap ss_tvdbId (l ++ [x]) = omap ss_tvdbId l ++ [id].
Proof.
  intros Hx. rewrite omap_app. simpl. rewrite Hx. reflexivity.
Qed.

Lemma demo_managers : Managers Demo.env Demo.movies Demo.series.
Proof.
  constructor.
  - intros T c w Hc. destruct c; try discriminate; simpl;
      unfold Demo.answer; try destruct (Demo.dw_plex w);
      try destruct (Demo.dw_radarr w); try destruct (Demo.dw_sonarr w);
      split; reflexivity.
  - intros T c T' c' w Hc.
    assert (Hkeep : forall w1 : Demo.World,
               (Demo.dw_radarr w1 = None <-> Demo.dw_radarr w = None)
               /\ (Demo.dw_sonarr w1 = None <-> Demo.dw_sonarr w = None)
               /\ Demo.dw_catalog w1 = Demo.dw_catalog w
               /\ Demo.dw_roots w1 = Demo.dw_roots w
               /\ Demo.dw_profiles w1 = Demo.dw_profiles w ->
               fst (http Demo.env c w1) = fst (http Demo.env c w)).
    { intros w1 (Hr & Hs & Hcat & Hroots & Hprof).
      destruct c; try discriminate; simpl; unfold Demo.answer;
        rewrite ?Hcat, ?Hroots, ?Hprof; try reflexivity.
      - destruct (Demo.dw_radarr w1), (Demo.dw_radarr w); try reflexivity;
          exfalso; [destruct Hr as [_ Hr] | destruct Hr as [Hr _]];
          specialize (Hr eq_refl); discriminate.
      - destruct (Demo.dw_sonarr w1), (Demo.dw_sonarr w); try reflexivity;
          exfalso; [destruct Hs as [_ Hs] | destruct Hs as [Hs _]];
          specialize (Hs eq_refl); discriminate. }
    apply Hkeep. clear Hkeep Hc c.
    destruct c'; simpl; unfold Demo.answer, Demo.addMovie, Demo.addSeries;
      try destruct (Demo.dw_plex w) as [p|];
      try destruct (Demo.dw_radarr w) as [l|] eqn:Hl;
      try destruct (Demo.dw_sonarr w) as [l'|] eqn:Hl';
      try destruct (existsb _ _);
      simpl; rewrite ?Hl, ?Hl'; repeat split; intros; try discriminate; auto.
  - intros url key body w Hin. simpl. unfold Demo.addMovie, Demo.movies in *.
    destruct (Demo.dw_radarr w) as [l|] eqn:Hl; [|destruct Hin].
    simpl in Hin. apply demo_existsb_movies in Hin. rewrite Hin. simpl.
    rewrite Hl. split; [reflexivity|]. eexists. split; reflexivity.
  - intros url key body w Hnin. simpl. unfold Demo.addMovie, Demo.movies in *.
    destruct (Demo.dw_radarr w) as [l|] eqn:Hl; [|simpl; rewrite Hl; auto].
    simpl in Hnin. rewrite <- demo_existsb_movies in Hnin.
    destruct (existsb _ l); [contradiction Hnin; reflexivity|].
    simpl. rewrite map_app. reflexivity.
  - intros url key body w Hin. simpl. unfold Demo.addSeries, Demo.series in *.
    destruct (Demo.dw_sonarr w) as [l|] eqn:Hl; [|destruct Hin].
    simpl in Hin. apply demo_existsb_series in Hin. rewrite Hin. simpl.
    rewrite Hl. split; [reflexivity|]. eexists. split; reflexivity.
  - intros url key body w Hnin. simpl. unfold Demo.addSeries, Demo.series in *.
    destruct (Demo.dw_sonarr w) as [l|] eqn:Hl; [|simpl; rewrite Hl; auto].
    simpl in Hnin. rewrite <- demo_existsb_series in Hnin.
    destruct (existsb _ l); [contradiction Hnin; reflexivity|].
    simpl. apply demo_omap_snoc. reflexivity.
Qed.

Lemma executor_idempotent_witness :
  exists r1 s1 r2 s2,
    addToRadarr Demo.env Demo.serverS 603 "The Matrix" Demo.state0 = (Ret r1, s1)
    /\ addToRadarr Demo.env Demo.serverS 603 "The Matrix" s1 = (Ret r2, s2)
    /\ r1 = mkArrResult true false None (Some 1)
    /\ success r2 = true /\ alreadyExists r2 = true
    /\ Demo.movies (world s2) = [603].
Proof.
  destruct (executor_idempotent Demo.env Demo.movies Demo.series demo_managers
              Demo.serverS 603 "The Matrix" None Demo.state0)
    as (_ & _ & (r1 & s1 & r2 & s2 & H1 & H2 & _ & _ & Hs) & _).
  exists r1, s1, r2, s2. split; [exact H1|]. split; [exact H2|].
  vm_compute in H1. injection H1 as <- <-.
  destruct (Hs eq_refl) as (S2 & A2 & M2).
  split; [reflexivity|]. split; [exact S2|]. split; [exact A2|].
  rewrite M2. vm_compute. reflexivity.
Defined.

(** ** POST /api/requests *)

Section Create.

Context {W : Type} (env : Env W).

(** The manager check only reads: it leaves the store alone and, when
    it answers early, answers 409. *)
Lemma managerPrecheck_runs server contentType tmdbId title (s : State W) :
  runs (managerPrecheck env server contentType tmdbId title) s
       (fun early s' =>
          same_store s s'
          /\ forall r, early = Some r -> res_status r = 409)
       (fun _ s' => same_store s s').
Proof.
  unfold managerPrecheck. apply runs_bind.
  assert (Hq : forall (s1 : State W),
             same_store s s1 ->
             runs (if String.eqb contentType "tv" && sonarrConfigured server
                   then
                     do series <- axios env
                       (SonarrSeriesList (default "" (sonarr_url server))
                                         (decrypt_col env (sonarr_api_key server)));
                     match List.find (fun x => JS.truthy_num (ss_tvdbId x)
                                               && String.eqb (ss_title x) title) series with
                     | Some existingSeries =>
                         if JS.num_strict_eq (ss_percentOfEpisodes existingSeries) (Some 100)
                         then ret (Some (json 409
                                [("error", "This series is already fully downloaded in Sonarr");
                                 ("status", "downloaded")]))
                         else ret None
                     | None => ret None
                     end
                   else ret None) s1
                  (fun early s' =>
                     same_store s s' /\ forall r, early = Some r -> res_status r = 409)
                  (fun _ s' => same_store s s')).
  { intros s1 H1.
    destruct (String.eqb contentType "tv" && sonarrConfigured server).
    - apply runs_bind, runs_axios. intros s2 H2 _.
      pose proof (same_store_trans _ _ _ H1 H2) as H12.
      destruct (fst (http env _ (world s1))) as [e|series]; intros _; [exact H12|].
      destruct (List.find _ series) as [x|].
      + destruct (JS.num_strict_eq _ _); apply runs_ret;
          (split; [exact H12|]); intros r [= <-]; reflexivity.
      + apply runs_ret. split; [exact H12 | discriminate].
    - apply runs_ret. split; [exact H1 | discriminate]. }
  destruct (String.eqb contentType "movie" && radarrConfigured server).
  - apply runs_bind, runs_axios. intros s1 H1 _.
    destruct (fst (http env _ (world s))) as [e|movies]; intros _; [exact H1|].
    destruct (List.find _ movies) as [m|].
    + destruct (rm_hasFile m).
      * apply runs_ret, runs_ret. split; [exact H1|]. intros r [= <-]. reflexivity.
      * destruct (rm_monitored m).
        -- apply runs_ret, runs_ret. split; [exact H1|]. intros r [= <-]. reflexivity.
        -- apply runs_ret. apply Hq. exact H1.
    + apply runs_ret. apply Hq. exact H1.
  - apply runs_ret. apply Hq. apply same_store_refl.
Qed.

(** The guarded manager check of the create route never throws. *)
Lemma guardedPrecheck_returns server contentType tmdbId title (s : State W) :
  exists early s',
    try_catch (managerPrecheck env server contentType tmdbId title)
              (fun _ => ret None) s = (Ret early, s')
    /\ same_store s s'
    /\ forall r, early = Some r -> res_status r = 409.
Proof.
  apply runs_returns, runs_try.
  eapply runs_weaken; [apply managerPrecheck_runs | auto |].
  intros e s' H. apply runs_ret. split; [exact H | discriminate].
Qed.

(** What the manager check answers early is not the error of the
    duplicate guard, and the world it leaves is reached by remote calls. *)
Lemma managerPrecheck_answers server contentType tmdbId title (s : State W) :
  runs (managerPrecheck env server contentType tmdbId title) s
       (fun early s' =>
          reach env (world s) (world s')
          /\ forall r, early = Some r ->
                       r <> json 409 [("error", "Request already exists")])
       (fun _ s' => reach env (world s) (world s')).
Proof.
  unfold managerPrecheck. apply runs_bind.
  assert (Hq : forall (s1 : State W),
             reach env (world s) (world s1) ->
             runs (if String.eqb contentType "tv" && sonarrConfigured server
                   then
                     do series <- axios env
                       (SonarrSeriesList (default "" (sonarr_url server))
                                         (decrypt_col env (sonarr_api_key server)));
                     match List.find (fun x => JS.truthy_num (ss_tvdbId x)
                                               && String.eqb (ss_title x) title) series with
                     | Some existingSeries =>
                         if JS.num_strict_eq (ss_percentOfEpisodes existingSeries) (Some 100)
                         then ret (Some (json 409
                                [("error", "This series is already fully downloaded in Sonarr");
                                 ("status", "downloaded")]))
                         else ret None
                     | None => ret None
                     end
                   else ret None) s1
                  (fun early s' =>
                     reach env (world s) (world s')
                     /\ forall r, early = Some r ->
                                  r <> json 409 [("error", "Request already exists")])
                  (fun _ s' => reach env (world s) (world s'))).
  { intros s1 H1.
    destruct (String.eqb contentType "tv" && sonarrConfigured server).
    - apply runs_bind, runs_axios. intros s2 _ Hw.
      assert (H12 : reach env (world s) (world s2))
        by (rewrite Hw; apply reach_step; exact H1).
      destruct (fst (http env _ (world s1))) as [e|series]; intros _; [exact H12|].
      destruct (List.find _ series) as [x|].
      + destruct (JS.num_strict_eq _ _); apply runs_ret;
          (split; [exact H12|]); intros r [= <-]; discriminate.
      + apply runs_ret. split; [exact H12 | discriminate].
    - apply runs_ret. split; [exact H1 | discriminate]. }
  destruct (String.eqb contentType "movie" && radarrConfigured server).
  - apply runs_bind, runs_axios. intros s1 _ Hw.
    assert (H1 : reach env (world s) (world s1))
      by (rewrite Hw; apply reach_step, reach_refl).
    destruct (fst (http env _ (world s))) as [e|movies]; intros _; [exact H1|].
    destruct (List.find _ movies) as [m|].
    + destruct (rm_hasFile m).
      * apply runs_ret, runs_ret. split; [exact H1|]. intros r [= <-]. discriminate.
      * destruct (rm_monitored m).
        -- apply runs_ret, runs_ret. split; [exact H1|]. intros r [= <-].
           destruct (String.eqb (rm_status m) "released"); discriminate.
        -- apply runs_ret. apply Hq. exact H1.
    + apply runs_ret. apply Hq. exact H1.
  - apply runs_ret. apply Hq. apply reach_refl.
Qed.

Lemma guardedPrecheck_answers server contentType tmdbId title (s : State W) :
  exists early s',
    try_catch (managerPrecheck env server contentType tmdbId title)
              (fun _ => ret None) s = (Ret early, s')
    /\ same_store s s'
    /\ reach env (world s) (world s')
    /\ forall r, early = Some r ->
                 res_status r = 409
                 /\ r <> json 409 [("error", "Request already exists")].
Proof.
  destruct (guardedPrecheck_returns server contentType tmdbId title s)
    as (early & s' & Hrun & Hstore & H409).
  exists early, s'. split; [exact Hrun|]. split; [exact Hstore|].
  pose proof (managerPrecheck_answers server contentType tmdbId title s) as H.
  unfold try_catch in Hrun. unfold runs in H.
  destruct (managerPrecheck env server contentType tmdbId title s) as [[early'|e] s1].
  - injection Hrun as <- <-. destruct H as [Hr Hnd]. split; [exact Hr|].
    intros r Hr'. split; [apply H409; exact Hr' | apply Hnd; exact Hr'].
  - unfold ret in Hrun. injection Hrun as <- <-. split; [exact H|].
    intros r Hr'. discriminate Hr'.
Qed.

Lemma contentTypeOk_truthy ct : contentTypeOk ct = true -> JS.truthy_str (Some ct) = true.
Proof.
  unfold contentTypeOk. intros H. apply orb_true_iff in H as [H|H];
    apply String.eqb_eq in H; subst; reflexivity.
Qed.

(** A valid create call gets past the validation of the route. *)
Lemma createRequest_valid user ip body (s : State W) tmdbId contentType title
    serverId server :
  validCreate user body (db s) tmdbId contentType title serverId server ->
  createRequest env user ip body s
  = try_catch
      (do early <- try_catch (managerPrecheck env server contentType tmdbId title)
                             (fun _ => ret None);
       match early with
       | Some response => ret response
       | None => createAfterPrecheck env user ip server serverId tmdbId
                                     contentType title body
       end)
      (fun _ => ret (json 500 [("error", "Failed to create request")])) s.
Proof.
  intros (Hid & Hid0 & Hct & Hok & Ht & Ht0 & Hp & Hp0 & Hsrv).
  unfold createRequest. rewrite Hid, Hct, Ht, Hp. cbv zeta.
  cbn [default from_option id].
  assert (H1 : JS.truthy_num (Some tmdbId) = true).
  { simpl. apply negb_true_iff, Z.eqb_neq. exact Hid0. }
  rewrite H1, (contentTypeOk_truthy _ Hok), (proj2 (truthy_str_some title) Ht0),
    (proj2 (truthy_str_some serverId) Hp0), Hok.
  cbn [negb orb]. unfold try_catch at 1 3. unfold bind at 1, getServer.
  rewrite Hsrv. reflexivity.
Qed.

(** ... and then depends on the guarded manager check only. *)
Lemma createRequest_after user ip body (s s1 : State W) tmdbId contentType title
    serverId server early :
  validCreate user body (db s) tmdbId contentType title serverId server ->
  try_catch (managerPrecheck env server contentType tmdbId title)
            (fun _ => ret None) s = (Ret early, s1) ->
  createRequest env user ip body s
  = match early with
    | Some response => (Ret response, s1)
    | None =>
        try_catch (createAfterPrecheck env user ip server serverId tmdbId
                                       contentType title body)
                  (fun _ => ret (json 500 [("error", "Failed to create request")])) s1
    end.
Proof.
  intros Hvalid Hpre.
  rewrite (createRequest_valid user ip body s _ _ _ _ _ Hvalid).
  unfold try_catch at 1. unfold bind at 1. rewrite Hpre.
  destruct early; reflexivity.
Qed.

Lemma find_open_request tmdbId contentType serverId (l : list RequestRow) :
  (exists r, In r l /\ r_tmdb_id r = tmdbId /\ r_content_type r = contentType
             /\ r_server_id r = serverId
             /\ (r_status r = "pending" \/ r_status r = "approved")) ->
  exists r, List.find (isOpenRequest tmdbId contentType serverId) l = Some r.
Proof.
  intros (r & Hin & H1 & H2 & H3 & H4).
  destruct (List.find _ l) as [x|] eqn:Hf; [eauto|].
  exfalso. apply (List.find_none _ _ Hf) in Hin.
  unfold isOpenRequest in Hin.
  rewrite H1, H2, H3, Z.eqb_refl, !String.eqb_refl in Hin.
  destruct H4 as [H4|H4]; rewrite H4 in Hin; discriminate.
Qed.

(** *** Database statements *)

Lemma insertRequest_ok id uid sid tmdbId ct title y o p ss (s : State W) :
  existsb (fun r => String.eqb (r_id r) id) (content_requests (db s)) = false ->
  contentTypeOk ct = true ->
  userExists (db s) uid = true -> serverExists (db s) sid = true ->
  insertRequest env id uid sid tmdbId ct title y o p ss s
  = (Ret tt,
     mkState (mkDB (plex_servers (db s)) (users (db s))
                   (content_requests (db s) ++
                      [mkRequestRow id uid sid tmdbId ct title y o p "pending" ss
                                    (now env (world s) / 1000) None None None])
                   (rss_items (db s)) (audit_log (db s)))
             (cache s) (world s) (trace s)).
Proof.
  intros Hid Hct Hu Hs. unfold insertRequest, bind, getDb, sql_now, setDb.
  rewrite Hid, Hct, Hu, Hs. reflexivity.
Qed.

Lemma insertRss_ok id sid ct tmdbId title y o p ss uid (s : State W) :
  existsb (fun r => String.eqb (rss_id r) id) (rss_items (db s)) = false ->
  rssTracked (db s) sid ct tmdbId = false ->
  contentTypeOk ct = true ->
  serverExists (db s) sid = true -> userExists (db s) uid = true ->
  insertRss env id sid ct tmdbId title y o p ss uid s
  = (Ret tt,
     mkState (mkDB (plex_servers (db s)) (users (db s)) (content_requests (db s))
                   (rss_items (db s) ++
                      [mkRssRow id sid ct tmdbId title y o p ss (Some uid)
                                (now env (world s) / 1000)])
                   (audit_log (db s)))
             (cache s) (world s) (trace s)).
Proof.
  intros Hid Htr Hct Hs Hu. unfold insertRss, bind, getDb, sql_now, setDb.
  rewrite Hid, Htr, Hct, Hs, Hu. reflexivity.
Qed.

(** The uniqueness constraint of [rss_items] makes the insert throw. *)
Lemma insertRss_tracked id sid ct tmdbId title y o p ss uid (s : State W) :
  rssTracked (db s) sid ct tmdbId = true ->
  exists e, insertRss env id sid ct tmdbId title y o p ss uid s = (Throw e, s).
Proof.
  intros Htr. unfold insertRss, bind, getDb, sql_now, setDb, throw.
  rewrite Htr. destruct (existsb _ (rss_items (db s))); eauto.
Qed.

Lemma insertAudit_ok uid action details ip (s : State W) :
  userExists (db s) uid = true ->
  insertAudit uid action details ip s
  = (Ret tt,
     mkState (mkDB (plex_servers (db s)) (users (db s)) (content_requests (db s))
                   (rss_items (db s))
                   (audit_log (db s) ++ [mkAuditRow (Some uid) action details ip]))
             (cache s) (world s) (trace s)).
Proof.
  intros Hu. unfold insertAudit, bind, getDb, setDb. rewrite Hu. reflexivity.
Qed.

Lemma find_serverExists (d : DB) sid server :
  List.find (fun x => String.eqb (srv_id x) sid) (plex_servers d) = Some server ->
  serverExists d sid = true.
Proof.
  intros H. apply List.find_some in H as [Hin Heq].
  unfold serverExists. apply existsb_exists. eauto.
Qed.

(** *** After the manager check *)

Lemma createAfterPrecheck_duplicate user ip server serverId tmdbId contentType
    title body (s : State W) r :
  List.find (isOpenRequest tmdbId contentType serverId) (content_requests (db s))
  = Some r ->
  createAfterPrecheck env user ip server serverId tmdbId contentType title body s
  = (Ret (json 409 [("error", "Request already exists")]), s).
Proof.
  intros H. unfold createAfterPrecheck, bind, getExisting. rewrite H. reflexivity.
Qed.

Lemma createAfterPrecheck_pending user ip server serverId tmdbId contentType
    title body (s : State W) :
  List.find (isOpenRequest tmdbId contentType serverId) (content_requests (db s))
  = None ->
  canAddDirectly user = false ->
  existsb (fun r => String.eqb (r_id r) (fst (randomUUID env (world s))))
          (content_requests (db s)) = false ->
  contentTypeOk contentType = true ->
  userExists (db s) (user_id user) = true ->
  serverExists (db s) serverId = true ->
  let requestId := fst (randomUUID env (world s)) in
  let w' := snd (randomUUID env (world s)) in
  createAfterPrecheck env user ip server serverId tmdbId contentType title body s
  = (Ret (json 201 [("message", "Request submitted for approval");
                    ("status", "pending");
                    ("requestId", requestId)]),
     mkState (mkDB (plex_servers (db s)) (users (db s))
                   (content_requests (db s) ++
                      [pendingRow env user body requestId serverId tmdbId
                                  contentType title (now env w' / 1000)])
                   (rss_items (db s))
                   (audit_log (db s) ++
                      [mkAuditRow (Some (user_id user)) "request_content"
                         ("Requested " +:+ contentType +:+ ": " +:+ title) ip]))
             (cache s) w' (trace s)).
Proof.
  intros Hnone Hdirect Hfresh Hct Hu Hs. cbv zeta.
  unfold createAfterPrecheck. unfold bind at 1. unfold getExisting.
  rewrite Hnone, Hdirect. unfold bind at 1. unfold crypto_randomUUID.
  destruct (randomUUID env (world s)) as [u w'] eqn:Hu'. cbn [fst snd] in *.
  unfold bind at 1.
  rewrite insertRequest_ok; [|exact Hfresh | exact Hct | exact Hu | exact Hs].
  unfold bind at 1. rewrite insertAudit_ok; [|exact Hu]. reflexivity.
Qed.

(** A direct add answers 201 and tracks the item, whatever the executor
    reports. *)
Lemma directAdd_tracks user ip server serverId tmdbId contentType title body
    (s : State W) :
  contentTypeOk contentType = true ->
  (forall w, reach env (world s) w ->
             existsb (fun r => String.eqb (rss_id r) (fst (randomUUID env w)))
                     (rss_items (db s)) = false) ->
  rssTracked (db s) serverId contentType tmdbId = false ->
  userExists (db s) (user_id user) = true ->
  serverExists (db s) serverId = true ->
  exists resp s' row,
    directAdd env user ip server serverId tmdbId contentType title body s
    = (Ret resp, s')
    /\ res_status resp = 201
    /\ cache s' = cache s
    /\ content_requests (db s') = content_requests (db s)
    /\ rss_items (db s') = rss_items (db s) ++ [row]
    /\ rss_server_id row = serverId /\ rss_content_type row = contentType
    /\ rss_tmdb_id row = tmdbId.
Proof.
  intros Hct Hfresh Htr Hu Hs. unfold directAdd. unfold bind at 1.
  assert (Hexec : exists r s1,
             (if String.eqb contentType "movie"
              then addToRadarr env server tmdbId title
              else if String.eqb contentType "tv"
                   then addToSonarr env server tmdbId title (b_seasons body)
                   else ret (mkArrResult false false None None)) s = (Ret r, s1)
             /\ same_store s s1).
  { apply runs_returns.
    destruct (String.eqb contentType "movie");
      [apply addToRadarr_runs, same_store_refl|].
    destruct (String.eqb contentType "tv");
      [apply addToSonarr_runs, same_store_refl|].
    apply runs_ret, same_store_refl. }
  destruct Hexec as (r & s1 & Hexec & Hd & Hc).
  assert (Hreach : reach env (world s) (world s1)).
  { assert (H : runs (if String.eqb contentType "movie"
                      then addToRadarr env server tmdbId title
                      else if String.eqb contentType "tv"
                           then addToSonarr env server tmdbId title (b_seasons body)
                           else ret (mkArrResult false false None None)) s
                     (fun _ s' => reach env (world s) (world s')) no_throw).
    { destruct (String.eqb contentType "movie");
        [apply addToRadarr_reach, reach_refl|].
      destruct (String.eqb contentType "tv");
        [apply addToSonarr_reach, reach_refl|].
      apply runs_ret, reach_refl. }
    unfold runs in H. rewrite Hexec in H. exact H. }
  rewrite Hexec.
  unfold bind at 1. unfold crypto_randomUUID.
  specialize (Hfresh (world s1) Hreach).
  destruct (randomUUID env (world s1)) as [u w'] eqn:Hu'. cbn [fst snd] in *.
  unfold bind at 1.
  rewrite insertRss_ok.
  2-6: cbn [db]; rewrite ?Hd; auto.
  unfold bind at 1. rewrite insertAudit_ok.
  2: cbn [db users]; unfold userExists in *; cbn [users]; rewrite Hd; exact Hu.
  destruct (success r); eexists _, _, _; (split; [reflexivity|]);
    cbn [res_status json db cache content_requests rss_items];
    rewrite ?Hd, ?Hc; repeat split; reflexivity.
Qed.

(** C10. For a valid create call for a movie whose primary server has
    Radarr configured, the route first fetches Radarr's movie list. If
    the first entry with the item's TMDB id has a file, the call is
    answered 409 "already downloaded"; otherwise, if it is monitored,
    409 "already being monitored" (status 'missing' when released,
    'unreleased' otherwise); in both cases the database is untouched.
    If the fetch fails, or the movie is not listed, or is listed with
    neither file nor monitoring, the route goes on with the duplicate
    guard and the creation. *)
Theorem create_manager_precheck user ip body (s : State W) tmdbId title
    serverId server :
  validCreate user body (db s) tmdbId "movie" title serverId server ->
  radarrConfigured server = true ->
  let call := RadarrMovies (default "" (radarr_url server))
                           (decrypt_col env (radarr_api_key server)) in
  let after (failed : bool) :=
    mkState (db s) (cache s) (snd (http env call (world s)))
            (trace s ++ [(existT _ call, failed)]) in
  let proceeds (failed : bool) :=
    createRequest env user ip body s
    = try_catch (createAfterPrecheck env user ip server serverId tmdbId "movie"
                                     title body)
                (fun _ => ret (json 500 [("error", "Failed to create request")]))
                (after failed) in
  match fst (http env call (world s)) with
  | inl _ => proceeds true
  | inr movies =>
      match List.find (fun m => rm_tmdbId m =? tmdbId) movies with
      | Some existingMovie =>
          if rm_hasFile existingMovie then
            createRequest env user ip body s
            = (Ret (json 409 [("error", "This movie is already downloaded in Radarr");
                              ("status", "downloaded")]),
               after false)
          else if rm_monitored existingMovie then
            createRequest env user ip body s
            = (Ret (json 409
                      [("error", "This movie is already being monitored in Radarr");
                       ("status", if String.eqb (rm_status existingMovie) "released"
                                  then "missing" else "unreleased")]),
               after false)
          else proceeds false
      | None => proceeds false
      end
  end.
Proof.
  intros Hvalid Hconf. cbv zeta.
  set (call := RadarrMovies (default "" (radarr_url server))
                            (decrypt_col env (radarr_api_key server))).
  assert (Hpre : try_catch (managerPrecheck env server "movie" tmdbId title)
                           (fun _ => ret None) s
                 = match fst (http env call (world s)) with
                   | inl _ =>
                       (Ret None, mkState (db s) (cache s) (snd (http env call (world s)))
                                          (trace s ++ [(existT _ call, true)]))
                   | inr movies =>
                       (Ret match List.find (fun m => rm_tmdbId m =? tmdbId) movies with
                            | Some m =>
                                if rm_hasFile m then
                                  Some (json 409
                                    [("error", "This movie is already downloaded in Radarr");
                                     ("status", "downloaded")])
                                else if rm_monitored m then
                                  Some (json 409
                                    [("error",
                                      "This movie is already being monitored in Radarr");
                                     ("status", if String.eqb (rm_status m) "released"
                                                then "missing" else "unreleased")])
                                else None
                            | None => None
                            end,
                        mkState (db s) (cache s) (snd (http env call (world s)))
                                (trace s ++ [(existT _ call, false)]))
                   end).
  { unfold managerPrecheck, try_catch. rewrite Hconf. cbn [String.eqb Ascii.eqb Bool.eqb andb].
    unfold bind at 1. unfold bind at 1. fold call.
    destruct s as [d c w tr]. rewrite axios_eq. cbn [db cache world trace].
    destruct (fst (http env call w)) as [e|movies]; [reflexivity|].
    destruct (List.find _ movies) as [m|]; [|reflexivity].
    destruct (rm_hasFile m); [reflexivity|].
    destruct (rm_monitored m); reflexivity. }
  destruct (fst (http env call (world s))) as [e|movies].
  - apply (createRequest_after user ip body s _ _ _ _ _ _ None Hvalid Hpre).
  - destruct (List.find _ movies) as [m|].
    + destruct (rm_hasFile m);
        [apply (createRequest_after user ip body s _ _ _ _ _ _ (Some _) Hvalid Hpre)|].
      destruct (rm_monitored m);
        [apply (createRequest_after user ip body s _ _ _ _ _ _ (Some _) Hvalid Hpre)|].
      apply (createRequest_after user ip body s _ _ _ _ _ _ None Hvalid Hpre).
    + apply (createRequest_after user ip body s _ _ _ _ _ _ None Hvalid Hpre).
Qed.

End Create.

(** ** POST /api/requests/:id/approve *)

Section Approve.

Context {W : Type} (env : Env W).

Lemma updateApproved_ok uid notes id (s : State W) :
  userExists (db s) uid = true ->
  updateApproved env uid notes id s
  = (Ret tt,
     mkState (mkDB (plex_servers (db s)) (users (db s))
                   (map (fun r => if String.eqb (r_id r) id
                                  then approvedRow r (now env (world s) / 1000) uid notes
                                  else r)
                        (content_requests (db s)))
                   (rss_items (db s)) (audit_log (db s)))
             (cache s) (world s) (trace s)).
Proof.
  intros Hu. unfold updateApproved, bind, getDb, sql_now, setDb. rewrite Hu. reflexivity.
Qed.

(** The executor step of the approve route returns and leaves the store
    alone when the stored season text, if it is needed, parses. *)
Lemma approve_executor_runs body request (server : option Server) (s : State W) :
  (ab_seasons body = None -> JS.truthy_str (r_seasons request) = true ->
   JSON_parse env (default "" (r_seasons request)) <> None) ->
  exists r s1,
    match server with
    | Some server =>
        if String.eqb (r_content_type request) "movie" then
          addToRadarr env server (r_tmdb_id request) (r_title request)
        else if String.eqb (r_content_type request) "tv" then
          do l <- seasonList env (ab_seasons body) request;
          addToSonarr env server (r_tmdb_id request) (r_title request) l
        else ret (mkArrResult false false None None)
    | None => ret (mkArrResult false false None None)
    end s = (Ret r, s1)
    /\ same_store s s1.
Proof.
  intros Hparse. apply runs_returns.
  destruct server as [server|]; [|apply runs_ret, same_store_refl].
  destruct (String.eqb (r_content_type request) "movie");
    [apply addToRadarr_runs, same_store_refl|].
  destruct (String.eqb (r_content_type request) "tv");
    [|apply runs_ret, same_store_refl].
  apply runs_bind. unfold seasonList.
  destruct (ab_seasons body) as [l|].
  - apply runs_ret, addToSonarr_runs, same_store_refl.
  - destruct (JS.truthy_str (r_seasons request)).
    + specialize (Hparse eq_refl eq_refl).
      destruct (JSON_parse env _) as [l|]; [|contradiction].
      apply runs_ret, addToSonarr_runs, same_store_refl.
    + apply runs_ret, addToSonarr_runs, same_store_refl.
Qed.

(** Approval of a pending request whose item is not yet tracked: the
    response is a success, with a warning exactly when the executor
    reports a failure; the record becomes approved, stamped with the
    approver and the time; the tracked item is written. *)
Lemma approveRequest_untracked user ip id body (s : State W) request server :
  user_role user = "admin" ->
  List.find (fun r => String.eqb (r_id r) id) (content_requests (db s)) = Some request ->
  r_status request = "pending" ->
  List.find (fun x => String.eqb (srv_id x) (r_server_id request)) (plex_servers (db s))
  = Some server ->
  contentTypeOk (r_content_type request) = true ->
  rssTracked (db s) (r_server_id request) (r_content_type request) (r_tmdb_id request)
  = false ->
  (forall w, existsb (fun r => String.eqb (rss_id r) (fst (randomUUID env w)))
                     (rss_items (db s)) = false) ->
  userExists (db s) (user_id user) = true ->
  (ab_seasons body = None -> JS.truthy_str (r_seasons request) = true ->
   JSON_parse env (default "" (r_seasons request)) <> None) ->
  ab_notes body <> Some NoteOther ->
  exists resp s' rssId t row,
    approveRequest env user ip id body s = (Ret resp, s')
    /\ (resp = json 200 [("message", "Request approved and added to "
                                     +:+ managerName (r_content_type request));
                         ("rssId", rssId)]
        \/ exists reason,
             resp = json 200 [("message", "Request approved");
                              ("warning", managerName (r_content_type request)
                                          +:+ " integration failed: " +:+ reason);
                              ("rssId", rssId)])
    /\ content_requests (db s')
       = map (fun r => if String.eqb (r_id r) id
                       then approvedRow r t (user_id user) (notesText (ab_notes body))
                       else r)
             (content_requests (db s))
    /\ rss_items (db s') = rss_items (db s) ++ [row]
    /\ rss_server_id row = r_server_id request
    /\ rss_content_type row = r_content_type request
    /\ rss_tmdb_id row = r_tmdb_id request
    /\ cache s' = cache s.
Proof.
  intros Hrole Hreq Hpend Hsrv Hct Htr Hfresh Hu Hparse Hnotes.
  assert (Hbind : forall s0 : State W,
             bindNotes (ab_notes body) s0 = (Ret (notesText (ab_notes body)), s0)).
  { intros s0. unfold bindNotes. destruct (ab_notes body) as [[text|]|];
      [reflexivity | destruct (Hnotes eq_refl) | reflexivity]. }
  pose proof (List.find_some _ _ Hreq) as [_ Hid]. apply String.eqb_eq in Hid.
  unfold approveRequest. rewrite Hrole. cbn [String.eqb Ascii.eqb Bool.eqb negb andb].
  unfold approveHandler, try_catch. unfold bind at 1. unfold getRequest.
  rewrite Hreq, Hpend. cbn [String.eqb Ascii.eqb Bool.eqb negb andb].
  unfold bind at 1. unfold getServer. rewrite Hsrv.
  unfold bind at 1.
  destruct (approve_executor_runs body request (Some server) s Hparse)
    as (r & s1 & Hrun & Hd & Hc).
  cbv beta iota in Hrun. rewrite Hrun.
  unfold bind at 1. unfold crypto_randomUUID.
  specialize (Hfresh (world s1)).
  destruct (randomUUID env (world s1)) as [u w'] eqn:Hu'. cbn [fst snd] in *.
  unfold bind at 1. rewrite insertRss_ok.
  2-6: cbn [db]; rewrite ?Hd; auto; apply (find_serverExists _ _ _ Hsrv).
  unfold bind at 1. rewrite Hbind.
  unfold bind at 1. rewrite updateApproved_ok.
  2: unfold userExists in *; cbn [db users]; rewrite Hd; exact Hu.
  unfold bind at 1. rewrite insertAudit_ok.
  2: unfold userExists in *; cbn [db users]; rewrite Hd; exact Hu.
  cbn [db cache world content_requests rss_items].
  destruct (success r); eexists _, _, u, (now env w' / 1000), _;
    (split; [reflexivity|]);
    cbn [db cache content_requests rss_items];
    rewrite Hd, Hc, Hid; repeat split; eauto.
Qed.

(** Approval of a pending request whose item is already tracked: the
    insert into [rss_items] throws, the route answers 500 and the
    database is left as it was, the request still pending. *)
Lemma approveRequest_tracked user ip id body (s : State W) request :
  user_role user = "admin" ->
  List.find (fun r => String.eqb (r_id r) id) (content_requests (db s)) = Some request ->
  r_status request = "pending" ->
  rssTracked (db s) (r_server_id request) (r_content_type request) (r_tmdb_id request)
  = true ->
  (ab_seasons body = None -> JS.truthy_str (r_seasons request) = true ->
   JSON_parse env (default "" (r_seasons request)) <> None) ->
  exists s',
    approveRequest env user ip id body s
    = (Ret (json 500 [("error", "Failed to approve request")]), s')
    /\ db s' = db s.
Proof.
  intros Hrole Hreq Hpend Htr Hparse.
  unfold approveRequest. rewrite Hrole. cbn [String.eqb Ascii.eqb Bool.eqb negb andb].
  unfold approveHandler, try_catch. unfold bind at 1. unfold getRequest.
  rewrite Hreq, Hpend. cbn [String.eqb Ascii.eqb Bool.eqb negb andb].
  unfold bind at 1. unfold getServer.
  unfold bind at 1.
  destruct (approve_executor_runs body request
              (List.find (fun x => String.eqb (srv_id x) (r_server_id request))
                         (plex_servers (db s))) s Hparse)
    as (r & s1 & Hrun & Hd & Hc).
  rewrite Hrun.
  unfold bind at 1. unfold crypto_randomUUID.
  destruct (randomUUID env (world s1)) as [u w'] eqn:Hu'.
  unfold bind at 1.
  edestruct (insertRss_tracked env) as [e He];
    [|rewrite He; eexists; split; [reflexivity | exact Hd]].
  cbn [db]. rewrite Hd. exact Htr.
Qed.

End Approve.

(** ** The request routes on the reference environment *)

Lemma list_requests_isolation_witness :
  user_role (Demo.asUser Demo.alice false (Some "S")) <> "admin"
  /\ fst (listRequests Demo.env (Demo.asUser Demo.alice false (Some "S"))
            (mkListQuery None None) Demo.statePending)
     = fst (listRequests Demo.env (Demo.asUser Demo.alice false (Some "S"))
              (mkListQuery None None) Demo.stateBoth)
  /\ exists rows,
       fst (listRequests Demo.env (Demo.asUser Demo.alice false (Some "S"))
              (mkListQuery None None) Demo.stateBoth)
       = Ret (mkHttpResponse 200 (Rows rows))
       /\ map l_id rows = ["r1"].
Proof.
  assert (Hrole : user_role (Demo.asUser Demo.alice false (Some "S")) <> "admin")
    by discriminate.
  split; [exact Hrole|].
  pose proof (list_requests_isolation Demo.env
                (Demo.asUser Demo.alice false (Some "S")) (mkListQuery None None)
                Demo.statePending Demo.stateBoth) as (Hiso & _).
  pose proof (list_requests_isolation Demo.env
                (Demo.asUser Demo.alice false (Some "S")) (mkListQuery None None)
                Demo.stateBoth Demo.stateBoth) as (_ & _ & _ & Hrows & Hok).
  split; [apply Hiso; [exact Hrole | reflexivity | reflexivity | reflexivity]|].
  destruct Hok as [rows Hrun].
  - repeat constructor; discriminate.
  - exists rows. split; [exact Hrun|].
    destruct (Hrows rows Hrun) as (Hids & _). rewrite Hids. reflexivity.
Defined.

Lemma demo_valid_matrix primary server (s : State Demo.World) :
  primary <> "" ->
  List.find (fun x => String.eqb (srv_id x) primary) (plex_servers (db s)) = Some server ->
  validCreate (Demo.asUser Demo.alice false (Some primary)) Demo.matrixBody (db s)
              603 "movie" "The Matrix" primary server.
Proof.
  intros Hp Hs. repeat split; try reflexivity; try discriminate; assumption.
Qed.

Lemma create_manager_precheck_witness :
  (exists s',
     createRequest Demo.env (Demo.asUser Demo.alice false (Some "S")) "10.0.0.7"
                   Demo.matrixBody Demo.stateDownloaded
     = (Ret (json 409 [("error", "This movie is already downloaded in Radarr");
                       ("status", "downloaded")]), s')
     /\ db s' = db Demo.stateDownloaded)
  /\ (exists resp s',
        createRequest Demo.env (Demo.asUser Demo.alice false (Some "S")) "10.0.0.7"
                      Demo.matrixBody Demo.stateRadarrDown
        = (Ret resp, s')
        /\ res_status resp = 201
        /\ map r_status (content_requests (db s')) = ["pending"]).
Proof.
  split.
  - pose proof (create_manager_precheck Demo.env
                  (Demo.asUser Demo.alice false (Some "S")) "10.0.0.7"
                  Demo.matrixBody Demo.stateDownloaded 603 "The Matrix" "S" Demo.serverS
                  (demo_valid_matrix "S" Demo.serverS Demo.stateDownloaded
                     ltac:(discriminate) eq_refl) eq_refl) as H.
    cbv zeta in H. eexists. split; [exact H | reflexivity].
  - pose proof (create_manager_precheck Demo.env
                  (Demo.asUser Demo.alice false (Some "S")) "10.0.0.7"
                  Demo.matrixBody Demo.stateRadarrDown 603 "The Matrix" "S" Demo.serverS
                  (demo_valid_matrix "S" Demo.serverS Demo.stateRadarrDown
                     ltac:(discriminate) eq_refl) eq_refl) as H.
    cbv zeta in H. eexists _, _. split; [rewrite H; vm_compute; reflexivity|].
    split; reflexivity.
Defined.

(** C7 on the code. Bob, who may add directly, adds The Matrix while
    Radarr does not answer: the item is tracked on server S. Alice then
    requests the same movie: the manager check fails silently, no request
    record exists, a pending record is written. When the administrator
    approves it, the insert into [rss_items] violates the uniqueness of
    (server, kind, item), the route answers 500 and the record stays
    pending. Without the tracked item the same approval, with the same
    failing manager, answers 200 with a warning. *)
Theorem approve_fails_when_item_tracked :
  let admin := Demo.asUser Demo.admin false (Some "S") in
  let bob := Demo.asUser Demo.bob true (Some "S") in
  let alice := Demo.asUser Demo.alice false (Some "S") in
  let s1 := snd (createRequest Demo.env bob "10.0.0.2" Demo.matrixBody
                               Demo.stateRadarrDown) in
  let s2 := snd (createRequest Demo.env alice "10.0.0.7" Demo.matrixBody s1) in
  let approval := approveRequest Demo.env admin "10.0.0.1" "uuid-2"
                                 (mkApproveBody None None) s2 in
  map (fun r => (r_id r, r_status r)) (content_requests (db s2))
  = [("uuid-2", "pending")]
  /\ rssTracked (db s2) "S" "movie" 603 = true
  /\ fst approval = Ret (json 500 [("error", "Failed to approve request")])
  /\ map (fun r => (r_id r, r_status r, r_processed_by r))
         (content_requests (db (snd approval)))
     = [("uuid-2", "pending", None)]
  /\ fst (approveRequest Demo.env admin "10.0.0.1" "r1" (mkApproveBody None None)
                         Demo.stateTracked)
     = Ret (json 500 [("error", "Failed to approve request")])
  /\ fst (approveRequest Demo.env admin "10.0.0.1" "r1" (mkApproveBody None None)
                         Demo.statePendingDown)
     = Ret (json 200
              [("message", "Request approved");
               ("warning", "Radarr integration failed: timeout of 10000ms exceeded");
               ("rssId", "uuid-1")]).
Proof. cbv zeta. repeat split; vm_compute; reflexivity. Qed.
Section RadarrStatus.

Context {W : Type} (env : Env W).

(** X1. What [checkRadarrMovie] makes of Radarr's answer, on a cache
    miss for a server with Radarr attached. A movie that Radarr does not
    list gives [null]. Otherwise the first listed movie with the TMDB id
    decides: with a file it is ['downloaded'] and the queue is not
    asked; without file and unmonitored it is [null]; without file and
    monitored the queue is fetched and the status is ['queued'] when a
    queue record names the movie, else ['missing'] for a released movie
    and ['unreleased'] otherwise. Every such verdict is cached; when the
    queue cannot be fetched the answer is [null] and nothing is cached. *)
Theorem checkRadarrMovie_classifies sid tmdbId (s : State W) server movies :
  cacheHit (cache s !! radarrCacheKey sid tmdbId) (now env (world s)) = None ->
  List.find (fun x => String.eqb (srv_id x) sid) (plex_servers (db s)) = Some server ->
  radarrConfigured server = true ->
  let key := radarrCacheKey sid tmdbId in
  let url := default "" (radarr_url server) in
  let apiKey := decrypt_col env (radarr_api_key server) in
  let w1 := snd (http env (RadarrMovies url apiKey) (world s)) in
  let run := checkRadarrMovie env sid tmdbId s in
  let listed := (existT _ (RadarrMovies url apiKey), false) in
  let cached (st : jsdata) := e_data <$> (cache (snd run) !! key) = Some st in
  fst (http env (RadarrMovies url apiKey) (world s)) = inr movies ->
  ((forall m, In m movies -> rm_tmdbId m <> tmdbId) ->
     fst run = Ret JNull /\ cached JNull /\ trace (snd run) = trace s ++ [listed])
  /\ (forall movie,
        List.find (fun m => rm_tmdbId m =? tmdbId) movies = Some movie ->
        (rm_hasFile movie = true ->
           fst run = Ret (JStr "downloaded") /\ cached (JStr "downloaded")
           /\ trace (snd run) = trace s ++ [listed])
        /\ (rm_hasFile movie = false -> rm_monitored movie = false ->
              fst run = Ret JNull /\ cached JNull
              /\ trace (snd run) = trace s ++ [listed])
        /\ (rm_hasFile movie = false -> rm_monitored movie = true ->
              match fst (http env (RadarrQueue url apiKey) w1) with
              | inl _ =>
                  fst run = Ret JNull /\ cache (snd run) = cache s
              | inr queue =>
                  let inQueue :=
                    existsb (fun q => q_movieId q =? rm_id movie) (default [] queue) in
                  exists st,
                    fst run = Ret (JStr st) /\ cached (JStr st)
                    /\ (st = "queued" <-> inQueue = true)
                    /\ (st = "missing" <->
                          inQueue = false /\ rm_status movie = "released")
                    /\ (st = "unreleased" <->
                          inQueue = false /\ rm_status movie <> "released")
              end)).
Proof.
  intros Hmiss Hsrv Hconf key url apiKey w1 run listed cached Hans.
  pose proof (checkRadarrMovie_miss env sid tmdbId (db s) (world s) (trace s)
                server (cache s) Hsrv Hconf Hmiss) as Heq.
  cbv zeta in Heq. fold url apiKey in Heq. rewrite Hans in Heq.
  assert (Hs : mkState (db s) (cache s) (world s) (trace s) = s) by (destruct s; reflexivity).
  rewrite Hs in Heq. fold run in Heq. fold key in Heq. fold w1 in Heq.
  split.
  - intros Hnone.
    destruct (List.find _ movies) as [movie|] eqn:Hf.
    { apply List.find_some in Hf as [Hin Hid]. apply Z.eqb_eq in Hid.
      destruct (Hnone movie Hin Hid). }
    unfold cached. rewrite Heq. cbn [fst snd cache trace].
    rewrite lookup_insert_eq. repeat split; reflexivity.
  - intros movie Hf. rewrite Hf in Heq. split; [|split].
    + intros Hfile. rewrite Hfile in Heq. unfold cached. rewrite Heq.
      cbn [fst snd cache trace]. rewrite lookup_insert_eq. repeat split; reflexivity.
    + intros Hfile Hmon. rewrite Hfile, Hmon in Heq. unfold cached. rewrite Heq.
      cbn [fst snd cache trace]. rewrite lookup_insert_eq. repeat split; reflexivity.
    + intros Hfile Hmon. rewrite Hfile, Hmon in Heq.
      destruct (fst (http env (RadarrQueue url apiKey) w1)) as [e|queue].
      * rewrite Heq. split; reflexivity.
      * cbv zeta.
        assert (Hq : match queue with
                     | Some records =>
                         existsb (fun q => q_movieId q =? rm_id movie) records
                     | None => false
                     end
                     = existsb (fun q => q_movieId q =? rm_id movie) (default [] queue))
          by (destruct queue; reflexivity).
        rewrite Hq in Heq.
        destruct (existsb _ (default [] queue)).
        { exists "queued". unfold cached. rewrite Heq. cbn [fst snd cache].
          rewrite lookup_insert_eq.
          repeat split; try reflexivity; try discriminate; intros [? _]; discriminate. }
        destruct (String.eqb (rm_status movie) "released") eqn:Hrel.
        { apply String.eqb_eq in Hrel.
          exists "missing". unfold cached. rewrite Heq. cbn [fst snd cache].
          rewrite lookup_insert_eq.
          repeat split; try reflexivity; try discriminate; try assumption.
          intros [_ Hn]. contradiction. }
        { apply String.eqb_neq in Hrel.
          exists "unreleased". unfold cached. rewrite Heq. cbn [fst snd cache].
          rewrite lookup_insert_eq.
          repeat split; try reflexivity; try discriminate; try assumption.
          intros [_ Hn]. contradiction. }
Qed.

End RadarrStatus.
(** ** Decimal rendering and [parseInt] *)

Lemma pretty_N_char_digit (d : N) :
  (d < 10)%N -> JS.digit_of 10 (pretty_N_char d) = Some (Z.of_N d).
Proof.
  intros Hd.
  assert (d = 0 \/ d = 1 \/ d = 2 \/ d = 3 \/ d = 4 \/ d = 5 \/ d = 6 \/ d = 7
          \/ d = 8 \/ d = 9)%N as H by lia.
  repeat (destruct H as [->|H]; [reflexivity|]). subst d. reflexivity.
Qed.

(** The characters of a rendered number are decimal digits. *)
Lemma pretty_N_go_digits (x : N) :
  forall s,
    Forall (fun c => is_Some (JS.digit_of 10 c)) (list_ascii_of_string s) ->
    Forall (fun c => is_Some (JS.digit_of 10 c)) (list_ascii_of_string (pretty_N_go x s)).
Proof.
  induction (N.lt_wf_0 x) as [x _ IH]. intros s Hs.
  destruct (N.eq_dec x 0%N) as [->|Hx]; [rewrite pretty_N_go_0; exact Hs|].
  rewrite pretty_N_go_step by lia.
  apply IH; [apply N.div_lt; lia|].
  simpl. constructor; [|exact Hs].
  rewrite pretty_N_char_digit by (apply N.mod_lt; lia). eexists. reflexivity.
Qed.

Lemma pretty_N_digits (x : N) :
  Forall (fun c => is_Some (JS.digit_of 10 c)) (list_ascii_of_string (pretty x)).
Proof.
  unfold pretty, pretty_N. destruct (decide (x = 0%N)).
  - simpl. constructor; [eexists; reflexivity | constructor].
  - apply pretty_N_go_digits. constructor.
Qed.

(** Reading back the digits of a positive number. *)
Lemma read_digits_pretty_go (x : N) :
  forall s acc,
    (0 < x)%N -> default 0 acc = 0 ->
    JS.read_digits 10 (pretty_N_go x s) acc
    = JS.read_digits 10 s (Some (Z.of_N x)).
Proof.
  induction (N.lt_wf_0 x) as [x _ IH]. intros s acc Hx Hacc.
  rewrite pretty_N_go_step by exact Hx.
  assert (Hd : (x `mod` 10 < 10)%N) by (apply N.mod_lt; lia).
  pose proof (N.div_mod x 10%N ltac:(lia)) as Hdm.
  destruct (N.eq_dec (x `div` 10)%N 0%N) as [Hz|Hnz].
  - rewrite Hz, pretty_N_go_0. simpl. rewrite (pretty_N_char_digit _ Hd), Hacc.
    f_equal. f_equal. lia.
  - rewrite (IH (x `div` 10)%N) by (try apply N.div_lt; try exact Hacc; lia).
    simpl. rewrite (pretty_N_char_digit _ Hd). f_equal. f_equal.
    cbn [default from_option id]. lia.
Qed.

Lemma digits_no_prefix (s : string) :
  Forall (fun c => is_Some (JS.digit_of 10 c)) (list_ascii_of_string s) ->
  JS.skip_space s = s /\ JS.strip_hex s = None
  /\ (forall r, s <> String "-" r) /\ (forall r, s <> String "+" r).
Proof.
  intros H. destruct s as [|a r]; [repeat split; intros; discriminate|].
  simpl in H. inversion H as [|? ? Ha Hr]; subst.
  assert (Hsp : JS.is_space a = false
                /\ (forall b, JS.is_space2 a b = false)
                /\ (forall b c, JS.is_space3 a b c = false)).
  { destruct Ha as [d Hd]. revert Hd.
    destruct a as [[] [] [] [] [] [] [] []]; vm_compute; intros Hd;
      try discriminate Hd; repeat split; reflexivity. }
  destruct Hsp as (Hsp & Hsp2 & Hsp3).
  split.
  { cbn [JS.skip_space]. rewrite Hsp.
    destruct r as [|b [|c r3]]; rewrite ?Hsp2, ?Hsp3; reflexivity. }
  split.
  { destruct r as [|b r']; [destruct a as [[] [] [] [] [] [] [] []]; reflexivity|].
    simpl in Hr. inversion Hr as [|? ? Hb _]; subst. destruct Hb as [d Hd].
    revert Hd. destruct a as [[] [] [] [] [] [] [] []]; try reflexivity;
      destruct b as [[] [] [] [] [] [] [] []]; vm_compute; congruence. }
  split; intros r0 Heq; injection Heq as -> _; destruct Ha as [d Hd];
    vm_compute in Hd; discriminate Hd.
Qed.

Lemma pretty_N_go_nonempty (x : N) : forall s, s <> "" -> pretty_N_go x s <> "".
Proof.
  induction (N.lt_wf_0 x) as [x _ IH]. intros s Hs.
  destruct (N.eq_dec x 0%N) as [->|Hx]; [rewrite pretty_N_go_0; exact Hs|].
  rewrite pretty_N_go_step by lia. apply IH; [apply N.div_lt; lia | discriminate].
Qed.

Lemma pretty_pos_nonempty (p : positive) : pretty (N.pos p) <> "".
Proof.
  unfold pretty, pretty_N.
  destruct (decide (N.pos p = 0%N)) as [Hz|_]; [discriminate Hz|].
  rewrite pretty_N_go_step by lia. apply pretty_N_go_nonempty. discriminate.
Qed.

(** [parseInt(String(n))] is the Number nearest to the natural number
    [n]. *)
Lemma parseInt_pretty (n : Z) : 0 <= n -> JS.parseInt (pretty n) = JS.toNumber n.
Proof.
  intros Hn. destruct n as [|p|p]; [reflexivity| |lia].
  change (pretty (Z.pos p)) with (pretty (N.pos p)).
  destruct (digits_no_prefix _ (pretty_N_digits (N.pos p))) as (Hsp & Hhex & Hm & Hp).
  unfold JS.parseInt. rewrite Hsp.
  destruct (pretty (N.pos p)) as [|a r] eqn:Hs.
  { exfalso. exact (pretty_pos_nonempty p Hs). }
  assert (Hsign : match String a r with
                  | String "-" r0 => (-1, r0)
                  | String "+" r0 => (1, r0)
                  | _ => (1, String a r)
                  end = (1, String a r)).
  { destruct (Ascii.eqb a "-") eqn:E1; [apply Ascii.eqb_eq in E1; subst; destruct (Hm r eq_refl)|].
    destruct (Ascii.eqb a "+") eqn:E2; [apply Ascii.eqb_eq in E2; subst; destruct (Hp r eq_refl)|].
    destruct a as [[] [] [] [] [] [] [] []]; try reflexivity; discriminate. }
  rewrite Hsign, Hhex, <- Hs.
  unfold pretty at 1, pretty_N.
  destruct (decide (N.pos p = 0%N)) as [Hz|_]; [discriminate Hz|].
  rewrite read_digits_pretty_go by (reflexivity || lia).
  replace (1 * Z.of_N (N.pos p)) with (Z.pos p) by lia. reflexivity.
Qed.

(** A safe integer is a Number. *)
Lemma toNumber_safe (n : Z) : JS.isSafeInteger n = true -> JS.toNumber n = Some n.
Proof.
  unfold JS.isSafeInteger, JS.toNumber. intros H.
  apply andb_true_iff in H. destruct H as [Hlo Hhi].
  apply Z.ltb_lt in Hlo, Hhi.
  replace (Z.abs n <? 2 ^ 53) with true; [reflexivity|].
  symmetry. apply Z.ltb_lt. lia.
Qed.

(** ** Cache keys *)

Lemma pretty_Z_no_underscore (n : Z) :
  ~ In "_"%char (list_ascii_of_string (pretty n)).
Proof.
  assert (HN : forall x : N, ~ In "_"%char (list_ascii_of_string (pretty x))).
  { intros x Hin. pose proof (pretty_N_digits x) as Hd.
    rewrite List.Forall_forall in Hd. destruct (Hd _ Hin) as [d Hd'].
    vm_compute in Hd'. discriminate Hd'. }
  destruct n as [|p|p].
  - simpl. intros [H|[]]. discriminate H.
  - exact (HN (N.pos p)).
  - change (pretty (Z.neg p)) with ("-" +:+ pretty (N.pos p)). simpl.
    intros [H|H]; [discriminate H | exact (HN _ H)].
Qed.

Lemma in_append_sep (b q : string) :
  In "_"%char (list_ascii_of_string (b +:+ "_" +:+ q)).
Proof.
  induction b as [|c b IH].
  - left. reflexivity.
  - change (String c b +:+ "_" +:+ q) with (String c (b +:+ "_" +:+ q)).
    right. exact IH.
Qed.

(** A key is read back from its last underscore. *)
Lemma append_sep_inj (a : string) :
  forall b p q,
    ~ In "_"%char (list_ascii_of_string p) ->
    ~ In "_"%char (list_ascii_of_string q) ->
    a +:+ "_" +:+ p = b +:+ "_" +:+ q -> a = b /\ p = q.
Proof.
  induction a as [|c a IH]; intros [|c' b] p q Hp Hq Heq;
    cbv [String.append] in Heq; fold String.append in Heq.
  - injection Heq as ->. auto.
  - injection Heq as <- ->. destruct Hp. apply in_append_sep.
  - injection Heq as -> <-. destruct Hq. apply in_append_sep.
  - injection Heq as -> Heq. destruct (IH b p q Hp Hq Heq) as [-> ->]. auto.
Qed.

(** X2. The cache keys of the manager checkers are read back without
    ambiguity. For catalog ids that are safe integers (which the template
    literal prints as their digits): two Radarr keys (two Sonarr keys)
    are equal only for the same server and the same id; a Radarr key is
    never a Sonarr key, a Plex key is never a manager key, and a movie
    key of the presence check is never a show key. *)
Theorem manager_cache_keys_injective (sid1 sid2 : string) (id1 id2 : Z) :
  JS.isSafeInteger id1 = true ->
  JS.isSafeInteger id2 = true ->
  (radarrCacheKey sid1 id1 = radarrCacheKey sid2 id2 <-> sid1 = sid2 /\ id1 = id2)
  /\ (sonarrCacheKey sid1 id1 = sonarrCacheKey sid2 id2 <-> sid1 = sid2 /\ id1 = id2)
  /\ radarrCacheKey sid1 id1 <> sonarrCacheKey sid2 id2
  /\ (forall k sid title year,
        plexCacheKey k sid title year <> radarrCacheKey sid1 id1
        /\ plexCacheKey k sid title year <> sonarrCacheKey sid1 id1)
  /\ (forall sid title year sid' title' year',
        plexCacheKey PMovie sid title year <> plexCacheKey PShow sid' title' year').
Proof.
  intros _ _.
  split; [|split; [|split; [|split]]].
  - split; [|intros [-> ->]; reflexivity].
    unfold radarrCacheKey. intros Heq.
    cbv [String.append] in Heq; fold String.append in Heq.
    injection Heq as Heq.
    destruct (append_sep_inj _ _ _ _ (pretty_Z_no_underscore id1)
                (pretty_Z_no_underscore id2) Heq) as [-> Hp].
    split; [reflexivity|]. exact (pretty_Z_inj _ _ Hp).
  - split; [|intros [-> ->]; reflexivity].
    unfold sonarrCacheKey. intros Heq.
    cbv [String.append] in Heq; fold String.append in Heq.
    injection Heq as Heq.
    destruct (append_sep_inj _ _ _ _ (pretty_Z_no_underscore id1)
                (pretty_Z_no_underscore id2) Heq) as [-> Hp].
    split; [reflexivity|]. exact (pretty_Z_inj _ _ Hp).
  - unfold radarrCacheKey, sonarrCacheKey. cbv [String.append]. discriminate.
  - intros [] sid title year; split; unfold plexCacheKey, radarrCacheKey, sonarrCacheKey;
      cbv [String.append plexPrefix]; discriminate.
  - intros. unfold plexCacheKey. cbv [String.append plexPrefix]. discriminate.
Qed.
(** ** Which services an aggregation contacts *)

Section PrimaryServer.

Context {W : Type} (env : Env W).

Lemma runs_both {A} (m : M W A) (s : State W) Q1 Q2 E1 E2 :
  runs m s Q1 E1 -> runs m s Q2 E2 ->
  runs m s (fun a s' => Q1 a s' /\ Q2 a s') (fun e s' => E1 e s' /\ E2 e s').
Proof. unfold runs. destruct (m s) as [[a|e] s']; auto. Qed.

Lemma plex_only_refl (s : State W) : plex_only s s.
Proof. exists []. rewrite app_nil_r. auto. Qed.

Lemma plex_only_trans (s1 s2 s3 : State W) :
  plex_only s1 s2 -> plex_only s2 s3 -> plex_only s1 s3.
Proof.
  intros (a & Ha & Hpa) (b & Hb & Hpb). exists (a ++ b).
  rewrite Hb, Ha, <- app_assoc, forallb_app, Hpa, Hpb. auto.
Qed.

Lemma scanSections_plex_only k server token title year key sections :
  forall s0 s : State W,
    plex_only s0 s ->
    runs (scanSections env k server token title year key sections) s
         (fun _ s' => plex_only s0 s') (fun _ s' => plex_only s0 s').
Proof.
  induction sections as [|sec rest IH]; intros s0 s Hp; simpl.
  - apply runs_ret. exact Hp.
  - apply runs_bind, runs_axios. intros s' _ _.
    assert (Hstep : forall b,
               trace s' = trace s ++ [(existT _ (PlexSectionAll (srv_url server) token sec
                                                    (plexTypeParam k) title), b)] ->
               plex_only s0 s').
    { intros b Ht. apply (plex_only_trans _ s); [exact Hp|].
      eexists. split; [exact Ht | reflexivity]. }
    destruct (fst (http env _ (world s))) as [e|resp]; intros Ht.
    + exact (Hstep _ Ht).
    + destruct (List.find (plexMatch env title year) (default [] resp)) as [m|].
      * apply runs_bind, runs_cacheSet, runs_ret.
        destruct (Hstep _ Ht) as (added & Ha & Hpa). exists added. auto.
      * apply IH. exact (Hstep _ Ht).
Qed.

(** A presence check contacts the Plex server and nothing else. *)
Lemma checkPlex_plex_only k sid title year (s : State W) :
  runs (checkPlex env k sid title year) s
       (fun _ s' => plex_only s s') (fun _ _ => False).
Proof.
  unfold checkPlex.
  apply runs_try, runs_bind. unfold cacheGet, runs at 1.
  apply runs_bind. unfold Date_now, runs at 1.
  destruct (cacheHit _ _) as [d|].
  - apply runs_ret, plex_only_refl.
  - apply runs_bind, getServer_runs.
    destruct (List.find _ _) as [server|]; [|apply runs_ret, plex_only_refl].
    apply runs_bind, runs_axios. intros s1 _ _.
    assert (Hstep : forall b,
               trace s1 = trace s ++ [(existT _ (PlexSections (srv_url server)
                              (decrypt_col env (Some (srv_token server)))), b)] ->
               plex_only s s1).
    { intros b Ht. eexists. split; [exact Ht | reflexivity]. }
    destruct (fst (http env _ (world s))) as [e|dirs]; intros Ht.
    + apply runs_ret. exact (Hstep _ Ht).
    + apply runs_bind.
      eapply runs_weaken;
        [apply (scanSections_plex_only k server _ title year _ _ s s1 (Hstep _ Ht)) | |].
      * intros [d|] s2 Hp; [apply runs_ret; exact Hp|].
        apply runs_bind, runs_cacheSet, runs_ret.
        destruct Hp as (added & Ha & Hpa). exists added. auto.
      * intros e s2 Hp. apply runs_ret. exact Hp.
Qed.

Lemma serverLoop_without_primary k item user servers :
  forall acc (s0 s : State W),
    cache_ok (cache s) -> plex_only s0 s -> arrStatus acc = JNull ->
    (forall sv, In sv servers -> Some (srv_id sv) <> primaryServerId user) ->
    runs (serverLoop env k item user servers acc) s
         (fun r s' => arrStatus r = JNull /\ plex_only s0 s')
         no_throw.
Proof.
  induction servers as [|server rest IH]; intros acc s0 s Hok Hp Hacc Hnot; simpl.
  - apply runs_ret. auto.
  - apply runs_bind. unfold serverStep. apply runs_bind.
    eapply runs_weaken;
      [apply (runs_both _ _ _ _ _ _
                (checkPlex_ok env k (srv_id server) (item_title item) (itemYear item) s Hok)
                (checkPlex_plex_only k (srv_id server) (item_title item) (itemYear item) s))
      | | intros ? ? [[] _]].
    intros d s1 [(Hd & Hok1 & _) Hp1].
    destruct d as [| |b f]; try discriminate Hd.
    apply runs_bind, runs_ret.
    destruct (decide (Some (srv_id server) = primaryServerId user)) as [Heq|_].
    { destruct (Hnot server (or_introl eq_refl) Heq). }
    apply runs_ret. apply IH.
    + exact Hok1.
    + exact (plex_only_trans _ _ _ Hp Hp1).
    + destruct b; exact Hacc.
    + intros sv Hsv. apply Hnot. right. exact Hsv.
Qed.

(** X3. The download manager is asked on the primary server only.
    For a user none of whose servers is the primary one, the aggregation
    returns with no manager status, a status among ['available'],
    ['requested'] and ['not_available'], and every remote call it issued
    went to Plex. *)
Theorem managers_only_for_primary k item user (s : State W) :
  cache_ok (cache s) ->
  (forall sv, In sv (user_servers user) -> Some (srv_id sv) <> primaryServerId user) ->
  exists r s' added,
    checkAvailability env k item user s = (Ret r, s')
    /\ arrStatus r = JNull
    /\ av_status r = (if plexAvailable r then JStr "available"
                      else if inRssFeed r then JStr "requested"
                      else JStr "not_available")
    /\ trace s' = trace s ++ added
    /\ forallb isPlexCall added = true.
Proof.
  intros Hok Hnot.
  cut (runs (checkAvailability env k item user) s
         (fun r s' =>
            arrStatus r = JNull
            /\ av_status r = (if plexAvailable r then JStr "available"
                              else if inRssFeed r then JStr "requested"
                              else JStr "not_available")
            /\ plex_only s s') no_throw).
  { intros H. apply runs_returns in H as (r & s' & Hrun & Ha & Hs & added & Ht & Hp).
    exists r, s', added. auto. }
  unfold checkAvailability. apply runs_bind.
  eapply runs_weaken;
    [apply (serverLoop_without_primary k item user (user_servers user)
              (mkAvailability (JStr "unknown") false [] JNull false) s s Hok
              (plex_only_refl s) eq_refl Hnot) | | intros ? ? []].
  intros r s1 [Harr Hp]. apply runs_bind. unfold getRssItem, runs at 1.
  apply runs_ret. cbn [arrStatus av_status plexAvailable inRssFeed].
  split; [exact Harr|]. split; [|exact Hp].
  unfold overallStatus. rewrite Harr. reflexivity.
Qed.

End PrimaryServer.
(** ** Outcomes of the create route *)

Section CreateOutcomes.

Context {W : Type} (env : Env W).

(** *** Database statements, in Hoare form *)

Lemma insertRequest_runs id uid sid tmdbId ct title y o p ss (s : State W) :
  runs (insertRequest env id uid sid tmdbId ct title y o p ss) s
       (fun _ s' =>
          userExists (db s) uid = true
          /\ s' = mkState (mkDB (plex_servers (db s)) (users (db s))
                             (content_requests (db s) ++
                                [mkRequestRow id uid sid tmdbId ct title y o p
                                   "pending" ss (now env (world s) / 1000) None None None])
                             (rss_items (db s)) (audit_log (db s)))
                          (cache s) (world s) (trace s))
       (fun _ s' => s' = s).
Proof.
  unfold runs, insertRequest, bind, getDb, sql_now, setDb, throw.
  destruct (existsb _ (content_requests (db s))); [reflexivity|].
  destruct (contentTypeOk ct); [|reflexivity]. cbn [negb].
  destruct (userExists (db s) uid); [|reflexivity].
  destruct (serverExists (db s) sid); [|reflexivity].
  split; reflexivity.
Qed.

Lemma insertRss_runs id sid ct tmdbId title y o p ss uid (s : State W) :
  runs (insertRss env id sid ct tmdbId title y o p ss uid) s
       (fun _ s' =>
          userExists (db s) uid = true
          /\ rssTracked (db s) sid ct tmdbId = false
          /\ s' = mkState (mkDB (plex_servers (db s)) (users (db s))
                             (content_requests (db s))
                             (rss_items (db s) ++
                                [mkRssRow id sid ct tmdbId title y o p ss (Some uid)
                                          (now env (world s) / 1000)])
                             (audit_log (db s)))
                          (cache s) (world s) (trace s))
       (fun _ s' => s' = s).
Proof.
  unfold runs, insertRss, bind, getDb, sql_now, setDb, throw.
  destruct (existsb _ (rss_items (db s))); [reflexivity|].
  destruct (rssTracked (db s) sid ct tmdbId); [reflexivity|].
  destruct (contentTypeOk ct); [|reflexivity]. cbn [negb].
  destruct (serverExists (db s) sid); [|reflexivity].
  destruct (userExists (db s) uid); [|reflexivity].
  repeat split; reflexivity.
Qed.

Lemma insertAudit_runs uid action details ip (s : State W) :
  runs (insertAudit uid action details ip) s
       (fun _ s' =>
          s' = mkState (mkDB (plex_servers (db s)) (users (db s))
                          (content_requests (db s)) (rss_items (db s))
                          (audit_log (db s) ++ [mkAuditRow (Some uid) action details ip]))
                       (cache s) (world s) (trace s))
       (fun _ s' => s' = s /\ userExists (db s) uid = false).
Proof.
  unfold runs, insertAudit, bind, getDb, setDb, throw.
  destruct (userExists (db s) uid); [reflexivity | split; reflexivity].
Qed.

Lemma runs_uuid (s : State W) (Q : string -> State W -> Prop) E :
  (forall s', db s' = db s -> cache s' = cache s -> trace s' = trace s ->
              Q (fst (randomUUID env (world s))) s') ->
  runs (crypto_randomUUID env) s Q E.
Proof.
  intros H. unfold runs, crypto_randomUUID.
  destruct (randomUUID env (world s)) as [u w']. apply H; reflexivity.
Qed.

(** The step of the create route that follows the manager check. *)
Lemma createAfterPrecheck_cases user ip server serverId tmdbId contentType title
    body (s : State W) :
  runs (createAfterPrecheck env user ip server serverId tmdbId contentType title body) s
       (fun resp s' =>
          cache s' = cache s
          /\ ((res_status resp = 409 /\ db s' = db s
               /\ List.find (isOpenRequest tmdbId contentType serverId)
                            (content_requests (db s)) <> None)
              \/ (res_status resp = 201
                  /\ created user serverId tmdbId contentType title (db s) (db s')
                  /\ List.find (isOpenRequest tmdbId contentType serverId)
                               (content_requests (db s)) = None
                  /\ (canAddDirectly user = true ->
                      rssTracked (db s) serverId contentType tmdbId = false))))
       (fun _ s' => cache s' = cache s /\ db s' = db s).
Proof.
  unfold createAfterPrecheck. apply runs_bind. unfold getExisting, runs at 1.
  destruct (List.find _ _) as [r|] eqn:Hopen.
  { apply runs_ret. split; [reflexivity|]. left.
    split; [reflexivity|]. split; [reflexivity | discriminate]. }
  destruct (canAddDirectly user) eqn:Hdirect.
  - unfold directAdd. apply runs_bind.
    assert (Hexec : runs
              (if String.eqb contentType "movie"
               then addToRadarr env server tmdbId title
               else if String.eqb contentType "tv"
                    then addToSonarr env server tmdbId title (b_seasons body)
                    else ret (mkArrResult false false None None)) s
              (fun _ s' => same_store s s') no_throw).
    { destruct (String.eqb contentType "movie");
        [apply addToRadarr_runs, same_store_refl|].
      destruct (String.eqb contentType "tv");
        [apply addToSonarr_runs, same_store_refl|].
      apply runs_ret, same_store_refl. }
    eapply runs_weaken; [exact Hexec | | intros ? ? []].
    intros arrResult s1 [Hd1 Hc1].
    apply runs_bind, runs_uuid. intros s2 Hd2 Hc2 _.
    apply runs_bind.
    eapply runs_weaken; [apply insertRss_runs | |].
    2: { intros e s3 ->. split; congruence. }
    intros _ s3 (Hu & Htr & ->).
    apply runs_bind.
    eapply runs_weaken; [apply insertAudit_runs | |].
    2: { intros e s4 [_ Hno]. cbn [db users] in Hno. unfold userExists in *.
         cbn [users] in Hno. congruence. }
    intros _ s4 ->.
    assert (Hgoal : cache s2 = cache s
                    /\ created user serverId tmdbId contentType title (db s)
                         (mkDB (plex_servers (db s2)) (users (db s2))
                               (content_requests (db s2))
                               (rss_items (db s2) ++
                                  [mkRssRow (fst (randomUUID env (world s1))) serverId
                                     contentType tmdbId title
                                     (JS.or_null_num (b_year body))
                                     (JS.or_null_str (b_overview body))
                                     (JS.or_null_str (b_posterPath body))
                                     (seasonsText env (b_seasons body) None)
                                     (Some (user_id user)) (now env (world s2) / 1000)])
                               (audit_log (db s2) ++
                                  [mkAuditRow (Some (user_id user)) "add_content"
                                     ("Added " +:+ contentType +:+ ": " +:+ title) ip]))).
    { split; [congruence|]. unfold created. rewrite Hdirect, Hd2, Hd1.
      cbn [plex_servers users content_requests rss_items audit_log].
      repeat split; eauto.
      eexists. repeat split; reflexivity. }
    destruct Hgoal as [Hc Hcr]. rewrite Hd2, Hd1 in Htr.
    destruct (success arrResult); apply runs_ret; cbn [cache db res_status json];
      (split; [exact Hc | right; split; [reflexivity | split; [exact Hcr | auto]]]).
  - apply runs_bind, runs_uuid. intros s1 Hd1 Hc1 _.
    apply runs_bind.
    eapply runs_weaken; [apply insertRequest_runs | |].
    2: { intros e s2 ->. split; congruence. }
    intros _ s2 (Hu & ->).
    apply runs_bind.
    eapply runs_weaken; [apply insertAudit_runs | |].
    2: { intros e s3 [_ Hno]. cbn [db users] in Hno. unfold userExists in *.
         cbn [users] in Hno. congruence. }
    intros _ s3 ->. apply runs_ret. cbn [cache db res_status json].
    split; [exact Hc1|]. right. split; [reflexivity|].
    split; [|split; [reflexivity | discriminate]].
    unfold created. rewrite Hdirect, Hd1.
    cbn [plex_servers users content_requests rss_items audit_log].
    repeat split; eauto.
    eexists. repeat split; reflexivity.
Qed.

(** The create route, case by case. *)
Lemma createRequest_cases user ip body (s : State W) :
  runs (createRequest env user ip body) s
       (fun resp s' =>
          cache s' = cache s
          /\ ((res_status resp = 400 /\ s' = s
               /\ ~ exists tmdbId contentType title serverId server,
                      validCreate user body (db s) tmdbId contentType title
                                  serverId server)
              \/ (exists tmdbId contentType title serverId server,
                    validCreate user body (db s) tmdbId contentType title
                                serverId server
                    /\ ((res_status resp = 409 /\ db s' = db s)
                        \/ (res_status resp = 500 /\ db s' = db s)
                        \/ (res_status resp = 201
                            /\ created user serverId tmdbId contentType title
                                       (db s) (db s')
                            /\ List.find (isOpenRequest tmdbId contentType serverId)
                                         (content_requests (db s)) = None
                            /\ (canAddDirectly user = true ->
                                rssTracked (db s) serverId contentType tmdbId
                                = false))))))
       no_throw.
Proof.
  unfold createRequest. apply runs_try.
  match goal with |- runs _ _ ?Q ?E => set (post := Q); set (handler := E) end.
  assert (Hbad : forall resp : HttpResponse,
             res_status resp = 400 ->
             (forall tmdbId contentType title serverId server,
                validCreate user body (db s) tmdbId contentType title serverId server ->
                False) ->
             runs (ret resp) s post handler).
  { intros resp H400 Hno. apply runs_ret. subst post. split; [reflexivity|]. left.
    repeat split; [exact H400|]. intros (a & b & c & d & e & Hv). exact (Hno _ _ _ _ _ Hv). }
  destruct (b_tmdbId body) as [tmdbId|] eqn:Hid.
  2: { apply Hbad; [reflexivity|]. unfold validCreate. rewrite Hid.
       intros ? ? ? ? ? (H & _). discriminate H. }
  destruct (Z.eq_dec tmdbId 0) as [->|Hid0].
  { apply Hbad; [reflexivity|]. unfold validCreate. rewrite Hid.
    intros ? ? ? ? ? (H & H0 & _). injection H as <-. contradiction. }
  assert (H1 : JS.truthy_num (Some tmdbId) = true).
  { simpl. apply negb_true_iff, Z.eqb_neq. exact Hid0. }
  rewrite H1. cbn [negb orb].
  destruct (b_contentType body) as [contentType|] eqn:Hct.
  2: { apply Hbad; [reflexivity|]. unfold validCreate. rewrite Hct.
       intros ? ? ? ? ? (_ & _ & H & _). discriminate H. }
  destruct (JS.truthy_str (Some contentType)) eqn:Hctt.
  2: { apply Hbad; [reflexivity|]. unfold validCreate. rewrite Hct.
       intros ? ? ? ? ? (_ & _ & H & Hok & _). injection H as <-.
       rewrite (contentTypeOk_truthy _ Hok) in Hctt. discriminate. }
  cbn [negb orb].
  destruct (b_title body) as [title|] eqn:Ht.
  2: { apply Hbad; [reflexivity|]. unfold validCreate. rewrite Ht.
       intros ? ? ? ? ? (_ & _ & _ & _ & H & _). discriminate H. }
  destruct (JS.truthy_str (Some title)) eqn:Htt.
  2: { apply Hbad; [reflexivity|]. unfold validCreate. rewrite Ht.
       intros ? ? ? ? ? (_ & _ & _ & _ & H & H0 & _). injection H as <-.
       apply truthy_str_some in H0. congruence. }
  cbn [negb orb]. cbv zeta. cbn [default from_option id].
  destruct (contentTypeOk contentType) eqn:Hok.
  2: { apply Hbad; [reflexivity|]. unfold validCreate. rewrite Hct.
       intros ? ? ? ? ? (_ & _ & H & Hok' & _). injection H as <-.
       congruence. }
  cbn [negb].
  destruct (primaryServerId user) as [serverId|] eqn:Hp.
  2: { apply Hbad; [reflexivity|]. unfold validCreate. rewrite Hp.
       intros ? ? ? ? ? (_ & _ & _ & _ & _ & _ & H & _). discriminate H. }
  destruct (JS.truthy_str (Some serverId)) eqn:Hpt.
  2: { apply Hbad; [reflexivity|]. unfold validCreate. rewrite Hp.
       intros ? ? ? ? ? (_ & _ & _ & _ & _ & _ & H & H0 & _).
       injection H as <-. apply truthy_str_some in H0. congruence. }
  cbn [negb]. apply runs_bind, getServer_runs. cbn [default from_option id].
  destruct (List.find _ _) as [server|] eqn:Hsrv.
  2: { apply Hbad; [reflexivity|]. unfold validCreate. rewrite Hp.
       intros ? ? ? ? ? (_ & _ & _ & _ & _ & _ & H & _ & Hf).
       injection H as <-. congruence. }
  assert (Hvalid : validCreate user body (db s) tmdbId contentType title serverId server).
  { unfold validCreate. rewrite Hid, Hct, Ht, Hp.
    apply truthy_str_some in Htt. apply truthy_str_some in Hpt.
    repeat split; auto. }
  clear Hbad. subst post handler.
  apply runs_bind, runs_try.
  eapply runs_weaken; [apply managerPrecheck_runs | |].
  2: { intros e s1 [Hd1 Hc1]. cbv beta. apply (runs_ret (W:=W)). cbv beta iota.
       eapply runs_weaken; [apply createAfterPrecheck_cases | |].
       - intros resp s2 (Hc2 & Hcase). split; [congruence|]. right.
         exists tmdbId, contentType, title, serverId, server. split; [exact Hvalid|].
         rewrite <- Hd1. destruct Hcase as [(? & ? & _)|[? ?]]; [left | right; right];
           split; auto; congruence.
       - intros e' s2 [Hc2 Hd2]. apply runs_ret. split; [cbn; congruence|]. right.
         exists tmdbId, contentType, title, serverId, server. split; [exact Hvalid|].
         right. left. split; [reflexivity | cbn; congruence]. }
  intros early s1 ([Hd1 Hc1] & H409).
  destruct early as [response|].
  - apply runs_ret. split; [exact Hc1|]. right.
    exists tmdbId, contentType, title, serverId, server. split; [exact Hvalid|].
    left. split; [apply H409; reflexivity | exact Hd1].
  - eapply runs_weaken; [apply createAfterPrecheck_cases | |].
    + intros resp s2 (Hc2 & Hcase). split; [congruence|]. right.
      exists tmdbId, contentType, title, serverId, server. split; [exact Hvalid|].
      rewrite <- Hd1. destruct Hcase as [(? & ? & _)|[? ?]]; [left | right; right];
        split; auto; congruence.
    + intros e' s2 [Hc2 Hd2]. apply runs_ret. split; [cbn; congruence|]. right.
      exists tmdbId, contentType, title, serverId, server. split; [exact Hvalid|].
      right. left. split; [reflexivity | cbn; congruence].
Qed.

End CreateOutcomes.
Section CreateProperties.

Context {W : Type} (env : Env W).

(** X4. The create route always answers, with 400, 409, 201 or 500,
    and never touches the cache. It answers 400 exactly when the call
    is not valid, and then nothing at all has happened. Only a 201 writes
    the database, and it writes one audit row and one record: a tracked
    item for a user who adds directly, a pending request otherwise. *)
Theorem create_writes_only_on_201 user ip body (s : State W) :
  exists resp s',
    createRequest env user ip body s = (Ret resp, s')
    /\ In (res_status resp) [400; 409; 201; 500]
    /\ cache s' = cache s
    /\ (res_status resp = 400 <->
          ~ exists tmdbId contentType title serverId server,
              validCreate user body (db s) tmdbId contentType title serverId server)
    /\ (res_status resp = 400 -> s' = s)
    /\ (res_status resp <> 201 -> db s' = db s)
    /\ (res_status resp = 201 ->
          exists tmdbId contentType title serverId server,
            validCreate user body (db s) tmdbId contentType title serverId server
            /\ created user serverId tmdbId contentType title (db s) (db s')).
Proof.
  destruct (runs_returns _ _ _ (createRequest_cases env user ip body s))
    as (resp & s' & Hrun & Hc & Hcase).
  exists resp, s'. split; [exact Hrun|].
  destruct Hcase as [(H400 & Hs & Hinv)|(a & b & c & d & e & Hv & Hcase)].
  - rewrite H400. subst s'.
    split; [simpl; auto|]. split; [reflexivity|].
    split; [split; auto|]. split; [reflexivity|].
    split; [reflexivity | discriminate].
  - assert (Hval : exists tmdbId contentType title serverId server,
               validCreate user body (db s) tmdbId contentType title serverId server)
      by eauto 10.
    assert (Hne : res_status resp <> 400)
      by (destruct Hcase as [[Hst _]|[[Hst _]|[Hst _]]]; rewrite Hst; discriminate).
    split; [destruct Hcase as [[Hst _]|[[Hst _]|[Hst _]]]; rewrite Hst; simpl; auto|].
    split; [exact Hc|].
    split; [split; [intros H; contradiction | intros H; destruct (H Hval)]|].
    split; [intros H; contradiction|].
    split.
    + intros Hn. destruct Hcase as [[_ Hd]|[[_ Hd]|[Hst _]]]; auto. contradiction.
    + intros H201. destruct Hcase as [[Hst _]|[[Hst _]|(_ & Hcr & _)]];
        try congruence. eauto 10.
Qed.

Lemma validCreate_servers user body (d d' : DB) tmdbId contentType title serverId server :
  plex_servers d' = plex_servers d ->
  validCreate user body d tmdbId contentType title serverId server ->
  validCreate user body d' tmdbId contentType title serverId server.
Proof. unfold validCreate. intros ->. auto. Qed.

Lemma validCreate_unique user body (d : DB) a b c e f a' b' c' e' f' :
  validCreate user body d a b c e f -> validCreate user body d a' b' c' e' f' ->
  a = a' /\ b = b' /\ c = c' /\ e = e' /\ f = f'.
Proof.
  intros (H1 & _ & H2 & _ & H3 & _ & H4 & _ & H5) (G1 & _ & G2 & _ & G3 & _ & G4 & _ & G5).
  assert (e = e') by congruence. subst e'.
  repeat split; congruence.
Qed.

Lemma find_app_open tmdbId contentType serverId (l : list RequestRow) row :
  r_tmdb_id row = tmdbId -> r_content_type row = contentType ->
  r_server_id row = serverId -> r_status row = "pending" ->
  exists r, In r (l ++ [row]) /\ r_tmdb_id r = tmdbId /\ r_content_type r = contentType
            /\ r_server_id r = serverId
            /\ (r_status r = "pending" \/ r_status r = "approved").
Proof.
  intros. exists row. rewrite in_app_iff. simpl. auto 10.
Qed.

Lemma rssTracked_app (d : DB) rows row sid ct tmdbId :
  rss_items d = rows ++ [row] ->
  rss_server_id row = sid -> rss_content_type row = ct -> rss_tmdb_id row = tmdbId ->
  rssTracked d sid ct tmdbId = true.
Proof.
  intros Hr H1 H2 H3. unfold rssTracked. rewrite Hr, existsb_app. simpl.
  rewrite H1, H2, H3, !String.eqb_refl, Z.eqb_refl. apply orb_true_r.
Qed.

(** X5. A create call that was answered 201 is refused when it is
    repeated: the answer is 409 or 500 and the database is left as it
    is; for a user who does not add directly it is always 409. *)
Theorem create_repeated_is_refused user ip body (s s1 : State W) resp :
  createRequest env user ip body s = (Ret resp, s1) ->
  res_status resp = 201 ->
  exists resp2 s2,
    createRequest env user ip body s1 = (Ret resp2, s2)
    /\ (res_status resp2 = 409 \/ res_status resp2 = 500)
    /\ db s2 = db s1
    /\ (canAddDirectly user = false -> res_status resp2 = 409).
Proof.
  intros Hrun H201.
  pose proof (createRequest_cases env user ip body s) as H1.
  unfold runs in H1. rewrite Hrun in H1. destruct H1 as (_ & H1).
  destruct H1 as [(H400 & _)|(a & b & c & d & e & Hv & H1)]; [congruence|].
  destruct H1 as [[Hst _]|[[Hst _]|(_ & Hcr & _)]]; try congruence.
  destruct Hcr as (Hps & Hus & _ & Hrows).
  pose proof (validCreate_servers _ _ _ (db s1) _ _ _ _ _ Hps Hv) as Hv1.
  destruct (runs_returns _ _ _ (createRequest_cases env user ip body s1))
    as (resp2 & s2 & Hrun2 & _ & H2).
  exists resp2, s2. split; [exact Hrun2|].
  destruct H2 as [(_ & _ & Hinv)|(a' & b' & c' & d' & e' & Hv' & H2)];
    [destruct Hinv; eauto 10|].
  destruct (validCreate_unique _ _ _ _ _ _ _ _ _ _ _ _ _ Hv1 Hv')
    as (<- & <- & <- & <- & <-).
  assert (Hnot201 : res_status resp2 = 201 -> False).
  { intros Hst2.
    destruct H2 as [[Hst _]|[[Hst _]|(_ & _ & Hnone & Htr)]]; try congruence.
    destruct (canAddDirectly user) eqn:Hdirect.
    - destruct Hrows as (_ & row & Hr & R1 & R2 & R3 & _).
      rewrite (rssTracked_app _ _ _ _ _ _ Hr R1 R2 R3) in Htr.
      specialize (Htr eq_refl). discriminate.
    - destruct Hrows as (_ & row & Hr & _ & R1 & R2 & R3 & _ & R4).
      destruct (find_open_request a b d (content_requests (db s1))) as [x Hx];
        [rewrite Hr; apply find_app_open; assumption | congruence]. }
  assert (Hdb : db s2 = db s1).
  { destruct H2 as [[_ Hd]|[[_ Hd]|(Hst & _)]]; auto. destruct (Hnot201 Hst). }
  split; [|split; [exact Hdb|]].
  - destruct H2 as [[Hst _]|[[Hst _]|(Hst & _)]]; auto. destruct (Hnot201 Hst).
  - intros Hdirect. rewrite Hdirect in Hrows.
    destruct Hrows as (_ & row & Hr & _ & R1 & R2 & R3 & _ & R4).
    destruct (guardedPrecheck_returns env e b a c s1)
      as (early & s1' & Hpre & [Hd Hc] & H409).
    rewrite (createRequest_after env user ip body s1 s1' _ _ _ _ _ early Hv1 Hpre) in Hrun2.
    destruct early as [r|].
    + injection Hrun2 as <- _. apply H409. reflexivity.
    + destruct (find_open_request a b d (content_requests (db s1'))) as [x Hx].
      { rewrite Hd, Hr. apply find_app_open; assumption. }
      unfold try_catch in Hrun2.
      rewrite (createAfterPrecheck_duplicate env _ _ _ _ _ _ _ _ _ x Hx) in Hrun2.
      injection Hrun2 as <- _. reflexivity.
Qed.

End CreateProperties.
(** ** Aggregation, in Hoare form, and enrichment *)

Section EnrichmentProperties.

Context {W : Type} (env : Env W).

Lemma checkAvailability_ok k item user (s : State W) :
  cache_ok (cache s) ->
  runs (checkAvailability env k item user) s
       (fun r s' =>
          cache_ok (cache s') /\ db s' = db s
          /\ isStatus (arrStatus r) = true
          /\ av_status r = overallStatus (plexAvailable r) (arrStatus r) (inRssFeed r)
          /\ (inRssFeed r = true <->
                exists row, In row (rss_items (db s)) /\ rss_tmdb_id row = item_id item
                            /\ rss_content_type row = contentTypeOf k))
       no_throw.
Proof.
  intros Hok. unfold checkAvailability. apply runs_bind.
  eapply runs_weaken;
    [apply (serverLoop_ok env k item user (map srv_name (user_servers user))
              (user_servers user)
              (mkAvailability (JStr "unknown") false [] JNull false) s s Hok eq_refl)
    | | intros ? ? []].
  - repeat split; simpl; try discriminate; try contradiction.
  - intros sv Hsv. apply in_map. exact Hsv.
  - intros r s1 (Hok1 & Hdb1 & Hst & _). apply runs_bind.
    unfold getRssItem, runs at 1. apply runs_ret.
    cbn [arrStatus av_status plexAvailable inRssFeed].
    split; [exact Hok1|]. split; [exact Hdb1|]. split; [exact Hst|].
    split; [reflexivity|].
    rewrite <- getRssItem_found, Hdb1.
    destruct (List.find _ _) as [row|]; split; intros H; eauto; try discriminate.
    destruct H as [row H]. discriminate.
Qed.

Lemma overallStatus_listed p a f :
  isStatus a = true ->
  exists st, overallStatus p a f = JStr st /\ In st overallStatuses.
Proof.
  intros Ha. unfold overallStatus.
  destruct p; [exists "available"; simpl; auto|].
  destruct (isStatus_cases a Ha) as [->|(st & Hin & ->)].
  - destruct f; eexists; simpl; eauto 10.
  - assert (Htr : truthy (JStr st) = true).
    { simpl in Hin. destruct Hin as [<-|[<-|[<-|[<-|[]]]]]; reflexivity. }
    rewrite Htr. exists st. split; [reflexivity|].
    simpl in Hin. simpl. intuition.
Qed.

(** X6. From a well-typed cache the enrichment of a list of movies,
    and of a list of shows, never throws: it returns one result per
    item, in order, with the item's id and title and a status among the
    known ones; it keeps the cache well typed and leaves the database
    alone. *)
Theorem enrichment_is_total (user : ReqUser) :
  (forall movies (s : State W),
     cache_ok (cache s) ->
     exists results s',
       enrichMovieResults env movies user s = (Ret results, s')
       /\ cache_ok (cache s') /\ db s' = db s
       /\ map em_id results = map tm_id movies
       /\ map em_title results = map tm_title movies
       /\ Forall (fun r => exists st, av_status (em_availability r) = JStr st
                                     /\ In st overallStatuses) results)
  /\ (forall shows includeSeasons (s : State W),
        cache_ok (cache s) ->
        exists results s',
          enrichTvResults env shows user includeSeasons s = (Ret results, s')
          /\ cache_ok (cache s') /\ db s' = db s
          /\ map es_id results = map ts_id shows
          /\ map es_title results = map ts_name shows
          /\ Forall (fun r => exists st, av_status (es_availability r) = JStr st
                                        /\ In st overallStatuses) results).
Proof.
  split.
  - intros movies s Hok. apply runs_returns. revert s Hok.
    induction movies as [|movie rest IH]; intros s Hok; simpl.
    + apply runs_ret. repeat split; auto.
    + apply runs_bind.
      eapply runs_weaken; [apply (checkAvailability_ok PMovie _ user s Hok) | | intros ? ? []].
      intros a s1 (Hok1 & Hd1 & Hst & Hav & _). apply runs_bind.
      eapply runs_weaken; [apply (IH s1 Hok1) | | intros ? ? []].
      intros results s2 (Hok2 & Hd2 & Hids & Hts & Hall). apply runs_ret.
      split; [exact Hok2|]. split; [congruence|].
      simpl. rewrite Hids, Hts. repeat split.
      constructor; [|exact Hall]. simpl. rewrite Hav.
      apply overallStatus_listed. exact Hst.
  - intros shows includeSeasons s Hok. apply runs_returns. revert s Hok.
    induction shows as [|show rest IH]; intros s Hok; simpl.
    + apply runs_ret. repeat split; auto.
    + apply runs_bind.
      eapply runs_weaken; [apply (checkAvailability_ok PShow _ user s Hok) | | intros ? ? []].
      intros a s1 (Hok1 & Hd1 & Hst & Hav & _). apply runs_bind.
      eapply runs_weaken; [apply (IH s1 Hok1) | | intros ? ? []].
      intros results s2 (Hok2 & Hd2 & Hids & Hts & Hall). apply runs_ret.
      split; [exact Hok2|]. split; [congruence|].
      simpl. rewrite Hids, Hts. repeat split.
      constructor; [|exact Hall]. simpl. rewrite Hav.
      apply overallStatus_listed. exact Hst.
Qed.

End EnrichmentProperties.
Section Composition.

Context {W : Type} (env : Env W).

Lemma split_dash_head_digits (s rest : string) :
  Forall (fun c => is_Some (JS.digit_of 10 c)) (list_ascii_of_string s) ->
  JS.split_dash_head (s +:+ "-" +:+ rest) = s.
Proof.
  induction s as [|a s IH]; intros H.
  - reflexivity.
  - simpl in H. inversion H as [|? ? Ha Hs]; subst.
    change (String a s +:+ "-" +:+ rest) with (String a (s +:+ "-" +:+ rest)).
    simpl. destruct (Ascii.eqb a "-") eqn:E.
    + apply Ascii.eqb_eq in E. subst a. destruct Ha as [d Hd].
      vm_compute in Hd. discriminate Hd.
    + rewrite (IH Hs). reflexivity.
Qed.

Lemma pretty_nonneg_digits (y : Z) :
  0 <= y -> Forall (fun c => is_Some (JS.digit_of 10 c)) (list_ascii_of_string (pretty y)).
Proof.
  intros Hy. destruct y as [|p|p]; [|exact (pretty_N_digits (N.pos p))|lia].
  simpl. constructor; [eexists; reflexivity | constructor].
Qed.

Lemma pretty_nonneg_truthy (y : Z) (rest : string) :
  0 <= y -> JS.truthy_str (Some (pretty y +:+ rest)) = true.
Proof.
  intros Hy.
  assert (Hne : pretty y <> "").
  { destruct y as [|p|p]; [discriminate|exact (pretty_pos_nonempty p)|lia]. }
  destruct (pretty y) as [|a r]; [destruct (Hne eq_refl) | reflexivity].
Qed.

(** X7. For a date that starts with the decimal digits of a natural
    number [y] followed by a dash, the [year] of the enriched item is
    the Number nearest to [y]: [y] itself when it is a safe integer
    (every four-digit year is). *)
Theorem enriched_year_of_dated_item (user : ReqUser) (y : Z) (rest : string) :
  0 <= y ->
  let date := Some (pretty y +:+ "-" +:+ rest) in
  yearOf date = JS.toNumber y
  /\ (JS.isSafeInteger y = true -> JS.toNumber y = Some y)
  /\ (forall movie (s s' : State W) results,
        tm_release_date movie = date ->
        enrichMovieResults env [movie] user s = (Ret results, s') ->
        map em_year results = [JS.toNumber y])
  /\ (forall show includeSeasons (s s' : State W) results,
        ts_first_air_date show = date ->
        enrichTvResults env [show] user includeSeasons s = (Ret results, s') ->
        map es_year results = [JS.toNumber y]).
Proof.
  intros Hy date.
  assert (Hyear : yearOf date = JS.toNumber y).
  { unfold yearOf, date. rewrite (pretty_nonneg_truthy y _ Hy).
    cbn [default from_option id].
    rewrite (split_dash_head_digits _ _ (pretty_nonneg_digits y Hy)).
    apply parseInt_pretty. exact Hy. }
  split; [exact Hyear|]. split; [apply toNumber_safe|]. split.
  - intros movie s s' results Hdate Hrun. simpl in Hrun. unfold bind in Hrun.
    destruct (checkMovieAvailability env (movieItem movie) user s) as [[a|e] s1];
      [|discriminate Hrun].
    unfold ret in Hrun. injection Hrun as <- _. simpl. rewrite Hdate, Hyear. reflexivity.
  - intros show includeSeasons s s' results Hdate Hrun. simpl in Hrun. unfold bind in Hrun.
    destruct (checkTvAvailability env (showItem show) user s) as [[a|e] s1];
      [|discriminate Hrun].
    unfold ret in Hrun. injection Hrun as <- _. simpl. rewrite Hdate, Hyear. reflexivity.
Qed.

Lemma overallStatus_tracked p a :
  isStatus a = true ->
  overallStatus p a true <> JStr "not_available"
  /\ overallStatus p a true <> JStr "unknown".
Proof.
  intros Ha. unfold overallStatus. destruct p; [split; discriminate|].
  destruct (isStatus_cases a Ha) as [->|(st & Hin & ->)]; [split; discriminate|].
  simpl in Hin. destruct Hin as [<-|[<-|[<-|[<-|[]]]]]; split; discriminate.
Qed.

(** X8. After a create call answered 201, what the aggregation says
    of the item, for any user and from a well-typed cache: if the
    requester adds directly, the item is in the feed and its status is
    never ['not_available']; otherwise the call has not changed whether
    the item is in the feed. *)
Theorem created_item_in_availability user ip body (s s1 : State W) resp k item viewer :
  createRequest env user ip body s = (Ret resp, s1) ->
  res_status resp = 201 ->
  b_tmdbId body = Some (item_id item) ->
  b_contentType body = Some (contentTypeOf k) ->
  cache_ok (cache s1) ->
  exists r s2,
    checkAvailability env k item viewer s1 = (Ret r, s2)
    /\ if canAddDirectly user
       then inRssFeed r = true
            /\ av_status r <> JStr "not_available"
            /\ av_status r <> JStr "unknown"
       else inRssFeed r = true <->
            exists row, In row (rss_items (db s)) /\ rss_tmdb_id row = item_id item
                        /\ rss_content_type row = contentTypeOf k.
Proof.
  intros Hrun H201 Hid Hct Hok.
  pose proof (createRequest_cases env user ip body s) as H1.
  unfold runs in H1. rewrite Hrun in H1. destruct H1 as (_ & H1).
  destruct H1 as [(H400 & _)|(a & b & c & d & e & Hv & H1)]; [congruence|].
  destruct H1 as [[Hst _]|[[Hst _]|(_ & Hcr & _)]]; try congruence.
  destruct Hv as (Va & _ & Vb & _).
  assert (a = item_id item) by congruence. assert (b = contentTypeOf k) by congruence.
  subst a b.
  destruct Hcr as (_ & _ & _ & Hrows).
  destruct (runs_returns _ _ _ (checkAvailability_ok env k item viewer s1 Hok))
    as (r & s2 & Hrun2 & _ & _ & Hst & Hav & Hrss).
  exists r, s2. split; [exact Hrun2|].
  destruct (canAddDirectly user).
  - destruct Hrows as (_ & row & Hr & _ & R2 & R3 & _).
    assert (Hin : inRssFeed r = true).
    { apply Hrss. exists row. rewrite Hr, in_app_iff. simpl. auto. }
    split; [exact Hin|]. rewrite Hav, Hin. apply overallStatus_tracked. exact Hst.
  - destruct Hrows as (Hr & _). rewrite <- Hr. exact Hrss.
Qed.

End Composition.
(** ** Approval, rejection and deletion, case by case *)

Section ModerationCases.

Context {W : Type} (env : Env W).

Lemma updateApproved_runs uid notes id (s : State W) :
  runs (updateApproved env uid notes id) s
       (fun _ s' =>
          s' = mkState (mkDB (plex_servers (db s)) (users (db s))
                          (map (fun r => if String.eqb (r_id r) id
                                         then approvedRow r (now env (world s) / 1000) uid notes
                                         else r)
                               (content_requests (db s)))
                          (rss_items (db s)) (audit_log (db s)))
                       (cache s) (world s) (trace s))
       (fun _ s' => s' = s /\ userExists (db s) uid = false).
Proof.
  unfold runs, updateApproved, bind, getDb, sql_now, setDb, throw.
  destruct (userExists (db s) uid); [reflexivity | split; reflexivity].
Qed.

Lemma updateRejected_runs uid notes id (s : State W) :
  runs (updateRejected env uid notes id) s
       (fun _ s' =>
          userExists (db s) uid = true
          /\ s' = mkState (mkDB (plex_servers (db s)) (users (db s))
                             (map (fun r => if String.eqb (r_id r) id
                                            then rejectedRow r (now env (world s) / 1000) uid notes
                                            else r)
                                  (content_requests (db s)))
                             (rss_items (db s)) (audit_log (db s)))
                          (cache s) (world s) (trace s))
       (fun _ s' => s' = s).
Proof.
  unfold runs, updateRejected, bind, getDb, sql_now, setDb, throw.
  destruct (userExists (db s) uid); [split; reflexivity | reflexivity].
Qed.

(** The executor step of the approve route: it may throw on a stored
    season text that does not parse, and leaves the store alone. *)
Lemma approve_executor_store body request (server : option Server) (s : State W) :
  runs (match server with
        | Some server =>
            if String.eqb (r_content_type request) "movie" then
              addToRadarr env server (r_tmdb_id request) (r_title request)
            else if String.eqb (r_content_type request) "tv" then
              do l <- seasonList env (ab_seasons body) request;
              addToSonarr env server (r_tmdb_id request) (r_title request) l
            else ret (mkArrResult false false None None)
        | None => ret (mkArrResult false false None None)
        end) s
       (fun _ s' => same_store s s') (fun _ s' => same_store s s').
Proof.
  destruct server as [server|]; [|apply runs_ret, same_store_refl].
  destruct (String.eqb (r_content_type request) "movie").
  { eapply runs_weaken; [apply addToRadarr_runs, same_store_refl | auto | intros ? ? []]. }
  destruct (String.eqb (r_content_type request) "tv");
    [|apply runs_ret, same_store_refl].
  apply runs_bind. unfold seasonList.
  assert (Hadd : forall l, runs (addToSonarr env server (r_tmdb_id request)
                                             (r_title request) l) s
                             (fun _ s' => same_store s s') (fun _ s' => same_store s s')).
  { intros l. eapply runs_weaken;
      [apply addToSonarr_runs, same_store_refl | auto | intros ? ? []]. }
  destruct (ab_seasons body) as [l|]; [apply runs_ret, Hadd|].
  destruct (JS.truthy_str (r_seasons request)); [|apply runs_ret, Hadd].
  destruct (JSON_parse env _) as [l|]; [apply runs_ret, Hadd|].
  apply runs_throw, same_store_refl.
Qed.

(** The approve route; a success also tracks the item, and a failure
    leaves the database as it was unless the notes cannot be bound. *)
Lemma approveRequest_cases user ip id body (s : State W) :
  runs (approveRequest env user ip id body) s
       (fun resp s' =>
          moderated (fun r t => approvedRow r t (user_id user)
                                  (notesText (ab_notes body)))
                    (approvalUndone body) user id s resp s'
          /\ (res_status resp = 200 ->
              exists request row,
                List.find (fun r => String.eqb (r_id r) id) (content_requests (db s))
                = Some request
                /\ rss_items (db s') = rss_items (db s) ++ [row]
                /\ rss_tmdb_id row = r_tmdb_id request
                /\ rss_content_type row = r_content_type request))
       no_throw.
Proof.
  unfold approveRequest, moderated.
  destruct (negb (String.eqb (user_role user) "admin")).
  { apply runs_ret. repeat split. discriminate. }
  unfold approveHandler. apply runs_try, runs_bind. unfold getRequest, runs at 1.
  cbn [db].
  destruct (List.find _ _) as [request|] eqn:Hreq.
  2: { apply runs_ret. repeat split. discriminate. }
  destruct (negb (String.eqb (r_status request) "pending")).
  { apply runs_ret. repeat split. discriminate. }
  assert (Hfail : forall s' : State W,
             cache s' = cache s -> approvalUndone body (db s) (db s') ->
             runs (ret (json 500 [("error", "Failed to approve request")])) s'
               (fun resp s'0 =>
                  (cache s'0 = cache s
                   /\ ((res_status resp = 500 /\ approvalUndone body (db s) (db s'0))
                       \/ (res_status resp = 200
                           /\ plex_servers (db s'0) = plex_servers (db s)
                           /\ users (db s'0) = users (db s)
                           /\ exists t,
                                content_requests (db s'0)
                                = map (fun r => if String.eqb (r_id r) id
                                                then approvedRow r t (user_id user)
                                                       (notesText (ab_notes body))
                                                else r)
                                      (content_requests (db s)))))
                  /\ (res_status resp = 200 ->
                      exists request0 row,
                        Some request = Some request0
                        /\ rss_items (db s'0) = rss_items (db s) ++ [row]
                        /\ rss_tmdb_id row = r_tmdb_id request0
                        /\ rss_content_type row = r_content_type request0))
               no_throw).
  { intros s' Hc Hd. apply runs_ret. split; [|discriminate].
    split; [exact Hc|]. left. split; [reflexivity | exact Hd]. }
  apply runs_bind, getServer_runs. apply runs_bind.
  eapply runs_weaken; [apply approve_executor_store | |].
  2: { intros e s1 [Hd1 Hc1]. apply Hfail; [assumption | left; assumption]. }
  intros arrResult s1 [Hd1 Hc1].
  apply runs_bind, runs_uuid. intros s2 Hd2 Hc2 _.
  apply runs_bind.
  eapply runs_weaken; [apply insertRss_runs | |].
  2: { intros e s3 ->. apply Hfail; [congruence | left; congruence]. }
  intros _ s3 (Hu & _ & ->).
  apply runs_bind. unfold bindNotes.
  destruct (ab_notes body) as [[text|]|] eqn:Hnotes.
  2: { apply runs_throw. apply Hfail; [cbn [cache]; congruence|].
       right. split; [exact Hnotes|]. cbn [db]. rewrite Hd2, Hd1.
       eexists. reflexivity. }
  all: apply runs_ret.
  all: apply runs_bind.
  all: (eapply runs_weaken; [apply updateApproved_runs | |]).
  2, 4: (intros e s4 [_ Hno]; cbn [db users] in Hno; unfold userExists in *;
         cbn [users] in Hno; congruence).
  all: intros _ s4 ->.
  all: apply runs_bind.
  all: (eapply runs_weaken; [apply insertAudit_runs | |]).
  2, 4: (intros e s5 [_ Hno]; cbn [db users] in Hno; unfold userExists in *;
         cbn [users] in Hno; congruence).
  all: intros _ s5 ->.
  all: apply List.find_some in Hreq as [_ Hid]; apply String.eqb_eq in Hid.
  all: destruct (success arrResult); apply runs_ret;
    cbn [cache db content_requests rss_items plex_servers users res_status json];
    rewrite Hid, Hd2, Hd1;
    (split; [split; [congruence|]; right; repeat split; eauto|]);
    intros _; eexists request, _; repeat split.
Qed.

(** The reject route contacts no service and tracks nothing. *)
Lemma rejectRequest_cases user ip id notes (s : State W) :
  runs (rejectRequest env user ip id notes) s
       (fun resp s' =>
          moderated (fun r t => rejectedRow r t (user_id user) (JS.or_null_str notes))
                    rejectionUndone user id s resp s'
          /\ world s' = world s /\ trace s' = trace s
          /\ rss_items (db s') = rss_items (db s))
       no_throw.
Proof.
  unfold rejectRequest, requireAdmin, moderated.
  destruct (negb (String.eqb (user_role user) "admin")).
  { apply runs_ret. repeat split. }
  unfold rejectHandler. apply runs_try, runs_bind. unfold getRequest, runs at 1.
  cbn [db].
  destruct (List.find _ _) as [request|] eqn:Hreq.
  2: { apply runs_ret. repeat split. }
  destruct (negb (String.eqb (r_status request) "pending")).
  { apply runs_ret. repeat split. }
  apply runs_bind.
  eapply runs_weaken; [apply updateRejected_runs | |].
  2: { intros e s1 ->. apply runs_ret. repeat split. left. split; reflexivity. }
  intros _ s1 (Hu & ->).
  apply runs_bind.
  eapply runs_weaken; [apply insertAudit_runs | |].
  2: { intros e s2 [_ Hno]. cbn [db users] in Hno. unfold userExists in *.
       cbn [users] in Hno. congruence. }
  intros _ s2 ->.
  apply List.find_some in Hreq as [_ Hid]. apply String.eqb_eq in Hid.
  apply runs_ret.
  cbn [cache db content_requests rss_items plex_servers users res_status json world trace].
  rewrite Hid. repeat split. right. repeat split. eauto.
Qed.

End ModerationCases.
(** ** The life of a request *)

Section Workflow.

Context {W : Type} (env : Env W).

Lemma find_mark id (g : RequestRow -> RequestRow) (l : list RequestRow) :
  (forall r, r_id (g r) = r_id r) ->
  List.find (fun r => String.eqb (r_id r) id)
            (map (fun r => if String.eqb (r_id r) id then g r else r) l)
  = g <$> List.find (fun r => String.eqb (r_id r) id) l.
Proof.
  intros Hg. induction l as [|x l IH]; [reflexivity|]. simpl.
  destruct (String.eqb (r_id x) id) eqn:Hx.
  - rewrite Hg, Hx. reflexivity.
  - rewrite Hx. exact IH.
Qed.

(** X9. A request is processed once: after an approval or a
    rejection answered 200, every further approval or rejection of the
    same request by an administrator is answered 400 "Request is not
    pending" and changes nothing. *)
Theorem request_is_processed_once user ip id (s s1 : State W) resp :
  (exists body, approveRequest env user ip id body s = (Ret resp, s1))
  \/ (exists notes, rejectRequest env user ip id notes s = (Ret resp, s1)) ->
  res_status resp = 200 ->
  forall user2 ip2 body2 notes2,
    user_role user2 = "admin" ->
    approveRequest env user2 ip2 id body2 s1
    = (Ret (json 400 [("error", "Request is not pending")]), s1)
    /\ rejectRequest env user2 ip2 id notes2 s1
       = (Ret (json 400 [("error", "Request is not pending")]), s1).
Proof.
  intros Hrun H200 user2 ip2 body2 notes2 Hadmin.
  assert (Hdone : exists request,
             List.find (fun r => String.eqb (r_id r) id) (content_requests (db s1))
             = Some request
             /\ r_status request <> "pending").
  { assert (Hmod : exists mark,
               (forall r t, r_id (mark r t) = r_id r)
               /\ (forall r t, r_status (mark r t) <> "pending")
               /\ exists undone, moderated mark undone user id s resp s1).
    { destruct Hrun as [[body Hrun]|[notes Hrun]].
      - pose proof (approveRequest_cases env user ip id body s) as H.
        unfold runs in H. rewrite Hrun in H. destruct H as [H _].
        eexists. split; [|split; [|eexists; exact H]]; [reflexivity | discriminate].
      - pose proof (rejectRequest_cases env user ip id notes s) as H.
        unfold runs in H. rewrite Hrun in H. destruct H as [H _].
        eexists. split; [|split; [|eexists; exact H]]; [reflexivity | discriminate]. }
    destruct Hmod as (mark & Hid & Hst & undone & _ & Hmod).
    destruct (negb (String.eqb (user_role user) "admin")); [destruct Hmod; congruence|].
    destruct (List.find _ (content_requests (db s))) as [request|] eqn:Hreq;
      [|destruct Hmod; congruence].
    destruct (negb (String.eqb (r_status request) "pending"));
      [destruct Hmod as [-> _]; discriminate H200|].
    destruct Hmod as [[H500 _]|(_ & _ & _ & t & Hrows)]; [congruence|].
    exists (mark request t). split; [|apply Hst].
    rewrite Hrows, (find_mark id (fun r => mark r t)); [|intros; apply Hid].
    rewrite Hreq. reflexivity. }
  destruct Hdone as (request & Hreq & Hst). apply String.eqb_neq in Hst.
  split.
  - unfold approveRequest. rewrite Hadmin. cbn [String.eqb Ascii.eqb Bool.eqb negb andb].
    unfold approveHandler, try_catch, bind, getRequest. rewrite Hreq, Hst. reflexivity.
  - unfold rejectRequest, requireAdmin. rewrite Hadmin.
    cbn [String.eqb Ascii.eqb Bool.eqb negb andb].
    unfold rejectHandler, try_catch, bind, getRequest. rewrite Hreq, Hst. reflexivity.
Qed.

Lemma find_open_mark a b c id (g : RequestRow -> RequestRow) (l : list RequestRow) :
  (forall r, isOpenRequest a b c (g r) = false) ->
  List.find (isOpenRequest a b c)
            (map (fun r => if String.eqb (r_id r) id then g r else r) l)
  = List.find (fun r => isOpenRequest a b c r && negb (String.eqb (r_id r) id)) l.
Proof.
  intros Hg. induction l as [|x l IH]; [reflexivity|]. simpl.
  destruct (String.eqb (r_id x) id) eqn:Hx.
  - rewrite Hg, andb_false_r. exact IH.
  - rewrite andb_true_r. destruct (isOpenRequest a b c x); [reflexivity | exact IH].
Qed.

(** X10. A rejection answered 200 contacts no service and tracks
    nothing; it rewrites the pending record as rejected, stamped with
    the administrator, the time and the notes; and the record no longer
    counts as an open request, so that the duplicate guard of the create
    route sees the open requests of before without this one. *)
Theorem rejection_reopens_the_item user ip id notes (s s' : State W) resp :
  rejectRequest env user ip id notes s = (Ret resp, s') ->
  res_status resp = 200 ->
  world s' = world s /\ trace s' = trace s /\ cache s' = cache s
  /\ rss_items (db s') = rss_items (db s)
  /\ (exists request t,
        List.find (fun r => String.eqb (r_id r) id) (content_requests (db s))
        = Some request
        /\ r_status request = "pending"
        /\ content_requests (db s')
           = map (fun r => if String.eqb (r_id r) id
                           then rejectedRow r t (user_id user) (JS.or_null_str notes)
                           else r)
                 (content_requests (db s)))
  /\ (forall tmdbId contentType serverId,
        List.find (isOpenRequest tmdbId contentType serverId) (content_requests (db s'))
        = List.find (fun r => isOpenRequest tmdbId contentType serverId r
                              && negb (String.eqb (r_id r) id))
                    (content_requests (db s))).
Proof.
  intros Hrun H200.
  pose proof (rejectRequest_cases env user ip id notes s) as H.
  unfold runs in H. rewrite Hrun in H.
  destruct H as ([Hc Hmod] & Hw & Ht & Hrss).
  destruct (negb (String.eqb (user_role user) "admin")); [destruct Hmod; congruence|].
  destruct (List.find _ (content_requests (db s))) as [request|] eqn:Hreq;
    [|destruct Hmod; congruence].
  destruct (negb (String.eqb (r_status request) "pending")) eqn:Hpend;
    [destruct Hmod as [-> _]; discriminate H200|].
  destruct Hmod as [[H500 _]|(_ & _ & _ & t & Hrows)]; [congruence|].
  apply negb_false_iff, String.eqb_eq in Hpend.
  repeat split; auto.
  - exists request, t. auto.
  - intros a b c. rewrite Hrows. apply find_open_mark.
    intros r. unfold isOpenRequest. cbn [r_status rejectedRow].
    apply andb_false_r.
Qed.

End Workflow.
Section Deletion.

Context {W : Type} (env : Env W).

Lemma deleteRequest_cases user ip id (s : State W) :
  runs (deleteRequest user ip id) s (deleted user id s) no_throw.
Proof.
  unfold deleteRequest, deleted.
  apply runs_try, runs_bind. unfold getRequest, runs at 1. cbn [db].
  destruct (List.find _ _) as [request|] eqn:Hreq.
  2: { apply runs_ret. repeat split. }
  apply List.find_some in Hreq as [_ Hid]. apply String.eqb_eq in Hid.
  apply runs_bind.
  destruct (negb (String.eqb (user_role user) "admin")); cbn [andb].
  - destruct (negb (String.eqb (r_user_id request) (user_id user))).
    { apply runs_ret, runs_ret. repeat split. }
    destruct (negb (String.eqb (r_status request) "pending")).
    { apply runs_ret, runs_ret. repeat split. }
    apply runs_ret. apply runs_bind. unfold deleteRow, bind, getDb, setDb, runs at 1.
    apply runs_bind.
    eapply runs_weaken; [apply insertAudit_runs | |].
    + intros _ s2 ->. apply runs_ret.
      cbn [cache db content_requests rss_items plex_servers users res_status json
           world trace audit_log].
      rewrite Hid. repeat split. left. eauto.
    + intros e s2 [-> Hno]. apply runs_ret.
      cbn [cache db content_requests rss_items plex_servers users res_status json
           world trace audit_log].
      rewrite Hid. repeat split. right. split; [reflexivity | exact Hno].
  - apply runs_ret. apply runs_bind. unfold deleteRow, bind, getDb, setDb, runs at 1.
    apply runs_bind.
    eapply runs_weaken; [apply insertAudit_runs | |].
    + intros _ s2 ->. apply runs_ret.
      cbn [cache db content_requests rss_items plex_servers users res_status json
           world trace audit_log].
      rewrite Hid. repeat split. left. eauto.
    + intros e s2 [-> Hno]. apply runs_ret.
      cbn [cache db content_requests rss_items plex_servers users res_status json
           world trace audit_log].
      rewrite Hid. repeat split. right. split; [reflexivity | exact Hno].
Qed.

Lemma find_filter_other id (l : list RequestRow) :
  List.find (fun r => String.eqb (r_id r) id)
            (List.filter (fun r => negb (String.eqb (r_id r) id)) l) = None.
Proof.
  induction l as [|x l IH]; [reflexivity|]. simpl.
  destruct (String.eqb (r_id x) id) eqn:Hx; simpl; [exact IH|].
  rewrite Hx. exact IH.
Qed.

(** X11. The delete route, for a user known to the database. It
    answers 404, 403, 400 or 200; it contacts no service and leaves the
    cache and the tracked items alone; whatever is not a 200 changes
    nothing; 404 is for an unknown id. A 200 removes the record, a user
    who is not an administrator gets it only for a pending record of
    their own, and deleting again is answered 404. *)
Theorem delete_request_outcomes user ip id (s : State W) :
  userExists (db s) (user_id user) = true ->
  exists resp s',
    deleteRequest user ip id s = (Ret resp, s')
    /\ In (res_status resp) [404; 403; 400; 200]
    /\ cache s' = cache s /\ world s' = world s /\ trace s' = trace s
    /\ rss_items (db s') = rss_items (db s)
    /\ (res_status resp <> 200 -> s' = s)
    /\ (res_status resp = 404 <->
          List.find (fun r => String.eqb (r_id r) id) (content_requests (db s)) = None)
    /\ (res_status resp = 200 ->
          (exists request,
             List.find (fun r => String.eqb (r_id r) id) (content_requests (db s))
             = Some request
             /\ (user_role user <> "admin" ->
                 r_user_id request = user_id user /\ r_status request = "pending"))
          /\ content_requests (db s')
             = List.filter (fun r => negb (String.eqb (r_id r) id))
                           (content_requests (db s))
          /\ deleteRequest user ip id s'
             = (Ret (json 404 [("error", "Request not found")]), s')).
Proof.
  intros Hu.
  destruct (runs_returns _ _ _ (deleteRequest_cases user ip id s))
    as (resp & s' & Hrun & Hc & Hw & Ht & _ & _ & Hrss & Hcase).
  exists resp, s'. split; [exact Hrun|].
  assert (Hfilter : content_requests (db s')
                    = List.filter (fun r => negb (String.eqb (r_id r) id))
                                  (content_requests (db s)) ->
                    deleteRequest user ip id s'
                    = (Ret (json 404 [("error", "Request not found")]), s')).
  { intros Hrows. unfold deleteRequest, try_catch, bind, getRequest.
    rewrite Hrows, find_filter_other. reflexivity. }
  destruct (List.find _ (content_requests (db s))) as [request|] eqn:Hreq.
  2: { destruct Hcase as [H404 ->]. rewrite H404.
       repeat split; auto; try (simpl; auto; fail); discriminate. }
  destruct (negb (String.eqb (user_role user) "admin")) eqn:Hrole.
  - apply negb_true_iff, String.eqb_neq in Hrole.
    destruct (negb (String.eqb (r_user_id request) (user_id user))) eqn:Hown; cbn [andb] in Hcase.
    { destruct Hcase as [H403 ->]. rewrite H403.
      repeat split; auto; try (simpl; auto; fail); discriminate. }
    destruct (negb (String.eqb (r_status request) "pending")) eqn:Hpend.
    { destruct Hcase as [H400 ->]. rewrite H400.
      repeat split; auto; try (simpl; auto 6; fail); discriminate. }
    apply negb_false_iff, String.eqb_eq in Hown, Hpend.
    destruct Hcase as (Hrows & [[H200 _]|[_ Hno]]); [|congruence].
    rewrite H200. repeat split; auto; try (simpl; auto 6; fail); try discriminate.
    + intros Hn. contradiction.
    + exists request. auto.
  - cbn [andb] in Hcase.
    destruct Hcase as (Hrows & [[H200 _]|[_ Hno]]); [|congruence].
    rewrite H200. repeat split; auto; try (simpl; auto 6; fail); try discriminate.
    + intros Hn. contradiction.
    + exists request. split; [reflexivity|].
      apply negb_false_iff, String.eqb_eq in Hrole. intros Hn. contradiction.
Qed.

End Deletion.
Section Badge.

Context {W : Type} (env : Env W).

Lemma mark_absent id (g : RequestRow -> RequestRow) (l : list RequestRow) :
  ~ In id (map r_id l) ->
  map (fun r => if String.eqb (r_id r) id then g r else r) l = l.
Proof.
  induction l as [|x l IH]; intros Hn; [reflexivity|]. simpl in *.
  destruct (String.eqb (r_id x) id) eqn:Hx.
  - apply String.eqb_eq in Hx. destruct Hn. auto.
  - rewrite IH; auto.
Qed.

Lemma count_mark id (g : RequestRow -> RequestRow) (l : list RequestRow) request :
  NoDup (map r_id l) ->
  List.find (fun r => String.eqb (r_id r) id) l = Some request ->
  r_status request = "pending" ->
  (forall r, String.eqb (r_status (g r)) "pending" = false) ->
  (length (List.filter (fun r => String.eqb (r_status r) "pending")
                       (map (fun r => if String.eqb (r_id r) id then g r else r) l))
   + 1)%nat
  = length (List.filter (fun r => String.eqb (r_status r) "pending") l).
Proof.
  intros Hnd Hf Hp Hg. induction l as [|x l IH]; [discriminate Hf|].
  simpl in Hnd. inversion Hnd as [|? ? Hnotin Hnd']; subst. simpl in Hf. simpl.
  rewrite list_elem_of_In in Hnotin.
  destruct (String.eqb (r_id x) id) eqn:Hx.
  - injection Hf as ->. apply String.eqb_eq in Hx. subst id.
    rewrite Hg, Hp. cbn [String.eqb Ascii.eqb Bool.eqb andb].
    rewrite (mark_absent _ g l Hnotin). simpl. lia.
  - destruct (String.eqb (r_status x) "pending"); simpl; rewrite <- (IH Hnd' Hf); lia.
Qed.

(** X12. The pending count follows the workflow. For an
    administrator the route returns the number of records of
    [content_requests] whose status is ['pending'] and changes nothing. A create call answered 201 raises it by one, unless
    the requester adds directly; an approval or a rejection answered 200
    lowers it by one when request ids are unique. *)
Theorem pending_count_follows_the_workflow admin (s s1 : State W) :
  user_role admin = "admin" ->
  let count (st : State W) := fst (pendingCount admin st) in
  (count s
   = Ret (Count (Z.of_nat (length (List.filter
                                     (fun r => String.eqb (r_status r) "pending")
                                     (content_requests (db s))))))
   /\ snd (pendingCount admin s) = s)
  /\ (forall user ip body resp n,
        createRequest env user ip body s = (Ret resp, s1) ->
        res_status resp = 201 ->
        count s = Ret (Count n) ->
        count s1 = Ret (Count (if canAddDirectly user then n else n + 1)))
  /\ (forall user ip id resp n,
        NoDup (map r_id (content_requests (db s))) ->
        (exists body, approveRequest env user ip id body s = (Ret resp, s1))
        \/ (exists notes, rejectRequest env user ip id notes s = (Ret resp, s1)) ->
        res_status resp = 200 ->
        count s = Ret (Count n) ->
        count s1 = Ret (Count (n - 1))).
Proof.
  intros Hadmin count.
  assert (Hcount : forall st : State W,
             pendingCount admin st
             = (Ret (Count (Z.of_nat (length (List.filter
                         (fun r => String.eqb (r_status r) "pending")
                         (content_requests (db st)))))), st)).
  { intros st. unfold pendingCount, requireAdmin. rewrite Hadmin. reflexivity. }
  split; [|split].
  - unfold count. rewrite Hcount. cbn [fst snd]. split; reflexivity.
  - intros user ip body resp n Hrun H201 Hn.
    unfold count in *. rewrite Hcount in *. cbn [fst] in *. injection Hn as <-.
    pose proof (createRequest_cases env user ip body s) as H1.
    unfold runs in H1. rewrite Hrun in H1. destruct H1 as (_ & H1).
    destruct H1 as [(H400 & _)|(a & b & c & d & e & Hv & H1)]; [congruence|].
    destruct H1 as [[Hst _]|[[Hst _]|(_ & Hcr & _)]]; try congruence.
    destruct Hcr as (_ & _ & _ & Hrows).
    destruct (canAddDirectly user).
    + destruct Hrows as [-> _]. reflexivity.
    + destruct Hrows as (_ & row & -> & _ & _ & _ & _ & _ & Hp).
      rewrite List.filter_app, length_app. simpl. rewrite Hp. simpl.
      f_equal. f_equal. lia.
  - intros user ip id resp n Hnd Hrun H200 Hn.
    unfold count in *. rewrite Hcount in *. cbn [fst] in *. injection Hn as <-.
    assert (Hmod : exists mark,
               (forall r t, String.eqb (r_status (mark r t)) "pending" = false)
               /\ exists undone, moderated mark undone user id s resp s1).
    { destruct Hrun as [[body Hrun]|[notes Hrun]].
      - pose proof (approveRequest_cases env user ip id body s) as H.
        unfold runs in H. rewrite Hrun in H. destruct H as [H _].
        eexists. split; [|eexists; exact H]. reflexivity.
      - pose proof (rejectRequest_cases env user ip id notes s) as H.
        unfold runs in H. rewrite Hrun in H. destruct H as [H _].
        eexists. split; [|eexists; exact H]. reflexivity. }
    destruct Hmod as (mark & Hst & undone & _ & Hmod).
    destruct (negb (String.eqb (user_role user) "admin")); [destruct Hmod; congruence|].
    destruct (List.find _ (content_requests (db s))) as [request|] eqn:Hreq;
      [|destruct Hmod; congruence].
    destruct (negb (String.eqb (r_status request) "pending")) eqn:Hpend;
      [destruct Hmod as [-> _]; discriminate H200|].
    apply negb_false_iff, String.eqb_eq in Hpend.
    destruct Hmod as [[H500 _]|(_ & _ & _ & t & Hrows)]; [congruence|].
    rewrite Hrows.
    rewrite <- (count_mark id (fun r => mark r t) _ request Hnd Hreq Hpend (fun r => Hst r t)).
    f_equal. f_equal. lia.
Qed.

(** X13. A user who is not an administrator cannot touch the record
    of somebody else: with unique request ids, the record is still there
    after any create or delete call of that user, and approve, reject
    and the pending count answer 403 without any effect. *)
Theorem non_admin_writes_are_isolated user ip (s : State W) (r : RequestRow) :
  user_role user <> "admin" ->
  NoDup (map r_id (content_requests (db s))) ->
  In r (content_requests (db s)) ->
  r_user_id r <> user_id user ->
  (forall body, In r (content_requests (db (snd (createRequest env user ip body s)))))
  /\ (forall id body,
        approveRequest env user ip id body s = (Ret adminRequired, s))
  /\ (forall id notes,
        rejectRequest env user ip id notes s = (Ret adminRequired, s))
  /\ pendingCount user s = (Ret (CountError adminRequired), s)
  /\ (forall id, In r (content_requests (db (snd (deleteRequest user ip id s))))).
Proof.
  intros Hrole Hnd Hin Hother.
  apply String.eqb_neq in Hrole.
  split; [|split; [|split; [|split]]].
  - intros body.
    pose proof (createRequest_cases env user ip body s) as H1. unfold runs in H1.
    destruct (createRequest env user ip body s) as [[resp|e] s']; [|destruct H1].
    cbn [snd]. destruct H1 as (_ & H1).
    destruct H1 as [(_ & -> & _)|(a & b & c & d & e & Hv & H1)]; [exact Hin|].
    destruct H1 as [[_ ->]|[[_ ->]|(_ & Hcr & _)]]; try exact Hin.
    destruct Hcr as (_ & _ & _ & Hrows).
    destruct (canAddDirectly user).
    + destruct Hrows as [-> _]. exact Hin.
    + destruct Hrows as (_ & row & -> & _). apply in_or_app. left. exact Hin.
  - intros id body. unfold approveRequest. rewrite Hrole. reflexivity.
  - intros id notes. unfold rejectRequest, requireAdmin. rewrite Hrole. reflexivity.
  - unfold pendingCount, requireAdmin. rewrite Hrole. reflexivity.
  - intros id.
    pose proof (deleteRequest_cases user ip id s) as H1. unfold runs in H1.
    destruct (deleteRequest user ip id s) as [[resp|e] s']; [|destruct H1].
    cbn [snd]. destruct H1 as (_ & _ & _ & _ & _ & _ & H1).
    destruct (List.find _ (content_requests (db s))) as [request|] eqn:Hreq;
      [|destruct H1 as [_ ->]; exact Hin].
    rewrite Hrole in H1. cbn [negb andb] in H1.
    destruct (negb (String.eqb (r_user_id request) (user_id user))) eqn:Hown;
      [destruct H1 as [_ ->]; exact Hin|].
    destruct (negb (String.eqb (r_status request) "pending"));
      [destruct H1 as [_ ->]; exact Hin|].
    destruct H1 as [-> _]. apply filter_In. split; [exact Hin|].
    apply negb_true_iff, String.eqb_neq. intros Hid.
    apply negb_false_iff, String.eqb_eq in Hown.
    apply List.find_some in Hreq as [Hin' Hid']. apply String.eqb_eq in Hid'.
    assert (r = request); [|congruence].
    assert (Heq : r_id r = r_id request) by congruence.
    clear - Hnd Hin Hin' Heq.
    induction (content_requests (db s)) as [|x l IH]; [destruct Hin|].
    simpl in Hnd. inversion Hnd as [|? ? Hnotin Hnd']; subst.
    rewrite list_elem_of_In in Hnotin.
    destruct Hin as [->|Hin], Hin' as [->|Hin']; auto.
    + destruct Hnotin. rewrite Heq. apply in_map. exact Hin'.
    + destruct Hnotin. rewrite <- Heq. apply in_map. exact Hin.
Qed.

End Badge.
(** ** Listing: order, filters and failure *)

Section ListingOrder.

Context {W : Type} (env : Env W).

Lemma insertDesc_sorted r l :
  Sorted.StronglySorted (fun a b => r_requested_at b <= r_requested_at a) l ->
  Sorted.StronglySorted (fun a b => r_requested_at b <= r_requested_at a) (insertDesc r l).
Proof.
  induction 1 as [|x xs Hs IH Hx]; simpl.
  - constructor; constructor.
  - destruct (r_requested_at x <=? r_requested_at r) eqn:Hle.
    + apply Z.leb_le in Hle. constructor; [constructor; assumption|].
      constructor; [exact Hle|].
      rewrite List.Forall_forall in *. intros y Hy. specialize (Hx y Hy). lia.
    + apply Z.leb_gt in Hle. constructor; [exact IH|].
      rewrite List.Forall_forall in *. intros y Hy.
      apply (Permutation_in _ (insertDesc_perm r xs)) in Hy.
      destruct Hy as [<-|Hy]; [lia | exact (Hx y Hy)].
Qed.

Lemma orderBy_sorted l :
  Sorted.StronglySorted (fun a b => r_requested_at b <= r_requested_at a)
                 (orderByRequestedAtDesc l).
Proof.
  induction l as [|x xs IH]; simpl; [constructor | apply insertDesc_sorted, IH].
Qed.

(** The listed object keeps the columns of its row. *)
Lemma mapRows_columns d rows :
  forall (s s' : State W) out,
    mapRows env d rows s = (Ret out, s') ->
    Forall2 (fun r x => l_requestedAt x = r_requested_at r
                        /\ l_status x = r_status r
                        /\ l_contentType x = r_content_type r
                        /\ l_requestedByUsername x = usernameOf d (l_userId x)
                        /\ l_serverName x = serverNameOf d (l_serverId x))
            rows out.
Proof.
  induction rows as [|r rest IH]; simpl; intros s s' out H.
  - injection H as <- _. constructor.
  - unfold bind in H.
    destruct (listedOf env d r s) as [[x|e] s1] eqn:Hx; [|discriminate].
    destruct (mapRows env d rest s1) as [[xs|e] s2] eqn:Hxs; [|discriminate].
    injection H as <- _. constructor; [|exact (IH _ _ _ Hxs)].
    unfold listedOf, bind in Hx.
    destruct (JS.truthy_str (r_seasons r)).
    + destruct (JSON_parse env _); simpl in Hx; [|discriminate].
      injection Hx as <- _. repeat split.
    + simpl in Hx. injection Hx as <- _. repeat split.
Qed.

Lemma mapRows_fails d rows (s : State W) :
  Exists (fun r => JS.truthy_str (r_seasons r) = true
                   /\ JSON_parse env (default "" (r_seasons r)) = None) rows ->
  exists e, fst (mapRows env d rows s) = Throw e.
Proof.
  induction 1 as [r rest [Ht Hp]|r rest _ IH]; simpl; unfold bind, listedOf, bind.
  - rewrite Ht, Hp. simpl. eauto.
  - destruct (JS.truthy_str (r_seasons r)).
    + destruct (JSON_parse env _); simpl; [|eauto].
      destruct IH as [e He].
      destruct (mapRows_pure env d rest s) as (o & Ho & _). rewrite Ho in *.
      simpl in He. subst o. eauto.
    + simpl. destruct IH as [e He].
      destruct (mapRows_pure env d rest s) as (o & Ho & _). rewrite Ho in *.
      simpl in He. subst o. eauto.
Qed.

Lemma Forall2_sorted (rows : list RequestRow) (out : list ListedRequest) :
  Forall2 (fun r x => l_requestedAt x = r_requested_at r) rows out ->
  Sorted.StronglySorted (fun a b => r_requested_at b <= r_requested_at a) rows ->
  Sorted.StronglySorted (fun a b => l_requestedAt b <= l_requestedAt a) out.
Proof.
  induction 1 as [|r x rows out Hrx Hall IH]; intros Hs; [constructor|].
  inversion Hs as [|? ? Hs' Hforall]; subst. constructor; [exact (IH Hs')|].
  clear - Hrx Hall Hforall. induction Hall as [|r' x' rows out Hrx' _ IH'];
    [constructor|].
  inversion Hforall; subst. constructor; [lia | auto].
Qed.

(** X14. A successful listing is ordered by request time, latest
    first; its rows satisfy the status and type filters of the query and
    carry the names joined from [users] and [plex_servers]. A selected
    row whose stored season text does not parse makes the whole listing
    fail with 500, and nothing changes. *)
Theorem listing_order_filters_and_failure user q (s : State W) :
  (forall rows,
     fst (listRequests env user q s) = Ret (mkHttpResponse 200 (Rows rows)) ->
     Sorted.StronglySorted (fun a b => l_requestedAt b <= l_requestedAt a) rows
     /\ Forall (fun x =>
                  (forall st, q_status q = Some st -> st <> "" -> l_status x = st)
                  /\ (forall ty, q_type q = Some ty -> ty <> "" -> l_contentType x = ty)
                  /\ l_requestedByUsername x = usernameOf (db s) (l_userId x)
                  /\ l_serverName x = serverNameOf (db s) (l_serverId x))
               rows)
  /\ (Exists (fun r => listWhere user q r = true
                       /\ JS.truthy_str (r_seasons r) = true
                       /\ JSON_parse env (default "" (r_seasons r)) = None)
             (content_requests (db s)) ->
      listRequests env user q s
      = (Ret (json 500 [("error", "Failed to list requests")]), s)).
Proof.
  rewrite listRequests_eq. cbn [fst].
  set (sel := orderByRequestedAtDesc
                (List.filter (listWhere user q) (content_requests (db s)))).
  split.
  - intros rows Hrun.
    destruct (mapRows env (db s) sel s) as [[out|e] s'] eqn:Hmap; cbn [fst] in Hrun;
      [|discriminate].
    injection Hrun as ->.
    pose proof (mapRows_columns (db s) sel s s' rows Hmap) as Hcols.
    split.
    + apply (Forall2_sorted sel rows); [|apply orderBy_sorted].
      eapply Forall2_impl; [exact Hcols|]. intros r x H. apply H.
    + assert (Hsel : Forall (fun r => listWhere user q r = true) sel).
      { apply List.Forall_forall. intros r Hr. unfold sel in Hr.
        apply (Permutation_in _ (orderBy_perm _)) in Hr.
        apply filter_In in Hr as [_ Hr]. exact Hr. }
      clear Hmap. revert Hsel.
      induction Hcols as [|r x rs xs Hrx _ IH]; intros Hsel; [constructor|].
      inversion Hsel as [|? ? Hw Hsel']; subst. constructor; [|exact (IH Hsel')].
      destruct Hrx as (_ & Hst & Hct & Hun & Hsn).
      unfold listWhere in Hw.
      apply andb_true_iff in Hw as [Hw Hty]. apply andb_true_iff in Hw as [_ Hs].
      repeat split; try assumption.
      * intros st Hq Hne. rewrite Hq in Hs.
        rewrite (proj2 (truthy_str_some st) Hne) in Hs. simpl in Hs.
        apply String.eqb_eq in Hs. congruence.
      * intros ty Hq Hne. rewrite Hq in Hty.
        rewrite (proj2 (truthy_str_some ty) Hne) in Hty. simpl in Hty.
        apply String.eqb_eq in Hty. congruence.
  - intros Hbad.
    destruct (mapRows_fails (db s) sel s) as [e He]; [|rewrite He; reflexivity].
    apply List.Exists_exists in Hbad as (r & Hin & Hw & Hbad).
    apply List.Exists_exists. exists r. split; [|exact Hbad].
    unfold sel. apply (Permutation_in _ (Permutation_sym (orderBy_perm _))).
    apply filter_In. auto.
Qed.

End ListingOrder.
(** ** What the executors and the checkers never do *)

Section Never.

Context {W : Type} (env : Env W).

Lemma catchResult_reported code (e : JsError) :
  let r := catchResult code e in
  if success r then arr_error r = None else exists msg, arr_error r = Some msg.
Proof.
  unfold catchResult. destruct (existsRejection code e); simpl; eauto.
Qed.

Lemma radarrOutcome_reported server tmdbId (w : W) :
  let r := fst (radarrOutcome env server tmdbId w) in
  if success r then arr_error r = None else exists msg, arr_error r = Some msg.
Proof.
  unfold radarrOutcome, radarrPrep.
  destruct (http env (RadarrLookup _ _ _) w) as [[e|[md|]] w1];
    try apply catchResult_reported; [|simpl; eauto].
  destruct (http env (RootFolders _ _) w1) as [[e|[[|root roots]|]] w2];
    try apply catchResult_reported; try (simpl; eauto; fail).
  destruct (http env (QualityProfiles _ _) w2) as [[e|[[|p ps]|]] w3];
    try apply catchResult_reported; try (simpl; eauto; fail).
  destruct (http env (RadarrAdd _ _ _) w3) as [[e|id] w4];
    [apply catchResult_reported | reflexivity].
Qed.

Lemma sonarrOutcome_reported server title (w : W) :
  let r := fst (sonarrOutcome env server title w) in
  if success r then arr_error r = None else exists msg, arr_error r = Some msg.
Proof.
  unfold sonarrOutcome, sonarrPrep.
  destruct (http env (SonarrLookup _ _ _) w) as [[e|[[|sd sds]|]] w1];
    try apply catchResult_reported; try (simpl; eauto; fail).
  destruct (http env (RootFolders _ _) w1) as [[e|[[|root roots]|]] w2];
    try apply catchResult_reported; try (simpl; eauto; fail).
  destruct (http env (QualityProfiles _ _) w2) as [[e|[[|p ps]|]] w3];
    try apply catchResult_reported; try (simpl; eauto; fail).
  destruct (http env (SonarrAdd _ _ _) w3) as [[e|id] w4];
    [apply catchResult_reported | reflexivity].
Qed.

(** X15. The executors never throw and write neither the database
    nor the cache. A result that is not a success carries an error
    text, a success carries none; without the manager's address or key
    the answer is "not configured" and no call is made. *)
Theorem executors_report_every_failure server tmdbId title seasons (s : State W) :
  let reported (r : ArrResult) :=
    if success r then arr_error r = None else exists msg, arr_error r = Some msg in
  (exists r s',
     addToRadarr env server tmdbId title s = (Ret r, s')
     /\ db s' = db s /\ cache s' = cache s /\ reported r
     /\ (radarrConfigured server = false ->
         r = arrFailure "Radarr not configured" /\ s' = s))
  /\ (exists r s',
        addToSonarr env server tmdbId title seasons s = (Ret r, s')
        /\ db s' = db s /\ cache s' = cache s /\ reported r
        /\ (sonarrConfigured server = false ->
            r = arrFailure "Sonarr not configured" /\ s' = s)).
Proof.
  intros reported. split.
  - destruct (radarrConfigured server) eqn:Hconf.
    + destruct (addToRadarr_outcome env server tmdbId title s Hconf) as [tr' ->].
      eexists _, _. split; [reflexivity|]. repeat split; try discriminate.
      apply radarrOutcome_reported.
    + unfold addToRadarr. rewrite Hconf. eexists _, _. split; [reflexivity|].
      repeat split. unfold reported. simpl. eauto.
  - destruct (sonarrConfigured server) eqn:Hconf.
    + destruct (addToSonarr_outcome env server tmdbId title seasons s Hconf) as [tr' ->].
      eexists _, _. split; [reflexivity|]. repeat split; try discriminate.
      apply sonarrOutcome_reported.
    + unfold addToSonarr. rewrite Hconf. eexists _, _. split; [reflexivity|].
      repeat split. unfold reported. simpl. eauto.
Qed.

(** X16. A checker never throws and never writes the database; it
    leaves the cache as it was or stores what it returns under its own
    key, and no other key changes. *)
Theorem checker_writes_its_own_key_only ch (s : State W) :
  exists r s',
    runChecker env ch s = (Ret r, s')
    /\ db s' = db s
    /\ (cache s' = cache s
        \/ exists t, cache s' = <[checkerKey ch := mkEntry r t]> (cache s))
    /\ (forall key, key <> checkerKey ch -> cache s' !! key = cache s !! key).
Proof.
  destruct (cacheHit (cache s !! checkerKey ch) (now env (world s))) as [v|] eqn:Hhit.
  - rewrite (checker_hit env ch s v Hhit). exists v, s. repeat split; auto.
  - destruct (checker_uncached env ch (db s) (world s) (trace s))
      as (o & w' & added & upd & Hrun & Hsum).
    specialize (Hrun (cache s) Hhit).
    assert (Hs : mkState (db s) (cache s) (world s) (trace s) = s)
      by (destruct s; reflexivity).
    rewrite Hs in Hrun. rewrite Hrun. eexists _, _. split; [reflexivity|].
    cbn [db cache]. split; [reflexivity|].
    assert (Hupd : upd = None \/ exists t, upd = Some (mkEntry o t)).
    { unfold uncached_summary in Hsum.
      destruct (binding (db s) ch); [|destruct Hsum as (_ & -> & _); auto].
      destruct Hsum as [_ Hsum].
      destruct (anyFailed added); [destruct Hsum as [-> _]; auto | auto]. }
    destruct Hupd as [->|[t ->]]; simpl.
    + split; auto.
    + split; [right; eauto|]. intros key Hne. apply lookup_insert_ne. congruence.
Qed.

End Never.
(** ** A result that was cached is served again *)

Section Reuse.

Context {W : Type} (env : Env W).

Lemma scanSections_stamps k server token title year key sections :
  forall s0 s : State W,
    cache s = cache s0 ->
    runs (scanSections env k server token title year key sections) s
         (fun hit s' =>
            match hit with
            | Some d => cache s' = <[key := mkEntry d (now env (world s'))]> (cache s0)
            | None => cache s' = cache s0
            end)
         (fun _ s' => cache s' = cache s0).
Proof.
  induction sections as [|sec rest IH]; intros s0 s Hc; simpl.
  - apply runs_ret. exact Hc.
  - apply runs_bind, runs_axios. intros s' [_ Hc'] _.
    destruct (fst (http env _ (world s))) as [e|resp]; intros _; [congruence|].
    destruct (List.find (plexMatch env title year) (default [] resp)) as [m|].
    + apply runs_bind, runs_cacheSet, runs_ret. cbn [cache world].
      rewrite Hc', Hc. reflexivity.
    + apply IH. congruence.
Qed.

(** A checker leaves the cache as it was or stores what it returns,
    stamped with the time at which it returns. *)
Lemma checker_stamps ch (s : State W) :
  runs (runChecker env ch) s
       (fun r s' =>
          cache s' = cache s
          \/ cache s' = <[checkerKey ch := mkEntry r (now env (world s'))]> (cache s))
       no_throw.
Proof.
  destruct ch as [k sid title year|sid tmdbId|sid tmdbId]; simpl.
  - unfold checkPlex.
    apply runs_try, runs_bind. unfold cacheGet, runs at 1.
    apply runs_bind. unfold Date_now, runs at 1.
    destruct (cacheHit _ _) as [d|]; [apply runs_ret; auto|].
    apply runs_bind, getServer_runs.
    destruct (List.find _ _) as [server|]; [|apply runs_ret; auto].
    apply runs_bind, runs_axios. intros s1 [_ Hc1] _.
    destruct (fst (http env _ (world s))) as [e|dirs]; intros _;
      [apply runs_ret; auto|].
    apply runs_bind.
    eapply runs_weaken; [apply (scanSections_stamps k server _ title year _ _ s s1 Hc1) | |].
    + intros [d|] s2 Hc2; [apply runs_ret; auto|].
      apply runs_bind, runs_cacheSet, runs_ret. cbn [cache world]. rewrite Hc2. auto.
    + intros e s2 Hc2. apply runs_ret. auto.
  - unfold checkRadarrMovie.
    apply runs_try, runs_bind. unfold cacheGet, runs at 1.
    apply runs_bind. unfold Date_now, runs at 1.
    destruct (cacheHit _ _) as [d|]; [apply runs_ret; auto|].
    apply runs_bind, getServer_runs.
    destruct (List.find _ _) as [server|]; [|apply runs_ret; auto].
    destruct (negb (radarrConfigured server)); [apply runs_ret; auto|].
    apply runs_bind, runs_axios. intros s1 [_ Hc1] _.
    destruct (fst (http env _ (world s))) as [e|movies]; intros _;
      [apply runs_ret; auto|].
    assert (Hset : forall st (s2 : State W),
               cache s2 = cache s ->
               runs (do _ <- cacheSet env (radarrCacheKey sid tmdbId) st; ret st) s2
                    (fun r s' =>
                       cache s' = cache s
                       \/ cache s'
                          = <[radarrCacheKey sid tmdbId := mkEntry r (now env (world s'))]>
                              (cache s))
                    (fun e s' => runs (ret JNull) s'
                       (fun r s'0 =>
                          cache s'0 = cache s
                          \/ cache s'0
                             = <[radarrCacheKey sid tmdbId
                                  := mkEntry r (now env (world s'0))]> (cache s))
                       no_throw)).
    { intros st s2 Hc2. apply runs_bind, runs_cacheSet, runs_ret. cbn [cache world].
      rewrite Hc2. auto. }
    apply runs_bind.
    destruct (List.find _ movies) as [movie|]; [|apply runs_ret, Hset, Hc1].
    destruct (rm_hasFile movie); [apply runs_ret, Hset, Hc1|].
    destruct (rm_monitored movie); [|apply runs_ret, Hset, Hc1].
    apply runs_bind, runs_axios. intros s2 [_ Hc2] _.
    destruct (fst (http env _ (world s1))) as [e|queue]; intros _.
    + apply runs_ret. left. congruence.
    + apply runs_ret, Hset. congruence.
  - unfold checkSonarrSeries.
    apply runs_try, runs_bind. unfold cacheGet, runs at 1.
    apply runs_bind. unfold Date_now, runs at 1.
    destruct (cacheHit _ _) as [d|]; [apply runs_ret; auto|].
    apply runs_bind, getServer_runs.
    destruct (List.find _ _) as [server|]; [|apply runs_ret; auto].
    destruct (negb (sonarrConfigured server)); [apply runs_ret; auto|].
    apply runs_bind, runs_axios. intros s1 [_ Hc1] _.
    destruct (fst (http env _ (world s))) as [e|series]; intros _;
      [apply runs_ret; auto|].
    apply runs_bind, runs_cacheSet, runs_ret. cbn [cache world]. rewrite Hc1. auto.
Qed.

(** X17. A checker that has written the cache has stored its result
    with the time of its return: invoked again from the same cache less
    than five minutes later, it returns the same result and does
    nothing else. *)
Theorem cached_result_is_served_again ch (s s1 : State W) r :
  runChecker env ch s = (Ret r, s1) ->
  cache s1 <> cache s ->
  forall s2 : State W,
    cache s2 = cache s1 ->
    now env (world s2) - now env (world s1) < CACHE_TTL ->
    runChecker env ch s2 = (Ret r, s2).
Proof.
  intros Hrun Hne s2 Hc Hlt.
  pose proof (checker_stamps ch s) as H. unfold runs in H. rewrite Hrun in H.
  destruct H as [H|H]; [contradiction|].
  apply checker_hit. rewrite Hc, H, lookup_insert_eq. unfold cacheHit. cbn [e_timestamp e_data].
  apply Z.ltb_lt in Hlt. rewrite Hlt. reflexivity.
Qed.

End Reuse.
Section MoreComposition.

Context {W : Type} (env : Env W).

(** X18. After an approval answered 200 the aggregation, for any
    user and from a well-typed cache, finds the item of the request in
    the feed, and its status is never ['not_available']. *)
Theorem approved_item_in_availability user ip id body (s s1 : State W) resp
    request k item viewer :
  approveRequest env user ip id body s = (Ret resp, s1) ->
  res_status resp = 200 ->
  List.find (fun r => String.eqb (r_id r) id) (content_requests (db s)) = Some request ->
  r_tmdb_id request = item_id item ->
  r_content_type request = contentTypeOf k ->
  cache_ok (cache s1) ->
  exists r s2,
    checkAvailability env k item viewer s1 = (Ret r, s2)
    /\ inRssFeed r = true
    /\ av_status r <> JStr "not_available"
    /\ av_status r <> JStr "unknown".
Proof.
  intros Hrun H200 Hreq Hid Hct Hok.
  pose proof (approveRequest_cases env user ip id body s) as H.
  unfold runs in H. rewrite Hrun in H. destruct H as [_ H].
  destruct (H H200) as (request' & row & Hreq' & Hrows & R1 & R2).
  assert (request' = request) by congruence. subst request'.
  destruct (runs_returns _ _ _ (checkAvailability_ok env k item viewer s1 Hok))
    as (r & s2 & Hrun2 & _ & _ & Hst & Hav & Hrss).
  exists r, s2. split; [exact Hrun2|].
  assert (Hin : inRssFeed r = true).
  { apply Hrss. exists row. rewrite Hrows, in_app_iff. simpl.
    split; [auto|]. split; congruence. }
  split; [exact Hin|]. rewrite Hav, Hin. apply overallStatus_tracked. exact Hst.
Qed.

(** X19. The manager check of the create route for a series. With
    Sonarr attached the series list is fetched; if the first series that
    has a TVDB id and exactly the requested title is complete, the call
    is answered 409 "already fully downloaded" and the database is
    untouched; if the fetch fails, or there is no such series, or it is
    incomplete, the route goes on with the duplicate guard. Without
    Sonarr no call is made. *)
Theorem create_series_precheck user ip body (s : State W) tmdbId title
    serverId server :
  validCreate user body (db s) tmdbId "tv" title serverId server ->
  let call := SonarrSeriesList (default "" (sonarr_url server))
                               (decrypt_col env (sonarr_api_key server)) in
  let after (failed : bool) :=
    mkState (db s) (cache s) (snd (http env call (world s)))
            (trace s ++ [(existT _ call, failed)]) in
  let rest :=
    try_catch (createAfterPrecheck env user ip server serverId tmdbId "tv" title body)
              (fun _ => ret (json 500 [("error", "Failed to create request")])) in
  if sonarrConfigured server then
    match fst (http env call (world s)) with
    | inl _ => createRequest env user ip body s = rest (after true)
    | inr series =>
        match List.find (fun x => JS.truthy_num (ss_tvdbId x)
                                  && String.eqb (ss_title x) title) series with
        | Some existingSeries =>
            if JS.num_strict_eq (ss_percentOfEpisodes existingSeries) (Some 100) then
              createRequest env user ip body s
              = (Ret (json 409
                        [("error", "This series is already fully downloaded in Sonarr");
                         ("status", "downloaded")]),
                 after false)
            else createRequest env user ip body s = rest (after false)
        | None => createRequest env user ip body s = rest (after false)
        end
    end
  else createRequest env user ip body s = rest s.
Proof.
  intros Hvalid. cbv zeta.
  set (call := SonarrSeriesList (default "" (sonarr_url server))
                                (decrypt_col env (sonarr_api_key server))).
  destruct (sonarrConfigured server) eqn:Hconf.
  - assert (Hpre : try_catch (managerPrecheck env server "tv" tmdbId title)
                             (fun _ => ret None) s
                   = match fst (http env call (world s)) with
                     | inl _ =>
                         (Ret None,
                          mkState (db s) (cache s) (snd (http env call (world s)))
                                  (trace s ++ [(existT _ call, true)]))
                     | inr series =>
                         (Ret match List.find
                                      (fun x => JS.truthy_num (ss_tvdbId x)
                                                && String.eqb (ss_title x) title)
                                      series with
                              | Some x =>
                                  if JS.num_strict_eq (ss_percentOfEpisodes x) (Some 100)
                                  then Some (json 409
                                    [("error",
                                      "This series is already fully downloaded in Sonarr");
                                     ("status", "downloaded")])
                                  else None
                              | None => None
                              end,
                          mkState (db s) (cache s) (snd (http env call (world s)))
                                  (trace s ++ [(existT _ call, false)]))
                     end).
    { unfold managerPrecheck, try_catch. rewrite Hconf.
      cbn [String.eqb Ascii.eqb Bool.eqb andb].
      unfold bind at 1. unfold ret at 1. cbv beta iota. fold call.
      unfold bind at 1.
      destruct s as [d c w tr]. rewrite axios_eq. cbn [db cache world trace].
      destruct (fst (http env call w)) as [e|series]; [reflexivity|].
      destruct (List.find _ series) as [x|]; [|reflexivity].
      destruct (JS.num_strict_eq _ _); reflexivity. }
    destruct (fst (http env call (world s))) as [e|series].
    + apply (createRequest_after env user ip body s _ _ _ _ _ _ None Hvalid Hpre).
    + destruct (List.find _ series) as [x|].
      * destruct (JS.num_strict_eq _ _);
          [apply (createRequest_after env user ip body s _ _ _ _ _ _ (Some _) Hvalid Hpre)|].
        apply (createRequest_after env user ip body s _ _ _ _ _ _ None Hvalid Hpre).
      * apply (createRequest_after env user ip body s _ _ _ _ _ _ None Hvalid Hpre).
  - assert (Hpre : try_catch (managerPrecheck env server "tv" tmdbId title)
                             (fun _ => ret None) s = (Ret None, s)).
    { unfold managerPrecheck, try_catch. rewrite Hconf.
      cbn [String.eqb Ascii.eqb Bool.eqb andb]. reflexivity. }
    apply (createRequest_after env user ip body s _ _ _ _ _ _ None Hvalid Hpre).
Qed.

End MoreComposition.
(** ** More on the outcomes of the routes and of the presence check *)

Section Outcomes.

Context {W : Type} (env : Env W).

(** X20. Approval and rejection always answer, with 403, 404, 400, 500
    or 200, and never touch the cache. The answer is 403 exactly for a
    user who is not an administrator. A rejection that is not answered
    200 leaves the database as it was, and a rejection contacts no
    service in any case. An approval that is not answered 200 leaves the
    requests as they were, and the whole database when the notes of the
    body can be bound; with notes that cannot, the answer is 500 and the
    tracked item that the route inserts before its [UPDATE] stays, and
    nothing else is written. *)
Theorem moderation_writes_only_on_200 user ip id (s : State W) :
  (forall body,
     exists resp s',
       approveRequest env user ip id body s = (Ret resp, s')
       /\ In (res_status resp) [403; 404; 400; 500; 200]
       /\ cache s' = cache s
       /\ (res_status resp = 403 <-> user_role user <> "admin")
       /\ (res_status resp <> 200 ->
             content_requests (db s') = content_requests (db s)
             /\ (ab_notes body <> Some NoteOther -> db s' = db s)
             /\ (db s' <> db s ->
                   res_status resp = 500 /\ ab_notes body = Some NoteOther
                   /\ tracksOnly (db s) (db s'))))
  /\ (forall notes,
        exists resp s',
          rejectRequest env user ip id notes s = (Ret resp, s')
          /\ In (res_status resp) [403; 404; 400; 500; 200]
          /\ cache s' = cache s /\ world s' = world s /\ trace s' = trace s
          /\ (res_status resp = 403 <-> user_role user <> "admin")
          /\ (res_status resp <> 200 -> db s' = db s)).
Proof.
  assert (Hmod : forall mark undone resp (s' : State W),
             moderated mark undone user id s resp s' ->
             In (res_status resp) [403; 404; 400; 500; 200]
             /\ cache s' = cache s
             /\ (res_status resp = 403 <-> user_role user <> "admin")
             /\ (res_status resp <> 200 ->
                   db s' = db s
                   \/ (res_status resp = 500 /\ undone (db s) (db s')))).
  { intros mark undone resp s' [Hc Hmod]. split; [|split; [exact Hc|]].
    - destruct (negb (String.eqb (user_role user) "admin"));
        [destruct Hmod as [-> _]; simpl; auto|].
      destruct (List.find _ _) as [request|]; [|destruct Hmod as [-> _]; simpl; auto].
      destruct (negb (String.eqb (r_status request) "pending"));
        [destruct Hmod as [-> _]; simpl; auto|].
      destruct Hmod as [[-> _]|[-> _]]; simpl; auto 10.
    - destruct (negb (String.eqb (user_role user) "admin")) eqn:Hrole.
      + apply negb_true_iff, String.eqb_neq in Hrole. destruct Hmod as [H403 ->].
        repeat split; auto.
      + apply negb_false_iff, String.eqb_eq in Hrole.
        assert (Hne : res_status resp <> 403).
        { destruct (List.find _ _) as [request|];
            [|destruct Hmod as [-> _]; discriminate].
          destruct (negb (String.eqb (r_status request) "pending"));
            [destruct Hmod as [-> _]; discriminate|].
          destruct Hmod as [[-> _]|[-> _]]; discriminate. }
        split; [split; [intros H; contradiction | intros H; contradiction]|].
        intros H200.
        destruct (List.find _ _) as [request|];
          [|destruct Hmod as [_ ->]; left; reflexivity].
        destruct (negb (String.eqb (r_status request) "pending"));
          [destruct Hmod as [_ ->]; left; reflexivity|].
        destruct Hmod as [[H500 Hd]|[H _]]; [right; auto | contradiction]. }
  split.
  - intros body.
    destruct (runs_returns _ _ _ (approveRequest_cases env user ip id body s))
      as (resp & s' & Hrun & H & _).
    exists resp, s'. split; [exact Hrun|].
    destruct (Hmod _ _ _ _ H) as (H1 & H2 & H3 & H4).
    split; [exact H1|]. split; [exact H2|]. split; [exact H3|].
    intros Hne. destruct (H4 Hne) as [Hd|[H500 [Hd|[Hnotes Htr]]]].
    + rewrite Hd. split; [reflexivity|]. split; [reflexivity | contradiction].
    + rewrite Hd. split; [reflexivity|]. split; [reflexivity | contradiction].
    + split; [destruct Htr as [row ->]; reflexivity|].
      split; [intros Hb; contradiction | intros _; auto].
  - intros notes.
    destruct (runs_returns _ _ _ (rejectRequest_cases env user ip id notes s))
      as (resp & s' & Hrun & H & Hw & Ht & _).
    exists resp, s'. split; [exact Hrun|].
    destruct (Hmod _ _ _ _ H) as (H1 & H2 & H3 & H4).
    split; [exact H1|]. split; [exact H2|]. split; [exact Hw|]. split; [exact Ht|].
    split; [exact H3|].
    intros Hne. destruct (H4 Hne) as [Hd|[_ Hd]]; exact Hd.
Qed.

Lemma scanSections_sound k server token title year key sections :
  forall s : State W,
    runs (scanSections env k server token title year key sections) s
         (fun hit _ =>
            match hit with
            | Some d => exists m, d = JPresence true (Some (k, m))
                                  /\ plexMatch env title year m = true
            | None => True
            end)
         (fun _ _ => True).
Proof.
  induction sections as [|sec rest IH]; intros s; simpl.
  - apply runs_ret. exact I.
  - apply runs_bind, runs_axios. intros s' _ _.
    destruct (fst (http env _ (world s))) as [e|resp]; intros _; [exact I|].
    destruct (List.find (plexMatch env title year) (default [] resp)) as [m|] eqn:Hf.
    + apply runs_bind, runs_cacheSet, runs_ret. exists m. split; [reflexivity|].
      apply List.find_some in Hf as [_ Hf]. exact Hf.
    + apply IH.
Qed.

(** What the match predicate says of an item that it accepts. *)
Lemma plexMatch_true title year m :
  plexMatch env title year m = true ->
  toLowerCase env (md_title m) = toLowerCase env title
  /\ (JS.truthy_str year = true ->
      exists y, md_year m = Some y /\ JS.parseInt (default "" year) = Some y).
Proof.
  unfold plexMatch. intros H. apply andb_true_iff in H as [Ht Hy].
  apply String.eqb_eq in Ht. split; [exact Ht|].
  intros Hyear. rewrite Hyear in Hy. simpl in Hy.
  apply num_strict_eq_true. exact Hy.
Qed.

(** X21. A presence check that is not answered from the cache reports
    an item only if it matches: the result is [{ exists: false }], or
    [{ exists: true }] with an item of the requested kind that satisfies
    the match predicate for the requested title and year: its title
    and the requested one are equal after the engine's [toLowerCase],
    and when a year is requested the item carries that year, as
    [parseInt] reads it. *)
Theorem presence_report_is_sound k serverId title year (s : State W) :
  cacheHit (cache s !! plexCacheKey k serverId title year) (now env (world s)) = None ->
  exists r s',
    checkPlex env k serverId title year s = (Ret r, s')
    /\ (r = JPresence false None
        \/ exists m, r = JPresence true (Some (k, m))
                     /\ plexMatch env title year m = true
                     /\ toLowerCase env (md_title m) = toLowerCase env title
                     /\ (JS.truthy_str year = true ->
                         exists y, md_year m = Some y
                                   /\ JS.parseInt (default "" year) = Some y)).
Proof.
  intros Hmiss. apply runs_returns. unfold checkPlex.
  apply runs_try, runs_bind. unfold cacheGet, runs at 1.
  apply runs_bind. unfold Date_now, runs at 1. rewrite Hmiss.
  apply runs_bind, getServer_runs.
  destruct (List.find _ _) as [server|]; [|apply runs_ret; auto].
  apply runs_bind, runs_axios. intros s1 _ _.
  destruct (fst (http env _ (world s))) as [e|dirs]; intros _; [apply runs_ret; auto|].
  apply runs_bind.
  eapply runs_weaken; [apply scanSections_sound | |].
  - intros [d|] s2 H.
    + apply runs_ret. right. destruct H as (m & Hd & Hm).
      exists m. split; [exact Hd|]. split; [exact Hm|]. exact (plexMatch_true _ _ _ Hm).
    + apply runs_bind, runs_cacheSet, runs_ret. auto.
  - intros e s2 _. apply runs_ret. auto.
Qed.

End Outcomes.

(** ** The properties on the reference environment *)

Lemma manager_cache_keys_injective_witness :
  JS.isSafeInteger 603 = true
  /\ JS.isSafeInteger 604 = true
  /\ radarrCacheKey "S" 603 <> radarrCacheKey "S" 604
  /\ radarrCacheKey "S" 603 <> sonarrCacheKey "S" 603.
Proof.
  assert (H1 : JS.isSafeInteger 603 = true) by reflexivity.
  assert (H2 : JS.isSafeInteger 604 = true) by reflexivity.
  split; [exact H1|]. split; [exact H2|].
  split.
  - intros Heq.
    apply (proj1 (manager_cache_keys_injective "S" "S" 603 604 H1 H2)) in Heq.
    destruct Heq as [_ Heq]. discriminate Heq.
  - exact (proj1 (proj2 (proj2 (manager_cache_keys_injective "S" "S" 603 603 H1 H1)))).
Defined.

Lemma checkRadarrMovie_classifies_witness :
  fst (checkRadarrMovie Demo.env "S" 603 Demo.stateDownloaded) = Ret (JStr "downloaded")
  /\ fst (checkRadarrMovie Demo.env "S" 603 Cases.stateQueued) = Ret (JStr "queued").
Proof.
  split.
  - pose proof (checkRadarrMovie_classifies Demo.env "S" 603 Demo.stateDownloaded
                  Demo.serverS [mkRadarrMovie 1 603 true true "released"]
                  eq_refl eq_refl eq_refl eq_refl) as (_ & H).
    destruct (H (mkRadarrMovie 1 603 true true "released") eq_refl) as (Hfile & _).
    exact (proj1 (Hfile eq_refl)).
  - pose proof (checkRadarrMovie_classifies Demo.env "S" 603 Cases.stateQueued
                  Demo.serverS [mkRadarrMovie 7 603 false true "released"]
                  eq_refl eq_refl eq_refl eq_refl) as (_ & H).
    destruct (H (mkRadarrMovie 7 603 false true "released") eq_refl) as (_ & _ & Hq).
    specialize (Hq eq_refl eq_refl). vm_compute in Hq.
    destruct Hq as (st & Hrun & _ & Hqueued & _).
    rewrite (proj2 Hqueued eq_refl) in Hrun. exact Hrun.
Defined.

Lemma managers_only_for_primary_witness :
  exists r s',
    checkAvailability Demo.env PMovie Demo.matrix
                      (Demo.asUser Demo.alice false (Some "T")) Cases.stateQueued
    = (Ret r, s')
    /\ arrStatus r = JNull
    /\ av_status r = JStr "not_available".
Proof.
  destruct (managers_only_for_primary Demo.env PMovie Demo.matrix
              (Demo.asUser Demo.alice false (Some "T")) Cases.stateQueued)
    as (r & s' & added & Hrun & Harr & Hst & _).
  - apply map_Forall_empty.
  - intros sv [<-|[]]. discriminate.
  - exists r, s'. split; [exact Hrun|]. split; [exact Harr|].
    rewrite Hst. revert Hrun. vm_compute. intros [= <- _]. reflexivity.
Defined.

Lemma enriched_year_of_dated_item_witness :
  yearOf (Some "1999-03-30") = Some 1999
  /\ fst (enrichMovieResults Demo.env [Cases.matrixMovie]
            (Demo.asUser Demo.alice false (Some "S")) Demo.stateDownloaded)
     = Ret [mkEnrichedMovie 603 "The Matrix" None (Some "/matrix.jpg") None
              (Some "1999-03-30") (Some 1999) None "movie"
              (mkAvailability (JStr "available") true ["Home"] (JStr "downloaded") false)].
Proof.
  pose proof (enriched_year_of_dated_item Demo.env
                (Demo.asUser Demo.alice false (Some "S")) 1999 "03-30"
                ltac:(lia)) as (Hyear & _).
  split; [exact Hyear | vm_compute; reflexivity].
Defined.

Lemma create_repeated_is_refused_witness :
  let alice := Demo.asUser Demo.alice false (Some "T") in
  let first := createRequest Demo.env alice "10.0.0.7" Demo.matrixBody Demo.statePending in
  exists resp resp2 s2,
    fst first = Ret resp /\ res_status resp = 201
    /\ createRequest Demo.env alice "10.0.0.7" Demo.matrixBody (snd first)
       = (Ret resp2, s2)
    /\ res_status resp2 = 409.
Proof.
  cbv zeta.
  set (alice := Demo.asUser Demo.alice false (Some "T")).
  set (first := createRequest Demo.env alice "10.0.0.7" Demo.matrixBody Demo.statePending).
  assert (Hfirst : exists resp, first = (Ret resp, snd first) /\ res_status resp = 201).
  { eexists. split; [vm_compute; reflexivity | reflexivity]. }
  destruct Hfirst as (resp & Hrun & H201).
  destruct (create_repeated_is_refused Demo.env alice "10.0.0.7" Demo.matrixBody
              Demo.statePending (snd first) resp Hrun H201)
    as (resp2 & s2 & Hrun2 & _ & _ & H409).
  exists resp, resp2, s2. rewrite Hrun at 1. repeat split; auto.
Defined.

Lemma created_item_in_availability_witness :
  let bob := Demo.asUser Demo.bob true (Some "S") in
  let s1 := snd (createRequest Demo.env bob "10.0.0.2" Demo.matrixBody
                               Demo.stateRadarrDown) in
  exists r s2,
    checkAvailability Demo.env PMovie Demo.matrix
                      (Demo.asUser Demo.alice false (Some "S")) s1 = (Ret r, s2)
    /\ inRssFeed r = true
    /\ av_status r = JStr "requested".
Proof.
  cbv zeta.
  set (bob := Demo.asUser Demo.bob true (Some "S")).
  set (first := createRequest Demo.env bob "10.0.0.2" Demo.matrixBody Demo.stateRadarrDown).
  assert (Hfirst : exists resp, first = (Ret resp, snd first) /\ res_status resp = 201).
  { eexists. split; [vm_compute; reflexivity | reflexivity]. }
  destruct Hfirst as (resp & Hrun & H201).
  destruct (created_item_in_availability Demo.env bob "10.0.0.2" Demo.matrixBody
              Demo.stateRadarrDown (snd first) resp PMovie Demo.matrix
              (Demo.asUser Demo.alice false (Some "S")) Hrun H201 eq_refl eq_refl)
    as (r & s2 & Hrun2 & Hin & _).
  - assert (Hc : cache (snd first) = ∅) by (vm_compute; reflexivity).
    rewrite Hc. apply map_Forall_empty.
  - exists r, s2. split; [exact Hrun2|]. split; [exact Hin|].
    revert Hrun2. vm_compute. intros [= <- _]. reflexivity.
Defined.

Lemma request_is_processed_once_witness :
  let admin := Demo.asUser Demo.admin false (Some "S") in
  let first := approveRequest Demo.env admin "10.0.0.1" "r1" (mkApproveBody None None)
                              Demo.statePendingDown in
  exists resp,
    fst first = Ret resp /\ res_status resp = 200
    /\ approveRequest Demo.env admin "10.0.0.1" "r1" (mkApproveBody None None) (snd first)
       = (Ret (json 400 [("error", "Request is not pending")]), snd first).
Proof.
  cbv zeta.
  set (admin := Demo.asUser Demo.admin false (Some "S")).
  set (first := approveRequest Demo.env admin "10.0.0.1" "r1" (mkApproveBody None None)
                               Demo.statePendingDown).
  assert (Hfirst : exists resp, first = (Ret resp, snd first) /\ res_status resp = 200).
  { eexists. split; [vm_compute; reflexivity | reflexivity]. }
  destruct Hfirst as (resp & Hrun & H200).
  exists resp. rewrite Hrun at 1. split; [reflexivity|]. split; [exact H200|].
  apply (request_is_processed_once Demo.env admin "10.0.0.1" "r1" Demo.statePendingDown
           (snd first) resp (or_introl (ex_intro _ (mkApproveBody None None) Hrun)) H200
           admin "10.0.0.1" (mkApproveBody None None) None eq_refl).
Defined.

Lemma non_admin_writes_are_isolated_witness :
  let alice := Demo.asUser Demo.alice false (Some "S") in
  In Demo.reqBob
     (content_requests (db (snd (deleteRequest alice "10.0.0.7" "r2" Demo.stateBoth))))
  /\ rejectRequest Demo.env alice "10.0.0.7" "r2" None Demo.stateBoth
     = (Ret adminRequired, Demo.stateBoth).
Proof.
  cbv zeta.
  destruct (non_admin_writes_are_isolated Demo.env
              (Demo.asUser Demo.alice false (Some "S")) "10.0.0.7" Demo.stateBoth
              Demo.reqBob) as (_ & _ & Hrej & _ & Hdel).
  - discriminate.
  - apply (bool_decide_unpack _). vm_compute. reflexivity.
  - left. reflexivity.
  - discriminate.
  - split; [apply Hdel | apply Hrej].
Defined.

Lemma rejection_reopens_the_item_witness :
  let admin := Demo.asUser Demo.admin false (Some "S") in
  let s' := snd (rejectRequest Demo.env admin "10.0.0.1" "r1" (Some "not now")
                               Demo.statePending) in
  map (fun r => (r_id r, r_status r, r_notes r)) (content_requests (db s'))
  = [("r1", "rejected", Some "not now")]
  /\ List.find (isOpenRequest 603 "movie" "S") (content_requests (db s')) = None
  /\ trace s' = [].
Proof.
  cbv zeta.
  set (admin := Demo.asUser Demo.admin false (Some "S")).
  set (run := rejectRequest Demo.env admin "10.0.0.1" "r1" (Some "not now")
                            Demo.statePending).
  assert (Hrun : exists resp, run = (Ret resp, snd run) /\ res_status resp = 200).
  { eexists. split; [vm_compute; reflexivity | reflexivity]. }
  destruct Hrun as (resp & Hrun & H200).
  destruct (rejection_reopens_the_item Demo.env admin "10.0.0.1" "r1" (Some "not now")
              Demo.statePending (snd run) resp Hrun H200)
    as (_ & Htr & _ & _ & _ & Hopen).
  split; [vm_compute; reflexivity|]. split; [|exact Htr].
  rewrite Hopen. reflexivity.
Defined.

Lemma delete_request_outcomes_witness :
  let alice := Demo.asUser Demo.alice false (Some "S") in
  exists resp s',
    deleteRequest alice "10.0.0.7" "r1" Demo.stateBoth = (Ret resp, s')
    /\ res_status resp = 200
    /\ map r_id (content_requests (db s')) = ["r2"].
Proof.
  cbv zeta.
  destruct (delete_request_outcomes (Demo.asUser Demo.alice false (Some "S"))
              "10.0.0.7" "r1" Demo.stateBoth eq_refl)
    as (resp & s' & Hrun & _ & _ & _ & _ & _ & _ & _ & H200).
  exists resp, s'. split; [exact Hrun|].
  assert (Hst : res_status resp = 200).
  { revert Hrun. vm_compute. intros [= <- _]. reflexivity. }
  split; [exact Hst|].
  destruct (H200 Hst) as (_ & -> & _). reflexivity.
Defined.

Lemma pending_count_follows_the_workflow_witness :
  let admin := Demo.asUser Demo.admin false (Some "S") in
  let s1 := snd (rejectRequest Demo.env admin "10.0.0.1" "r1" None Demo.stateBoth) in
  fst (pendingCount admin Demo.stateBoth) = Ret (Count 1)
  /\ fst (pendingCount admin s1) = Ret (Count 0).
Proof.
  cbv zeta.
  set (admin := Demo.asUser Demo.admin false (Some "S")).
  set (run := rejectRequest Demo.env admin "10.0.0.1" "r1" None Demo.stateBoth).
  assert (Hrun : exists resp, run = (Ret resp, snd run) /\ res_status resp = 200).
  { eexists. split; [vm_compute; reflexivity | reflexivity]. }
  destruct Hrun as (resp & Hrun & H200).
  destruct (pending_count_follows_the_workflow Demo.env admin Demo.stateBoth (snd run)
              eq_refl) as (_ & _ & Hmod).
  split; [reflexivity|].
  apply (Hmod admin "10.0.0.1" "r1" resp 1).
  - apply (bool_decide_unpack _). vm_compute. reflexivity.
  - right. exists None. exact Hrun.
  - exact H200.
  - reflexivity.
Defined.

Lemma cached_result_is_served_again_witness :
  let s1 := snd (checkRadarrMovie Demo.env "S" 603 Demo.stateDownloaded) in
  trace s1 <> []
  /\ checkRadarrMovie Demo.env "S" 603 s1 = (Ret (JStr "downloaded"), s1).
Proof.
  cbv zeta.
  set (run := checkRadarrMovie Demo.env "S" 603 Demo.stateDownloaded).
  split; [vm_compute; discriminate|].
  apply (cached_result_is_served_again Demo.env (RadarrCheck "S" 603)
           Demo.stateDownloaded (snd run) (JStr "downloaded")).
  - vm_compute. reflexivity.
  - intros H. apply (f_equal (fun c => c !! radarrCacheKey "S" 603)) in H.
    vm_compute in H. discriminate H.
  - reflexivity.
  - vm_compute. reflexivity.
Defined.

Lemma create_series_precheck_witness :
  exists s',
    createRequest Demo.env (Demo.asUser Demo.alice false (Some "S")) "10.0.0.7"
                  Cases.severanceBody Demo.stateSeries
    = (Ret (json 409 [("error", "This series is already fully downloaded in Sonarr");
                      ("status", "downloaded")]), s')
    /\ db s' = db Demo.stateSeries.
Proof.
  assert (Hvalid : validCreate (Demo.asUser Demo.alice false (Some "S"))
                     Cases.severanceBody (db Demo.stateSeries) 95396 "tv" "Severance"
                     "S" Demo.serverS).
  { repeat split; try reflexivity; discriminate. }
  pose proof (create_series_precheck Demo.env
                (Demo.asUser Demo.alice false (Some "S")) "10.0.0.7"
                Cases.severanceBody Demo.stateSeries 95396 "Severance" "S" Demo.serverS
                Hvalid) as H.
  cbv zeta in H. eexists. split; [exact H | reflexivity].
Defined.

Lemma approved_item_in_availability_witness :
  let admin := Demo.asUser Demo.admin false (Some "S") in
  let s1 := snd (approveRequest Demo.env admin "10.0.0.1" "r1" (mkApproveBody None None)
                                Demo.statePendingDown) in
  exists r s2,
    checkAvailability Demo.env PMovie Demo.matrix
                      (Demo.asUser Demo.bob false (Some "S")) s1 = (Ret r, s2)
    /\ inRssFeed r = true
    /\ av_status r = JStr "requested".
Proof.
  cbv zeta.
  set (admin := Demo.asUser Demo.admin false (Some "S")).
  set (first := approveRequest Demo.env admin "10.0.0.1" "r1" (mkApproveBody None None)
                               Demo.statePendingDown).
  assert (Hfirst : exists resp, first = (Ret resp, snd first) /\ res_status resp = 200).
  { eexists. split; [vm_compute; reflexivity | reflexivity]. }
  destruct Hfirst as (resp & Hrun & H200).
  destruct (approved_item_in_availability Demo.env admin "10.0.0.1" "r1"
              (mkApproveBody None None) Demo.statePendingDown (snd first) resp
              Demo.reqMatrix PMovie Demo.matrix (Demo.asUser Demo.bob false (Some "S"))
              Hrun H200 eq_refl eq_refl eq_refl)
    as (r & s2 & Hrun2 & Hin & _).
  - assert (Hc : cache (snd first) = ∅) by (vm_compute; reflexivity).
    rewrite Hc. apply map_Forall_empty.
  - exists r, s2. split; [exact Hrun2|]. split; [exact Hin|].
    revert Hrun2. vm_compute. intros [= <- _]. reflexivity.
Defined.

Lemma presence_report_is_sound_witness :
  fst (checkPlexMovie Demo.env "S" "the matrix" (Some "1999") Demo.stateDownloaded)
  = Ret (JPresence true (Some (PMovie, mkPlexMetadata "The Matrix" (Some 1999)))).
Proof.
  destruct (presence_report_is_sound Demo.env PMovie "S" "the matrix" (Some "1999")
              Demo.stateDownloaded eq_refl) as (r & s' & Hrun & _).
  unfold checkPlexMovie. rewrite Hrun. revert Hrun. vm_compute.
  intros [= <- _]. reflexivity.
Defined.

(** ** The duplicate guard of the create route *)

Section CreateGuard.

Context {W : Type} (env : Env W).

(** C6, as the code has it. A create call for a triple that already has
    a pending or approved record is answered 409 and leaves the database
    and the cache as they were. The manager check comes first: when it
    answers, the answer is its own 409 and not the error of the guard;
    when it is silent, the error is "Request already exists". When the
    open records of the item and kind are all on other servers the call
    is never refused as a duplicate: it is answered by the manager
    check, or it writes its record and is answered 201, or an insert
    fails and it is answered 500 with the database as it was; it is
    answered 201 when the manager check is silent, the identifiers that
    can be drawn are unused, the requester is a known user and, for a
    direct add, the item is not tracked yet. *)
Theorem create_duplicate_guard user ip body (s : State W) tmdbId contentType title
    serverId server :
  validCreate user body (db s) tmdbId contentType title serverId server ->
  let precheck :=
    fst (try_catch (managerPrecheck env server contentType tmdbId title)
                   (fun _ => ret None) s) in
  let duplicate := json 409 [("error", "Request already exists")] in
  ((exists r, In r (content_requests (db s)) /\ r_tmdb_id r = tmdbId
              /\ r_content_type r = contentType /\ r_server_id r = serverId
              /\ (r_status r = "pending" \/ r_status r = "approved")) ->
   exists resp s',
     createRequest env user ip body s = (Ret resp, s')
     /\ res_status resp = 409
     /\ db s' = db s /\ cache s' = cache s
     /\ (precheck = Ret None -> resp = duplicate)
     /\ (forall early, precheck = Ret (Some early) ->
           resp = early /\ resp <> duplicate))
  /\ ((forall r, In r (content_requests (db s)) -> r_tmdb_id r = tmdbId ->
         r_content_type r = contentType ->
         r_status r = "pending" \/ r_status r = "approved" ->
         r_server_id r <> serverId) ->
      exists resp s',
        createRequest env user ip body s = (Ret resp, s')
        /\ resp <> duplicate
        /\ cache s' = cache s
        /\ (forall early, precheck = Ret (Some early) ->
              resp = early /\ res_status resp = 409 /\ db s' = db s)
        /\ (precheck = Ret None ->
              (res_status resp = 201
               /\ created user serverId tmdbId contentType title (db s) (db s'))
              \/ (resp = json 500 [("error", "Failed to create request")]
                  /\ db s' = db s))
        /\ (precheck = Ret None ->
            (forall w, reach env (world s) w ->
               existsb (fun r => String.eqb (r_id r) (fst (randomUUID env w)))
                       (content_requests (db s)) = false
               /\ existsb (fun r => String.eqb (rss_id r) (fst (randomUUID env w)))
                          (rss_items (db s)) = false) ->
            userExists (db s) (user_id user) = true ->
            (canAddDirectly user = true ->
             rssTracked (db s) serverId contentType tmdbId = false) ->
            res_status resp = 201)).
Proof.
  intros Hvalid precheck duplicate.
  pose proof Hvalid as (_ & _ & _ & Hct & _ & _ & _ & _ & Hsrv).
  destruct (guardedPrecheck_answers env server contentType tmdbId title s)
    as (early & s1 & Hpre & [Hd Hc] & Hreach & Hearly).
  subst precheck.
  rewrite (createRequest_after env user ip body s s1 _ _ _ _ _ early Hvalid Hpre), Hpre.
  cbn [fst]. split.
  - intros Hopen.
    destruct early as [r|].
    + destruct (Hearly r eq_refl) as [H409 Hnd].
      exists r, s1. split; [reflexivity|]. split; [exact H409|].
      split; [exact Hd|]. split; [exact Hc|].
      split; [discriminate|]. intros early' [= <-]. split; [reflexivity | exact Hnd].
    + destruct (find_open_request tmdbId contentType serverId
                  (content_requests (db s1))) as [r Hr]; [rewrite Hd; exact Hopen|].
      unfold try_catch.
      rewrite (createAfterPrecheck_duplicate env _ _ _ _ _ _ _ _ _ r Hr).
      exists duplicate, s1. split; [reflexivity|]. split; [reflexivity|].
      split; [exact Hd|]. split; [exact Hc|].
      split; [reflexivity | discriminate].
  - intros Hother.
    assert (Hnone : List.find (isOpenRequest tmdbId contentType serverId)
                              (content_requests (db s1)) = None).
    { rewrite Hd.
      destruct (List.find (isOpenRequest tmdbId contentType serverId)
                          (content_requests (db s))) as [r|] eqn:Hf; [|reflexivity].
      exfalso. apply List.find_some in Hf as [Hin Hopen].
      unfold isOpenRequest in Hopen.
      apply andb_true_iff in Hopen as [Hopen Hst].
      apply andb_true_iff in Hopen as [Hopen Hsid].
      apply andb_true_iff in Hopen as [Hid Hctr].
      apply Z.eqb_eq in Hid. apply String.eqb_eq in Hctr. apply String.eqb_eq in Hsid.
      apply (Hother r Hin Hid Hctr); [|exact Hsid].
      apply orb_true_iff in Hst as [Hst|Hst]; apply String.eqb_eq in Hst; auto. }
    pose proof (find_serverExists _ _ _ Hsrv) as Hse.
    destruct early as [r|].
    { destruct (Hearly r eq_refl) as [H409 Hnd].
      exists r, s1. split; [reflexivity|]. split; [exact Hnd|]. split; [exact Hc|].
      split; [intros early' [= <-]; auto|]. split; discriminate. }
    pose proof (createAfterPrecheck_cases env user ip server serverId tmdbId contentType
                  title body s1) as Hcases.
    unfold runs in Hcases. unfold try_catch.
    destruct (createAfterPrecheck env user ip server serverId tmdbId contentType
                title body s1) as [[resp|e] s2] eqn:Hrun.
    + destruct Hcases as (Hc2 & [(_ & _ & Hsome)|(H201 & Hcr & _)]);
        [destruct (Hsome Hnone)|].
      exists resp, s2. split; [reflexivity|].
      split; [intros ->; discriminate H201|]. split; [congruence|].
      split; [discriminate|].
      split; [intros _; left; split; [exact H201 | rewrite <- Hd; exact Hcr]|].
      intros _ _ _ _. exact H201.
    + destruct Hcases as [Hc2 Hd2]. unfold ret.
      exists (json 500 [("error", "Failed to create request")]), s2.
      split; [reflexivity|]. split; [discriminate|]. split; [congruence|].
      split; [discriminate|].
      split; [intros _; right; split; [reflexivity | congruence]|].
      intros _ Hfresh Hu Htracked. exfalso.
      destruct (canAddDirectly user) eqn:Hdirect.
      * unfold createAfterPrecheck in Hrun. unfold bind at 1 in Hrun.
        unfold getExisting in Hrun. rewrite Hnone, Hdirect in Hrun.
        destruct (directAdd_tracks env user ip server serverId tmdbId contentType title
                    body s1 Hct) as (resp & s' & row & Hrun' & _).
        -- intros w Hw. rewrite Hd.
           apply (Hfresh w (reach_trans env _ _ _ Hreach Hw)).
        -- rewrite Hd. auto.
        -- rewrite Hd. exact Hu.
        -- rewrite Hd. exact Hse.
        -- rewrite Hrun' in Hrun. discriminate Hrun.
      * rewrite createAfterPrecheck_pending in Hrun; auto;
          try (rewrite Hd; auto; apply (Hfresh _ Hreach)).
        discriminate Hrun.
Qed.

End CreateGuard.

(** Remote calls do not draw identifiers. *)
Lemma demo_reach_uuid (w w' : Demo.World) :
  reach Demo.env w w' -> Demo.dw_uuid w' = Demo.dw_uuid w.
Proof.
  induction 1 as [|w w' T c Hr IH]; [reflexivity|].
  rewrite <- IH.
  destruct c; simpl; unfold Demo.answer, Demo.addMovie, Demo.addSeries;
    try destruct (Demo.dw_plex w');
    try destruct (Demo.dw_radarr w');
    try destruct (Demo.dw_sonarr w');
    try destruct (existsb _ _); reflexivity.
Qed.

Lemma create_duplicate_guard_witness :
  let made :=
    snd (createRequest Demo.env (Demo.asUser Demo.alice false (Some "S")) "10.0.0.7"
                       Demo.matrixBody Demo.state0) in
  map r_id (content_requests (db made)) = ["uuid-1"]
  /\ (exists s',
        createRequest Demo.env (Demo.asUser Demo.alice false (Some "S")) "10.0.0.7"
                      Demo.matrixBody made
        = (Ret (json 409 [("error", "Request already exists")]), s')
        /\ db s' = db made)
  /\ (exists resp s',
        createRequest Demo.env (Demo.asUser Demo.alice false (Some "T")) "10.0.0.7"
                      Demo.matrixBody made
        = (Ret resp, s')
        /\ res_status resp = 201
        /\ map r_id (content_requests (db s')) = ["uuid-1"; "uuid-2"]).
Proof.
  cbv zeta.
  set (made := snd (createRequest Demo.env (Demo.asUser Demo.alice false (Some "S"))
                      "10.0.0.7" Demo.matrixBody Demo.state0)).
  assert (Hrows : exists r, content_requests (db made) = [r]
                            /\ r_id r = "uuid-1" /\ r_tmdb_id r = 603
                            /\ r_content_type r = "movie" /\ r_server_id r = "S"
                            /\ r_status r = "pending").
  { eexists. split; [vm_compute; reflexivity | repeat split]. }
  destruct Hrows as (r0 & Hrows & Hid & Htm & Hty & Hsv & Hst).
  assert (Hservers : plex_servers (db made) = [Demo.serverS; Demo.serverT])
    by (vm_compute; reflexivity).
  split; [rewrite Hrows, <- Hid; reflexivity|].
  split.
  - destruct (proj1 (create_duplicate_guard Demo.env
                       (Demo.asUser Demo.alice false (Some "S")) "10.0.0.7"
                       Demo.matrixBody made 603 "movie" "The Matrix" "S" Demo.serverS
                       (demo_valid_matrix "S" Demo.serverS made
                          ltac:(discriminate) ltac:(rewrite Hservers; reflexivity))))
      as (resp & s' & Hrun & _ & Hd & _ & Hmsg & _).
    + exists r0. rewrite Hrows. repeat split; auto. left. reflexivity.
    + exists s'. rewrite Hrun, Hmsg; [auto|]. vm_compute. reflexivity.
  - destruct (proj2 (create_duplicate_guard Demo.env
                       (Demo.asUser Demo.alice false (Some "T")) "10.0.0.7"
                       Demo.matrixBody made 603 "movie" "The Matrix" "T" Demo.serverT
                       (demo_valid_matrix "T" Demo.serverT made
                          ltac:(discriminate) ltac:(rewrite Hservers; reflexivity))))
      as (resp & s' & Hrun & _ & _ & _ & _ & H201).
    + intros r Hin _ _ _. rewrite Hrows in Hin. destruct Hin as [<-|[]].
      rewrite Hsv. discriminate.
    + assert (Hsilent : fst (try_catch
                               (managerPrecheck Demo.env Demo.serverT "movie" 603
                                                "The Matrix")
                               (fun _ => ret None) made) = Ret None)
        by (vm_compute; reflexivity).
      specialize (H201 Hsilent).
      assert (H : res_status resp = 201).
      { apply H201.
        - intros w Hw. apply demo_reach_uuid in Hw.
          cbn [randomUUID Demo.env Demo.uuid fst]. rewrite Hw.
          split; vm_compute; reflexivity.
        - vm_compute. reflexivity.
        - discriminate. }
      exists resp, s'. split; [exact Hrun|]. split; [exact H|].
      assert (Hall : map r_id (content_requests
                 (db (snd (createRequest Demo.env (Demo.asUser Demo.alice false (Some "T"))
                             "10.0.0.7" Demo.matrixBody made))))
                     = ["uuid-1"; "uuid-2"]) by (vm_compute; reflexivity).
      rewrite Hrun in Hall. exact Hall.
Defined.

(** C6 as worded fails. With a pending record of the triple, when
    Radarr lists the movie as monitored the call is not refused as a
    duplicate but by the manager check; and with the only open record on
    another server, the call does not succeed when the Radarr of the
    target server has the movie. *)
Lemma create_duplicate_guard_counterexample :
  ~ (forall user ip body (s : State Demo.World) tmdbId contentType title serverId server,
       validCreate user body (db s) tmdbId contentType title serverId server ->
       (exists r, In r (content_requests (db s)) /\ r_tmdb_id r = tmdbId
                  /\ r_content_type r = contentType /\ r_server_id r = serverId
                  /\ (r_status r = "pending" \/ r_status r = "approved")) ->
       fst (createRequest Demo.env user ip body s)
       = Ret (json 409 [("error", "Request already exists")]))
  /\ ~ (forall user ip body (s : State Demo.World) tmdbId contentType title serverId
               server,
          validCreate user body (db s) tmdbId contentType title serverId server ->
          (exists r, In r (content_requests (db s)) /\ r_tmdb_id r = tmdbId
                     /\ r_content_type r = contentType /\ r_server_id r <> serverId
                     /\ (r_status r = "pending" \/ r_status r = "approved")) ->
          (forall r, In r (content_requests (db s)) -> r_tmdb_id r = tmdbId ->
             r_content_type r = contentType ->
             r_status r = "pending" \/ r_status r = "approved" ->
             r_server_id r <> serverId) ->
          exists resp s',
            createRequest Demo.env user ip body s = (Ret resp, s')
            /\ res_status resp = 201).
Proof.
  split.
  - intros H.
    specialize (H (Demo.asUser Demo.alice false (Some "S")) "10.0.0.7" Demo.matrixBody
                  Cases.statePendingQueued 603 "movie" "The Matrix" "S" Demo.serverS
                  (demo_valid_matrix "S" Demo.serverS Cases.statePendingQueued
                     ltac:(discriminate) eq_refl)).
    assert (Hopen : exists r, In r (content_requests (db Cases.statePendingQueued))
                              /\ r_tmdb_id r = 603 /\ r_content_type r = "movie"
                              /\ r_server_id r = "S"
                              /\ (r_status r = "pending" \/ r_status r = "approved")).
    { exists Demo.reqMatrix. simpl. repeat split; auto. }
    specialize (H Hopen). vm_compute in H. discriminate H.
  - intros H.
    destruct (H (Demo.asUser Demo.alice false (Some "S")) "10.0.0.7" Demo.matrixBody
                Cases.stateElsewhere 603 "movie" "The Matrix" "S" Demo.serverS
                (demo_valid_matrix "S" Demo.serverS Cases.stateElsewhere
                   ltac:(discriminate) eq_refl))
      as (resp & s' & Hrun & H201).
    + exists Cases.reqCabin. simpl. repeat split; auto; discriminate.
    + intros r [<-|[]] _ _ _. discriminate.
    + vm_compute in Hrun. injection Hrun as <- _. discriminate H201.
Qed.

(** The partial write on the reference environment: an approval whose
    notes are [true] is answered 500, the request is still pending and
    the item is tracked. *)
Example approve_unbindable_notes :
  let admin := Demo.asUser Demo.admin false (Some "S") in
  let run := approveRequest Demo.env admin "10.0.0.1" "r1"
                            (mkApproveBody (Some NoteOther) None) Demo.statePending in
  fst run = Ret (json 500 [("error", "Failed to approve request")])
  /\ map r_status (content_requests (db (snd run))) = ["pending"]
  /\ map rss_tmdb_id (rss_items (db (snd run))) = [603]
  /\ rss_items (db Demo.statePending) = [].
Proof. repeat split; vm_compute; reflexivity. Qed.
